(** * Identity resolution, duplicate prevention and cleanup: a shallow embedding

    This development embeds the [user_management] package (and the ingestion
    boundary [AadhaarExtractionTool.store_in_database]) into Rocq and checks
    the properties stated about it.

    Conventions of the embedding.
    - Python [str] values are [string]s of 8-bit characters; the case mapping
      [upper], the whitespace class of [strip] and the regex classes are the
      ASCII ones (characters at or above 128 are left alone by [upper] and
      are neither digits, letters nor whitespace).
    - [None] is [None]; a dictionary entry that may be absent or [None] is an
      [option]; Python truthiness is written out ([Py.truthy]).
    - A SQLite database file is a record of its tables; a table that has not
      been created is [None]; a path at which no file exists is [None] at the
      level of the world.  A [TEXT] column that may hold [NULL] is an
      [option string]; [created_at] columns carry their [CURRENT_TIMESTAMP]
      default and are plain strings; [REAL] confidences are exact rationals
      ([Qc]), which is all the code uses of them (comparisons, truthiness).
    - The clock and [uuid.uuid4] are oracles carried by the world.
    - Logger calls at [INFO] level are not part of the model; the warnings
      and errors that a property refers to are recorded in the world's log. *)

From Stdlib Require Import QArith Qcanon OrdersEx.
From stdpp Require Import gmap strings list fin_maps numbers sorting.
From Stdlib Require Import Ascii String DecimalString.

Open Scope string_scope.
Open Scope list_scope.
Open Scope Z_scope.

(* ===================================================================== *)
(** * Part I: the embedding *)
(* ===================================================================== *)

(** ** Python and SQLite primitives on strings *)

Module Py.

(** [bool(s)] for a string: non-empty. *)
Definition truthy (s : string) : bool :=
  match s with EmptyString => false | String _ _ => true end.

(** [bool(x)] for a value that may be [None]. *)
Definition truthy_opt (x : option string) : bool :=
  match x with None => false | Some s => truthy s end.

Definition code (c : ascii) : N := N_of_ascii c.

Definition is_digit (c : ascii) : bool :=
  ((48 <=? code c) && (code c <=? 57))%N.

Definition is_lower (c : ascii) : bool :=
  ((97 <=? code c) && (code c <=? 122))%N.

Definition is_upper (c : ascii) : bool :=
  ((65 <=? code c) && (code c <=? 90))%N.

(** Whitespace as [str.strip] sees it on ASCII: TAB, LF, VT, FF, CR, the
    separators 0x1C..0x1F and the space. *)
Definition is_space (c : ascii) : bool :=
  (((9 <=? code c) && (code c <=? 13))
   || ((28 <=? code c) && (code c <=? 32)))%N.

Definition upper_char (c : ascii) : ascii :=
  if is_lower c then ascii_of_N (code c - 32) else c.

(** [s.upper()] *)
Fixpoint upper (s : string) : string :=
  match s with
  | EmptyString => EmptyString
  | String c s' => String (upper_char c) (upper s')
  end.

(** [re.sub(r'[^...]', '', s)]: drop every character outside the class. *)
Fixpoint re_sub_not_in (keep : ascii -> bool) (s : string) : string :=
  match s with
  | EmptyString => EmptyString
  | String c s' =>
      if keep c then String c (re_sub_not_in keep s')
      else re_sub_not_in keep s'
  end.

Fixpoint lstrip_by (ws : ascii -> bool) (s : string) : string :=
  match s with
  | EmptyString => EmptyString
  | String c s' => if ws c then lstrip_by ws s' else s
  end.

Fixpoint rstrip_by (ws : ascii -> bool) (s : string) : string :=
  match s with
  | EmptyString => EmptyString
  | String c s' =>
      match rstrip_by ws s' with
      | EmptyString => if ws c then EmptyString else String c EmptyString
      | r => String c r
      end
  end.

(** [s.strip()] *)
Definition strip (s : string) : string :=
  rstrip_by is_space (lstrip_by is_space s).

(** [a < b], [a > b] on [str]: lexicographic on code points. *)
Definition str_lt (a b : string) : bool := String.ltb a b.
Definition str_gt (a b : string) : bool := String.ltb b a.

(** [sub in s] *)
Fixpoint is_prefix (p s : string) : bool :=
  match p, s with
  | EmptyString, _ => true
  | String a p', String b s' => Ascii.eqb a b && is_prefix p' s'
  | String _ _, EmptyString => false
  end.

Fixpoint contains (sub s : string) : bool :=
  is_prefix sub s
  || match s with
     | EmptyString => false
     | String _ s' => contains sub s'
     end.

(** [s.lower()] *)
Definition lower_char (c : ascii) : ascii :=
  if is_upper c then ascii_of_N (code c + 32) else c.

Fixpoint lower (s : string) : string :=
  match s with
  | EmptyString => EmptyString
  | String c s' => String (lower_char c) (lower s')
  end.

(** [s.replace(old, new)] for a one-character [old]. *)
Fixpoint replace_char (old : ascii) (new : string) (s : string) : string :=
  match s with
  | EmptyString => EmptyString
  | String c s' =>
      if Ascii.eqb c old then new +:+ replace_char old new s'
      else String c (replace_char old new s')
  end.

End Py.

Module Sql.

(** [TRIM(x)]: SQLite removes spaces (0x20) only. *)
Definition is_sql_space (c : ascii) : bool := Ascii.eqb c " ".

Definition trim (s : string) : string :=
  Py.rstrip_by is_sql_space (Py.lstrip_by is_sql_space s).

(** [LENGTH(x)] on text: the number of characters before the first NUL. *)
Fixpoint length (s : string) : nat :=
  match s with
  | EmptyString => O
  | String c s' => if Ascii.eqb c "000" then O else S (length s')
  end.

(** Comparison under the BINARY collation. *)
Definition text_le (a b : string) : bool := String.leb a b.

End Sql.

(** ** IdentifierNormalizer *)

(** The three classes carry their own copy of the normalizers; the copies
    return the same value, [DuplicatePreventionService] also logs a warning
    on an unexpected length or shape. *)

Definition aadhaar_class (c : ascii) : bool :=
  Py.is_digit c || Ascii.eqb c "X".

Definition pan_class (c : ascii) : bool :=
  Py.is_upper c || Py.is_digit c.

Module UserIDManagerNormalizer.

(** user_id_manager.py, [UserIDManager.normalize_aadhaar] *)
Definition normalize_aadhaar (aadhaar_number : string) : string :=
  if negb (Py.truthy aadhaar_number) then ""
  else Py.re_sub_not_in aadhaar_class (Py.upper aadhaar_number).

End UserIDManagerNormalizer.

Module DuplicatePreventionNormalizer.

(** duplicate_prevention_service.py, [normalize_aadhaar]: the value. *)
Definition normalize_aadhaar (aadhaar_number : string) : string :=
  if negb (Py.truthy aadhaar_number) then ""
  else
    let normalized := Py.re_sub_not_in aadhaar_class (Py.upper aadhaar_number) in
    normalized.

(** Whether the call logs "Invalid Aadhaar length". *)
Definition normalize_aadhaar_warns (aadhaar_number : string) : bool :=
  Py.truthy aadhaar_number
  && negb (Nat.eqb (String.length
       (Py.re_sub_not_in aadhaar_class (Py.upper aadhaar_number))) 12).

(** [re.match(r'^[A-Z]{5}[0-9]{4}[A-Z]$', s)] on a string of length 10. *)
Definition pan_shape (s : string) : bool :=
  match s with
  | String a (String b (String c (String d (String e
      (String f (String g (String h (String i (String j r))))))))) =>
      Py.is_upper a && Py.is_upper b && Py.is_upper c && Py.is_upper d
      && Py.is_upper e && Py.is_digit f && Py.is_digit g && Py.is_digit h
      && Py.is_digit i && Py.is_upper j
      && match r with
         | EmptyString => true
         | String nl EmptyString => Ascii.eqb nl "010"
         | _ => false
         end
  | _ => false
  end.

(** duplicate_prevention_service.py, [normalize_pan]: the value. *)
Definition normalize_pan (pan_number : string) : string :=
  if negb (Py.truthy pan_number) then ""
  else
    let normalized := Py.re_sub_not_in pan_class (Py.upper pan_number) in
    normalized.

(** Whether the call logs "Invalid PAN length" or "Invalid PAN format". *)
Definition normalize_pan_warns (pan_number : string) : bool :=
  Py.truthy pan_number
  && (let normalized := Py.re_sub_not_in pan_class (Py.upper pan_number) in
      if negb (Nat.eqb (String.length normalized) 10) then true
      else negb (pan_shape normalized)).

End DuplicatePreventionNormalizer.

Module DuplicateDataIdentifierNormalizer.

(** duplicate_data_identifier.py, [normalize_aadhaar] *)
Definition normalize_aadhaar (aadhaar : string) : string :=
  if negb (Py.truthy aadhaar) then ""
  else Py.re_sub_not_in aadhaar_class (Py.upper aadhaar).

(** duplicate_data_identifier.py, [normalize_pan] *)
Definition normalize_pan (pan : string) : string :=
  if negb (Py.truthy pan) then ""
  else Py.re_sub_not_in pan_class (Py.upper pan).

End DuplicateDataIdentifierNormalizer.

(** ** Errors *)

(** [str(n)] for an integer. *)
Definition show_Z (z : Z) : string :=
  NilEmpty.string_of_int (Z.to_int z).

Definition show_nat (n : nat) : string := show_Z (Z.of_nat n).

(** The dictionary returned by [check_aadhaar_exists] and
    [check_pan_exists].  Its keys are [exists], [field_id], [document_id],
    the identifier, [name], [file_path], [created_at], [database] and
    [table]; it has no other key. *)
Record existing_record : Type := ExistingRecord {
  er_field_id : Z;
  er_document_id : option Z;
  er_number : option string;
  er_name : option string;
  er_file_path : option string;
  er_created_at : string;
  er_database : string;
  er_table : string
}.

(** [existing_record.get('user_id')]: the key is not in the dictionary. *)
Definition existing_record_get_user_id (r : existing_record)
  : option string := None.

(** [existing_record.get('document_id')] *)
Definition existing_record_get_document_id (r : existing_record)
  : option Z := er_document_id r.

(** The exceptions that the modelled code raises or catches.  The SQLite
    ones carry the text of [str(e)], which the code inspects. *)
Inductive exn : Type :=
| ValueError (msg : string)
| TypeError (msg : string)
| ZeroDivisionError
| IndexError
| OperationalError (msg : string)
| IntegrityError (msg : string)
| OSError (msg : string)
| PlainException (msg : string)
| UserManagementError (message error_code : string)
| MigrationError (migration_step database_path : string)
                 (original_error : option string)
| InvalidDocumentDataError (document_type : string)
                           (missing_fields : list string)
                           (validation_errors : list string)
| DatabaseConstraintError (constraint_type table_name : string)
                          (original_error : option string)
| DuplicateAadhaarError (aadhaar_number : string)
                        (existing_user_id : option string)
                        (existing_document_id : option Z)
                        (existing : option existing_record)
| DuplicatePANError (pan_number : string)
                    (existing_user_id : option string)
                    (existing_document_id : option Z)
                    (existing : option existing_record).

(** The message of the two duplicate errors. *)
Definition duplicate_message (label number : string)
    (existing_user_id : option string) (existing_document_id : option Z)
  : string :=
  label +:+ " number " +:+ number +:+ " already exists in the system"
  +:+ match existing_user_id with
      | Some u => if Py.truthy u then " for user " +:+ u else ""
      | None => ""
      end
  +:+ match existing_document_id with
      | Some i => if Z.eqb i 0 then ""
                  else " (Document ID: " +:+ show_Z i +:+ ")"
      | None => ""
      end.

(** [str(e)] *)
Definition exn_str (e : exn) : string :=
  match e with
  | ValueError m | TypeError m | OperationalError m | IntegrityError m
  | OSError m | PlainException m | UserManagementError m _ => m
  | ZeroDivisionError => "division by zero"
  | IndexError => "list index out of range"
  | MigrationError step db _ =>
      "Migration failed at step '" +:+ step +:+ "' for database '" +:+ db +:+ "'"
  | InvalidDocumentDataError ty missing _ =>
      "Invalid " +:+ ty +:+ " document data"
      +:+ match missing with
         | [] => ""
         | _ => " - Missing fields: " +:+ String.concat ", " missing
         end
  | DatabaseConstraintError ty tbl _ =>
      "Database constraint violation: " +:+ ty +:+ " constraint failed"
      +:+ (if Py.truthy tbl then " on table '" +:+ tbl +:+ "'" else "")
  | DuplicateAadhaarError a u i _ => duplicate_message "Aadhaar" a u i
  | DuplicatePANError a u i _ => duplicate_message "PAN" a u i
  end.

(** [isinstance(e, sqlite3.Error)] *)
Definition is_sqlite_error (e : exn) : bool :=
  match e with
  | OperationalError _ | IntegrityError _ => true
  | _ => false
  end.

Inductive result (A : Type) : Type :=
| Ok (a : A)
| Raise (e : exn).
Arguments Ok {A} a.
Arguments Raise {A} e.

(** ** The stores *)

Inductive db_id : Type := AadhaarDb | PanDb.

#[global] Instance db_id_eq_dec : EqDecision db_id.
Proof. solve_decision. Defined.

(** The configured paths, with their defaults. *)
Definition db_path (i : db_id) : string :=
  match i with
  | AadhaarDb => "aadhaar_documents.db"
  | PanDb => "pan_documents.db"
  end.

(** [Path(db_path).stem] *)
Definition db_stem (i : db_id) : string :=
  match i with
  | AadhaarDb => "aadhaar_documents"
  | PanDb => "pan_documents"
  end.

(** A row of [aadhaar_documents] / [pan_documents]. *)
Record doc_row : Type := DocRow {
  d_id : Z;
  d_file_path : option string;
  d_document_type : option string;
  d_extraction_timestamp : option string;
  d_extraction_confidence : option Qc;
  d_raw_text : option string;
  d_user_id : option string;
  d_created_at : string
}.

(** A row of [extracted_fields].  The Aadhaar store has the columns Name,
    DOB, Gender, Address and "Aadhaar Number"; the PAN store has Name,
    "Father's Name", DOB and "PAN Number".  [f_number] is the identifier
    column of the store at hand; a column the store does not have is
    [None]. *)
Record field_row : Type := FieldRow {
  f_id : Z;
  f_document_id : option Z;
  f_name : option string;
  f_fathers_name : option string;
  f_dob : option string;
  f_gender : option string;
  f_address : option string;
  f_number : option string;
  f_user_id : option string
}.

(** A row of [users]. *)
Record users_row : Type := UsersRow {
  u_user_id : string;
  u_aadhaar_number : string;
  u_primary_name : string;
  u_created_at : string;
  u_updated_at : string;
  u_document_count : Z
}.

(** A row of [user_documents]. *)
Record user_documents_row : Type := UserDocumentsRow {
  ud_user_id : string;
  ud_document_type : string;
  ud_document_id : Z
}.

(** The uniqueness constraint of [user_documents].  Two statements create
    the table, each [IF NOT EXISTS], so the first to run decides: the
    extraction tool's has [PRIMARY KEY (user_id, document_type,
    document_id)], the schema manager's has [UNIQUE(user_id,
    document_type)] beside an autoincrement [id]. *)
Inductive user_documents_key : Type :=
| KeyUserTypeDocument
| KeyUserType.

Record user_documents_table : Type := UserDocuments {
  ud_rows : list user_documents_row;
  ud_key : user_documents_key
}.

(** A document table or the field table: its rows, whether the
    [user_id] column has been added to it, and the largest rowid that
    [AUTOINCREMENT] has handed out for it, as [sqlite_sequence] records it
    (0 when it records nothing). *)
Record table (R : Type) : Type := Table {
  rows : list R;
  has_user_id : bool;
  last_rowid : Z
}.
Arguments Table {R} rows has_user_id last_rowid.
Arguments rows {R} t.
Arguments has_user_id {R} t.
Arguments last_rowid {R} t.

Record database : Type := Database {
  documents : option (table doc_row);
  extracted_fields : option (table field_row);
  users : option (list users_row);
  user_documents : option user_documents_table;
  indexes : list string
}.

(** What [sqlite3.connect] creates at a path that holds no file. *)
Definition empty_database : database :=
  Database None None None None [].

(** The text columns of [extracted_fields]. *)
Inductive fields_column : Type :=
| ColName | ColFathersName | ColDOB | ColGender | ColAddress | ColNumber.

Definition all_fields_columns : list fields_column :=
  [ColName; ColFathersName; ColDOB; ColGender; ColAddress; ColNumber].

(** The name of the column; the identifier column is "Aadhaar Number" in
    one store and "PAN Number" in the other. *)
Definition column_name (i : db_id) (c : fields_column) : string :=
  match c with
  | ColName => "Name"
  | ColFathersName => "Father's Name"
  | ColDOB => "DOB"
  | ColGender => "Gender"
  | ColAddress => "Address"
  | ColNumber =>
      match i with AadhaarDb => "Aadhaar Number" | PanDb => "PAN Number" end
  end.

(** Whether the [extracted_fields] table of the store has the column. *)
Definition store_has_column (i : db_id) (c : fields_column) : bool :=
  match i, c with
  | AadhaarDb, ColFathersName => false
  | PanDb, (ColGender | ColAddress) => false
  | _, _ => true
  end.

Definition column_value (c : fields_column) (f : field_row) : option string :=
  match c with
  | ColName => f_name f
  | ColFathersName => f_fathers_name f
  | ColDOB => f_dob f
  | ColGender => f_gender f
  | ColAddress => f_address f
  | ColNumber => f_number f
  end.

(** The name that [add_unique_constraints] gives to its index:
    [f"idx_{fields_table}_{unique_field.replace(' ', '_').replace(chr(39),
    '').lower()}_unique"]. *)
Definition unique_index_name (fields_table unique_field : string) : string :=
  "idx_" +:+ fields_table +:+ "_"
  +:+ Py.lower (Py.replace_char "'" "" (Py.replace_char " " "_" unique_field))
  +:+ "_unique".

(** The rowid that SQLite gives to a new row of a table whose key is
    [INTEGER PRIMARY KEY AUTOINCREMENT]: one more than the largest rowid
    that the table holds or has handed out before, so that the rowid of a
    deleted row is not used again. *)
Definition next_rowid (ids : list Z) (last : Z) : Z :=
  1 + foldr Z.max last ids.

(** The check that a unique index on [extracted_fields] imposes on a new
    row: a column under such an index must not repeat a value that is not
    [NULL]. *)
Definition unique_index_violation (i : db_id) (d : database)
    (fs : list field_row) (new : field_row) : option string :=
  head
    (omap (fun c =>
       if bool_decide
            (unique_index_name "extracted_fields" (column_name i c)
             ∈ indexes d)
          && match column_value c new with
             | Some v =>
                 bool_decide (Exists (fun f => column_value c f = Some v) fs)
             | None => false
             end
       then Some ("UNIQUE constraint failed: extracted_fields."
                  +:+ column_name i c)
       else None) all_fields_columns).

#[global] Instance doc_row_eq_dec : EqDecision doc_row.
Proof. solve_decision. Defined.
#[global] Instance field_row_eq_dec : EqDecision field_row.
Proof. solve_decision. Defined.
#[global] Instance users_row_eq_dec : EqDecision users_row.
Proof. solve_decision. Defined.

(** ** The world: stores, caches, oracles, logs *)

(** The dictionary built by [get_user_by_aadhaar] / [get_user_by_id]. *)
Record user_data : Type := UserData {
  user_id : string;
  aadhaar_number : string;
  primary_name : string;
  created_at : string;
  updated_at : string;
  document_count : Z;
  source_db : db_id
}.

Inductive level : Type := WARNING | ERROR.

(** The entry written by [log_duplicate_attempt]. *)
Record duplicate_attempt : Type := DuplicateAttempt {
  da_timestamp : string;
  da_document_type : string;
  da_attempted_aadhaar_number : string;
  da_attempted_pan_number : string;
  da_attempted_name : string;
  da_attempted_file_path : string;
  da_existing_document_id : option Z;
  da_existing_file_path : option string;
  da_existing_created_at : option string
}.

Inductive log_message : Type :=
| Text (msg : string)
| DuplicateAttemptBlocked (document_type : string) (entry : duplicate_attempt).

Record log_record : Type := LogRecord {
  lr_logger : string;
  lr_level : level;
  lr_message : log_message
}.

(** A file produced by [shutil.copy2]. *)
Record backup_file : Type := BackupFile {
  bk_path : string;
  bk_content : database
}.

Inductive doc_kind : Type := AADHAAR | PAN.

(** The store a document type lives in. *)
Definition kind_db (k : doc_kind) : db_id :=
  match k with AADHAAR => AadhaarDb | PAN => PanDb end.

(** The dictionary returned by [verify_schema_changes]. *)
Record schema_verification : Type := SchemaVerification {
  users_table_exists : bool;
  user_documents_table_exists : bool;
  unique_indexes_count : nat;
  aadhaar_documents_has_user_id : bool;
  pan_documents_has_user_id : bool;
  extracted_fields_has_user_id : bool
}.

(** The dictionary returned by [migrate_existing_data_to_user_system]. *)
Record user_migration_results : Type := UserMigrationResults {
  aadhaar_users_created : nat;
  pan_users_created : nat;
  aadhaar_records_updated : nat;
  pan_records_updated : nat;
  user_migration_errors : list string
}.

(** The dictionary returned by [apply_database_constraints]. *)
Record constraint_results : Type := ConstraintResults {
  aadhaar_constraints_applied : bool;
  pan_constraints_applied : bool;
  constraint_errors : list string
}.

(** An entry of [integrity_results['issues']]. *)
Inductive integrity_issue : Type :=
| RemainingDuplicateGroups (k : doc_kind) (groups : nat)
| RecordsWithoutUserId (i : db_id) (total_records records_with_user_id : nat)
| CoverageCheckError (i : db_id) (e : exn)
| VerificationError (e : exn).

(** An entry of [integrity_results['user_id_coverage']]. *)
Record coverage : Type := Coverage {
  cov_total_records : nat;
  cov_records_with_user_id : nat
}.

(** The dictionary returned by [verify_migration_integrity]. *)
Record integrity_results : Type := IntegrityResults {
  aadhaar_duplicates_remaining : nat;
  pan_duplicates_remaining : nat;
  aadhaar_coverage : option coverage;
  pan_coverage : option coverage;
  issues : list integrity_issue
}.

(** An entry of [DataCleanupMigrator.migration_log['operations']]. *)
Inductive operation_log : Type :=
| OpDuplicateCleanup (k : doc_kind) (timestamp : string)
                     (removed_count kept_count manual_review_count : nat)
| OpUserSystemMigration (timestamp : string) (results : user_migration_results)
| OpApplyConstraints (timestamp : string) (results : constraint_results)
| OpVerifyIntegrity (timestamp : string) (results : integrity_results).

(** An entry of the schema manager's [migration_log.json]. *)
Record schema_log_entry : Type := SchemaLogEntry {
  sl_timestamp : string;
  sl_operation : string;
  sl_status : string;
  sl_backup_path : option string;
  sl_verification : option schema_verification;
  sl_error : option string
}.

Record world : Type := World {
  aadhaar_db : option database;
  pan_db : option database;
  cache : gmap string user_data;
  uuid4 : nat -> string;
  uuid_calls : nat;
  now_iso : string;
  now_stamp : string;
  current_timestamp : string;
  copy_ok : bool;
  log : list log_record;
  migration_backups : list backup_file;
  schema_backups : list backup_file;
  ml_operations : list operation_log;
  ml_backups_created : list string;
  ml_errors : list string;
  schema_migration_log : list schema_log_entry
}.

Definition get_db (i : db_id) (w : world) : option database :=
  match i with AadhaarDb => aadhaar_db w | PanDb => pan_db w end.

Definition set_db (i : db_id) (d : option database) (w : world) : world :=
  match i with
  | AadhaarDb =>
      World d (pan_db w) (cache w) (uuid4 w) (uuid_calls w) (now_iso w)
        (now_stamp w) (current_timestamp w) (copy_ok w) (log w)
        (migration_backups w) (schema_backups w) (ml_operations w)
        (ml_backups_created w) (ml_errors w) (schema_migration_log w)
  | PanDb =>
      World (aadhaar_db w) d (cache w) (uuid4 w) (uuid_calls w) (now_iso w)
        (now_stamp w) (current_timestamp w) (copy_ok w) (log w)
        (migration_backups w) (schema_backups w) (ml_operations w)
        (ml_backups_created w) (ml_errors w) (schema_migration_log w)
  end.

Definition set_cache (c : gmap string user_data) (w : world) : world :=
  World (aadhaar_db w) (pan_db w) c (uuid4 w) (uuid_calls w) (now_iso w)
    (now_stamp w) (current_timestamp w) (copy_ok w) (log w)
    (migration_backups w) (schema_backups w) (ml_operations w)
    (ml_backups_created w) (ml_errors w) (schema_migration_log w).

Definition set_uuid_calls (n : nat) (w : world) : world :=
  World (aadhaar_db w) (pan_db w) (cache w) (uuid4 w) n (now_iso w)
    (now_stamp w) (current_timestamp w) (copy_ok w) (log w)
    (migration_backups w) (schema_backups w) (ml_operations w)
    (ml_backups_created w) (ml_errors w) (schema_migration_log w).

Definition set_log (l : list log_record) (w : world) : world :=
  World (aadhaar_db w) (pan_db w) (cache w) (uuid4 w) (uuid_calls w)
    (now_iso w) (now_stamp w) (current_timestamp w) (copy_ok w) l
    (migration_backups w) (schema_backups w) (ml_operations w)
    (ml_backups_created w) (ml_errors w) (schema_migration_log w).

Definition set_migration_backups (b : list backup_file) (w : world) : world :=
  World (aadhaar_db w) (pan_db w) (cache w) (uuid4 w) (uuid_calls w)
    (now_iso w) (now_stamp w) (current_timestamp w) (copy_ok w) (log w)
    b (schema_backups w) (ml_operations w)
    (ml_backups_created w) (ml_errors w) (schema_migration_log w).

Definition set_schema_backups (b : list backup_file) (w : world) : world :=
  World (aadhaar_db w) (pan_db w) (cache w) (uuid4 w) (uuid_calls w)
    (now_iso w) (now_stamp w) (current_timestamp w) (copy_ok w) (log w)
    (migration_backups w) b (ml_operations w)
    (ml_backups_created w) (ml_errors w) (schema_migration_log w).

Definition set_ml_operations (o : list operation_log) (w : world) : world :=
  World (aadhaar_db w) (pan_db w) (cache w) (uuid4 w) (uuid_calls w)
    (now_iso w) (now_stamp w) (current_timestamp w) (copy_ok w) (log w)
    (migration_backups w) (schema_backups w) o
    (ml_backups_created w) (ml_errors w) (schema_migration_log w).

Definition set_ml_backups_created (b : list string) (w : world) : world :=
  World (aadhaar_db w) (pan_db w) (cache w) (uuid4 w) (uuid_calls w)
    (now_iso w) (now_stamp w) (current_timestamp w) (copy_ok w) (log w)
    (migration_backups w) (schema_backups w) (ml_operations w)
    b (ml_errors w) (schema_migration_log w).

Definition set_ml_errors (e : list string) (w : world) : world :=
  World (aadhaar_db w) (pan_db w) (cache w) (uuid4 w) (uuid_calls w)
    (now_iso w) (now_stamp w) (current_timestamp w) (copy_ok w) (log w)
    (migration_backups w) (schema_backups w) (ml_operations w)
    (ml_backups_created w) e (schema_migration_log w).

Definition set_schema_migration_log (l : list schema_log_entry) (w : world)
  : world :=
  World (aadhaar_db w) (pan_db w) (cache w) (uuid4 w) (uuid_calls w)
    (now_iso w) (now_stamp w) (current_timestamp w) (copy_ok w) (log w)
    (migration_backups w) (schema_backups w) (ml_operations w)
    (ml_backups_created w) (ml_errors w) l.

(** [logger.warning(...)] and [logger.error(...)] *)
Definition emit (logger : string) (lv : level) (m : log_message) (w : world)
  : world :=
  set_log (log w ++ [LogRecord logger lv m]) w.

(** [sqlite3.connect(path)]: the database at the path, created empty when
    the path holds no file. *)
Definition connect (i : db_id) (w : world) : database * world :=
  match get_db i w with
  | Some d => (d, w)
  | None => (empty_database, set_db i (Some empty_database) w)
  end.

(** [conn.commit()] at the end of a [with] block. *)
Definition commit (i : db_id) (d : database) (w : world) : world :=
  set_db i (Some d) w.

(** ** Computations: state and exceptions *)

Definition M (A : Type) : Type := world -> result A * world.

Definition ret {A} (a : A) : M A := fun w => (Ok a, w).

Definition raise {A} (e : exn) : M A := fun w => (Raise e, w).

Definition bind {A B} (m : M A) (k : A -> M B) : M B :=
  fun w =>
    match m w with
    | (Ok a, w') => k a w'
    | (Raise e, w') => (Raise e, w')
    end.

(** [try: m except Exception as e: h e] *)
Definition try_except {A} (m : M A) (h : exn -> M A) : M A :=
  fun w =>
    match m w with
    | (Ok a, w') => (Ok a, w')
    | (Raise e, w') => h e w'
    end.

(** An effect that cannot fail. *)
Definition act (f : world -> world) : M unit := fun w => (Ok tt, f w).

(** A read of the world. *)
Definition gets {A} (f : world -> A) : M A := fun w => (Ok (f w), w).

Notation "x <- m ;; k" := (bind m (fun x => k))
  (at level 100, m at next level, right associativity).
Notation "m ;;; k" := (bind m (fun _ => k))
  (at level 100, right associativity).

(** [with sqlite3.connect(path) as conn: body]: the body works on the
    connection's view of the database; leaving the block normally commits
    it, leaving it by an exception rolls it back. *)
Definition with_connection {A} (i : db_id)
    (body : database -> world -> result (A * database) * world) : M A :=
  fun w =>
    let '(d, w1) := connect i w in
    match body d w1 with
    | (Ok (a, d'), w2) => (Ok a, commit i d' w2)
    | (Raise e, w2) => (Raise e, w2)
    end.

(** ** UserDirectory: user_id_manager.py *)

Module UserIDManager.

Definition logger : string := "UserIDManager".

Definition normalize_aadhaar := UserIDManagerNormalizer.normalize_aadhaar.

(** [_ensure_users_tables]: [CREATE TABLE IF NOT EXISTS users] in both
    stores. *)
Definition ensure_users_table_in (i : db_id) : M unit :=
  with_connection i (fun d w =>
    (Ok (tt, match users d with
             | Some _ => d
             | None => Database (documents d) (extracted_fields d)
                         (Some []) (user_documents d) (indexes d)
             end), w)).

Definition _ensure_users_tables : M unit :=
  ensure_users_table_in AadhaarDb ;;; ensure_users_table_in PanDb.

(** [generate_user_id]: the next [uuid.uuid4()]. *)
Definition generate_user_id : M string :=
  fun w => (Ok (uuid4 w (uuid_calls w)), set_uuid_calls (S (uuid_calls w)) w).

Definition _get_user_from_cache (aadhaar_number : string) (w : world)
  : option user_data :=
  cache w !! normalize_aadhaar aadhaar_number.

Definition _add_user_to_cache (aadhaar_number : string) (u : user_data)
    (w : world) : world :=
  set_cache (<[normalize_aadhaar aadhaar_number := u]> (cache w)) w.

Definition _clear_user_from_cache (aadhaar_number : string) (w : world)
  : world :=
  set_cache (delete (normalize_aadhaar aadhaar_number) (cache w)) w.

Definition row_to_user_data (r : users_row) (i : db_id) : user_data :=
  UserData (u_user_id r) (u_aadhaar_number r) (u_primary_name r)
    (u_created_at r) (u_updated_at r) (u_document_count r) i.

(** [SELECT ... FROM users WHERE aadhaar_number = ?] and [fetchone()] *)
Definition select_by_aadhaar (normalized : string) (d : database)
  : result (option users_row) :=
  match users d with
  | None => Raise (OperationalError "no such table: users")
  | Some us =>
      Ok (List.find (fun r => String.eqb (u_aadhaar_number r) normalized) us)
  end.

(** [SELECT ... FROM users WHERE user_id = ?] and [fetchone()] *)
Definition select_by_id (uid : string) (d : database)
  : result (option users_row) :=
  match users d with
  | None => Raise (OperationalError "no such table: users")
  | Some us => Ok (List.find (fun r => String.eqb (u_user_id r) uid) us)
  end.

(** One round of the loop over the two stores in [get_user_by_aadhaar]. *)
Definition get_user_by_aadhaar_in (aadhaar_number : string) (i : db_id)
  : M (option user_data) :=
  try_except
    (with_connection i (fun d w =>
       match select_by_aadhaar (normalize_aadhaar aadhaar_number) d with
       | Raise e => (Raise e, w)
       | Ok None => (Ok (None, d), w)
       | Ok (Some row) =>
           let u := row_to_user_data row i in
           (Ok (Some u, d), _add_user_to_cache aadhaar_number u w)
       end))
    (fun e =>
       act (emit logger ERROR
              (Text ("Error querying user from " +:+ db_path i +:+ ": "
                     +:+ exn_str e))) ;;;
       ret None).

Definition get_user_by_aadhaar (aadhaar_number : option string)
  : M (option user_data) :=
  match aadhaar_number with
  | None => ret None
  | Some a =>
      if negb (Py.truthy a) then ret None
      else
        cached <- gets (_get_user_from_cache a) ;;
        match cached with
        | Some u => ret (Some u)
        | None =>
            r1 <- get_user_by_aadhaar_in a AadhaarDb ;;
            match r1 with
            | Some u => ret (Some u)
            | None => get_user_by_aadhaar_in a PanDb
            end
        end
  end.

(** One round of the loop over the two stores in [get_user_by_id]. *)
Definition get_user_by_id_in (uid : string) (i : db_id)
  : M (option user_data) :=
  try_except
    (with_connection i (fun d w =>
       match select_by_id uid d with
       | Raise e => (Raise e, w)
       | Ok None => (Ok (None, d), w)
       | Ok (Some row) => (Ok (Some (row_to_user_data row i), d), w)
       end))
    (fun e =>
       act (emit logger ERROR
              (Text ("Error querying user by ID from " +:+ db_path i +:+ ": "
                     +:+ exn_str e))) ;;;
       ret None).

Definition get_user_by_id (uid : string) : M (option user_data) :=
  if negb (Py.truthy uid) then ret None
  else
    r1 <- get_user_by_id_in uid AadhaarDb ;;
    match r1 with
    | Some u => ret (Some u)
    | None => get_user_by_id_in uid PanDb
    end.

(** [INSERT INTO users (user_id, aadhaar_number, primary_name,
    document_count) VALUES (?, ?, ?, 1)] under the table's constraints:
    [user_id] is the primary key and [aadhaar_number] is [UNIQUE]. *)
Definition insert_user (uid normalized name ts : string) (d : database)
  : result database :=
  match users d with
  | None => Raise (OperationalError "no such table: users")
  | Some us =>
      if existsb (fun r => String.eqb (u_user_id r) uid) us then
        Raise (IntegrityError "UNIQUE constraint failed: users.user_id")
      else if existsb (fun r => String.eqb (u_aadhaar_number r) normalized) us
      then
        Raise (IntegrityError "UNIQUE constraint failed: users.aadhaar_number")
      else
        Ok (Database (documents d) (extracted_fields d)
              (Some (us ++ [UsersRow uid normalized name ts ts 1]))
              (user_documents d) (indexes d))
  end.

Definition is_integrity_error (e : exn) : bool :=
  match e with IntegrityError _ => true | _ => false end.

Definition create_user (aadhaar_number name : option string) (i : db_id)
  : M string :=
  match aadhaar_number, name with
  | Some a, Some n =>
      if negb (Py.truthy a) || negb (Py.truthy n) then
        raise (ValueError "Aadhaar number and name are required")
      else
        let normalized_aadhaar := normalize_aadhaar a in
        uid <- generate_user_id ;;
        try_except
          (with_connection i (fun d w =>
             match insert_user uid normalized_aadhaar (Py.strip n)
                     (current_timestamp w) d with
             | Raise e => (Raise e, w)
             | Ok d' =>
                 let u := UserData uid normalized_aadhaar (Py.strip n)
                            (now_iso w) (now_iso w) 1 i in
                 (Ok (uid, d'), _add_user_to_cache a u w)
             end))
          (fun e =>
             if is_integrity_error e then
               let failed :=
                 raise (PlainException
                          ("Failed to create user: " +:+ exn_str e)) in
               if Py.contains "UNIQUE constraint failed" (exn_str e) then
                 existing_user <- get_user_by_aadhaar (Some a) ;;
                 match existing_user with
                 | Some u => ret (user_id u)
                 | None => failed
                 end
               else failed
             else
               act (emit logger ERROR
                      (Text ("Error creating user: " +:+ exn_str e))) ;;;
               raise e)
  | _, _ => raise (ValueError "Aadhaar number and name are required")
  end.

(** [UPDATE users SET document_count = document_count + ?,
    updated_at = CURRENT_TIMESTAMP WHERE user_id = ?] *)
Definition update_count (uid : string) (increment : Z) (ts : string)
    (d : database) : result database :=
  match users d with
  | None => Raise (OperationalError "no such table: users")
  | Some us =>
      Ok (Database (documents d) (extracted_fields d)
            (Some (List.map (fun r =>
                     if String.eqb (u_user_id r) uid then
                       UsersRow (u_user_id r) (u_aadhaar_number r)
                         (u_primary_name r) (u_created_at r) ts
                         (u_document_count r + increment)
                     else r) us))
            (user_documents d) (indexes d))
  end.

Definition update_user_document_count (uid : string) (increment : Z)
  : M bool :=
  found <- get_user_by_id uid ;;
  match found with
  | None =>
      act (emit logger ERROR (Text ("User " +:+ uid +:+ " not found"))) ;;;
      ret false
  | Some u =>
      try_except
        (with_connection (source_db u) (fun d w =>
           match update_count uid increment (current_timestamp w) d with
           | Raise e => (Raise e, w)
           | Ok d' =>
               (Ok (true, d'),
                if Py.truthy (aadhaar_number u)
                then _clear_user_from_cache (aadhaar_number u) w
                else w)
           end))
        (fun e =>
           act (emit logger ERROR
                  (Text ("Error updating user document count: "
                         +:+ exn_str e))) ;;;
           ret false)
  end.

(** [preferred_db or self.aadhaar_db_path] *)
Definition preferred_or_default (preferred_db : option db_id) : db_id :=
  match preferred_db with Some i => i | None => AadhaarDb end.

Definition get_or_create_user_id (aadhaar_number name : option string)
    (preferred_db : option db_id) : M string :=
  if negb (Py.truthy_opt aadhaar_number) || negb (Py.truthy_opt name) then
    raise (ValueError "Aadhaar number and name are required")
  else
    existing_user <- get_user_by_aadhaar aadhaar_number ;;
    match existing_user with
    | Some u =>
        update_user_document_count (user_id u) 1 ;;;
        ret (user_id u)
    | None =>
        create_user aadhaar_number name (preferred_or_default preferred_db)
    end.

End UserIDManager.

(** ** DuplicateGuard: duplicate_prevention_service.py *)

(** The field dictionary handed over by the extraction collaborator. *)
Record extracted_data : Type := ExtractedData {
  xd_name : option string;
  xd_dob : option string;
  xd_gender : option string;
  xd_address : option string;
  xd_aadhaar_number : option string;
  xd_pan_number : option string;
  xd_file_path : option string
}.

Module DuplicatePreventionService.

Definition logger : string := "DuplicatePreventionService".

(** [normalize_aadhaar], with its warning. *)
Definition normalize_aadhaar (aadhaar_number : string) : M string :=
  let normalized :=
    DuplicatePreventionNormalizer.normalize_aadhaar aadhaar_number in
  (if DuplicatePreventionNormalizer.normalize_aadhaar_warns aadhaar_number
   then act (emit logger WARNING
               (Text ("Invalid Aadhaar length: "
                      +:+ show_nat (String.length normalized)
                      +:+ " for " +:+ aadhaar_number)))
   else ret tt) ;;;
  ret normalized.

(** [normalize_pan], with its warnings. *)
Definition normalize_pan (pan_number : string) : M string :=
  let normalized := DuplicatePreventionNormalizer.normalize_pan pan_number in
  (if DuplicatePreventionNormalizer.normalize_pan_warns pan_number
   then act (emit logger WARNING
               (Text (if negb (Nat.eqb (String.length normalized) 10)
                      then "Invalid PAN length: "
                           +:+ show_nat (String.length normalized)
                           +:+ " for " +:+ pan_number
                      else "Invalid PAN format: " +:+ normalized)))
   else ret tt) ;;;
  ret normalized.

Definition database_label (i : db_id) : string :=
  match i with AadhaarDb => "aadhaar" | PanDb => "pan" end.

(** [SELECT ... FROM extracted_fields ef JOIN <documents> ON
    ef.document_id = <documents>.id WHERE ef.<identifier> = ?] and
    [fetchone()] *)
Definition select_existing (i : db_id) (normalized : string) (d : database)
  : result (option existing_record) :=
  match extracted_fields d, documents d with
  | None, _ => Raise (OperationalError "no such table: extracted_fields")
  | Some _, None =>
      Raise (OperationalError ("no such table: " +:+ db_stem i))
  | Some ft, Some dt =>
      Ok (head
            (flat_map (fun f =>
               if decide (f_number f = Some normalized) then
                 flat_map (fun doc =>
                   if decide (f_document_id f = Some (d_id doc)) then
                     [ExistingRecord (f_id f) (f_document_id f) (f_number f)
                        (f_name f) (d_file_path doc) (d_created_at doc)
                        (database_label i) "extracted_fields"]
                   else []) (rows dt)
               else []) (rows ft)))
  end.

Definition check_exists (i : db_id) (label : string)
    (normalizer : string -> M string) (number : option string)
  : M (option existing_record) :=
  match number with
  | None => ret None
  | Some a =>
      if negb (Py.truthy a) then ret None
      else
        normalized <- normalizer a ;;
        try_except
          (with_connection i (fun d w =>
             match select_existing i normalized d with
             | Raise e => (Raise e, w)
             | Ok found => (Ok (found, d), w)
             end))
          (fun e =>
             act (emit logger ERROR
                    (Text ("Error checking " +:+ label +:+ " existence: "
                           +:+ exn_str e))) ;;;
             ret None)
  end.

Definition check_aadhaar_exists (aadhaar_number : option string)
  : M (option existing_record) :=
  check_exists AadhaarDb "Aadhaar" normalize_aadhaar aadhaar_number.

Definition check_pan_exists (pan_number : option string)
  : M (option existing_record) :=
  check_exists PanDb "PAN" normalize_pan pan_number.

Definition validate_document_uniqueness (document_type : string)
    (document_data : extracted_data) : M (bool * option existing_record) :=
  if String.eqb (Py.upper document_type) "AADHAAR" then
    let aadhaar_number := xd_aadhaar_number document_data in
    if Py.truthy_opt aadhaar_number then
      existing <- check_aadhaar_exists aadhaar_number ;;
      match existing with
      | Some r => ret (false, Some r)
      | None => ret (true, None)
      end
    else ret (true, None)
  else if String.eqb (Py.upper document_type) "PAN" then
    let pan_number := xd_pan_number document_data in
    if Py.truthy_opt pan_number then
      existing <- check_pan_exists pan_number ;;
      match existing with
      | Some r => ret (false, Some r)
      | None => ret (true, None)
      end
    else ret (true, None)
  else ret (true, None).

(** [attempted_data.get(key, '')] *)
Definition get_or_empty (x : option string) : string := default "" x.

Definition log_duplicate_attempt (document_type : string)
    (attempted_data : extracted_data) (existing : existing_record)
  : M unit :=
  fun w =>
    let log_entry :=
      DuplicateAttempt (now_iso w) document_type
        (get_or_empty (xd_aadhaar_number attempted_data))
        (get_or_empty (xd_pan_number attempted_data))
        (get_or_empty (xd_name attempted_data))
        (get_or_empty (xd_file_path attempted_data))
        (er_document_id existing) (er_file_path existing)
        (Some (er_created_at existing)) in
    (Ok tt,
     emit logger WARNING (DuplicateAttemptBlocked document_type log_entry) w).

End DuplicatePreventionService.

(** ** The ingestion boundary: aadhaar_extractor_with_sql.py *)

(** The dictionary produced by [extract_with_json_output], by the values
    that [store_in_database] reads from it: a field is [None] when its key
    is missing or holds [None].  [xr_extracted_data] is the value of
    [extraction_result.get("extracted_data", {})]: [None] is a key that
    holds [None], and a missing key reads as the empty dictionary,
    [Some empty_extracted_data]. *)
Record extraction_result : Type := ExtractionResult {
  xr_status : option string;
  xr_file_path : option string;
  xr_document_type : option string;
  xr_extraction_timestamp : option string;
  xr_extraction_confidence : option Qc;
  xr_raw_text : option string;
  xr_extracted_data : option extracted_data
}.

(** The dictionary built by [create_error_response]; [resp_details] stands
    for the [details] of the exception without its [suggested_action]: the
    arguments of the exception. *)
Record error_response : Type := ErrorResponse {
  resp_type : string;
  resp_code : string;
  resp_message : string;
  resp_timestamp : string;
  resp_suggested_action : string;
  resp_details : exn
}.

(** What [store_in_database] returns. *)
Inductive storage_result : Type :=
| StorageSuccess (document_id : Z) (user_id : string)
| StorageError (error_message : string) (error_type : option string)
| StorageRejected (response : error_response).

(** The details [existing_user_id], [existing_document_id] and
    [existing_record] of a rejection. *)
Definition rejected_existing_user_id (r : storage_result) : option string :=
  match r with
  | StorageRejected resp =>
      match resp_details resp with
      | DuplicateAadhaarError _ u _ _ | DuplicatePANError _ u _ _ => u
      | _ => None
      end
  | _ => None
  end.

Definition rejected_existing_document_id (r : storage_result) : option Z :=
  match r with
  | StorageRejected resp =>
      match resp_details resp with
      | DuplicateAadhaarError _ _ i _ | DuplicatePANError _ _ i _ => i
      | _ => None
      end
  | _ => None
  end.

Definition rejected_existing_record (r : storage_result)
  : option existing_record :=
  match r with
  | StorageRejected resp =>
      match resp_details resp with
      | DuplicateAadhaarError _ _ _ x | DuplicatePANError _ _ _ x => x
      | _ => None
      end
  | _ => None
  end.

Definition rejected_code (r : storage_result) : option string :=
  match r with
  | StorageRejected resp => Some (resp_code resp)
  | _ => None
  end.

Module Exceptions.

(** [handle_sqlite_error(error, context)] with the context that
    [store_in_database] passes. *)
Definition handle_sqlite_error (e : exn) (aadhaar_number : string)
    (table_name : string) : exn :=
  let error_str := Py.lower (exn_str e) in
  if Py.contains "unique constraint failed" error_str then
    if Py.contains "aadhaar" error_str then
      DuplicateAadhaarError aadhaar_number None None None
    else if Py.contains "pan" error_str then
      DuplicatePANError "unknown" None None None
    else DatabaseConstraintError "UNIQUE" table_name (Some (exn_str e))
  else if Py.contains "foreign key constraint failed" error_str then
    DatabaseConstraintError "FOREIGN_KEY" table_name (Some (exn_str e))
  else if Py.contains "not null constraint failed" error_str then
    DatabaseConstraintError "NOT_NULL" table_name (Some (exn_str e))
  else
    UserManagementError ("Database error: " +:+ exn_str e) "DB_ERROR".

Definition class_name (e : exn) : string :=
  match e with
  | UserManagementError _ _ => "UserManagementError"
  | MigrationError _ _ _ => "MigrationError"
  | InvalidDocumentDataError _ _ _ => "InvalidDocumentDataError"
  | DatabaseConstraintError _ _ _ => "DatabaseConstraintError"
  | DuplicateAadhaarError _ _ _ _ => "DuplicateAadhaarError"
  | DuplicatePANError _ _ _ _ => "DuplicatePANError"
  | _ => "Exception"
  end.

Definition error_code (e : exn) : string :=
  match e with
  | UserManagementError _ c => c
  | MigrationError _ _ _ => "MIGRATION_ERROR"
  | InvalidDocumentDataError _ _ _ => "INVALID_DOCUMENT_DATA"
  | DatabaseConstraintError _ _ _ => "DB_CONSTRAINT_ERROR"
  | DuplicateAadhaarError _ _ _ _ => "DUPLICATE_AADHAAR"
  | DuplicatePANError _ _ _ _ => "DUPLICATE_PAN"
  | _ => "USER_MGMT_ERROR"
  end.

Definition suggested_action (e : exn) : string :=
  match e with
  | MigrationError _ _ _ =>
      "Check migration logs and consider rollback if backup is available"
  | InvalidDocumentDataError _ _ _ =>
      "Provide all required fields with valid data"
  | DatabaseConstraintError _ _ _ =>
      "Check for existing records or validate input data"
  | DuplicateAadhaarError _ _ _ _ | DuplicatePANError _ _ _ _ =>
      "Use existing user ID or verify if this is a legitimate duplicate"
  | _ => "Contact system administrator"
  end.

(** [create_error_response(exception)]; the timestamp is the one taken
    when the exception was built. *)
Definition create_error_response (e : exn) (timestamp : string)
  : error_response :=
  ErrorResponse (class_name e) (error_code e) (exn_str e) timestamp
    (suggested_action e) e.

End Exceptions.

Module AadhaarExtractionTool.

(** [_init_database]: the four [CREATE TABLE IF NOT EXISTS]. *)
Definition _init_database : M unit :=
  try_except
    (with_connection AadhaarDb (fun d w =>
       (Ok (tt,
            Database
              (match documents d with
               | Some t => Some t
               | None => Some (Table [] true 0)
               end)
              (match extracted_fields d with
               | Some t => Some t
               | None => Some (Table [] true 0)
               end)
              (match users d with Some u => Some u | None => Some [] end)
              (match user_documents d with
               | Some u => Some u
               | None => Some (UserDocuments [] KeyUserTypeDocument)
               end)
              (indexes d)), w)))
    (fun _ => ret tt).

(** [__init__]: the user manager is built first, then the tables. *)
Definition init : M unit :=
  UserIDManager._ensure_users_tables ;;; _init_database.

(** [INSERT INTO aadhaar_documents (file_path, document_type,
    extraction_timestamp, extraction_confidence, raw_text, user_id)];
    the first three columns are [NOT NULL]. *)
Definition insert_document (x : extraction_result) (uid : string)
    (ts : string) (d : database) : result (Z * database) :=
  match documents d with
  | None => Raise (OperationalError "no such table: aadhaar_documents")
  | Some t =>
      if negb (has_user_id t) then
        Raise (OperationalError
                 "table aadhaar_documents has no column named user_id")
      else
        match xr_file_path x, xr_document_type x,
              xr_extraction_timestamp x with
        | None, _, _ =>
            Raise (IntegrityError
                     "NOT NULL constraint failed: aadhaar_documents.file_path")
        | Some _, None, _ =>
            Raise (IntegrityError
                     "NOT NULL constraint failed: aadhaar_documents.document_type")
        | Some _, Some _, None =>
            Raise (IntegrityError
                     "NOT NULL constraint failed: aadhaar_documents.extraction_timestamp")
        | Some _, Some _, Some _ =>
            let document_id :=
              next_rowid (d_id <$> rows t) (last_rowid t) in
            Ok (document_id,
                Database
                  (Some (Table
                           (rows t ++
                            [DocRow document_id (xr_file_path x)
                               (xr_document_type x)
                               (xr_extraction_timestamp x)
                               (xr_extraction_confidence x)
                               (xr_raw_text x) (Some uid) ts])
                           true document_id))
                  (extracted_fields d) (users d) (user_documents d)
                  (indexes d))
        end
  end.

(** [INSERT INTO extracted_fields (document_id, "Name", "DOB", "Gender",
    "Address", "Aadhaar Number", user_id)] *)
Definition insert_fields (document_id : Z) (data : extracted_data)
    (uid : string) (d : database) : result database :=
  match extracted_fields d with
  | None => Raise (OperationalError "no such table: extracted_fields")
  | Some t =>
      if negb (has_user_id t) then
        Raise (OperationalError
                 "table extracted_fields has no column named user_id")
      else
        let row :=
          FieldRow (next_rowid (f_id <$> rows t) (last_rowid t))
            (Some document_id)
            (xd_name data) None (xd_dob data) (xd_gender data)
            (xd_address data) (xd_aadhaar_number data) (Some uid) in
        match unique_index_violation AadhaarDb d (rows t) row with
        | Some msg => Raise (IntegrityError msg)
        | None =>
            Ok (Database (documents d)
                  (Some (Table (rows t ++ [row]) true (f_id row)))
                  (users d) (user_documents d) (indexes d))
        end
  end.

(** [INSERT OR REPLACE INTO user_documents (user_id, document_type,
    document_id)]: the rows that clash with the new one on the table's
    uniqueness constraint are deleted, then the row is added.  Under the
    tool's primary key that is a row with the same three values; under the
    schema manager's [UNIQUE(user_id, document_type)] it is every earlier
    row of the user for this document type. *)
Definition insert_or_replace_user_document (uid : string) (document_id : Z)
    (d : database) : result database :=
  match user_documents d with
  | None => Raise (OperationalError "no such table: user_documents")
  | Some t =>
      let row := UserDocumentsRow uid "AADHAAR" document_id in
      let kept :=
        match ud_key t with
        | KeyUserTypeDocument =>
            filter (fun r =>
                      ~ (ud_user_id r = uid
                         /\ ud_document_type r = "AADHAAR"
                         /\ ud_document_id r = document_id)) (ud_rows t)
        | KeyUserType =>
            filter (fun r =>
                      ~ (ud_user_id r = uid
                         /\ ud_document_type r = "AADHAAR")) (ud_rows t)
        end in
      Ok (Database (documents d) (extracted_fields d) (users d)
            (Some (UserDocuments (kept ++ [row]) (ud_key t)))
            (indexes d))
  end.

Definition empty_extracted_data : extracted_data :=
  ExtractedData None None None None None None None.

(** The body of the [try] block once the status has been checked and
    [extracted_data] has been read as a dictionary. *)
Definition store_checked (x : extraction_result) (data : extracted_data)
  : M storage_result :=
  let aadhaar_number := xd_aadhaar_number data in
  let name := xd_name data in
  if negb (Py.truthy_opt aadhaar_number) || negb (Py.truthy_opt name) then
    raise (InvalidDocumentDataError "AADHAAR"
             ((if Py.truthy_opt aadhaar_number then []
               else ["Aadhaar Number"])
              ++ (if Py.truthy_opt name then [] else ["Name"]))
             ["Aadhaar number and name are required for user management"])
  else
    checked <- DuplicatePreventionService.validate_document_uniqueness
                 "AADHAAR" data ;;
    if negb checked.1 then
      match checked.2 with
      | None =>
          raise (PlainException
                   "'NoneType' object has no attribute 'get'")
      | Some existing =>
          DuplicatePreventionService.log_duplicate_attempt "AADHAAR"
            data existing ;;;
          raise (DuplicateAadhaarError
                   (DuplicatePreventionService.get_or_empty aadhaar_number)
                   (existing_record_get_user_id existing)
                   (existing_record_get_document_id existing)
                   (Some existing))
      end
    else
      uid <- UserIDManager.get_or_create_user_id aadhaar_number name
               (Some AadhaarDb) ;;
      with_connection AadhaarDb (fun d w =>
        match insert_document x uid (current_timestamp w) d with
        | Raise e => (Raise e, w)
        | Ok (document_id, d1) =>
            match insert_fields document_id data uid d1 with
            | Raise e => (Raise e, w)
            | Ok d2 =>
                match insert_or_replace_user_document uid document_id d2
                with
                | Raise e => (Raise e, w)
                | Ok d3 => (Ok (StorageSuccess document_id uid, d3), w)
                end
            end
        end).

Definition is_known_rejection (e : exn) : bool :=
  match e with
  | DuplicateAadhaarError _ _ _ _ | InvalidDocumentDataError _ _ _ => true
  | _ => false
  end.

Definition store_in_database (x : extraction_result)
  : world -> storage_result * world :=
  fun w =>
    if negb (bool_decide (xr_status x = Some "success")) then
      (StorageError "Cannot store failed extraction result" None, w)
    else
      match xr_extracted_data x with
      | None =>
          (* [extracted_data.get] on [None]: an [AttributeError], which
             the last handler catches *)
          (StorageError
             ("Database storage failed: "
              +:+ "'NoneType' object has no attribute 'get'")
             (Some "STORAGE_ERROR"), w)
      | Some data =>
          match store_checked x data w with
          | (Ok r, w') => (r, w')
          | (Raise e, w') =>
              if is_known_rejection e then
                (StorageRejected
                   (Exceptions.create_error_response e (now_iso w')), w')
              else if is_sqlite_error e then
                (StorageRejected
                   (Exceptions.create_error_response
                      (Exceptions.handle_sqlite_error e
                         (DuplicatePreventionService.get_or_empty
                            (xd_aadhaar_number data))
                         "extracted_fields")
                      (now_iso w')), w')
              else
                (StorageError ("Database storage failed: " +:+ exn_str e)
                   (Some "STORAGE_ERROR"), w')
          end
      end.

End AadhaarExtractionTool.

(** ** DuplicateScanner: duplicate_data_identifier.py *)

(** A member of a duplicate group: the [record_info] dictionary. *)
Record record_info : Type := RecordInfo {
  ri_field_id : Z;
  ri_document_id : Z;
  ri_name : option string;
  ri_fathers_name : option string;
  ri_dob : option string;
  ri_gender : option string;
  ri_address : option string;
  ri_file_path : option string;
  ri_extraction_timestamp : option string;
  ri_extraction_confidence : option Qc;
  ri_created_at : string
}.

#[global] Instance record_info_eq_dec : EqDecision record_info.
Proof. solve_decision. Defined.

(** The [analysis] dictionary.  [same_gender] and [unique_genders] exist for
    Aadhaar groups, [same_father_name] and [unique_father_names] for PAN
    groups; the [unique_*] lists are [list(set)], in no particular order. *)
Record analysis : Type := Analysis {
  same_name : bool;
  same_dob : bool;
  same_gender : option bool;
  same_father_name : option bool;
  confidence_scores : list Qc;
  file_paths : list (option string);
  date_range_earliest : option string;
  date_range_latest : option string;
  unique_names : list string;
  unique_dobs : list string;
  unique_genders : option (list string);
  unique_father_names : option (list string);
  avg_confidence : Qc
}.

(** A duplicate group: the [duplicate_info] dictionary. *)
Record dup_group : Type := DupGroup {
  dg_number : string;
  dg_normalized : string;
  dg_duplicate_count : nat;
  dg_records : list record_info;
  dg_analysis : analysis
}.

Module DuplicateDataIdentifier.

Definition logger : string := "DuplicateDataIdentifier".

Definition normalize (k : doc_kind) : string -> string :=
  match k with
  | AADHAAR => DuplicateDataIdentifierNormalizer.normalize_aadhaar
  | PAN => DuplicateDataIdentifierNormalizer.normalize_pan
  end.

(** The [WHERE] clause of the grouping query: the identifier is not
    [NULL], is not [''] and [LENGTH(TRIM(...)) > 0]. *)
Definition eligible_number (n : option string) : bool :=
  match n with
  | None => false
  | Some s => Py.truthy s && (0 <? Sql.length (Sql.trim s))%nat
  end.

(** [COUNT( * )] of a group. *)
Definition number_count (a : string) (fs : list field_row) : nat :=
  List.length (filter (fun f => f_number f = Some a) fs).

(** [ORDER BY count DESC, "<identifier>"] *)
Definition group_order (x y : string * nat) : Prop :=
  (y.2 < x.2)%nat \/ (x.2 = y.2 /\ Sql.text_le x.1 y.1 = true).

#[global] Instance group_order_dec x y : Decision (group_order x y).
Proof. unfold group_order. apply _. Defined.

(** The grouping query: the identifiers that occur in more than one row,
    with their counts. *)
Definition duplicate_groups (fs : list field_row) : list (string * nat) :=
  merge_sort group_order
    (filter (fun p => (1 < p.2)%nat)
       ((fun a => (a, number_count a fs))
          <$> remove_dups
                (omap (fun f => if eligible_number (f_number f)
                                then f_number f else None) fs))).

Definition make_record (f : field_row) (d : doc_row) : record_info :=
  RecordInfo (f_id f) (d_id d) (f_name f) (f_fathers_name f) (f_dob f)
    (f_gender f) (f_address f) (d_file_path d) (d_extraction_timestamp d)
    (d_extraction_confidence d) (d_created_at d).

(** [ORDER BY created_at ASC] *)
Definition created_order (x y : record_info) : Prop :=
  Sql.text_le (ri_created_at x) (ri_created_at y) = true.

#[global] Instance created_order_dec x y : Decision (created_order x y).
Proof. unfold created_order. apply _. Defined.

(** The detail query: [extracted_fields] joined with the document table
    on [ef.document_id = ad.id], restricted to one identifier. *)
Definition joined_records (a : string) (fs : list field_row)
    (ds : list doc_row) : list record_info :=
  merge_sort created_order
    (flat_map (fun f =>
       if decide (f_number f = Some a) then
         flat_map (fun d =>
           if decide (f_document_id f = Some (d_id d))
           then [make_record f d] else []) ds
       else []) fs).

(** [record[8] or 0] *)
Definition confidence_or_0 (c : option Qc) : Qc :=
  match c with Some q => q | None => 0%Qc end.

(** [names.add(record[2].strip().upper())] under [if record[2]] *)
Definition name_key (r : record_info) : option string :=
  match ri_name r with
  | Some s => if Py.truthy s then Some (Py.upper (Py.strip s)) else None
  | None => None
  end.

Definition father_name_key (r : record_info) : option string :=
  match ri_fathers_name r with
  | Some s => if Py.truthy s then Some (Py.upper (Py.strip s)) else None
  | None => None
  end.

(** [dobs.add(record[3])] under [if record[3]] *)
Definition dob_key (r : record_info) : option string :=
  match ri_dob r with
  | Some s => if Py.truthy s then Some s else None
  | None => None
  end.

(** [genders.add(record[4].upper())] under [if record[4]] *)
Definition gender_key (r : record_info) : option string :=
  match ri_gender r with
  | Some s => if Py.truthy s then Some (Py.upper s) else None
  | None => None
  end.

Definition key_set (key : record_info -> option string)
    (records : list record_info) : gset string :=
  list_to_set (omap key records).

(** The date-range bookkeeping of one loop round. *)
Definition track_date_range (acc : option string * option string)
    (r : record_info) : option string * option string :=
  let created := ri_created_at r in
  (match acc.1 with
   | Some e => if negb (Py.truthy e) || Py.str_lt created e
               then Some created else acc.1
   | None => Some created
   end,
   match acc.2 with
   | Some l => if negb (Py.truthy l) || Py.str_gt created l
               then Some created else acc.2
   | None => Some created
   end).

Definition sum_scores (l : list Qc) : Qc := foldr Qcplus 0%Qc l.

(** The analysis of the members of one group; the average raises
    [ZeroDivisionError] when the join returned no row. *)
Definition analyze (k : doc_kind) (records : list record_info)
  : result analysis :=
  let names := key_set name_key records in
  let dobs := key_set dob_key records in
  let scores := (fun r => confidence_or_0 (ri_extraction_confidence r))
                  <$> records in
  let range := foldl track_date_range (None, None) records in
  match records with
  | [] => Raise ZeroDivisionError
  | _ :: _ =>
      Ok (Analysis
            (bool_decide (size names <= 1)%nat)
            (bool_decide (size dobs <= 1)%nat)
            (match k with
             | AADHAAR =>
                 Some (bool_decide (size (key_set gender_key records) <= 1)%nat)
             | PAN => None
             end)
            (match k with
             | AADHAAR => None
             | PAN =>
                 Some (bool_decide
                         (size (key_set father_name_key records) <= 1)%nat)
             end)
            scores
            (ri_file_path <$> records)
            range.1 range.2
            (elements names) (elements dobs)
            (match k with
             | AADHAAR => Some (elements (key_set gender_key records))
             | PAN => None
             end)
            (match k with
             | AADHAAR => None
             | PAN => Some (elements (key_set father_name_key records))
             end)
            (sum_scores scores
             / Q2Qc (inject_Z (Z.of_nat (List.length scores))))%Qc)
  end.

(** One round of the loop over the duplicate groups. *)
Definition build_group (k : doc_kind) (documents : option (table doc_row))
    (fs : list field_row) (a : string) (count : nat) : result dup_group :=
  match documents with
  | None =>
      Raise (OperationalError
               ("no such table: " +:+ db_stem (kind_db k)))
  | Some dt =>
      let records := joined_records a fs (rows dt) in
      match analyze k records with
      | Raise e => Raise e
      | Ok an => Ok (DupGroup a (normalize k a) count records an)
      end
  end.

(** The loop: an exception leaves it with the groups built so far. *)
Fixpoint scan_groups (k : doc_kind) (documents : option (table doc_row))
    (fs : list field_row) (groups : list (string * nat))
    (duplicates : list dup_group) : list dup_group * option exn :=
  match groups with
  | [] => (duplicates, None)
  | (a, count) :: rest =>
      match build_group k documents fs a count with
      | Raise e => (duplicates, Some e)
      | Ok g => scan_groups k documents fs rest (duplicates ++ [g])
      end
  end.

Inductive scan_problem : Type :=
| DatabaseFileNotFound
| ScanError (e : exn).

(** [scan_aadhaar_duplicates] / [scan_pan_duplicates] as a function of the
    store: the groups returned and what was logged on the way. *)
Definition scan (k : doc_kind) (db : option database)
  : list dup_group * option scan_problem :=
  match db with
  | None => ([], Some DatabaseFileNotFound)
  | Some d =>
      match extracted_fields d with
      | None =>
          ([], Some (ScanError
                       (OperationalError "no such table: extracted_fields")))
      | Some ft =>
          let '(duplicates, caught) :=
            scan_groups k (documents d) (rows ft)
              (duplicate_groups (rows ft)) [] in
          (duplicates, ScanError <$> caught)
      end
  end.

Definition scan_label (k : doc_kind) : string :=
  match k with AADHAAR => "Aadhaar" | PAN => "PAN" end.

Definition log_scan_problem (k : doc_kind) (p : option scan_problem)
  : world -> world :=
  match p with
  | None => fun w => w
  | Some DatabaseFileNotFound =>
      emit logger WARNING
        (Text ("Database file not found: " +:+ db_path (kind_db k)))
  | Some (ScanError e) =>
      emit logger ERROR
        (Text ("Error scanning " +:+ scan_label k +:+ " duplicates: "
               +:+ exn_str e))
  end.

Definition scan_duplicates (k : doc_kind) : M (list dup_group) :=
  fun w =>
    let '(duplicates, problem) := scan k (get_db (kind_db k) w) in
    (Ok duplicates, log_scan_problem k problem w).

Definition scan_aadhaar_duplicates : M (list dup_group) :=
  scan_duplicates AADHAAR.

Definition scan_pan_duplicates : M (list dup_group) :=
  scan_duplicates PAN.

(** An entry of [report_data['data_quality_issues']]. *)
Record quality_issue : Type := QualityIssue {
  qi_type : string;
  qi_database : string;
  qi_count : nat;
  qi_description : string
}.

Record report_data : Type := ReportData {
  databases_scanned : list string;
  aadhaar_duplicates : list dup_group;
  pan_duplicates : list dup_group;
  data_quality_issues : list quality_issue
}.

Inductive severity : Type := LOW | MEDIUM | HIGH.

Record summary : Type := Summary {
  total_aadhaar_duplicate_groups : nat;
  total_pan_duplicate_groups : nat;
  total_aadhaar_duplicate_records : nat;
  total_pan_duplicate_records : nat;
  summary_data_quality_issues : nat;
  summary_databases_scanned : nat;
  summary_severity : severity
}.

Definition generate_summary_statistics (r : report_data) : summary :=
  let aadhaar_groups := List.length (aadhaar_duplicates r) in
  let pan_groups := List.length (pan_duplicates r) in
  Summary aadhaar_groups pan_groups
    (list_sum (dg_duplicate_count <$> aadhaar_duplicates r))
    (list_sum (dg_duplicate_count <$> pan_duplicates r))
    (List.length (data_quality_issues r))
    (List.length (databases_scanned r))
    (if (10 <? aadhaar_groups)%nat || (10 <? pan_groups)%nat then HIGH
     else if (5 <? aadhaar_groups)%nat || (5 <? pan_groups)%nat then MEDIUM
     else LOW).

End DuplicateDataIdentifier.

(** ** Cleanup planning: data_cleanup_migrator.py *)

(** The [cleanup_plan] dictionary. *)
Record cleanup_plan : Type := CleanupPlan {
  total_groups : nat;
  records_to_keep : list record_info;
  records_to_remove : list record_info;
  merge_candidates : list record_info;
  manual_review_needed : list dup_group
}.

Module CleanupPlanning.

(** The sort key [(x['extraction_confidence'] or 0, x['created_at'])]. *)
Definition sort_key (r : record_info) : Qc * string :=
  (DuplicateDataIdentifier.confidence_or_0 (ri_extraction_confidence r),
   ri_created_at r).

(** [k1 < k2] on the key tuples: the first components decide unless they
    are equal. *)
Definition key_lt (k1 k2 : Qc * string) : bool :=
  match (k1.1 ?= k2.1)%Qc with
  | Lt => true
  | Gt => false
  | Eq => Py.str_lt k1.2 k2.2
  end.

(** [sorted(records, key=..., reverse=True)]: descending, and stable (members
    with equal keys keep their order). *)
Fixpoint insert_descending (x : record_info) (l : list record_info)
  : list record_info :=
  match l with
  | [] => [x]
  | y :: l' =>
      if key_lt (sort_key x) (sort_key y) then y :: insert_descending x l'
      else x :: l
  end.

Definition sorted_reverse (records : list record_info)
  : list record_info :=
  foldr insert_descending [] records.

(** [max(records, key=lambda x: x['extraction_confidence'] or 0)]: the
    first member that attains the maximum. *)
Definition max_by_confidence (records : list record_info)
  : result record_info :=
  match records with
  | [] => Raise (ValueError "max() arg is an empty sequence")
  | x :: rest =>
      Ok (foldl (fun best y =>
                   if Qclt_le_dec
                        (DuplicateDataIdentifier.confidence_or_0
                           (ri_extraction_confidence best))
                        (DuplicateDataIdentifier.confidence_or_0
                           (ri_extraction_confidence y))
                   then y else best) x rest)
  end.

(** [sorted_records[0]] and [sorted_records[1:]] *)
Definition keep_first (sorted_records : list record_info)
    (plan : cleanup_plan) : result cleanup_plan :=
  match sorted_records with
  | [] => Raise IndexError
  | first :: others =>
      Ok (CleanupPlan (total_groups plan)
            (records_to_keep plan ++ [first])
            (records_to_remove plan ++ others)
            (merge_candidates plan)
            (manual_review_needed plan))
  end.

(** The body of the loop over the duplicate groups. *)
Definition plan_group (g : dup_group) (plan : cleanup_plan)
  : result cleanup_plan :=
  let records := dg_records g in
  let an := dg_analysis g in
  if Nat.eqb (List.length records) 2 && same_name an && same_dob an then
    keep_first (sorted_reverse records) plan
  else if same_name an && same_dob an then
    keep_first (sorted_reverse records) plan
  else if Nat.eqb (List.length (unique_names an)) 1 then
    match max_by_confidence records with
    | Raise e => Raise e
    | Ok best_record =>
        Ok (CleanupPlan (total_groups plan)
              (records_to_keep plan ++ [best_record])
              (records_to_remove plan
               ++ filter (fun r => r <> best_record) records)
              (merge_candidates plan)
              (manual_review_needed plan))
    end
  else
    Ok (CleanupPlan (total_groups plan)
          (records_to_keep plan)
          (records_to_remove plan)
          (merge_candidates plan)
          (manual_review_needed plan ++ [g])).

Fixpoint plan_groups (groups : list dup_group) (plan : cleanup_plan)
  : result cleanup_plan :=
  match groups with
  | [] => Ok plan
  | g :: rest =>
      match plan_group g plan with
      | Raise e => Raise e
      | Ok plan' => plan_groups rest plan'
      end
  end.

Definition analyze_duplicates_for_cleanup (duplicates : list dup_group)
  : result cleanup_plan :=
  plan_groups duplicates
    (CleanupPlan (List.length duplicates) [] [] [] []).

End CleanupPlanning.

(** ** SchemaMigrator: database_schema_manager.py *)

(** [shutil.copy2(src, dst)] into a directory: a file of the same name is
    overwritten. *)
Definition write_backup (path : string) (content : database)
    (files : list backup_file) : list backup_file :=
  filter (fun f => bk_path f <> path) files ++ [BackupFile path content].

(** The text of the [OSError] of a failed copy. *)
Definition copy_error : exn := OSError "[Errno 28] No space left on device".

(** A call that leaves out a required positional argument: Python raises
    [TypeError] before the body of the callee runs. *)
Definition call_missing_argument {A} (callee missing : string) : M A :=
  raise (TypeError (callee +:+ "() missing 1 required positional argument: '"
                    +:+ missing +:+ "'")).

Module DatabaseSchemaManager.

Definition logger : string := "DatabaseSchemaManager".

Definition backup_dir : string := "database_backups".

Definition create_backup (i : db_id) : M string :=
  fun w =>
    match get_db i w with
    | None =>
        (Ok "",
         emit logger WARNING
           (Text ("Database " +:+ db_path i
                  +:+ " does not exist, skipping backup")) w)
    | Some d =>
        let backup_path :=
          backup_dir +:+ "/" +:+ db_stem i +:+ "_backup_" +:+ now_stamp w
          +:+ ".db" in
        if copy_ok w then
          (Ok backup_path,
           set_schema_backups
             (write_backup backup_path d (schema_backups w)) w)
        else
          (Raise copy_error,
           emit logger ERROR
             (Text ("Failed to create backup: " +:+ exn_str copy_error)) w)
    end.

Definition failed (what : string) (e : exn) : M bool :=
  act (emit logger ERROR (Text (what +:+ exn_str e))) ;;; ret false.

(** [create_users_table]: three statements of data definition, each of
    which takes effect as soon as it has run. *)
Definition create_users_table (i : db_id) : M bool :=
  fun w =>
    let '(d, w1) := connect i w in
    let d1 :=
      Database (documents d) (extracted_fields d)
        (match users d with Some u => Some u | None => Some [] end)
        (user_documents d) (indexes d) in
    let w2 := commit i d1 w1 in
    if bool_decide ("idx_users_aadhaar" ∈ indexes d1)
       || bool_decide (NoDup (u_aadhaar_number <$> default [] (users d1)))
    then
      let d2 :=
        Database (documents d1) (extracted_fields d1) (users d1)
          (match user_documents d1 with
           | Some u => Some u
           | None => Some (UserDocuments [] KeyUserType)
           end)
          (if bool_decide ("idx_users_aadhaar" ∈ indexes d1)
           then indexes d1 else indexes d1 ++ ["idx_users_aadhaar"]) in
      (Ok true, commit i d2 w2)
    else
      failed "Failed to create users table: "
        (IntegrityError "UNIQUE constraint failed: users.aadhaar_number") w2.

(** [add_user_id_columns] on the document table and the field table of
    the store. *)
Definition add_user_id_columns (i : db_id) : M bool :=
  fun w =>
    let '(d, w1) := connect i w in
    match documents d with
    | None =>
        failed "Failed to add user_id columns: "
          (OperationalError ("no such table: " +:+ db_stem i)) w1
    | Some dt =>
        let d1 :=
          Database (Some (Table (rows dt) true (last_rowid dt)))
            (extracted_fields d) (users d) (user_documents d) (indexes d) in
        let w2 := commit i d1 w1 in
        match extracted_fields d1 with
        | None =>
            failed "Failed to add user_id columns: "
              (OperationalError "no such table: extracted_fields") w2
        | Some ft =>
            (Ok true,
             commit i
               (Database (documents d1)
                  (Some (Table (rows ft) true (last_rowid ft)))
                  (users d1) (user_documents d1) (indexes d1)) w2)
        end
    end.

(** [CREATE UNIQUE INDEX <name> ON extracted_fields([<field>])] *)
Definition create_unique_index (i : db_id) (c : fields_column)
    (index_name : string) (d : database) : result database :=
  match extracted_fields d with
  | None => Raise (OperationalError "no such table: main.extracted_fields")
  | Some ft =>
      if negb (store_has_column i c) then
        Raise (OperationalError ("no such column: " +:+ column_name i c))
      else if bool_decide (NoDup (omap (column_value c) (rows ft))) then
        Ok (Database (documents d) (extracted_fields d) (users d)
              (user_documents d) (indexes d ++ [index_name]))
      else
        Raise (IntegrityError
                 ("UNIQUE constraint failed: extracted_fields."
                  +:+ column_name i c))
  end.

(** [add_unique_constraints(db_path, 'extracted_fields', unique_field)] *)
Definition add_unique_constraints (i : db_id) (unique_field : fields_column)
  : M bool :=
  try_except
    (with_connection i (fun d w =>
       let index_name :=
         unique_index_name "extracted_fields" (column_name i unique_field) in
       if bool_decide (index_name ∈ indexes d) then (Ok (true, d), w)
       else
         match create_unique_index i unique_field index_name d with
         | Raise e => (Raise e, w)
         | Ok d' => (Ok (true, d'), w)
         end))
    (failed "Failed to add unique constraints: ").

(** [add_foreign_key_constraints(db_path, table_name)]: the pragma holds
    for the connection only. *)
Definition add_foreign_key_constraints (i : db_id) (table_name : string)
  : M bool :=
  with_connection i (fun d w => (Ok (true, d), w)).

Definition verify_schema_changes (i : db_id) : M schema_verification :=
  with_connection i (fun d w =>
    (Ok (SchemaVerification
           (bool_decide (is_Some (users d)))
           (bool_decide (is_Some (user_documents d)))
           (List.length
              (filter (fun n => Py.contains "unique" (Py.lower n) = true)
                 (indexes d)))
           (match i, documents d with
            | AadhaarDb, Some t => has_user_id t
            | _, _ => false
            end)
           (match i, documents d with
            | PanDb, Some t => has_user_id t
            | _, _ => false
            end)
           (match extracted_fields d with
            | Some t => has_user_id t
            | None => false
            end), d), w)).

Definition log_migration (operation status : string)
    (backup_path : option string) (verification : option schema_verification)
    (error : option string) : M unit :=
  fun w =>
    (Ok tt,
     set_schema_migration_log
       (schema_migration_log w
        ++ [SchemaLogEntry (now_iso w) operation status backup_path
              verification error]) w).

Definition kind_label (k : doc_kind) : string :=
  match k with AADHAAR => "Aadhaar" | PAN => "PAN" end.

Definition operation_name (k : doc_kind) : string :=
  match k with
  | AADHAAR => "aadhaar_migration"
  | PAN => "pan_migration"
  end.

(** [migrate_aadhaar_database] / [migrate_pan_database].  The call of
    [add_foreign_key_constraints] passes the path only. *)
Definition migrate_database (k : doc_kind) : M bool :=
  let i := kind_db k in
  try_except
    (backup_path <- create_backup i ;;
     created <- create_users_table i ;;
     (if negb created
      then raise (PlainException "Failed to create users table")
      else ret tt) ;;;
     added <- add_user_id_columns i ;;
     (if negb added
      then raise (PlainException "Failed to add user_id columns")
      else ret tt) ;;;
     constrained <- add_unique_constraints i ColNumber ;;
     (if negb constrained
      then act (emit logger WARNING
                  (Text "Failed to add unique constraint - may already exist or have duplicates"))
      else ret tt) ;;;
     (call_missing_argument
        "DatabaseSchemaManager.add_foreign_key_constraints" "table_name"
      : M bool) ;;;
     verification <- verify_schema_changes i ;;
     log_migration (operation_name k) "success" (Some backup_path)
       (Some verification) None ;;;
     ret true)
    (fun e =>
       act (emit logger ERROR
              (Text (kind_label k +:+ " database migration failed: "
                     +:+ exn_str e))) ;;;
       log_migration (operation_name k) "failed" None None
         (Some (exn_str e)) ;;;
       ret false).

Definition migrate_aadhaar_database : M bool := migrate_database AADHAAR.

Definition migrate_pan_database : M bool := migrate_database PAN.

Definition migrate_all_databases : M bool :=
  aadhaar_success <- migrate_aadhaar_database ;;
  pan_success <- migrate_pan_database ;;
  if aadhaar_success && pan_success then ret true
  else
    act (emit logger ERROR (Text "Some database migrations failed")) ;;;
    ret false.

End DatabaseSchemaManager.

(** ** CleanupOrchestrator: data_cleanup_migrator.py *)

(** What [cleanup_aadhaar_duplicates] / [cleanup_pan_duplicates] return. *)
Inductive cleanup_result : Type :=
| CleanupSuccess (removed_count kept_count : nat)
                 (manual_review : option (list dup_group))
| CleanupDryRun (plan : cleanup_plan) (would_remove would_keep : nat).

Inductive final_status : Type :=
| in_progress
| completed_successfully
| completed_with_warnings
| completed_with_errors
| failed.

(** The [migration_results] dictionary of [run_complete_migration]. *)
Record migration_results : Type := MigrationResults {
  mr_start_time : string;
  mr_dry_run : bool;
  steps_completed : list string;
  steps_failed : list string;
  backups_created : list string;
  mr_final_status : final_status;
  aadhaar_cleanup : option cleanup_result;
  pan_cleanup : option cleanup_result;
  user_migration : option user_migration_results;
  constraint_application : option constraint_results;
  integrity_verification : option integrity_results;
  mr_error : option string
}.

Definition add_step_completed (step : string) (r : migration_results)
  : migration_results :=
  MigrationResults (mr_start_time r) (mr_dry_run r)
    (steps_completed r ++ [step]) (steps_failed r) (backups_created r)
    (mr_final_status r) (aadhaar_cleanup r) (pan_cleanup r)
    (user_migration r) (constraint_application r)
    (integrity_verification r) (mr_error r).

Definition add_step_failed (step : string) (r : migration_results)
  : migration_results :=
  MigrationResults (mr_start_time r) (mr_dry_run r)
    (steps_completed r) (steps_failed r ++ [step]) (backups_created r)
    (mr_final_status r) (aadhaar_cleanup r) (pan_cleanup r)
    (user_migration r) (constraint_application r)
    (integrity_verification r) (mr_error r).

Definition set_backups_created (b : list string) (r : migration_results)
  : migration_results :=
  MigrationResults (mr_start_time r) (mr_dry_run r)
    (steps_completed r) (steps_failed r) b
    (mr_final_status r) (aadhaar_cleanup r) (pan_cleanup r)
    (user_migration r) (constraint_application r)
    (integrity_verification r) (mr_error r).

Definition set_final_status (st : final_status) (r : migration_results)
  : migration_results :=
  MigrationResults (mr_start_time r) (mr_dry_run r)
    (steps_completed r) (steps_failed r) (backups_created r)
    st (aadhaar_cleanup r) (pan_cleanup r)
    (user_migration r) (constraint_application r)
    (integrity_verification r) (mr_error r).

Definition set_cleanups (a p : cleanup_result) (r : migration_results)
  : migration_results :=
  MigrationResults (mr_start_time r) (mr_dry_run r)
    (steps_completed r) (steps_failed r) (backups_created r)
    (mr_final_status r) (Some a) (Some p)
    (user_migration r) (constraint_application r)
    (integrity_verification r) (mr_error r).

Definition set_user_migration (u : user_migration_results)
    (r : migration_results) : migration_results :=
  MigrationResults (mr_start_time r) (mr_dry_run r)
    (steps_completed r) (steps_failed r) (backups_created r)
    (mr_final_status r) (aadhaar_cleanup r) (pan_cleanup r)
    (Some u) (constraint_application r)
    (integrity_verification r) (mr_error r).

Definition set_constraint_application (c : constraint_results)
    (r : migration_results) : migration_results :=
  MigrationResults (mr_start_time r) (mr_dry_run r)
    (steps_completed r) (steps_failed r) (backups_created r)
    (mr_final_status r) (aadhaar_cleanup r) (pan_cleanup r)
    (user_migration r) (Some c)
    (integrity_verification r) (mr_error r).

Definition set_integrity_verification (v : integrity_results)
    (r : migration_results) : migration_results :=
  MigrationResults (mr_start_time r) (mr_dry_run r)
    (steps_completed r) (steps_failed r) (backups_created r)
    (mr_final_status r) (aadhaar_cleanup r) (pan_cleanup r)
    (user_migration r) (constraint_application r)
    (Some v) (mr_error r).

Definition set_error (e : string) (r : migration_results)
  : migration_results :=
  MigrationResults (mr_start_time r) (mr_dry_run r)
    (steps_completed r) (steps_failed r) (backups_created r)
    (mr_final_status r) (aadhaar_cleanup r) (pan_cleanup r)
    (user_migration r) (constraint_application r)
    (integrity_verification r) (Some e).

Module DataCleanupMigrator.

Definition logger : string := "DataCleanupMigrator".

Definition backup_dir : string := "migration_backups".

Definition create_migration_backup (i : db_id) : M string :=
  fun w =>
    match get_db i w with
    | None =>
        (Ok "",
         emit logger WARNING
           (Text ("Database " +:+ db_path i
                  +:+ " does not exist, skipping backup")) w)
    | Some d =>
        let backup_path :=
          backup_dir +:+ "/" +:+ db_stem i +:+ "_pre_migration_"
          +:+ now_stamp w +:+ ".db" in
        if copy_ok w then
          (Ok backup_path,
           set_ml_backups_created (ml_backups_created w ++ [backup_path])
             (set_migration_backups
                (write_backup backup_path d (migration_backups w)) w))
        else
          let error_msg :=
            "Failed to create backup for " +:+ db_path i +:+ ": "
            +:+ exn_str copy_error in
          (Raise (MigrationError "backup_creation" (db_path i)
                    (Some (exn_str copy_error))),
           set_ml_errors (ml_errors w ++ [error_msg])
             (emit logger ERROR (Text error_msg) w))
    end.

Definition analyze_duplicates_for_cleanup :=
  CleanupPlanning.analyze_duplicates_for_cleanup.

(** [DELETE FROM <fields> WHERE id = ?], then the document row as well
    when no field row refers to it any more. *)
Definition delete_record (i : db_id) (field_id document_id : Z)
    (d : database) : result database :=
  match extracted_fields d with
  | None => Raise (OperationalError "no such table: extracted_fields")
  | Some ft =>
      let remaining := filter (fun f => f_id f <> field_id) (rows ft) in
      let ft' := Table remaining (has_user_id ft) (last_rowid ft) in
      if Nat.eqb
           (List.length
              (filter (fun f => f_document_id f = Some document_id)
                 remaining)) 0
      then
        match documents d with
        | None => Raise (OperationalError ("no such table: " +:+ db_stem i))
        | Some dt =>
            Ok (Database
                  (Some (Table
                           (filter (fun x => d_id x <> document_id) (rows dt))
                           (has_user_id dt) (last_rowid dt)))
                  (Some ft') (users d) (user_documents d) (indexes d))
        end
      else
        Ok (Database (documents d) (Some ft') (users d) (user_documents d)
              (indexes d))
  end.

Definition remove_duplicate_record (i : db_id) (field_id document_id : Z)
  : M bool :=
  try_except
    (with_connection i (fun d w =>
       match delete_record i field_id document_id d with
       | Raise e => (Raise e, w)
       | Ok d' => (Ok (true, d'), w)
       end))
    (fun e =>
       act (emit logger ERROR
              (Text ("Error removing duplicate record: " +:+ exn_str e))) ;;;
       ret false).

(** The loop over [cleanup_plan['records_to_remove']]. *)
Fixpoint remove_records (i : db_id) (records : list record_info)
    (removed_count : nat) : M nat :=
  match records with
  | [] => ret removed_count
  | record :: rest =>
      removed <- remove_duplicate_record i (ri_field_id record)
                   (ri_document_id record) ;;
      remove_records i rest
        (if removed then S removed_count else removed_count)
  end.

(** [cleanup_aadhaar_duplicates] / [cleanup_pan_duplicates] *)
Definition cleanup_duplicates (k : doc_kind) (dry_run : bool)
  : M cleanup_result :=
  duplicates <- DuplicateDataIdentifier.scan_duplicates k ;;
  match duplicates with
  | [] => ret (CleanupSuccess 0 0 None)
  | _ :: _ =>
      match analyze_duplicates_for_cleanup duplicates with
      | Raise e => raise e
      | Ok plan =>
          if dry_run then
            ret (CleanupDryRun plan
                   (List.length (records_to_remove plan))
                   (List.length (records_to_keep plan)))
          else
            removed_count <- remove_records (kind_db k)
                               (records_to_remove plan) 0 ;;
            (fun w =>
               (Ok tt,
                set_ml_operations
                  (ml_operations w
                   ++ [OpDuplicateCleanup k (now_iso w) removed_count
                         (List.length (records_to_keep plan))
                         (List.length (manual_review_needed plan))]) w)) ;;;
            ret (CleanupSuccess removed_count
                   (List.length (records_to_keep plan))
                   (Some (manual_review_needed plan)))
      end
  end.

Definition cleanup_aadhaar_duplicates (dry_run : bool) : M cleanup_result :=
  cleanup_duplicates AADHAAR dry_run.

Definition cleanup_pan_duplicates (dry_run : bool) : M cleanup_result :=
  cleanup_duplicates PAN dry_run.

Definition apply_database_constraints : M constraint_results :=
  results <-
    try_except
      (aadhaar_applied <-
         DatabaseSchemaManager.add_unique_constraints AadhaarDb ColNumber ;;
       pan_applied <-
         DatabaseSchemaManager.add_unique_constraints PanDb ColNumber ;;
       ret (ConstraintResults aadhaar_applied pan_applied
              ((if aadhaar_applied then []
                else ["Failed to apply Aadhaar constraints"])
               ++ (if pan_applied then []
                   else ["Failed to apply PAN constraints"]))))
      (fun e =>
         let error_msg := "Error applying constraints: " +:+ exn_str e in
         act (emit logger ERROR (Text error_msg)) ;;;
         ret (ConstraintResults false false [error_msg])) ;;
  (fun w =>
     (Ok tt,
      set_ml_operations
        (ml_operations w ++ [OpApplyConstraints (now_iso w) results]) w)) ;;;
  ret results.

(** The coverage check of one store. *)
Definition check_coverage (i : db_id)
  : M (option coverage * list integrity_issue) :=
  try_except
    (with_connection i (fun d w =>
       match extracted_fields d with
       | None =>
           (Raise (OperationalError "no such table: extracted_fields"), w)
       | Some ft =>
           if negb (has_user_id ft) then
             (Raise (OperationalError "no such column: user_id"), w)
           else
             let total_records := List.length (rows ft) in
             let records_with_user_id :=
               List.length (filter (fun f => is_Some (f_user_id f))
                              (rows ft)) in
             (Ok ((Some (Coverage total_records records_with_user_id),
                   if Nat.eqb total_records 0
                      || (records_with_user_id <? total_records)%nat
                   then [RecordsWithoutUserId i total_records
                           records_with_user_id]
                   else []), d), w)
       end))
    (fun e => ret (None, [CoverageCheckError i e])).

Definition verify_migration_integrity : M integrity_results :=
  results <-
    try_except
      (remaining_aadhaar_dups <-
         DuplicateDataIdentifier.scan_aadhaar_duplicates ;;
       remaining_pan_dups <- DuplicateDataIdentifier.scan_pan_duplicates ;;
       aadhaar <- check_coverage AadhaarDb ;;
       pan <- check_coverage PanDb ;;
       ret (IntegrityResults
              (List.length remaining_aadhaar_dups)
              (List.length remaining_pan_dups)
              aadhaar.1 pan.1
              ((match remaining_aadhaar_dups with
                | [] => []
                | _ => [RemainingDuplicateGroups AADHAAR
                          (List.length remaining_aadhaar_dups)]
                end)
               ++ (match remaining_pan_dups with
                   | [] => []
                   | _ => [RemainingDuplicateGroups PAN
                             (List.length remaining_pan_dups)]
                   end)
               ++ aadhaar.2 ++ pan.2)))
      (fun e =>
         act (emit logger ERROR
                (Text ("Error during integrity verification: "
                       +:+ exn_str e))) ;;;
         ret (IntegrityResults 0 0 None None [VerificationError e])) ;;
  (fun w =>
     (Ok tt,
      set_ml_operations
        (ml_operations w ++ [OpVerifyIntegrity (now_iso w) results]) w)) ;;;
  ret results.

(** The steps of [run_complete_migration] inside its [try]: each one
    works on the [migration_results] built so far and on the world, and
    either hands over to the next step or leaves with an exception. *)
Definition stage : Type :=
  migration_results -> world -> option exn * migration_results * world.

Definition finished : stage := fun r w => (None, r, w).

Definition run {A} (m : M A) (k : A -> stage) : stage :=
  fun r w =>
    match m w with
    | (Ok a, w') => k a r w'
    | (Raise e, w') => (Some e, r, w')
    end.

Definition update (f : migration_results -> migration_results) (k : stage)
  : stage :=
  fun r w => k (f r) w.

Definition abort (e : exn) : stage := fun r w => (Some e, r, w).

Section Pipeline.

(** [migrate_existing_data_to_user_system] walks the rows of a store
    on one connection while [get_or_create_user_id] writes to the same
    file on another; what SQLite's file locking makes of that is not
    part of this model.  The step is a parameter: it returns its result
    dictionary (it catches its own exceptions) and may change the
    world in any way. *)
Variable migrate_existing_data_to_user_system :
  world -> user_migration_results * world.

Definition step_create_backups (dry_run : bool) (k : stage) : stage :=
  if negb dry_run then
    run (create_migration_backup AadhaarDb) (fun aadhaar_backup =>
    run (create_migration_backup PanDb) (fun pan_backup =>
    update (set_backups_created [aadhaar_backup; pan_backup])
      (update (add_step_completed "create_backups") k)))
  else k.

Definition step_schema_updates (dry_run : bool) (k : stage) : stage :=
  if negb dry_run then
    run DatabaseSchemaManager.migrate_all_databases (fun migrated =>
      if migrated then update (add_step_completed "schema_updates") k
      else
        update (add_step_failed "schema_updates")
          (abort (MigrationError "schema_updates" "multiple databases"
                    None)))
  else k.

Definition step_cleanup_duplicates (dry_run : bool) (k : stage) : stage :=
  run (cleanup_aadhaar_duplicates dry_run) (fun aadhaar =>
  run (cleanup_pan_duplicates dry_run) (fun pan =>
  update (set_cleanups aadhaar pan)
    (update (add_step_completed "cleanup_duplicates") k))).

Definition step_user_migration (dry_run : bool) (k : stage) : stage :=
  if negb dry_run then
    run (fun w => let '(u, w') := migrate_existing_data_to_user_system w in
                  (Ok u, w'))
      (fun u =>
         update (set_user_migration u)
           (update (add_step_completed "user_migration") k))
  else k.

Definition step_apply_constraints (dry_run : bool) (k : stage) : stage :=
  if negb dry_run then
    run apply_database_constraints (fun c =>
      update (set_constraint_application c)
        (update (add_step_completed "apply_constraints") k))
  else k.

Definition step_verify_integrity (k : stage) : stage :=
  run verify_migration_integrity (fun v =>
    update (set_integrity_verification v)
      (update (add_step_completed "verify_integrity")
         (fun r w =>
            k (set_final_status
                 (match steps_failed r with
                  | [] =>
                      match issues v with
                      | [] => completed_successfully
                      | _ :: _ => completed_with_warnings
                      end
                  | _ :: _ => completed_with_errors
                  end) r) w))).

(** [run_complete_migration(dry_run)].  The copy of the result that is
    stored under [migration_log['final_results']] is the value
    returned. *)
Definition run_complete_migration (dry_run : bool)
  : world -> migration_results * world :=
  fun w =>
    let initial :=
      MigrationResults (now_iso w) dry_run [] [] [] in_progress
        None None None None None None in
    match
      step_create_backups dry_run
        (step_schema_updates dry_run
           (step_cleanup_duplicates dry_run
              (step_user_migration dry_run
                 (step_apply_constraints dry_run
                    (step_verify_integrity finished)))))
        initial w
    with
    | (None, r, w') => (r, w')
    | (Some e, r, w') =>
        let error_msg := "Migration failed: " +:+ exn_str e in
        (set_error error_msg (set_final_status failed r),
         set_ml_errors (ml_errors w' ++ [error_msg])
           (emit logger ERROR (Text error_msg) w'))
    end.

End Pipeline.

End DataCleanupMigrator.

(** ** Observations and sample stores *)

(** The users tables of both stores exist and are empty, nothing is cached. *)
Definition fresh_store (w : world) : Prop :=
  (exists d, aadhaar_db w = Some d /\ users d = Some [])
  /\ (exists d, pan_db w = Some d /\ users d = Some [])
  /\ cache w = ∅.

(** The [document_count] of a user as [get_user_by_id] reads it from the
    stores. *)
Definition stored_document_count (uid : string) (w : world) : option Z :=
  match fst (UserIDManager.get_user_by_id uid w) with
  | Ok (Some u) => Some (document_count u)
  | _ => None
  end.

(** A concrete fresh world, used to exercise the statements below. *)
Definition sample_fresh_world : world :=
  World (Some (Database None None (Some []) None []))
        (Some (Database None None (Some []) None []))
        ∅ (fun _ => "6f1c0a52-0000-4000-8000-000000000001") 0
        "2024-01-01T10:00:00" "20240101_100000" "2024-01-01 10:00:00"
        true [] [] [] [] [] [] [].

Definition q (n d : positive) : Qc := Q2Qc (Z.pos n # d).

(** The two-record store of the scan scenario. *)
Definition two_record_store : database :=
  Database
    (Some (Table [DocRow 1 (Some "a.pdf") (Some "AADHAAR") None
                    (Some (q 9 10)) None None "2024-01-01 10:00:00";
                  DocRow 2 (Some "b.pdf") (Some "AADHAAR") None
                    (Some (q 7 10)) None None "2024-01-02 10:00:00"] true 2))
    (Some (Table [FieldRow 1 (Some 1) (Some "X") None (Some "1/1/2000")
                    None None (Some "A1") None;
                  FieldRow 2 (Some 2) (Some "X") None (Some "1/1/2000")
                    None None (Some "A1") None] true 2))
    (Some []) None [].

(** A store in which one Aadhaar number was recorded once with and once
    without separators. *)
Definition spaced_store : database :=
  Database
    (Some (Table [DocRow 1 (Some "a.pdf") (Some "AADHAAR") None
                    (Some (q 9 10)) None None "2024-01-01 10:00:00";
                  DocRow 2 (Some "b.pdf") (Some "AADHAAR") None
                    (Some (q 9 10)) None None "2024-01-02 10:00:00"] true 2))
    (Some (Table [FieldRow 1 (Some 1) (Some "John Doe") None
                    (Some "01/01/1990") (Some "Male") None
                    (Some "1234 5678 9012") None;
                  FieldRow 2 (Some 2) (Some "John Doe") None
                    (Some "01/01/1990") (Some "Male") None
                    (Some "123456789012") None] true 2))
    (Some []) None [].



(** A world in which no database file exists yet; [uuid4] hands out
    distinct identifiers. *)
Definition blank_world : world :=
  World None None ∅
        (fun n => "6f1c0a52-0000-4000-8000-00000000000" +:+ show_nat n) 0
        "2024-01-01T10:00:00" "20240101_100000" "2024-01-01 10:00:00"
        true [] [] [] [] [] [] [].

(** The world after [AadhaarExtractionTool(...)] has been constructed. *)
Definition tool_world : world := (AadhaarExtractionTool.init blank_world).2.

(** A successful extraction of an Aadhaar number and a name. *)
Definition ingest (number name : string) : extraction_result :=
  ExtractionResult (Some "success") (Some "card.pdf") (Some "AADHAAR")
    (Some "2024-01-01T10:00:00") (Some (q 7 10)) (Some "raw")
    (Some (ExtractedData (Some name) None None None (Some number) None None)).

(** Modelled from the spec: the confidence score of a member, as it is
    stored with its document; a member without a score counts as 0. *)
Definition confidence_score (r : record_info) : Qc :=
  match ri_extraction_confidence r with
  | Some score => score
  | None => 0%Qc
  end.

(** The first member of a list is not below any member in the order of
    the sort key. *)
Definition head_dominates (l : list record_info) : Prop :=
  match l with
  | [] => True
  | k :: _ =>
      forall r, r ∈ l ->
        CleanupPlanning.key_lt (CleanupPlanning.sort_key k)
          (CleanupPlanning.sort_key r) = false
  end.

(** The group that the scan builds for one row of the grouping query. *)
Definition group_of (k : doc_kind) (fs : list field_row)
    (ds : list doc_row) (p : string * nat) (g : dup_group) : Prop :=
  dg_number g = p.1
  /\ dg_normalized g = DuplicateDataIdentifier.normalize k p.1
  /\ dg_duplicate_count g = p.2
  /\ dg_records g = DuplicateDataIdentifier.joined_records p.1 fs ds
  /\ DuplicateDataIdentifier.analyze k (dg_records g) = Ok (dg_analysis g).

(** What a step that only reads leaves behind: every store that exists is
    as it was, a store whose file is missing is still missing or has been
    created empty by a connection, and the cache, the backups and the
    [uuid4] counter are as they were. *)
Definition read_only_step (w w' : world) : Prop :=
  (forall i d, get_db i w = Some d -> get_db i w' = Some d)
  /\ (forall i, get_db i w = None ->
        get_db i w' = None \/ get_db i w' = Some empty_database)
  /\ cache w' = cache w
  /\ migration_backups w' = migration_backups w
  /\ schema_backups w' = schema_backups w
  /\ ml_backups_created w' = ml_backups_created w
  /\ uuid_calls w' = uuid_calls w.

(** A PAN store without rows. *)
Definition pan_store : database :=
  Database (Some (Table [] true 0)) (Some (Table [] true 0)) (Some []) None [].

(** The world of a migrator whose Aadhaar store is the two-record store. *)
Definition migrator_world : world :=
  World (Some two_record_store) (Some pan_store) ∅
        (fun n => "6f1c0a52-0000-4000-8000-00000000000" +:+ show_nat n) 0
        "2024-01-01T10:00:00" "20240101_100000" "2024-01-01 10:00:00"
        true [] [] [] [] [] [] [].

(** The world of a migrator whose stores hold the identity ledger only:
    the document tables have not been created. *)
Definition ledger_only_world : world :=
  World (Some (Database None None (Some []) None []))
        (Some (Database None None (Some []) None []))
        ∅ (fun n => "6f1c0a52-0000-4000-8000-00000000000" +:+ show_nat n) 0
        "2024-01-01T10:00:00" "20240101_100000" "2024-01-01 10:00:00"
        true [] [] [] [] [] [] [].

(** A user-migration step that finds nothing to do. *)
Definition no_user_migration (w : world) : user_migration_results * world :=
  (UserMigrationResults 0 0 0 0 [], w).

(** Whether a logged message tells its reader to scan for duplicates and
    clean them up. *)
Definition instructs_scan_and_cleanup (m : log_message) : bool :=
  match m with
  | Text t =>
      Py.contains "scan" (Py.lower t) && Py.contains "clean" (Py.lower t)
  | DuplicateAttemptBlocked _ _ => false
  end.

(** The statement under test for [add_unique_constraints]: when duplicate
    values stand in the way of the index, some logged message instructs the
    caller to run the scanner and the cleanup. *)
Definition constraint_failure_instructs_cleanup (i : db_id)
    (c : fields_column) (w : world) : Prop :=
  forall d ft,
    get_db i w = Some d ->
    extracted_fields d = Some ft ->
    ~ NoDup (omap (column_value c) (rows ft)) ->
    exists record,
      record ∈ log (DatabaseSchemaManager.add_unique_constraints i c w).2
      /\ instructs_scan_and_cleanup (lr_message record) = true.

(** The statement under test for the dry run: it plans the duplicate
    cleanup and stops there. *)
Definition dry_run_stops_after_planning
    (user_step : world -> user_migration_results * world) (w : world)
  : Prop :=
  let r := (DataCleanupMigrator.run_complete_migration user_step true w).1 in
  steps_completed r = ["cleanup_duplicates"]
  /\ integrity_verification r = None.

(** The statement under test for a failing step: verification still runs
    and the run ends as [completed_with_errors]. *)
Definition step_failure_completes_with_errors
    (user_step : world -> user_migration_results * world) (dry_run : bool)
    (w : world) : Prop :=
  let r :=
    (DataCleanupMigrator.run_complete_migration user_step dry_run w).1 in
  steps_failed r <> [] ->
  mr_final_status r = completed_with_errors
  /\ "verify_integrity" ∈ steps_completed r.

(** An analysis with nothing in it. *)
Definition empty_analysis : analysis :=
  Analysis true true None None [] [] None None [] [] None None 0%Qc.

(** The Aadhaar group of an identifier with the given members, analysed as
    the scanner does. *)
Definition aadhaar_group (number : string) (records : list record_info)
  : dup_group :=
  DupGroup number (DuplicateDataIdentifier.normalize AADHAAR number)
    (List.length records) records
    (match DuplicateDataIdentifier.analyze AADHAAR records with
     | Ok an => an
     | Raise _ => empty_analysis
     end).

Definition member (field_id : Z) (name : string) (confidence : Qc)
    (created : string) : record_info :=
  RecordInfo field_id field_id (Some name) None (Some "1/1/2000") None None
    (Some "card.pdf") None (Some confidence) created.

(** Two members of one name and date of birth. *)
Definition agreeing_group : dup_group :=
  aadhaar_group "A1"
    [member 1 "X" (q 7 10) "2024-01-01 10:00:00";
     member 2 " x " (q 9 10) "2024-01-02 10:00:00"].

(** Two members whose names differ. *)
Definition disagreeing_group : dup_group :=
  aadhaar_group "A1"
    [member 1 "X" (q 7 10) "2024-01-01 10:00:00";
     member 2 "Y" (q 9 10) "2024-01-02 10:00:00"].

Definition empty_plan : cleanup_plan := CleanupPlan 0 [] [] [] [].

(** ** Further observations *)

(** The [primary_name] of a user as [get_user_by_id] reads it from the
    stores. *)
Definition stored_primary_name (uid : string) (w : world) : option string :=
  match fst (UserIDManager.get_user_by_id uid w) with
  | Ok (Some u) => Some (primary_name u)
  | _ => None
  end.

(** Two databases that differ in their users table at most. *)
Definition same_documents (d d' : database) : Prop :=
  documents d' = documents d
  /\ extracted_fields d' = extracted_fields d
  /\ user_documents d' = user_documents d
  /\ indexes d' = indexes d.

(** A step that leaves every existing store as it is. *)
Definition stores_kept (w w' : world) : Prop :=
  forall i d, get_db i w = Some d -> get_db i w' = Some d.

(** A step that writes to the users tables only. *)
Definition users_only_step (w w' : world) : Prop :=
  forall i d, get_db i w = Some d ->
    exists d', get_db i w' = Some d' /\ same_documents d d'.

(** A computation whose final world is related to its initial one. *)
Definition preserves {A} (R : world -> world -> Prop) (m : M A) : Prop :=
  forall w, R w (m w).2.

(** A world that differs from another one outside the stores only. *)
Definition same_stores (w w' : world) : Prop :=
  forall i, get_db i w' = get_db i w.

(** The identifiers held by the field rows of a store. *)
Definition stored_numbers (d : database) : list string :=
  omap f_number (default [] (rows <$> extracted_fields d)).

(** The name of the unique index on the Aadhaar column. *)
Definition aadhaar_unique_index : string :=
  unique_index_name "extracted_fields" (column_name AadhaarDb ColNumber).

(** The document and field tables exist and every field row refers to a
    document row of the store. *)
Definition well_linked (d : database) : Prop :=
  exists dt ft,
    documents d = Some dt /\ extracted_fields d = Some ft
    /\ forall f, f ∈ rows ft ->
         exists doc, doc ∈ rows dt /\ f_document_id f = Some (d_id doc).

(** The rows that the lookup query joins for an identifier. *)
Definition joined_existing (i : db_id) (n : string) (fs : list field_row)
    (ds : list doc_row) : list existing_record :=
  flat_map (fun f =>
    if decide (f_number f = Some n) then
      flat_map (fun doc =>
        if decide (f_document_id f = Some (d_id doc)) then
          [ExistingRecord (f_id f) (f_document_id f) (f_number f)
             (f_name f) (d_file_path doc) (d_created_at doc)
             (DuplicatePreventionService.database_label i) "extracted_fields"]
        else []) ds
    else []) fs.

(** The store of a world, or the empty database when the file is missing. *)
Definition store_of (i : db_id) (w : world) : database :=
  default empty_database (get_db i w).

(** The world after the tool has stored a first Aadhaar document. *)
Definition ingested_world : world :=
  (AadhaarExtractionTool.store_in_database
     (ingest "123456789012" "John Doe") tool_world).2.

(** The world of a tool whose store carries the unique index on the
    Aadhaar column. *)
Definition indexed_world : world :=
  (DatabaseSchemaManager.add_unique_constraints AadhaarDb ColNumber
     tool_world).2.

(** Two members of one name whose dates of birth differ. *)
Definition other_dob_group : dup_group :=
  aadhaar_group "A1"
    [RecordInfo 1 1 (Some "X") None (Some "1/1/2000") None None
       (Some "a.pdf") None (Some (q 7 10)) "2024-01-01 10:00:00";
     RecordInfo 2 2 (Some "X") None (Some "2/2/2000") None None
       (Some "b.pdf") None (Some (q 9 10)) "2024-01-02 10:00:00";
     RecordInfo 3 3 (Some "x") None (Some "1/1/2000") None None
       (Some "c.pdf") None (Some (q 9 10)) "2024-01-03 10:00:00"].

(** Whether the cleanup plan resolves a group by itself: one of the first
    three branches of the loop of [analyze_duplicates_for_cleanup]
    applies to it. *)
Definition auto_resolved (g : dup_group) : bool :=
  (same_name (dg_analysis g) && same_dob (dg_analysis g))
  || Nat.eqb (List.length (unique_names (dg_analysis g))) 1.

(** Three groups: one that agrees on name and date of birth, one whose
    names differ, one whose dates of birth differ. *)
Definition sample_groups : list dup_group :=
  [agreeing_group; disagreeing_group; other_dob_group].

(** The plan made for a list of groups, or the empty plan when planning
    fails. *)
Definition plan_of (groups : list dup_group) : cleanup_plan :=
  match CleanupPlanning.analyze_duplicates_for_cleanup groups with
  | Ok plan => plan
  | Raise _ => empty_plan
  end.

(** The file that a path names, for the paths the world knows: those of
    the two stores and those of the backups taken. *)
Definition read_file (path : string) (w : world) : option database :=
  if String.eqb path (db_path AadhaarDb) then aadhaar_db w
  else if String.eqb path (db_path PanDb) then pan_db w
  else
    bk_content
      <$> List.find (fun f => String.eqb (bk_path f) path)
            (schema_backups w ++ migration_backups w).

(** database_schema_manager.py, [restore_backup(backup_path,
    target_db_path)] with one of the two stores as target:
    [shutil.copy2] refuses to copy a file onto itself. *)
Definition restore_backup (backup_path : string) (target : db_id) : M bool :=
  fun w =>
    match read_file backup_path w with
    | None =>
        (Ok false,
         emit DatabaseSchemaManager.logger ERROR
           (Text ("Backup file not found: " +:+ backup_path)) w)
    | Some content =>
        if String.eqb backup_path (db_path target) then
          DatabaseSchemaManager.failed "Failed to restore backup: "
            (OSError ("'" +:+ backup_path +:+ "' and '" +:+ db_path target
                      +:+ "' are the same file")) w
        else if copy_ok w then (Ok true, set_db target (Some content) w)
        else
          DatabaseSchemaManager.failed "Failed to restore backup: "
            copy_error w
    end.

(** The tables of a store are keyed: the document and the field table
    exist, every field row refers to a document of the store, and no two
    rows of a table share their [id] (the primary key). *)
Definition keyed_store (d : database) : Prop :=
  well_linked d
  /\ NoDup (f_id <$> default [] (rows <$> extracted_fields d))
  /\ NoDup (d_id <$> default [] (rows <$> documents d)).

(** What the loop body of [analyze_duplicates_for_cleanup] decides for
    one group: the record to keep and the records to remove, or nothing
    when the group goes to manual review. *)
Definition choice (g : dup_group)
  : result (option (record_info * list record_info)) :=
  let records := dg_records g in
  let an := dg_analysis g in
  if same_name an && same_dob an then
    match CleanupPlanning.sorted_reverse records with
    | [] => Raise IndexError
    | first :: others => Ok (Some (first, others))
    end
  else if Nat.eqb (List.length (unique_names an)) 1 then
    match CleanupPlanning.max_by_confidence records with
    | Raise e => Raise e
    | Ok best_record =>
        Ok (Some (best_record, filter (fun r => r <> best_record) records))
    end
  else Ok None.

(** The records that the plan removes from a group. *)
Definition removed_of (g : dup_group) : list record_info :=
  match choice g with
  | Ok (Some (_, removed)) => removed
  | _ => []
  end.

(** The field ids that the removal loop is called with, and the field
    rows that it leaves. *)
Definition removed_ids (gs : list dup_group) : list Z :=
  ri_field_id <$> List.concat (removed_of <$> gs).

Definition remaining (gs : list dup_group) (fs : list field_row)
  : list field_row :=
  filter (fun f => f_id f ∉ removed_ids gs) fs.

(** [INSERT INTO users (user_id, aadhaar_number, primary_name, created_at,
    updated_at, document_count) VALUES (?, ?, ?, ?, ?, ?)] under the
    table's constraints. *)
Definition insert_users_row (r : users_row) (d : database)
  : result database :=
  match users d with
  | None => Raise (OperationalError "no such table: users")
  | Some us =>
      if existsb (fun x => String.eqb (u_user_id x) (u_user_id r)) us then
        Raise (IntegrityError "UNIQUE constraint failed: users.user_id")
      else if existsb (fun x => String.eqb (u_aadhaar_number x)
                                  (u_aadhaar_number r)) us
      then
        Raise (IntegrityError "UNIQUE constraint failed: users.aadhaar_number")
      else
        Ok (Database (documents d) (extracted_fields d) (Some (us ++ [r]))
              (user_documents d) (indexes d))
  end.

(** The store that [sync_user_across_databases] writes to. *)
Definition target_db (source : db_id) : db_id :=
  match source with AadhaarDb => PanDb | PanDb => AadhaarDb end.

(** [sync_user_across_databases] *)
Definition sync_user_across_databases (uid : string) : M bool :=
  user_data <- UserIDManager.get_user_by_id uid ;;
  match user_data with
  | None => ret false
  | Some u =>
      try_except
        (with_connection (target_db (source_db u)) (fun d w =>
           match UserIDManager.select_by_id uid d with
           | Raise e => (Raise e, w)
           | Ok (Some _) => (Ok (true, d), w)
           | Ok None =>
               match insert_users_row
                       (UsersRow (user_id u) (aadhaar_number u)
                          (primary_name u) (created_at u) (updated_at u)
                          (document_count u)) d with
               | Raise e => (Raise e, w)
               | Ok d' => (Ok (true, d'), w)
               end
           end))
        (fun e =>
           act (emit UserIDManager.logger ERROR
                  (Text ("Error syncing user across databases: "
                         +:+ exn_str e))) ;;;
           ret false)
  end.

(** The dictionary returned by [get_user_statistics]. *)
Record user_statistics : Type := UserStatistics {
  total_users : nat;
  aadhaar_db_users : nat;
  pan_db_users : nat;
  users_with_multiple_docs : nat
}.

(** One round of the first loop of [get_user_statistics]: the number of
    users and the number of users with more than one document, or nothing
    when a query fails. *)
Definition count_users_in (i : db_id) : M (option (nat * nat)) :=
  try_except
    (with_connection i (fun d w =>
       match users d with
       | None => (Raise (OperationalError "no such table: users"), w)
       | Some us =>
           (Ok (Some (List.length us,
                      List.length
                        (filter (fun r => (1 < u_document_count r)%Z) us)),
                d), w)
       end))
    (fun e =>
       act (emit UserIDManager.logger ERROR
              (Text ("Error getting statistics from " +:+ db_path i +:+ ": "
                     +:+ exn_str e))) ;;;
       ret None).

(** One round of its second loop: the user ids of a store. *)
Definition user_ids_in (i : db_id) : M (list string) :=
  try_except
    (with_connection i (fun d w =>
       match users d with
       | None => (Raise (OperationalError "no such table: users"), w)
       | Some us => (Ok (u_user_id <$> us, d), w)
       end))
    (fun e =>
       act (emit UserIDManager.logger ERROR
              (Text ("Error counting unique users from " +:+ db_path i
                     +:+ ": " +:+ exn_str e))) ;;;
       ret []).

(** [get_user_statistics] *)
Definition get_user_statistics : M user_statistics :=
  a <- count_users_in AadhaarDb ;;
  p <- count_users_in PanDb ;;
  ids_a <- user_ids_in AadhaarDb ;;
  ids_p <- user_ids_in PanDb ;;
  let all_user_ids : gset string := list_to_set (ids_a ++ ids_p) in
  ret (UserStatistics (size all_user_ids)
         (default 0%nat (fst <$> a)) (default 0%nat (fst <$> p))
         (default 0%nat (snd <$> a) + default 0%nat (snd <$> p))).

(** The world after a first user has been registered in the Aadhaar
    store. *)
Definition registered_world : world :=
  (UserIDManager.get_or_create_user_id (Some "1234 5678 9012")
     (Some "John Doe") None sample_fresh_world).2.

(** [check_database_exists]: whether the file is there; querying
    [sqlite_master] of a database does not fail. *)
Definition check_database_exists (i : db_id) : M bool :=
  fun w =>
    match get_db i w with
    | None =>
        (Ok false,
         emit DuplicateDataIdentifier.logger WARNING
           (Text ("Database file not found: " +:+ db_path i)) w)
    | Some _ => (Ok true, w)
    end.

(** A text value as the C string that [GLOB] sees: the characters before
    the first NUL. *)
Fixpoint c_str (s : string) : string :=
  match s with
  | EmptyString => EmptyString
  | String c s' => if Ascii.eqb c "000" then EmptyString else String c (c_str s')
  end.

(** [x GLOB '[A-Z][A-Z][A-Z][A-Z][A-Z][0-9][0-9][0-9][0-9][A-Z]'] *)
Definition glob_pan (x : string) : bool :=
  match c_str x with
  | String a (String b (String c (String d (String e
      (String f (String g (String h (String i (String j EmptyString)))))))))
    =>
      Py.is_upper a && Py.is_upper b && Py.is_upper c && Py.is_upper d
      && Py.is_upper e && Py.is_digit f && Py.is_digit g && Py.is_digit h
      && Py.is_digit i && Py.is_upper j
  | _ => false
  end.

(** [LENGTH(REPLACE(REPLACE(x, ' ', ''), '-', ''))] *)
Definition compact_length (x : string) : nat :=
  Sql.length (Py.replace_char "-" "" (Py.replace_char " " "" x)).

(** The [WHERE] clauses of the three counting queries of
    [scan_data_quality_issues]. *)
Definition invalid_aadhaar_format (f : field_row) : bool :=
  match f_number f with
  | None => false
  | Some x => Py.truthy x && negb (Nat.eqb (compact_length x) 12)
  end.

Definition missing_name (f : field_row) : bool :=
  match f_name f with
  | None => true
  | Some n => negb (Py.truthy n) || Nat.eqb (Sql.length (Sql.trim n)) 0
  end.

Definition invalid_pan_format (f : field_row) : bool :=
  match f_number f with
  | None => false
  | Some x =>
      Py.truthy x && (negb (Nat.eqb (Sql.length x) 10) || negb (glob_pan x))
  end.

(** [SELECT COUNT( * ) FROM extracted_fields WHERE ...] *)
Definition count_where (p : field_row -> bool) (d : database) : result nat :=
  match extracted_fields d with
  | None => Raise (OperationalError "no such table: extracted_fields")
  | Some ft => Ok (List.length (List.filter p (rows ft)))
  end.

(** [if count > 0: issues.append({...})] *)
Definition issue_if_any (type database : string) (count : nat)
    (description : string) : list DuplicateDataIdentifier.quality_issue :=
  if (0 <? count)%nat
  then [DuplicateDataIdentifier.QualityIssue type database count description]
  else [].

(** The Aadhaar half of [scan_data_quality_issues]: the issues appended
    before the block is left, normally or by an exception. *)
Definition aadhaar_quality_issues : M (list DuplicateDataIdentifier.quality_issue) :=
  found <- check_database_exists AadhaarDb ;;
  if found then
    fun w =>
      let '(d, w1) := connect AadhaarDb w in
      match count_where invalid_aadhaar_format d with
      | Raise e =>
          (Ok [],
           emit DuplicateDataIdentifier.logger ERROR
             (Text ("Error checking Aadhaar data quality: " +:+ exn_str e))
             w1)
      | Ok invalid_aadhaar_count =>
          let issues :=
            issue_if_any "invalid_aadhaar_format" "aadhaar"
              invalid_aadhaar_count
              "Aadhaar numbers with invalid format (not 12 digits)" in
          match count_where missing_name d with
          | Raise e =>
              (Ok issues,
               emit DuplicateDataIdentifier.logger ERROR
                 (Text ("Error checking Aadhaar data quality: "
                        +:+ exn_str e)) w1)
          | Ok missing_names =>
              (Ok (issues
                   ++ issue_if_any "missing_names" "aadhaar" missing_names
                        "Records with missing or empty names"),
               commit AadhaarDb d w1)
          end
      end
  else ret [].

(** The PAN half. *)
Definition pan_quality_issues : M (list DuplicateDataIdentifier.quality_issue) :=
  found <- check_database_exists PanDb ;;
  if found then
    fun w =>
      let '(d, w1) := connect PanDb w in
      match count_where invalid_pan_format d with
      | Raise e =>
          (Ok [],
           emit DuplicateDataIdentifier.logger ERROR
             (Text ("Error checking PAN data quality: " +:+ exn_str e)) w1)
      | Ok invalid_pan_count =>
          (Ok (issue_if_any "invalid_pan_format" "pan" invalid_pan_count
                 "PAN numbers with invalid format"),
           commit PanDb d w1)
      end
  else ret [].

(** [scan_data_quality_issues] *)
Definition scan_data_quality_issues : M (list DuplicateDataIdentifier.quality_issue) :=
  aadhaar_issues <- aadhaar_quality_issues ;;
  pan_issues <- pan_quality_issues ;;
  ret (aadhaar_issues ++ pan_issues).

(** [run_full_scan], from the [report_data] that the object holds to the
    one it returns, with the summary that it stores in it. *)
Definition run_full_scan (report : DuplicateDataIdentifier.report_data)
  : M (DuplicateDataIdentifier.report_data * DuplicateDataIdentifier.summary)
  :=
  aadhaar_found <- check_database_exists AadhaarDb ;;
  pan_found <- check_database_exists PanDb ;;
  let scanned :=
    DuplicateDataIdentifier.databases_scanned report
    ++ (if aadhaar_found then [db_path AadhaarDb] else [])
    ++ (if pan_found then [db_path PanDb] else []) in
  aadhaar_duplicates <- DuplicateDataIdentifier.scan_aadhaar_duplicates ;;
  pan_duplicates <- DuplicateDataIdentifier.scan_pan_duplicates ;;
  issues <- scan_data_quality_issues ;;
  let report' :=
    DuplicateDataIdentifier.ReportData scanned aadhaar_duplicates
      pan_duplicates issues in
  ret (report', DuplicateDataIdentifier.generate_summary_statistics report').

(** The characters of an Aadhaar number as it is usually written: digits,
    the mask letter in either case, spaces and hyphens. *)
Definition written_aadhaar_char (c : ascii) : bool :=
  Py.is_digit c || Ascii.eqb c "X" || Ascii.eqb c "x" || Ascii.eqb c " "
  || Ascii.eqb c "-".

Fixpoint all_chars (p : ascii -> bool) (s : string) : bool :=
  match s with
  | EmptyString => true
  | String c s' => p c && all_chars p s'
  end.

(** Whether [DuplicatePreventionService.normalize_aadhaar] warns about
    the stored number of a row. *)
Definition number_warns (f : field_row) : bool :=
  match f_number f with
  | None => false
  | Some x => DuplicatePreventionNormalizer.normalize_aadhaar_warns x
  end.

(** An entry of the [documents] list of [get_user_documents]. *)
Record listed_document : Type := ListedDocument {
  ld_document_id : Z;
  ld_file_path : option string;
  ld_extraction_timestamp : option string;
  ld_extraction_confidence : option Qc;
  ld_name : option string;
  ld_dob : option string;
  ld_gender : option string;
  ld_address : option string;
  ld_aadhaar_number : option string
}.

(** The dictionary returned by [get_user_documents]: the listing, or the
    error message. *)
Inductive user_documents_listing : Type :=
| ListingSuccess (user_id : string) (document_count : nat)
                 (documents : list listed_document)
| ListingError (error_message : string).

(** [ORDER BY ad.created_at DESC] on the rows of the join. *)
Definition newest_first (x y : doc_row * field_row) : Prop :=
  Sql.text_le (d_created_at y.1) (d_created_at x.1) = true.

#[global] Instance newest_first_dec x y : Decision (newest_first x y).
Proof. unfold newest_first. apply _. Defined.

(** The rows of [aadhaar_documents ad JOIN extracted_fields ef
    ON ad.id = ef.document_id WHERE ad.user_id = ?]. *)
Definition documents_of_user (uid : string) (ds : list doc_row)
    (fs : list field_row) : list (doc_row * field_row) :=
  flat_map (fun ad =>
    if decide (d_user_id ad = Some uid) then
      flat_map (fun ef =>
        if decide (f_document_id ef = Some (d_id ad)) then [(ad, ef)]
        else []) fs
    else []) ds.

(** The dictionary built from one row of the query. *)
Definition listed (row : doc_row * field_row) : listed_document :=
  ListedDocument (d_id row.1) (d_file_path row.1)
    (d_extraction_timestamp row.1) (d_extraction_confidence row.1)
    (f_name row.2) (f_dob row.2) (f_gender row.2) (f_address row.2)
    (f_number row.2).

(** [AadhaarExtractionTool.get_user_documents] *)
Definition get_user_documents (uid : string) : M user_documents_listing :=
  try_except
    (with_connection AadhaarDb (fun d w =>
       match documents d, extracted_fields d with
       | None, _ =>
           (Raise (OperationalError "no such table: aadhaar_documents"), w)
       | Some _, None =>
           (Raise (OperationalError "no such table: extracted_fields"), w)
       | Some dt, Some ft =>
           if negb (has_user_id dt) then
             (Raise (OperationalError "no such column: ad.user_id"), w)
           else
             let documents :=
               listed <$> merge_sort newest_first
                            (documents_of_user uid (rows dt) (rows ft)) in
             (Ok (ListingSuccess uid (List.length documents) documents, d),
              w)
       end))
    (fun e =>
       ret (ListingError
              ("Failed to retrieve user documents: " +:+ exn_str e))).

(* ===================================================================== *)
(** * Part II: properties *)
(* ===================================================================== *)

(** ** Normalization *)

Section NormalizeFacts.

Lemma upper_char_fixes_aadhaar_class c :
  aadhaar_class c = true -> Py.upper_char c = c.
Proof.
  destruct c as [[] [] [] [] [] [] [] []]; vm_compute; congruence.
Qed.

Lemma upper_char_fixes_pan_class c :
  pan_class c = true -> Py.upper_char c = c.
Proof.
  destruct c as [[] [] [] [] [] [] [] []]; vm_compute; congruence.
Qed.

Variable keep : ascii -> bool.
Hypothesis keep_upper : forall c, keep c = true -> Py.upper_char c = c.

Lemma re_sub_upper_fixpoint s :
  Py.re_sub_not_in keep (Py.upper (Py.re_sub_not_in keep s))
  = Py.re_sub_not_in keep s.
Proof.
  induction s as [|c s IH]; simpl; [reflexivity|].
  destruct (keep c) eqn:Hc; simpl; [|exact IH].
  rewrite (keep_upper c Hc), Hc, IH. reflexivity.
Qed.

Lemma normalize_generic_idempotent s :
  let norm x := if negb (Py.truthy x) then ""
                else Py.re_sub_not_in keep (Py.upper x) in
  norm (norm s) = norm s.
Proof.
  intros norm. unfold norm.
  destruct s as [|c s]; [reflexivity|].
  cbn [Py.truthy negb].
  destruct (Py.re_sub_not_in keep (Py.upper (String c s))) as [|d t] eqn:E;
    [reflexivity|].
  cbn [Py.truthy negb]. rewrite <- E.
  rewrite <- (re_sub_upper_fixpoint (Py.upper (String c s))) at 2.
  reflexivity.
Qed.

End NormalizeFacts.

(** C8: [normalize_aadhaar] and [normalize_pan] are functions of their
    argument alone and are idempotent, [normalize (normalize x) = normalize x]
    for every string [x]; on the two sample inputs they return
    ["123456789012"] and ["ABCDE1234F"]. *)
Theorem normalize_idempotent_and_samples :
  (forall x,
      DuplicatePreventionNormalizer.normalize_aadhaar
        (DuplicatePreventionNormalizer.normalize_aadhaar x)
      = DuplicatePreventionNormalizer.normalize_aadhaar x)
  /\ (forall x,
      DuplicatePreventionNormalizer.normalize_pan
        (DuplicatePreventionNormalizer.normalize_pan x)
      = DuplicatePreventionNormalizer.normalize_pan x)
  /\ DuplicatePreventionNormalizer.normalize_aadhaar "1234 5678 9012"
     = "123456789012"
  /\ DuplicatePreventionNormalizer.normalize_pan "abcde-1234-f"
     = "ABCDE1234F".
Proof.
  repeat split.
  - intros x.
    apply (normalize_generic_idempotent aadhaar_class
             upper_char_fixes_aadhaar_class).
  - intros x.
    apply (normalize_generic_idempotent pan_class upper_char_fixes_pan_class).
Qed.

(** ** UserDirectory *)

Lemma sample_fresh_world_is_fresh : fresh_store sample_fresh_world.
Proof.
  repeat split; try (eexists; split; reflexivity).
Qed.

(** C1: on a fresh store, for a non-empty identifier and a non-empty name,
    two successive calls of [get_or_create_user_id] return the same user id
    (the one [uuid4] handed out for the first call), and the stored
    [document_count] of that user is 1 after the first call and 2 after the
    second.  The call may leave the store to its default or name either of
    the two configured stores. *)
Theorem get_or_create_user_id_twice
    (w : world) (a n : string) (preferred_db : option db_id) :
  fresh_store w ->
  Py.truthy a = true ->
  Py.truthy n = true ->
  Py.truthy (uuid4 w (uuid_calls w)) = true ->
  let r1 := UserIDManager.get_or_create_user_id (Some a) (Some n)
              preferred_db w in
  let r2 := UserIDManager.get_or_create_user_id (Some a) (Some n)
              preferred_db (snd r1) in
  let uid := uuid4 w (uuid_calls w) in
  fst r1 = Ok uid
  /\ fst r2 = Ok uid
  /\ stored_document_count uid (snd r1) = Some 1
  /\ stored_document_count uid (snd r2) = Some 2.
Proof.
  intros ([da [Hda Hua]] & [dp [Hdp Hup]] & Hc) Ha Hn Hu.
  destruct w; simpl in *. subst.
  destruct da as [dda dfa dua dxa dia], dp as [ddp dfp dup dxp dip];
    simpl in *; subst.
  unfold UserIDManager.get_or_create_user_id, stored_document_count,
    UserIDManager.get_user_by_aadhaar, UserIDManager.get_user_by_id,
    UserIDManager.update_user_document_count, UserIDManager.get_user_by_id,
    UserIDManager.get_user_by_aadhaar_in, UserIDManager.get_user_by_id_in,
    UserIDManager._get_user_from_cache,
    bind, gets, try_except, with_connection.
  destruct preferred_db as [[]|];
    repeat (progress (cbn;
      rewrite ?Ha, ?Hn, ?Hu, ?lookup_empty, ?lookup_insert_eq,
        ?String.eqb_refl));
    destruct (Py.truthy (UserIDManager.normalize_aadhaar a));
    repeat (progress (cbn; rewrite ?Hu, ?String.eqb_refl));
    auto.
Qed.

Lemma get_or_create_user_id_twice_witness :
  let w := sample_fresh_world in
  let r1 := UserIDManager.get_or_create_user_id (Some "123456789012")
              (Some "John Doe") None w in
  let r2 := UserIDManager.get_or_create_user_id (Some "123456789012")
              (Some "John Doe") None (snd r1) in
  let uid := uuid4 w (uuid_calls w) in
  fst r1 = Ok uid
  /\ fst r2 = Ok uid
  /\ stored_document_count uid (snd r1) = Some 1
  /\ stored_document_count uid (snd r2) = Some 2.
Proof.
  apply (get_or_create_user_id_twice sample_fresh_world
           "123456789012" "John Doe" None).
  - exact sample_fresh_world_is_fresh.
  - reflexivity.
  - reflexivity.
  - reflexivity.
Defined.

(** C9: when the identifier or the name is [None] or empty,
    [get_or_create_user_id] and [create_user] raise [ValueError] and leave
    the world (both stores, the cache, every log) exactly as it was. *)
Theorem missing_identifier_or_name_raises_value_error
    (w : world) (a n : option string) (preferred_db : option db_id)
    (i : db_id) :
  Py.truthy_opt a = false \/ Py.truthy_opt n = false ->
  UserIDManager.get_or_create_user_id a n preferred_db w
  = (Raise (ValueError "Aadhaar number and name are required"), w)
  /\ UserIDManager.create_user a n i w
     = (Raise (ValueError "Aadhaar number and name are required"), w).
Proof.
  intros H. split.
  - unfold UserIDManager.get_or_create_user_id.
    destruct H as [-> | ->]; [|rewrite orb_true_r]; reflexivity.
  - unfold UserIDManager.create_user.
    destruct a as [a|], n as [n|]; cbn in H; try reflexivity.
    destruct H as [-> | ->]; [|rewrite orb_true_r]; reflexivity.
Qed.

Lemma missing_identifier_or_name_raises_value_error_witness :
  UserIDManager.get_or_create_user_id (Some "") (Some "John Doe") None
    sample_fresh_world
  = (Raise (ValueError "Aadhaar number and name are required"),
     sample_fresh_world)
  /\ UserIDManager.create_user (Some "") (Some "John Doe") AadhaarDb
       sample_fresh_world
     = (Raise (ValueError "Aadhaar number and name are required"),
        sample_fresh_world).
Proof.
  apply (missing_identifier_or_name_raises_value_error sample_fresh_world
           (Some "") (Some "John Doe") None AadhaarDb).
  left. reflexivity.
Defined.

(** ** DuplicateScanner *)

Example scan_two_record_store :
  exists g,
    DuplicateDataIdentifier.scan AADHAAR (Some two_record_store) = ([g], None)
    /\ dg_number g = "A1"
    /\ dg_duplicate_count g = 2%nat
    /\ List.length (dg_records g) = 2%nat
    /\ same_name (dg_analysis g) = true
    /\ same_dob (dg_analysis g) = true.
Proof. eexists. vm_compute. repeat split. Qed.

(** C10: the summary severity is HIGH exactly when one of the two group
    counts exceeds 10, MEDIUM exactly when none exceeds 10 and one exceeds 5,
    and LOW exactly when none exceeds 5. *)
Theorem summary_severity_thresholds (r : DuplicateDataIdentifier.report_data) :
  let s := DuplicateDataIdentifier.generate_summary_statistics r in
  let a := List.length (DuplicateDataIdentifier.aadhaar_duplicates r) in
  let p := List.length (DuplicateDataIdentifier.pan_duplicates r) in
  DuplicateDataIdentifier.total_aadhaar_duplicate_groups s = a
  /\ DuplicateDataIdentifier.total_pan_duplicate_groups s = p
  /\ (DuplicateDataIdentifier.summary_severity s = DuplicateDataIdentifier.HIGH
      <-> (10 < a \/ 10 < p)%nat)
  /\ (DuplicateDataIdentifier.summary_severity s
      = DuplicateDataIdentifier.MEDIUM
      <-> ~ (10 < a \/ 10 < p)%nat /\ (5 < a \/ 5 < p)%nat)
  /\ (DuplicateDataIdentifier.summary_severity s = DuplicateDataIdentifier.LOW
      <-> ~ (5 < a \/ 5 < p)%nat).
Proof.
  intros s a p. subst s. unfold DuplicateDataIdentifier.generate_summary_statistics.
  cbn [DuplicateDataIdentifier.total_aadhaar_duplicate_groups
       DuplicateDataIdentifier.total_pan_duplicate_groups
       DuplicateDataIdentifier.summary_severity].
  fold a p.
  destruct (Nat.ltb_spec 10 a), (Nat.ltb_spec 10 p),
    (Nat.ltb_spec 5 a), (Nat.ltb_spec 5 p); cbn [orb];
    repeat split; intros; try discriminate; try lia; try tauto.
Qed.

(** ** Cleanup planning *)

Section SortKeyOrder.

Import CleanupPlanning.

Lemma str_lt_irrefl s : Py.str_lt s s = false.
Proof.
  unfold Py.str_lt, String.ltb.
  destruct (String.compare s s) eqn:E; try reflexivity.
  exfalso. apply (StrictOrder_Irreflexive (R := String_as_OT.lt) s). exact E.
Qed.

Lemma str_lt_asym a b : Py.str_lt a b = true -> Py.str_lt b a = false.
Proof.
  unfold Py.str_lt, String.ltb. rewrite (String.compare_antisym a b).
  destruct (String.compare b a); simpl; congruence.
Qed.

Lemma str_lt_trans a b c :
  Py.str_lt a b = true -> Py.str_lt b c = true -> Py.str_lt a c = true.
Proof.
  unfold Py.str_lt, String.ltb. intros Hab Hbc.
  assert (String_as_OT.lt a b) as H1
    by (unfold String_as_OT.lt;
        change (String.compare a b = Lt);
        destruct (String.compare a b); congruence).
  assert (String_as_OT.lt b c) as H2
    by (unfold String_as_OT.lt;
        change (String.compare b c = Lt);
        destruct (String.compare b c); congruence).
  pose proof (StrictOrder_Transitive (R := String_as_OT.lt) a b c H1 H2) as H.
  unfold String_as_OT.lt in H.
  change (String.compare a c = Lt) in H. rewrite H. reflexivity.
Qed.

Lemma str_lt_total a b :
  Py.str_lt a b = false -> Py.str_lt b a = false -> a = b.
Proof.
  unfold Py.str_lt, String.ltb. rewrite (String.compare_antisym a b).
  destruct (String.compare b a) eqn:E; simpl; try congruence.
  intros _ _. symmetry. apply String.compare_eq_iff. exact E.
Qed.

(** Negative transitivity of [<] on strings. *)
Lemma str_lt_cotrans a b c :
  Py.str_lt a b = false -> Py.str_lt b c = false -> Py.str_lt a c = false.
Proof.
  intros Hab Hbc.
  destruct (Py.str_lt a c) eqn:Hac; [|reflexivity].
  destruct (Py.str_lt b a) eqn:Hba.
  - rewrite (str_lt_trans b a c Hba Hac) in Hbc. discriminate.
  - pose proof (str_lt_total a b Hab Hba). subst. congruence.
Qed.

Lemma key_lt_irrefl k : key_lt k k = false.
Proof.
  unfold key_lt.
  assert ((k.1 ?= k.1)%Qc = Eq) as -> by (apply Qceq_alt; reflexivity).
  apply str_lt_irrefl.
Qed.

Lemma key_lt_asym a b : key_lt a b = true -> key_lt b a = false.
Proof.
  unfold key_lt.
  destruct (a.1 ?= b.1)%Qc eqn:E; try discriminate.
  - apply Qceq_alt in E. rewrite E.
    assert ((b.1 ?= b.1)%Qc = Eq) as -> by (apply Qceq_alt; reflexivity).
    apply str_lt_asym.
  - intros _. apply Qclt_alt in E.
    destruct (b.1 ?= a.1)%Qc eqn:E'; try reflexivity.
    + apply Qceq_alt in E'. rewrite E' in E.
      exfalso. eapply Qclt_not_le; [exact E|]. apply Qcle_refl.
    + apply Qclt_alt in E'.
      exfalso. eapply Qclt_not_le; [exact E|]. apply Qclt_le_weak, E'.
Qed.

Lemma key_lt_false_iff a b :
  key_lt a b = false
  <-> (b.1 <= a.1)%Qc /\ (b.1 = a.1 -> Py.str_lt a.2 b.2 = false).
Proof.
  unfold key_lt. destruct (a.1 ?= b.1)%Qc eqn:E.
  - apply Qceq_alt in E. rewrite E. split.
    + intros H. split; [apply Qcle_refl | auto].
    + intros [_ H]. auto.
  - apply Qclt_alt in E. split; [discriminate|].
    intros [H _]. exfalso. eapply Qclt_not_le; eauto.
  - apply Qcgt_alt in E. split; [|reflexivity].
    intros _. split; [apply Qclt_le_weak, E|].
    intros Heq. rewrite Heq in E. exfalso.
    eapply Qclt_not_le; [exact E|]. apply Qcle_refl.
Qed.

Lemma key_lt_cotrans a b c :
  key_lt a b = false -> key_lt b c = false -> key_lt a c = false.
Proof.
  rewrite !key_lt_false_iff. intros [H1 H1'] [H2 H2']. split.
  - eapply Qcle_trans; eauto.
  - intros Heq.
    assert (b.1 = a.1) as Hba.
    { apply Qcle_antisym; [exact H1|]. rewrite <- Heq. exact H2. }
    assert (c.1 = b.1) as Hcb by congruence.
    eapply str_lt_cotrans; eauto.
Qed.

End SortKeyOrder.

Section SortedReverse.

Import CleanupPlanning.

Lemma insert_descending_perm x l : insert_descending x l ≡ₚ x :: l.
Proof.
  induction l as [|y l IH]; simpl; [reflexivity|].
  destruct (key_lt (sort_key x) (sort_key y)); [|reflexivity].
  rewrite IH. apply Permutation_swap.
Qed.

Lemma insert_descending_head_dominates x l :
  head_dominates l -> head_dominates (insert_descending x l).
Proof.
  destruct l as [|y l]; simpl.
  - intros _ r Hr. apply list_elem_of_singleton in Hr. subst.
    apply key_lt_irrefl.
  - intros Hy. destruct (key_lt (sort_key x) (sort_key y)) eqn:Hxy; simpl.
    + intros r Hr. apply elem_of_cons in Hr as [-> | Hr].
      * apply key_lt_irrefl.
      * rewrite insert_descending_perm in Hr.
        apply elem_of_cons in Hr as [-> | Hr].
        -- apply key_lt_asym, Hxy.
        -- apply Hy. right. exact Hr.
    + intros r Hr. apply elem_of_cons in Hr as [-> | Hr].
      * apply key_lt_irrefl.
      * eapply key_lt_cotrans; [exact Hxy|]. apply Hy, Hr.
Qed.

Lemma sorted_reverse_perm l : sorted_reverse l ≡ₚ l.
Proof.
  induction l as [|x l IH]; simpl; [reflexivity|].
  unfold sorted_reverse in *. simpl.
  rewrite insert_descending_perm, IH. reflexivity.
Qed.

Lemma sorted_reverse_head_dominates l : head_dominates (sorted_reverse l).
Proof.
  induction l as [|x l IH]; simpl; [exact I|].
  apply insert_descending_head_dominates, IH.
Qed.

Lemma sorted_reverse_nonempty l :
  l <> [] -> exists k rest, sorted_reverse l = k :: rest.
Proof.
  intros Hl. destruct (sorted_reverse l) as [|k rest] eqn:E; [|eauto].
  pose proof (sorted_reverse_perm l) as HP. rewrite E in HP.
  apply Permutation_nil_l in HP. congruence.
Qed.

(** What [sorted(records, ..., reverse=True)] puts first. *)
Lemma sorted_reverse_first l k rest :
  sorted_reverse l = k :: rest ->
  k :: rest ≡ₚ l
  /\ forall r, r ∈ l ->
       (DuplicateDataIdentifier.confidence_or_0 (ri_extraction_confidence r)
        <= DuplicateDataIdentifier.confidence_or_0
             (ri_extraction_confidence k))%Qc
       /\ (DuplicateDataIdentifier.confidence_or_0
             (ri_extraction_confidence r)
           = DuplicateDataIdentifier.confidence_or_0
               (ri_extraction_confidence k)
           -> Py.str_lt (ri_created_at k) (ri_created_at r) = false).
Proof.
  intros E.
  pose proof (sorted_reverse_perm l) as HP.
  pose proof (sorted_reverse_head_dominates l) as HD.
  rewrite E in HP, HD. split; [exact HP|].
  intros r Hr. rewrite <- HP in Hr.
  specialize (HD r Hr). apply key_lt_false_iff in HD. exact HD.
Qed.

End SortedReverse.

Section DifferingNames.

Lemma two_elements_size (X : gset string) (x y : string) :
  x ∈ X -> y ∈ X -> x <> y -> (2 <= size X)%nat.
Proof.
  intros Hx Hy Hne.
  assert ({[x; y]} ⊆ X) as Hsub.
  { intros z Hz. apply elem_of_union in Hz as [Hz | Hz];
      apply elem_of_singleton in Hz; subst; assumption. }
  apply subseteq_size in Hsub.
  rewrite size_union in Hsub
    by (intros z Hz1 Hz2; apply elem_of_singleton in Hz1, Hz2; congruence).
  rewrite !size_singleton in Hsub. exact Hsub.
Qed.

Lemma key_set_elem key records r n :
  r ∈ records -> key r = Some n ->
  n ∈ DuplicateDataIdentifier.key_set key records.
Proof.
  intros Hr Hk. unfold DuplicateDataIdentifier.key_set.
  apply elem_of_list_to_set, list_elem_of_omap. eauto.
Qed.

Lemma analyze_shape k records an :
  DuplicateDataIdentifier.analyze k records = Ok an ->
  same_name an
  = bool_decide
      (size (DuplicateDataIdentifier.key_set
               DuplicateDataIdentifier.name_key records) <= 1)%nat
  /\ same_dob an
     = bool_decide
         (size (DuplicateDataIdentifier.key_set
                  DuplicateDataIdentifier.dob_key records) <= 1)%nat
  /\ unique_names an
     = elements (DuplicateDataIdentifier.key_set
                   DuplicateDataIdentifier.name_key records)
  /\ records <> [].
Proof.
  unfold DuplicateDataIdentifier.analyze.
  destruct records as [|r records]; [discriminate|].
  intros [= <-]. cbn [same_name same_dob unique_names]. auto.
Qed.

End DifferingNames.

(** C5: in the cleanup plan, a group whose analysis says that its members
    share name and date of birth contributes exactly one kept member, one
    whose confidence is the highest of the group and, among the members of
    that confidence, whose creation time is the latest; every other member
    is planned for removal, so kept and removed members together are the
    members of the group.  A group analysed by the scanner in which two
    members carry different (trimmed, upper-cased) names contributes nothing
    to the kept and removed lists and is appended to the manual-review
    list. *)
Theorem cleanup_plan_per_group (g : dup_group) (plan : cleanup_plan) :
  (same_name (dg_analysis g) = true ->
   same_dob (dg_analysis g) = true ->
   dg_records g <> [] ->
   exists kept removed,
     CleanupPlanning.plan_group g plan
     = Ok (CleanupPlan (total_groups plan)
             (records_to_keep plan ++ [kept])
             (records_to_remove plan ++ removed)
             (merge_candidates plan)
             (manual_review_needed plan))
     /\ CleanupPlanning.analyze_duplicates_for_cleanup [g]
        = Ok (CleanupPlan 1 [kept] removed [] [])
     /\ kept :: removed ≡ₚ dg_records g
     /\ (1 + List.length removed = List.length (dg_records g))%nat
     /\ forall r, r ∈ dg_records g ->
          (confidence_score r <= confidence_score kept)%Qc
          /\ (confidence_score r = confidence_score kept
              -> String.ltb (ri_created_at kept) (ri_created_at r) = false))
  /\ (forall k r1 r2 n1 n2,
        DuplicateDataIdentifier.analyze k (dg_records g) = Ok (dg_analysis g) ->
        r1 ∈ dg_records g -> r2 ∈ dg_records g ->
        DuplicateDataIdentifier.name_key r1 = Some n1 ->
        DuplicateDataIdentifier.name_key r2 = Some n2 ->
        n1 <> n2 ->
        CleanupPlanning.plan_group g plan
        = Ok (CleanupPlan (total_groups plan)
                (records_to_keep plan)
                (records_to_remove plan)
                (merge_candidates plan)
                (manual_review_needed plan ++ [g]))
        /\ CleanupPlanning.analyze_duplicates_for_cleanup [g]
           = Ok (CleanupPlan 1 [] [] [] [g])).
Proof.
  split.
  - intros Hn Hd Hne.
    destruct (sorted_reverse_nonempty _ Hne) as (kept & removed & E).
    destruct (sorted_reverse_first _ _ _ E) as [HP Hmax].
    exists kept, removed.
    assert (forall p, CleanupPlanning.plan_group g p
                      = CleanupPlanning.keep_first (kept :: removed) p) as Hpg.
    { intros p. unfold CleanupPlanning.plan_group. rewrite Hn, Hd, E.
      rewrite !andb_true_r.
      destruct (Nat.eqb (List.length (dg_records g)) 2); reflexivity. }
    split; [rewrite Hpg; reflexivity|].
    split.
    { unfold CleanupPlanning.analyze_duplicates_for_cleanup.
      cbn [CleanupPlanning.plan_groups]. rewrite Hpg. reflexivity. }
    split; [exact HP|]. split; [|exact Hmax].
    apply Permutation_length in HP. simpl in HP. lia.
  - intros k r1 r2 n1 n2 Han Hr1 Hr2 Hk1 Hk2 Hne.
    destruct (analyze_shape _ _ _ Han) as (Hsn & _ & Hun & _).
    pose proof (two_elements_size _ n1 n2
                  (key_set_elem _ _ _ _ Hr1 Hk1)
                  (key_set_elem _ _ _ _ Hr2 Hk2) Hne) as Hsize.
    assert (same_name (dg_analysis g) = false) as Hfalse.
    { rewrite Hsn. apply bool_decide_eq_false. lia. }
    assert (Nat.eqb (List.length (unique_names (dg_analysis g))) 1 = false)
      as Hlen.
    { rewrite Hun. apply Nat.eqb_neq.
      change (size (DuplicateDataIdentifier.key_set
                      DuplicateDataIdentifier.name_key (dg_records g)) <> 1%nat).
      lia. }
    assert (forall p, CleanupPlanning.plan_group g p
                      = Ok (CleanupPlan (total_groups p) (records_to_keep p)
                              (records_to_remove p) (merge_candidates p)
                              (manual_review_needed p ++ [g]))) as Hpg.
    { intros p. unfold CleanupPlanning.plan_group.
      rewrite Hfalse, Hlen, !andb_false_r. reflexivity. }
    split; [apply Hpg|].
    unfold CleanupPlanning.analyze_duplicates_for_cleanup.
    cbn [CleanupPlanning.plan_groups]. rewrite Hpg. reflexivity.
Qed.

Lemma cleanup_plan_per_group_witness :
  (exists kept removed,
     CleanupPlanning.plan_group agreeing_group empty_plan
     = Ok (CleanupPlan 0 [kept] removed [] [])
     /\ CleanupPlanning.analyze_duplicates_for_cleanup [agreeing_group]
        = Ok (CleanupPlan 1 [kept] removed [] [])
     /\ kept :: removed ≡ₚ dg_records agreeing_group
     /\ (1 + List.length removed
         = List.length (dg_records agreeing_group))%nat
     /\ forall r, r ∈ dg_records agreeing_group ->
          (confidence_score r <= confidence_score kept)%Qc
          /\ (confidence_score r = confidence_score kept
              -> String.ltb (ri_created_at kept) (ri_created_at r) = false))
  /\ (CleanupPlanning.plan_group disagreeing_group empty_plan
      = Ok (CleanupPlan 0 [] [] [] [disagreeing_group])
      /\ CleanupPlanning.analyze_duplicates_for_cleanup [disagreeing_group]
         = Ok (CleanupPlan 1 [] [] [] [disagreeing_group])).
Proof.
  split.
  - apply (proj1 (cleanup_plan_per_group agreeing_group empty_plan)).
    + vm_compute. reflexivity.
    + vm_compute. reflexivity.
    + discriminate.
  - apply (proj2 (cleanup_plan_per_group disagreeing_group empty_plan)
             AADHAAR
             (member 1 "X" (q 7 10) "2024-01-01 10:00:00")
             (member 2 "Y" (q 9 10) "2024-01-02 10:00:00") "X" "Y").
    + vm_compute. reflexivity.
    + left.
    + right. left.
    + reflexivity.
    + reflexivity.
    + discriminate.
Defined.

(** ** DuplicateScanner: what a scan returns *)

Section ScanFacts.

Import DuplicateDataIdentifier.

Lemma number_count_pos_elem a fs :
  (0 < number_count a fs)%nat -> exists f, f ∈ fs /\ f_number f = Some a.
Proof.
  unfold number_count. intros H.
  destruct (filter (fun f => f_number f = Some a) fs) as [|f l] eqn:E;
    [simpl in H; lia|].
  assert (f ∈ filter (fun f => f_number f = Some a) fs) as Hf
    by (rewrite E; left).
  apply list_elem_of_filter in Hf as [Hf1 Hf2]. eauto.
Qed.

Lemma duplicate_groups_elem fs a c :
  (a, c) ∈ duplicate_groups fs
  <-> eligible_number (Some a) = true
      /\ c = number_count a fs /\ (1 < c)%nat.
Proof.
  unfold duplicate_groups.
  rewrite merge_sort_Permutation, list_elem_of_filter, list_elem_of_fmap.
  split.
  - intros [Hc (a' & Heq & Hin)]. injection Heq as -> ->.
    apply elem_of_remove_dups, list_elem_of_omap in Hin as (f & Hf & Hel).
    destruct (eligible_number (f_number f)) eqn:He; [|discriminate].
    rewrite Hel in He. auto.
  - intros (He & -> & Hc). split; [exact Hc|].
    exists a. split; [reflexivity|].
    apply elem_of_remove_dups, list_elem_of_omap.
    destruct (number_count_pos_elem a fs) as (f & Hf & Hn); [lia|].
    exists f. split; [exact Hf|]. rewrite Hn, He. reflexivity.
Qed.

Lemma duplicate_groups_NoDup fs : NoDup (duplicate_groups fs).*1.
Proof.
  unfold duplicate_groups.
  eapply NoDup_Permutation_proper;
    [apply fmap_Permutation, merge_sort_Permutation|].
  set (l := remove_dups _).
  eapply sublist_NoDup;
    [|apply fmap_sublist, sublist_filter].
  rewrite <- list_fmap_compose.
  rewrite (list_fmap_ext _ id l) by reflexivity.
  rewrite list_fmap_id. apply NoDup_remove_dups.
Qed.

Lemma build_group_ok k dt fs a c g :
  build_group k (Some dt) fs a c = Ok g ->
  group_of k fs (rows dt) (a, c) g.
Proof.
  unfold build_group.
  destruct (analyze k (joined_records a fs (rows dt))) as [an|e] eqn:E;
    [|discriminate].
  intros [= <-]. repeat split; assumption.
Qed.

Lemma build_group_raise k dt fs a c e :
  build_group k (Some dt) fs a c = Raise e ->
  joined_records a fs (rows dt) = [].
Proof.
  unfold build_group, analyze.
  destruct (joined_records a fs (rows dt)); [reflexivity|discriminate].
Qed.

Lemma scan_groups_spec k dt fs groups acc :
  exists pre post built,
    groups = pre ++ post
    /\ (scan_groups k (Some dt) fs groups acc).1 = acc ++ built
    /\ Forall2 (group_of k fs (rows dt)) pre built
    /\ match (scan_groups k (Some dt) fs groups acc).2 with
       | None => post = []
       | Some _ =>
           exists p rest,
             post = p :: rest /\ joined_records p.1 fs (rows dt) = []
       end.
Proof.
  revert acc. induction groups as [|[a c] groups IH]; intros acc.
  - exists [], [], []. cbn. rewrite app_nil_r. auto.
  - cbn [scan_groups].
    destruct (build_group k (Some dt) fs a c) as [g|e] eqn:E.
    + destruct (IH (acc ++ [g])) as (pre & post & built & -> & H1 & H2 & H3).
      exists ((a, c) :: pre), post, (g :: built).
      split; [reflexivity|]. split; [rewrite H1, <- app_assoc; reflexivity|].
      split; [|exact H3].
      constructor; [eapply build_group_ok; eauto | exact H2].
    + exists [], ((a, c) :: groups), []. cbn. rewrite app_nil_r.
      repeat split; auto. exists (a, c), groups. split; [reflexivity|].
      eapply build_group_raise; eauto.
Qed.




End ScanFacts.

Lemma scan_groups_no_documents k fs groups acc :
  (DuplicateDataIdentifier.scan_groups k None fs groups acc).1 = acc
  /\ ((DuplicateDataIdentifier.scan_groups k None fs groups acc).2 = None
      -> groups = []).
Proof.
  destruct groups as [|[a c] groups]; cbn; split; auto; discriminate.
Qed.




(** ** DuplicateGuard and the ingestion boundary *)

(** Whenever the uniqueness check finds a record, [store_in_database]
    rejects with the [DUPLICATE_AADHAAR] response that carries the document
    id and the snapshot of that record, after appending one audit entry to
    the log -- and the [existing_user_id] it carries is [None]. *)
Lemma duplicate_rejection_details
    (x : extraction_result) (data : extracted_data)
    (existing : existing_record) (w w1 : world) :
  xr_status x = Some "success" ->
  xr_extracted_data x = Some data ->
  Py.truthy_opt (xd_aadhaar_number data) = true ->
  Py.truthy_opt (xd_name data) = true ->
  DuplicatePreventionService.validate_document_uniqueness "AADHAAR" data w
  = (Ok (false, Some existing), w1) ->
  let r := AadhaarExtractionTool.store_in_database x w in
  rejected_code r.1 = Some "DUPLICATE_AADHAAR"
  /\ rejected_existing_user_id r.1 = None
  /\ rejected_existing_document_id r.1 = er_document_id existing
  /\ rejected_existing_record r.1 = Some existing
  /\ exists entry,
       log r.2
       = log w1 ++ [LogRecord "DuplicatePreventionService" WARNING
                      (DuplicateAttemptBlocked "AADHAAR" entry)]
       /\ da_attempted_aadhaar_number entry
          = default "" (xd_aadhaar_number data)
       /\ da_attempted_name entry = default "" (xd_name data)
       /\ da_existing_document_id entry = er_document_id existing.
Proof.
  intros Hs Hd Ha Hn Hv r. subst r.
  assert (AadhaarExtractionTool.store_in_database x w
          = (StorageRejected
               (Exceptions.create_error_response
                  (DuplicateAadhaarError
                     (default "" (xd_aadhaar_number data)) None
                     (er_document_id existing) (Some existing))
                  (now_iso w1)),
             emit "DuplicatePreventionService" WARNING
               (DuplicateAttemptBlocked "AADHAAR"
                  (DuplicateAttempt (now_iso w1) "AADHAAR"
                     (default "" (xd_aadhaar_number data))
                     (default "" (xd_pan_number data))
                     (default "" (xd_name data))
                     (default "" (xd_file_path data))
                     (er_document_id existing) (er_file_path existing)
                     (Some (er_created_at existing)))) w1)) as E.
  { unfold AadhaarExtractionTool.store_in_database,
      AadhaarExtractionTool.store_checked.
    rewrite Hs, Hd. cbn [default from_option]. unfold id. rewrite Ha, Hn.
    rewrite bool_decide_eq_true_2 by reflexivity. cbn [negb orb].
    unfold bind at 1. rewrite Hv. destruct w1; reflexivity. }
  rewrite E. cbn. repeat split. eexists. repeat split.
Qed.

(** C2 at the failing input: in a freshly initialised store the ingestion of
    Aadhaar number 123456789012 creates user U1 with [document_count] 1; a
    second ingestion of the same number is rejected as a duplicate with an
    audit entry, the document id and the record snapshot, but its
    [existing_user_id] is [None], not U1.  When the same number is submitted
    with separators both times, the second ingestion is not rejected at
    all. *)
Theorem second_ingestion_reports_no_user_id :
  let first := AadhaarExtractionTool.store_in_database
                 (ingest "123456789012" "John Doe") tool_world in
  let second := AadhaarExtractionTool.store_in_database
                  (ingest "123456789012" "Jane Roe") first.2 in
  let U1 := "6f1c0a52-0000-4000-8000-000000000000" in
  first.1 = StorageSuccess 1 U1
  /\ stored_document_count U1 first.2 = Some 1
  /\ rejected_code second.1 = Some "DUPLICATE_AADHAAR"
  /\ rejected_existing_document_id second.1 = Some 1
  /\ List.length (log second.2) = S (List.length (log first.2))
  /\ rejected_existing_user_id second.1 = None
  /\ rejected_existing_user_id second.1 <> Some U1
  /\ (let first' := AadhaarExtractionTool.store_in_database
                      (ingest "1234 5678 9012" "John Doe") tool_world in
      let second' := AadhaarExtractionTool.store_in_database
                       (ingest "1234 5678 9012" "Jane Roe") first'.2 in
      first'.1 = StorageSuccess 1 U1
      /\ second'.1 = StorageSuccess 2 U1).
Proof.
  vm_compute. repeat split; congruence.
Qed.

(** ** SchemaMigrator *)

Lemma get_db_emit i logger lv m w : get_db i (emit logger lv m w) = get_db i w.
Proof. destruct i; reflexivity. Qed.

Lemma set_db_same i d w : get_db i w = Some d -> set_db i (Some d) w = w.
Proof. destruct w, i; cbn; intros ->; reflexivity. Qed.

Lemma connect_existing i d w : get_db i w = Some d -> connect i w = (d, w).
Proof. unfold connect. intros ->. reflexivity. Qed.

(** C4 (amended): when duplicate values of the field stand in the way of
    the index, [add_unique_constraints] raises nothing: it logs the error
    ["Failed to add unique constraints: UNIQUE constraint failed:
    extracted_fields.<field>"] and returns [False].  The world is otherwise
    as it was -- no index is created and no row is deleted -- and the
    message says nothing of a duplicate scan or a cleanup. *)
Theorem add_unique_constraints_on_duplicates
    (i : db_id) (c : fields_column) (w : world) (d : database)
    (ft : table field_row) :
  get_db i w = Some d ->
  extracted_fields d = Some ft ->
  store_has_column i c = true ->
  unique_index_name "extracted_fields" (column_name i c) ∉ indexes d ->
  ~ NoDup (omap (column_value c) (rows ft)) ->
  let message :=
    Text ("Failed to add unique constraints: "
          +:+ "UNIQUE constraint failed: extracted_fields."
          +:+ column_name i c) in
  DatabaseSchemaManager.add_unique_constraints i c w
  = (Ok false, emit DatabaseSchemaManager.logger ERROR message w)
  /\ (forall j, get_db j (DatabaseSchemaManager.add_unique_constraints i c w).2
                = get_db j w)
  /\ log (DatabaseSchemaManager.add_unique_constraints i c w).2
     = log w ++ [LogRecord DatabaseSchemaManager.logger ERROR message]
  /\ instructs_scan_and_cleanup message = false.
Proof.
  intros Hdb Hft Hcol Hidx Hdup message.
  assert (DatabaseSchemaManager.add_unique_constraints i c w
          = (Ok false, emit DatabaseSchemaManager.logger ERROR message w)) as E.
  { unfold DatabaseSchemaManager.add_unique_constraints, try_except,
      with_connection.
    rewrite (connect_existing _ _ _ Hdb).
    rewrite bool_decide_eq_false_2 by exact Hidx.
    unfold DatabaseSchemaManager.create_unique_index.
    rewrite Hft, Hcol. cbn [negb].
    rewrite bool_decide_eq_false_2 by exact Hdup.
    reflexivity. }
  rewrite E. cbn [fst snd].
  split; [reflexivity|]. split; [intros j; apply get_db_emit|].
  split; [reflexivity|].
  subst message. destruct i, c; try discriminate; vm_compute; reflexivity.
Qed.

Lemma add_unique_constraints_on_duplicates_witness :
  let message :=
    Text ("Failed to add unique constraints: "
          +:+ "UNIQUE constraint failed: extracted_fields."
          +:+ column_name AadhaarDb ColNumber) in
  DatabaseSchemaManager.add_unique_constraints AadhaarDb ColNumber
    migrator_world
  = (Ok false, emit DatabaseSchemaManager.logger ERROR message migrator_world)
  /\ (forall j,
        get_db j (DatabaseSchemaManager.add_unique_constraints AadhaarDb
                    ColNumber migrator_world).2
        = get_db j migrator_world)
  /\ log (DatabaseSchemaManager.add_unique_constraints AadhaarDb ColNumber
            migrator_world).2
     = log migrator_world
       ++ [LogRecord DatabaseSchemaManager.logger ERROR message]
  /\ instructs_scan_and_cleanup message = false.
Proof.
  apply (add_unique_constraints_on_duplicates AadhaarDb ColNumber
           migrator_world two_record_store
           (Table [FieldRow 1 (Some 1) (Some "X") None (Some "1/1/2000")
                     None None (Some "A1") None;
                   FieldRow 2 (Some 2) (Some "X") None (Some "1/1/2000")
                     None None (Some "A1") None] true 2)).
  - reflexivity.
  - reflexivity.
  - reflexivity.
  - vm_compute. intros H. inversion H.
  - vm_compute. intros H. inversion H as [|x l Hx Hl]. apply Hx. left.
Defined.

(** C4, as stated, fails: on the two-record store the index cannot be
    created, the call returns [False] and the only message it logs does not
    instruct the caller to scan for duplicates and clean up. *)
Lemma add_unique_constraints_gives_no_instruction :
  (DatabaseSchemaManager.add_unique_constraints AadhaarDb ColNumber
     migrator_world).1 = Ok false
  /\ log (DatabaseSchemaManager.add_unique_constraints AadhaarDb ColNumber
            migrator_world).2
     = [LogRecord "DatabaseSchemaManager" ERROR
          (Text "Failed to add unique constraints: UNIQUE constraint failed: extracted_fields.Aadhaar Number")]
  /\ ~ constraint_failure_instructs_cleanup AadhaarDb ColNumber migrator_world.
Proof.
  split; [reflexivity|]. split; [reflexivity|].
  intros H.
  destruct (H two_record_store _ eq_refl eq_refl) as (record & Hin & Hinstr).
  - vm_compute. intros HN. inversion HN as [|x l Hx Hl]. apply Hx. left.
  - change (log _) with
      [LogRecord "DatabaseSchemaManager" ERROR
         (Text "Failed to add unique constraints: UNIQUE constraint failed: extracted_fields.Aadhaar Number")]
      in Hin.
    apply list_elem_of_singleton in Hin. subst record.
    vm_compute in Hinstr. discriminate.
Qed.

(** ** CleanupOrchestrator *)

Section ReadOnlySteps.

Lemma read_only_step_refl w : read_only_step w w.
Proof. unfold read_only_step. repeat split; auto. Qed.

Lemma read_only_step_trans w1 w2 w3 :
  read_only_step w1 w2 -> read_only_step w2 w3 -> read_only_step w1 w3.
Proof.
  intros (A1 & B1 & C1 & D1 & E1 & F1 & G1) (A2 & B2 & C2 & D2 & E2 & F2 & G2).
  unfold read_only_step. repeat split; try congruence.
  - intros i d H. apply A2, A1, H.
  - intros i H. destruct (B1 i H) as [H' | H'].
    + apply B2, H'.
    + right. apply A2, H'.
Qed.

Lemma read_only_emit logger lv m w : read_only_step w (emit logger lv m w).
Proof.
  unfold read_only_step.
  repeat split; auto; intros i; rewrite get_db_emit; auto.
Qed.

Lemma read_only_set_ml_operations o w :
  read_only_step w (set_ml_operations o w).
Proof.
  unfold read_only_step. repeat split; auto; intros []; auto.
Qed.

Lemma get_db_set_db i j d w :
  get_db j (set_db i d w) = if decide (i = j) then d else get_db j w.
Proof. destruct i, j; reflexivity. Qed.

Lemma read_only_connect i w : read_only_step w (connect i w).2.
Proof.
  unfold connect. destruct (get_db i w) as [d|] eqn:E; cbn [snd].
  - apply read_only_step_refl.
  - unfold read_only_step. repeat split; try (destruct i; reflexivity).
    + intros j d Hj. rewrite get_db_set_db.
      destruct (decide (i = j)) as [->|]; [congruence|exact Hj].
    + intros j Hj. rewrite get_db_set_db.
      destruct (decide (i = j)); auto.
Qed.

Lemma connect_commit_same i w :
  commit i (connect i w).1 (connect i w).2 = (connect i w).2.
Proof.
  unfold connect, commit. destruct (get_db i w) as [d|] eqn:E; cbn [fst snd].
  - apply set_db_same, E.
  - destruct w, i; reflexivity.
Qed.

Lemma ml_operations_connect i w :
  ml_operations (connect i w).2 = ml_operations w.
Proof.
  unfold connect. destruct (get_db i w); [reflexivity|].
  destruct i; reflexivity.
Qed.

Lemma log_scan_problem_frame k p w :
  read_only_step w (DuplicateDataIdentifier.log_scan_problem k p w)
  /\ ml_operations (DuplicateDataIdentifier.log_scan_problem k p w)
     = ml_operations w.
Proof.
  destruct p as [[|e]|]; cbn; split; auto using read_only_emit,
    read_only_step_refl.
Qed.

(** A scan reads: it returns the groups of the store as it is and leaves
    nothing but log records. *)
Lemma scan_duplicates_frame k w :
  exists w',
    DuplicateDataIdentifier.scan_duplicates k w
    = (Ok (DuplicateDataIdentifier.scan k (get_db (kind_db k) w)).1, w')
    /\ read_only_step w w'
    /\ ml_operations w' = ml_operations w.
Proof.
  unfold DuplicateDataIdentifier.scan_duplicates.
  destruct (DuplicateDataIdentifier.scan k (get_db (kind_db k) w))
    as [l p]. eexists. split; [reflexivity|].
  apply log_scan_problem_frame.
Qed.

End ReadOnlySteps.

Section DryRun.

Import DataCleanupMigrator.

(** Every group that a scan returns has members. *)
Lemma scan_groups_have_records k db g :
  g ∈ (DuplicateDataIdentifier.scan k db).1 -> dg_records g <> [].
Proof.
  destruct db as [d|]; [|intros H; inversion H].
  unfold DuplicateDataIdentifier.scan.
  destruct (extracted_fields d) as [ft|]; [|intros H; inversion H].
  destruct (documents d) as [dt|].
  - destruct (scan_groups_spec k dt (rows ft)
                (DuplicateDataIdentifier.duplicate_groups (rows ft)) [])
      as (pre & post & built & _ & Hfst & HF & _).
    destruct (DuplicateDataIdentifier.scan_groups k (Some dt) (rows ft)
                (DuplicateDataIdentifier.duplicate_groups (rows ft)) [])
      as [gs caught].
    cbn [fst] in *. rewrite app_nil_l in Hfst. subst gs. intros Hg.
    clear -HF Hg.
    induction HF as [|p g' pre built Hpg _ IH]; [inversion Hg|].
    apply elem_of_cons in Hg as [-> | Hg]; [|auto].
    destruct Hpg as (_ & _ & _ & _ & Han).
    apply analyze_shape in Han. tauto.
  - destruct (scan_groups_no_documents k (rows ft)
                (DuplicateDataIdentifier.duplicate_groups (rows ft)) [])
      as [Hfst _].
    destruct (DuplicateDataIdentifier.scan_groups k None (rows ft)
                (DuplicateDataIdentifier.duplicate_groups (rows ft)) [])
      as [gs caught].
    cbn [fst] in *. subst gs. intros H. inversion H.
Qed.

Lemma plan_group_total g plan :
  dg_records g <> [] -> exists plan', CleanupPlanning.plan_group g plan = Ok plan'.
Proof.
  intros Hne. unfold CleanupPlanning.plan_group.
  destruct (sorted_reverse_nonempty _ Hne) as (k & rest & E).
  destruct (dg_records g) as [|r records] eqn:Er; [congruence|].
  rewrite E.
  destruct (_ && _ && _); [cbn; eauto|].
  destruct (_ && _); [cbn; eauto|].
  destruct (Nat.eqb _ 1); cbn; eauto.
Qed.

Lemma plan_groups_total groups plan :
  (forall g, g ∈ groups -> dg_records g <> []) ->
  exists plan', CleanupPlanning.plan_groups groups plan = Ok plan'.
Proof.
  revert plan. induction groups as [|g groups IH]; intros plan Hall;
    cbn [CleanupPlanning.plan_groups]; [eauto|].
  destruct (plan_group_total g plan) as [plan' ->]; [apply Hall; left|].
  apply IH. intros g' Hg'. apply Hall. right. exact Hg'.
Qed.

(** The planning of a dry run returns normally and only reads. *)
Lemma cleanup_duplicates_dry_run k w :
  exists result w',
    cleanup_duplicates k true w = (Ok result, w')
    /\ read_only_step w w'
    /\ ml_operations w' = ml_operations w.
Proof.
  unfold cleanup_duplicates, bind.
  destruct (scan_duplicates_frame k w) as (w' & -> & Hro & Hops).
  pose proof (scan_groups_have_records k (get_db (kind_db k) w)) as Hne.
  destruct ((DuplicateDataIdentifier.scan k (get_db (kind_db k) w)).1)
    as [|g gs] eqn:Egs.
  - eexists _, _. split; [reflexivity|]. auto.
  - unfold analyze_duplicates_for_cleanup,
      CleanupPlanning.analyze_duplicates_for_cleanup.
    destruct (plan_groups_total (g :: gs)
                (CleanupPlan (List.length (g :: gs)) [] [] [] []) Hne)
      as [plan ->].
    eexists _, _. split; [reflexivity|]. auto.
Qed.

Lemma check_coverage_frame i w :
  exists c w',
    check_coverage i w = (Ok c, w')
    /\ read_only_step w w'
    /\ ml_operations w' = ml_operations w.
Proof.
  unfold check_coverage, try_except, with_connection.
  pose proof (read_only_connect i w) as Hro.
  pose proof (connect_commit_same i w) as Hcommit.
  pose proof (ml_operations_connect i w) as Hops.
  destruct (connect i w) as [d w1]. cbn [fst snd] in *.
  destruct (extracted_fields d) as [ft|]; cbn.
  - destruct (has_user_id ft); cbn.
    + rewrite Hcommit. eexists _, _. split; [reflexivity|]. auto.
    + eexists _, _. split; [reflexivity|]. auto.
  - eexists _, _. split; [reflexivity|]. auto.
Qed.

(** The integrity verification returns normally, only reads, and records
    its findings as one operation of the migration log. *)
Lemma verify_migration_integrity_frame w :
  exists v w',
    verify_migration_integrity w = (Ok v, w')
    /\ read_only_step w w'
    /\ ml_operations w' = ml_operations w ++ [OpVerifyIntegrity (now_iso w') v].
Proof.
  unfold verify_migration_integrity, try_except, bind,
    DuplicateDataIdentifier.scan_aadhaar_duplicates,
    DuplicateDataIdentifier.scan_pan_duplicates.
  destruct (scan_duplicates_frame AADHAAR w) as (w1 & -> & R1 & O1).
  destruct (scan_duplicates_frame PAN w1) as (w2 & -> & R2 & O2).
  destruct (check_coverage_frame AadhaarDb w2) as (ca & w3 & -> & R3 & O3).
  destruct (check_coverage_frame PanDb w3) as (cp & w4 & -> & R4 & O4).
  cbn. eexists _, _. split; [reflexivity|]. split.
  - eapply read_only_step_trans; [|apply read_only_set_ml_operations].
    eauto using read_only_step_trans.
  - destruct w4; cbn in *. congruence.
Qed.

End DryRun.

Section Pipeline.

Import DataCleanupMigrator.

Variable user_step : world -> user_migration_results * world.

(** A dry run, spelled out: the two plannings, then the verification. *)
Lemma dry_run_outcome w :
  exists ra rp v w1 w2 w3,
    cleanup_aadhaar_duplicates true w = (Ok ra, w1)
    /\ cleanup_pan_duplicates true w1 = (Ok rp, w2)
    /\ verify_migration_integrity w2 = (Ok v, w3)
    /\ read_only_step w w3
    /\ ml_operations w3
       = ml_operations w ++ [OpVerifyIntegrity (now_iso w3) v]
    /\ run_complete_migration user_step true w
       = (MigrationResults (now_iso w) true
            ["cleanup_duplicates"; "verify_integrity"] [] []
            (match issues v with
             | [] => completed_successfully
             | _ :: _ => completed_with_warnings
             end)
            (Some ra) (Some rp) None None (Some v) None, w3).
Proof.
  destruct (cleanup_duplicates_dry_run AADHAAR w) as (ra & w1 & E1 & R1 & O1).
  destruct (cleanup_duplicates_dry_run PAN w1) as (rp & w2 & E2 & R2 & O2).
  destruct (verify_migration_integrity_frame w2) as (v & w3 & E3 & R3 & O3).
  exists ra, rp, v, w1, w2, w3.
  split; [exact E1|]. split; [exact E2|]. split; [exact E3|].
  split; [eauto using read_only_step_trans|].
  split; [congruence|].
  unfold run_complete_migration, step_create_backups, step_schema_updates,
    step_cleanup_duplicates, step_user_migration, step_apply_constraints,
    step_verify_integrity, run, update, finished.
  cbn [negb].
  unfold cleanup_aadhaar_duplicates, cleanup_pan_duplicates in *.
  rewrite E1, E2, E3. reflexivity.
Qed.

(** The schema migration of a store never reports success: the call of
    [add_foreign_key_constraints] without its second argument raises
    before the migration can be logged as done. *)
Lemma migrate_database_reports_failure k w :
  exists w', DatabaseSchemaManager.migrate_database k w = (Ok false, w').
Proof.
  unfold DatabaseSchemaManager.migrate_database, try_except, bind.
  destruct (DatabaseSchemaManager.create_backup (kind_db k) w)
    as [[p|e] w1]; [|cbn; eauto].
  destruct (DatabaseSchemaManager.create_users_table (kind_db k) w1)
    as [[[]|e] w2]; cbn; eauto.
  destruct (DatabaseSchemaManager.add_user_id_columns (kind_db k) w2)
    as [[[]|e] w3]; cbn; eauto.
  destruct (DatabaseSchemaManager.add_unique_constraints (kind_db k)
              ColNumber w3) as [[[]|e] w4]; cbn; eauto.
Qed.

Lemma migrate_all_databases_reports_failure w :
  exists w', DatabaseSchemaManager.migrate_all_databases w = (Ok false, w').
Proof.
  unfold DatabaseSchemaManager.migrate_all_databases, bind,
    DatabaseSchemaManager.migrate_aadhaar_database,
    DatabaseSchemaManager.migrate_pan_database.
  destruct (migrate_database_reports_failure AADHAAR w) as [w1 ->].
  destruct (migrate_database_reports_failure PAN w1) as [w2 ->].
  cbn. eauto.
Qed.

(** A run that is not a dry run, spelled out: it stops at the backups or
    at the schema updates. *)
Lemma real_run_outcome w :
  let r := (run_complete_migration user_step false w).1 in
  mr_final_status r = failed
  /\ integrity_verification r = None
  /\ (steps_completed r = [] \/ steps_completed r = ["create_backups"])
  /\ (steps_failed r = [] \/ steps_failed r = ["schema_updates"]).
Proof.
  unfold run_complete_migration, step_create_backups, step_schema_updates,
    run, update, abort.
  cbn [negb].
  destruct (create_migration_backup AadhaarDb w) as [[a|e] w1];
    [|cbn; auto].
  destruct (create_migration_backup PanDb w1) as [[p|e] w2];
    [|cbn; auto].
  destruct (migrate_all_databases_reports_failure w2) as [w3 ->].
  cbn. auto.
Qed.

End Pipeline.

(** C6 (amended): a dry run deletes no record, creates no backup and leaves
    every existing store, the cache and the backup directories as they
    were (a store whose file is missing may be created empty by a
    connection).  It does not stop after the planning of the duplicate
    cleanup: it goes on to the integrity verification, which only reads,
    records its findings as one entry of the migration log and decides
    between [completed_successfully] and [completed_with_warnings]. *)
Theorem dry_run_reads_and_verifies
    (user_step : world -> user_migration_results * world) (w : world) :
  let out := DataCleanupMigrator.run_complete_migration user_step true w in
  read_only_step w out.2
  /\ backups_created out.1 = []
  /\ steps_completed out.1 = ["cleanup_duplicates"; "verify_integrity"]
  /\ steps_failed out.1 = []
  /\ (mr_final_status out.1 = completed_successfully
      \/ mr_final_status out.1 = completed_with_warnings)
  /\ user_migration out.1 = None
  /\ constraint_application out.1 = None
  /\ exists v,
       integrity_verification out.1 = Some v
       /\ ml_operations out.2
          = ml_operations w ++ [OpVerifyIntegrity (now_iso out.2) v].
Proof.
  intros out. subst out.
  destruct (dry_run_outcome user_step w)
    as (ra & rp & v & w1 & w2 & w3 & _ & _ & _ & Hro & Hops & ->).
  cbn [fst snd backups_created steps_completed steps_failed mr_final_status
       user_migration constraint_application integrity_verification].
  split; [exact Hro|]. do 3 (split; [reflexivity|]).
  split; [destruct (issues v); auto|]. do 2 (split; [reflexivity|]).
  exists v. split; [reflexivity | exact Hops].
Qed.

(** C6, as stated, fails: the dry run over the two-record store completes
    the verification step as well and returns its findings. *)
Lemma dry_run_goes_on_to_verification :
  steps_completed
    (DataCleanupMigrator.run_complete_migration no_user_migration true
       migrator_world).1
  = ["cleanup_duplicates"; "verify_integrity"]
  /\ ~ dry_run_stops_after_planning no_user_migration migrator_world.
Proof.
  split; [vm_compute; reflexivity|].
  intros [H _]. vm_compute in H. discriminate.
Qed.

(** C7 (amended): every run ends with one of the statuses
    [completed_successfully], [completed_with_warnings] and [failed]; the
    status [completed_with_errors] is never produced.  A step that is
    recorded as failed ends the run at once: the status is [failed] and the
    integrity verification is not run. *)
Theorem pipeline_final_status
    (user_step : world -> user_migration_results * world) (dry_run : bool)
    (w : world) :
  let r :=
    (DataCleanupMigrator.run_complete_migration user_step dry_run w).1 in
  (mr_final_status r = completed_successfully
   \/ mr_final_status r = completed_with_warnings
   \/ mr_final_status r = failed)
  /\ mr_final_status r <> completed_with_errors
  /\ mr_final_status r <> in_progress
  /\ (steps_failed r <> [] ->
      mr_final_status r = failed
      /\ integrity_verification r = None
      /\ "verify_integrity" ∉ steps_completed r).
Proof.
  intros r. subst r. destruct dry_run.
  - destruct (dry_run_outcome user_step w)
      as (ra & rp & v & w1 & w2 & w3 & _ & _ & _ & _ & _ & ->).
    cbn. destruct (issues v); repeat split; auto; try discriminate;
      congruence.
  - destruct (real_run_outcome user_step w) as (Hst & Hiv & Hsc & _).
    rewrite Hst. repeat split; auto; try discriminate.
    intros Hin. destruct Hsc as [Hsc | Hsc]; rewrite Hsc in Hin.
    + inversion Hin.
    + apply list_elem_of_singleton in Hin. discriminate.
Qed.

Lemma pipeline_final_status_witness :
  let r :=
    (DataCleanupMigrator.run_complete_migration no_user_migration false
       ledger_only_world).1 in
  steps_failed r <> []
  /\ mr_final_status r = failed
  /\ integrity_verification r = None
  /\ "verify_integrity" ∉ steps_completed r.
Proof.
  split.
  - vm_compute. discriminate.
  - apply (proj2 (proj2 (proj2
             (pipeline_final_status no_user_migration false
                ledger_only_world)))).
    vm_compute. discriminate.
Defined.

(** C7, as stated, fails: where the document tables are missing the schema
    update fails, the run ends as [failed] and never reaches the
    verification. *)
Lemma failed_step_ends_the_run :
  let r :=
    (DataCleanupMigrator.run_complete_migration no_user_migration false
       ledger_only_world).1 in
  steps_failed r = ["schema_updates"]
  /\ steps_completed r = ["create_backups"]
  /\ mr_final_status r = failed
  /\ integrity_verification r = None
  /\ ~ step_failure_completes_with_errors no_user_migration false
         ledger_only_world.
Proof.
  cbv zeta. split; [vm_compute; reflexivity|].
  split; [vm_compute; reflexivity|]. split; [vm_compute; reflexivity|].
  split; [vm_compute; reflexivity|].
  intros H. unfold step_failure_completes_with_errors in H. cbv zeta in H.
  destruct H as [H _].
  - vm_compute. discriminate.
  - vm_compute in H. discriminate.
Qed.

(* ===================================================================== *)
(** * Part III: further properties *)
(* ===================================================================== *)

(** X1: [store_in_database] refuses incomplete input without touching
    anything.  A result whose status is not ["success"] is answered with
    the error "Cannot store failed extraction result".  A successful
    result whose [extracted_data] is [None] is answered with the
    [STORAGE_ERROR] of the [AttributeError] that reading a field of it
    raises.  A successful result whose [extracted_data] is a dictionary
    that lacks the Aadhaar number or the name is answered with the
    [INVALID_DOCUMENT_DATA] response that lists exactly the missing
    fields.  In all three cases the world is left as it was. *)
Theorem store_in_database_refuses_incomplete_input
    (x : extraction_result) (w : world) :
  (xr_status x <> Some "success" ->
   AadhaarExtractionTool.store_in_database x w
   = (StorageError "Cannot store failed extraction result" None, w))
  /\ (xr_status x = Some "success" ->
      xr_extracted_data x = None ->
      AadhaarExtractionTool.store_in_database x w
      = (StorageError
           "Database storage failed: 'NoneType' object has no attribute 'get'"
           (Some "STORAGE_ERROR"), w))
  /\ (forall data,
        xr_status x = Some "success" ->
        xr_extracted_data x = Some data ->
        Py.truthy_opt (xd_aadhaar_number data) = false
        \/ Py.truthy_opt (xd_name data) = false ->
        exists missing,
          AadhaarExtractionTool.store_in_database x w
          = (StorageRejected
               (ErrorResponse "InvalidDocumentDataError"
                  "INVALID_DOCUMENT_DATA"
                  ("Invalid AADHAAR document data - Missing fields: "
                   +:+ String.concat ", " missing)
                  (now_iso w)
                  "Provide all required fields with valid data"
                  (InvalidDocumentDataError "AADHAAR" missing
                     ["Aadhaar number and name are required for user management"])),
             w)
          /\ missing
             = (if Py.truthy_opt (xd_aadhaar_number data) then []
                else ["Aadhaar Number"])
               ++ (if Py.truthy_opt (xd_name data) then [] else ["Name"])
          /\ missing <> []).
Proof.
  split; [|split].
  - intros Hs. unfold AadhaarExtractionTool.store_in_database.
    rewrite bool_decide_eq_false_2 by exact Hs. reflexivity.
  - intros Hs Hx. unfold AadhaarExtractionTool.store_in_database.
    rewrite bool_decide_eq_true_2 by exact Hs. rewrite Hx. reflexivity.
  - intros data Hs Hx Hm. unfold AadhaarExtractionTool.store_in_database.
    rewrite bool_decide_eq_true_2 by exact Hs. rewrite Hx. cbn [negb].
    unfold AadhaarExtractionTool.store_checked.
    destruct (Py.truthy_opt (xd_aadhaar_number data)) eqn:Ea,
      (Py.truthy_opt (xd_name data)) eqn:En;
      try (destruct Hm; discriminate);
      cbn; eexists; (split; [reflexivity|]); split; try reflexivity;
      discriminate.
Qed.

(** X2: on a fresh store, two identifiers with the same normal form (the
    same digits, whatever the separators) resolve to one user: the second
    call of [get_or_create_user_id] returns the id created by the first,
    draws no new [uuid4], brings the [document_count] to 2 and leaves the
    [primary_name] as the first call stored it (the stripped first name). *)
Theorem equivalent_spellings_resolve_to_one_user
    (w : world) (a a' n n' : string) (preferred_db preferred_db' : option db_id) :
  fresh_store w ->
  Py.truthy a = true -> Py.truthy a' = true ->
  Py.truthy n = true -> Py.truthy n' = true ->
  UserIDManager.normalize_aadhaar a = UserIDManager.normalize_aadhaar a' ->
  Py.truthy (uuid4 w (uuid_calls w)) = true ->
  let r1 := UserIDManager.get_or_create_user_id (Some a) (Some n)
              preferred_db w in
  let r2 := UserIDManager.get_or_create_user_id (Some a') (Some n')
              preferred_db' (snd r1) in
  let uid := uuid4 w (uuid_calls w) in
  fst r1 = Ok uid
  /\ fst r2 = Ok uid
  /\ stored_document_count uid (snd r2) = Some 2
  /\ stored_primary_name uid (snd r2) = Some (Py.strip n)
  /\ uuid_calls (snd r2) = S (uuid_calls w).
Proof.
  intros ([da [Hda Hua]] & [dp [Hdp Hup]] & Hc) Ha Ha' Hn Hn' Hnorm Hu.
  destruct w; simpl in *. subst.
  destruct da as [dda dfa dua dxa dia], dp as [ddp dfp dup dxp dip];
    simpl in *; subst.
  unfold UserIDManager.get_or_create_user_id, stored_document_count,
    stored_primary_name,
    UserIDManager.get_user_by_aadhaar, UserIDManager.get_user_by_id,
    UserIDManager.update_user_document_count, UserIDManager.get_user_by_id,
    UserIDManager.get_user_by_aadhaar_in, UserIDManager.get_user_by_id_in,
    UserIDManager._get_user_from_cache,
    bind, gets, try_except, with_connection.
  destruct preferred_db as [[]|];
    repeat (progress (cbn;
      rewrite ?Ha, ?Ha', ?Hn, ?Hn', ?Hu, <- ?Hnorm, ?lookup_empty, ?lookup_insert_eq,
        ?String.eqb_refl));
    destruct (Py.truthy (UserIDManager.normalize_aadhaar a));
    repeat (progress (cbn; rewrite ?Hu, ?String.eqb_refl));
    auto.
Qed.

Lemma equivalent_spellings_resolve_to_one_user_witness :
  let w := sample_fresh_world in
  let r1 := UserIDManager.get_or_create_user_id (Some "1234 5678 9012")
              (Some "John Doe") None w in
  let r2 := UserIDManager.get_or_create_user_id (Some "1234-5678-9012")
              (Some "J. Doe") (Some PanDb) (snd r1) in
  let uid := uuid4 w (uuid_calls w) in
  fst r1 = Ok uid
  /\ fst r2 = Ok uid
  /\ stored_document_count uid (snd r2) = Some 2
  /\ stored_primary_name uid (snd r2) = Some (Py.strip "John Doe")
  /\ uuid_calls (snd r2) = S (uuid_calls w).
Proof.
  apply (equivalent_spellings_resolve_to_one_user sample_fresh_world
           "1234 5678 9012" "1234-5678-9012" "John Doe" "J. Doe" None
           (Some PanDb)).
  - exact sample_fresh_world_is_fresh.
  - reflexivity.
  - reflexivity.
  - reflexivity.
  - reflexivity.
  - reflexivity.
  - reflexivity.
Defined.

Section Frames.

Variable R : world -> world -> Prop.
Hypothesis R_refl : forall w, R w w.
Hypothesis R_trans : forall w1 w2 w3, R w1 w2 -> R w2 w3 -> R w1 w3.

Lemma preserves_ret {A} (a : A) : preserves R (ret a).
Proof. intros w. apply R_refl. Qed.

Lemma preserves_raise {A} (e : exn) : preserves R (raise e : M A).
Proof. intros w. apply R_refl. Qed.

Lemma preserves_gets {A} (f : world -> A) : preserves R (gets f).
Proof. intros w. apply R_refl. Qed.

Lemma preserves_act (f : world -> world) :
  (forall w, R w (f w)) -> preserves R (act f).
Proof. intros H w. apply H. Qed.

Lemma preserves_bind {A B} (m : M A) (k : A -> M B) :
  preserves R m -> (forall a, preserves R (k a)) -> preserves R (bind m k).
Proof.
  intros Hm Hk w. unfold bind. specialize (Hm w).
  destruct (m w) as [[a|e] w']; cbn in *; [|exact Hm].
  eapply R_trans; [exact Hm | apply Hk].
Qed.

Lemma preserves_try_except {A} (m : M A) (h : exn -> M A) :
  preserves R m -> (forall e, preserves R (h e)) ->
  preserves R (try_except m h).
Proof.
  intros Hm Hh w. unfold try_except. specialize (Hm w).
  destruct (m w) as [[a|e] w']; cbn in *; [exact Hm|].
  eapply R_trans; [exact Hm | apply Hh].
Qed.

End Frames.

Lemma same_documents_refl d : same_documents d d.
Proof. repeat split. Qed.

Lemma same_documents_trans d1 d2 d3 :
  same_documents d1 d2 -> same_documents d2 d3 -> same_documents d1 d3.
Proof.
  intros (A1 & A2 & A3 & A4) (B1 & B2 & B3 & B4).
  repeat split; congruence.
Qed.

Lemma stores_kept_refl w : stores_kept w w.
Proof. intros i d H. exact H. Qed.

Lemma stores_kept_trans w1 w2 w3 :
  stores_kept w1 w2 -> stores_kept w2 w3 -> stores_kept w1 w3.
Proof. intros H1 H2 i d H. apply H2, H1, H. Qed.

Lemma users_only_step_refl w : users_only_step w w.
Proof. intros i d H. exists d. split; [exact H | apply same_documents_refl]. Qed.

Lemma users_only_step_trans w1 w2 w3 :
  users_only_step w1 w2 -> users_only_step w2 w3 -> users_only_step w1 w3.
Proof.
  intros H1 H2 i d H. destruct (H1 i d H) as (d2 & G2 & S2).
  destruct (H2 i d2 G2) as (d3 & G3 & S3).
  exists d3. split; [exact G3 | eapply same_documents_trans; eassumption].
Qed.

Lemma stores_kept_users_only w w' : stores_kept w w' -> users_only_step w w'.
Proof.
  intros H i d G. exists d. split; [apply H, G | apply same_documents_refl].
Qed.

Lemma same_stores_emit logger lv m w : same_stores w (emit logger lv m w).
Proof. intros i. apply get_db_emit. Qed.

Lemma get_db_set_cache i c w : get_db i (set_cache c w) = get_db i w.
Proof. destruct i; reflexivity. Qed.

Lemma get_db_set_uuid_calls i n w : get_db i (set_uuid_calls n w) = get_db i w.
Proof. destruct i; reflexivity. Qed.

Lemma stores_kept_connect i w : stores_kept w (connect i w).2.
Proof.
  intros j d H. unfold connect.
  destruct (get_db i w) eqn:E; cbn; [exact H|].
  rewrite get_db_set_db. destruct (decide (i = j)); [congruence | exact H].
Qed.

Lemma get_db_connect i w : get_db i (connect i w).2 = Some (connect i w).1.
Proof.
  unfold connect. destruct (get_db i w) eqn:E; cbn; [exact E|].
  rewrite get_db_set_db. destruct (decide (i = i)); congruence.
Qed.

(** A connection whose body writes to the users table only, and leaves the
    stores of the world alone, is a users-only step. *)
Lemma with_connection_users_only {A} i
    (body : database -> world -> result (A * database) * world) w :
  (forall d w1, same_stores w1 (body d w1).2) ->
  (forall d w1 a d', (body d w1).1 = Ok (a, d') -> same_documents d d') ->
  users_only_step w (with_connection i body w).2.
Proof.
  intros Hw Hd. unfold with_connection.
  pose proof (stores_kept_connect i w) as Hc.
  pose proof (get_db_connect i w) as Hg.
  destruct (connect i w) as [d w1]. cbn in Hc, Hg.
  specialize (Hw d w1). specialize (Hd d w1).
  destruct (body d w1) as [[[a d']|e] w2]; cbn in *.
  - intros j dj Hj. unfold commit. rewrite get_db_set_db.
    destruct (decide (i = j)) as [->|Hne].
    + exists d'. split; [reflexivity|].
      apply Hc in Hj. rewrite Hg in Hj. injection Hj as <-.
      eapply Hd. reflexivity.
    + exists dj. split; [|apply same_documents_refl].
      rewrite Hw. apply Hc, Hj.
  - intros j dj Hj. exists dj. split; [|apply same_documents_refl].
    rewrite Hw. apply Hc, Hj.
Qed.

Lemma with_connection_stores_kept {A} i
    (body : database -> world -> result (A * database) * world) w :
  (forall d w1, same_stores w1 (body d w1).2) ->
  (forall d w1 a d', (body d w1).1 = Ok (a, d') -> d' = d) ->
  stores_kept w (with_connection i body w).2.
Proof.
  intros Hw Hd. unfold with_connection.
  pose proof (stores_kept_connect i w) as Hc.
  pose proof (get_db_connect i w) as Hg.
  destruct (connect i w) as [d w1]. cbn in Hc, Hg.
  specialize (Hw d w1). specialize (Hd d w1).
  destruct (body d w1) as [[[a d']|e] w2]; cbn in *.
  - intros j dj Hj. unfold commit. rewrite get_db_set_db.
    destruct (decide (i = j)) as [->|Hne].
    + apply Hc in Hj. rewrite Hg in Hj. injection Hj as <-.
      f_equal. eapply Hd. reflexivity.
    + rewrite Hw. apply Hc, Hj.
  - intros j dj Hj. rewrite Hw. apply Hc, Hj.
Qed.

Lemma same_stores_refl w : same_stores w w.
Proof. intros i. reflexivity. Qed.

Lemma same_stores_add_user a u w :
  same_stores w (UserIDManager._add_user_to_cache a u w).
Proof. intros i. apply get_db_set_cache. Qed.

Lemma same_stores_clear_user a w :
  same_stores w (UserIDManager._clear_user_from_cache a w).
Proof. intros i. apply get_db_set_cache. Qed.

Lemma stores_kept_emit logger lv m w : stores_kept w (emit logger lv m w).
Proof. intros i d H. rewrite get_db_emit. exact H. Qed.

Create HintDb frames.

#[local] Hint Resolve stores_kept_refl stores_kept_trans users_only_step_refl
  users_only_step_trans same_stores_refl same_stores_emit
  same_stores_add_user same_stores_clear_user stores_kept_emit : frames.

Lemma get_user_by_aadhaar_in_stores_kept a i :
  preserves stores_kept (UserIDManager.get_user_by_aadhaar_in a i).
Proof.
  unfold UserIDManager.get_user_by_aadhaar_in.
  apply (preserves_try_except _ stores_kept_trans).
  - intros w. apply with_connection_stores_kept.
    + intros d w1. repeat case_match; cbn; auto with frames.
    + intros d w1 x d'. repeat case_match; cbn; congruence.
  - intros e. apply (preserves_bind _ stores_kept_trans).
    + apply preserves_act. intros w. apply stores_kept_emit.
    + intros _. apply preserves_ret, stores_kept_refl.
Qed.

Lemma get_user_by_aadhaar_stores_kept a :
  preserves stores_kept (UserIDManager.get_user_by_aadhaar a).
Proof.
  unfold UserIDManager.get_user_by_aadhaar.
  destruct a as [a|]; [|apply preserves_ret, stores_kept_refl].
  destruct (negb (Py.truthy a)); [apply preserves_ret, stores_kept_refl|].
  apply (preserves_bind _ stores_kept_trans);
    [apply preserves_gets, stores_kept_refl|].
  intros [u|]; [apply preserves_ret, stores_kept_refl|].
  apply (preserves_bind _ stores_kept_trans);
    [apply get_user_by_aadhaar_in_stores_kept|].
  intros [u|]; [apply preserves_ret, stores_kept_refl|].
  apply get_user_by_aadhaar_in_stores_kept.
Qed.

Lemma get_user_by_id_in_stores_kept uid i :
  preserves stores_kept (UserIDManager.get_user_by_id_in uid i).
Proof.
  unfold UserIDManager.get_user_by_id_in.
  apply (preserves_try_except _ stores_kept_trans).
  - intros w. apply with_connection_stores_kept.
    + intros d w1. repeat case_match; cbn; auto with frames.
    + intros d w1 x d'. repeat case_match; cbn; congruence.
  - intros e. apply (preserves_bind _ stores_kept_trans).
    + apply preserves_act. intros w. apply stores_kept_emit.
    + intros _. apply preserves_ret, stores_kept_refl.
Qed.

Lemma get_user_by_id_stores_kept uid :
  preserves stores_kept (UserIDManager.get_user_by_id uid).
Proof.
  unfold UserIDManager.get_user_by_id.
  destruct (negb (Py.truthy uid)); [apply preserves_ret, stores_kept_refl|].
  apply (preserves_bind _ stores_kept_trans);
    [apply get_user_by_id_in_stores_kept|].
  intros [u|]; [apply preserves_ret, stores_kept_refl|].
  apply get_user_by_id_in_stores_kept.
Qed.

Lemma preserves_weaken {A} (R R' : world -> world -> Prop) (m : M A) :
  (forall w w', R w w' -> R' w w') -> preserves R m -> preserves R' m.
Proof. intros H Hm w. apply H, Hm. Qed.

Lemma insert_user_same_documents uid a n ts d d' :
  UserIDManager.insert_user uid a n ts d = Ok d' -> same_documents d d'.
Proof.
  unfold UserIDManager.insert_user. repeat case_match; try discriminate.
  intros [= <-]. repeat split.
Qed.

Lemma update_count_same_documents uid inc ts d d' :
  UserIDManager.update_count uid inc ts d = Ok d' -> same_documents d d'.
Proof.
  unfold UserIDManager.update_count. repeat case_match; try discriminate.
  intros [= <-]. repeat split.
Qed.

Lemma create_user_users_only a n i :
  preserves users_only_step (UserIDManager.create_user a n i).
Proof.
  unfold UserIDManager.create_user.
  destruct a as [a|], n as [n|];
    try (apply preserves_raise, users_only_step_refl).
  destruct (negb (Py.truthy a) || negb (Py.truthy n));
    [apply preserves_raise, users_only_step_refl|].
  apply (preserves_bind _ users_only_step_trans).
  { intros w. apply stores_kept_users_only. intros j d H. cbn.
    rewrite get_db_set_uuid_calls. exact H. }
  intros uid. apply (preserves_try_except _ users_only_step_trans).
  - intros w. apply with_connection_users_only.
    + intros d w1. repeat case_match; cbn; auto with frames.
    + intros d w1 x d'. destruct (UserIDManager.insert_user _ _ _ _ d) eqn:E;
        cbn; [|discriminate].
      intros [= <- <-]. eapply insert_user_same_documents, E.
  - intros e. destruct (UserIDManager.is_integrity_error e).
    + destruct (Py.contains _ _);
        [|apply preserves_raise, users_only_step_refl].
      apply (preserves_bind _ users_only_step_trans).
      * eapply preserves_weaken; [apply stores_kept_users_only|].
        apply get_user_by_aadhaar_stores_kept.
      * intros [u|]; [apply preserves_ret | apply preserves_raise];
          apply users_only_step_refl.
    + apply (preserves_bind _ users_only_step_trans).
      * apply preserves_act. intros w. apply stores_kept_users_only.
        apply stores_kept_emit.
      * intros _. apply preserves_raise, users_only_step_refl.
Qed.

Lemma update_user_document_count_users_only uid inc :
  preserves users_only_step (UserIDManager.update_user_document_count uid inc).
Proof.
  unfold UserIDManager.update_user_document_count.
  apply (preserves_bind _ users_only_step_trans).
  { eapply preserves_weaken; [apply stores_kept_users_only|].
    apply get_user_by_id_stores_kept. }
  intros [u|].
  - apply (preserves_try_except _ users_only_step_trans).
    + intros w. apply with_connection_users_only.
      * intros d w1. repeat case_match; cbn; auto with frames.
      * intros d w1 x d'.
        destruct (UserIDManager.update_count _ _ _ d) eqn:E;
          cbn; [|discriminate].
        intros [= <- <-]. eapply update_count_same_documents, E.
    + intros e. apply (preserves_bind _ users_only_step_trans).
      * apply preserves_act. intros w. apply stores_kept_users_only.
        apply stores_kept_emit.
      * intros _. apply preserves_ret, users_only_step_refl.
  - apply (preserves_bind _ users_only_step_trans).
    + apply preserves_act. intros w. apply stores_kept_users_only.
      apply stores_kept_emit.
    + intros _. apply preserves_ret, users_only_step_refl.
Qed.

Lemma get_or_create_user_id_users_only a n p :
  preserves users_only_step (UserIDManager.get_or_create_user_id a n p).
Proof.
  unfold UserIDManager.get_or_create_user_id.
  destruct (_ || _); [apply preserves_raise, users_only_step_refl|].
  apply (preserves_bind _ users_only_step_trans).
  { eapply preserves_weaken; [apply stores_kept_users_only|].
    apply get_user_by_aadhaar_stores_kept. }
  intros [u|].
  - apply (preserves_bind _ users_only_step_trans).
    + apply update_user_document_count_users_only.
    + intros _. apply preserves_ret, users_only_step_refl.
  - apply create_user_users_only.
Qed.

Lemma normalize_stores_kept (normalizer : string -> M string) a :
  normalizer = DuplicatePreventionService.normalize_aadhaar
  \/ normalizer = DuplicatePreventionService.normalize_pan ->
  preserves stores_kept (normalizer a).
Proof.
  intros [-> | ->];
    [unfold DuplicatePreventionService.normalize_aadhaar
    |unfold DuplicatePreventionService.normalize_pan];
    (apply (preserves_bind _ stores_kept_trans);
     [|intros _; apply preserves_ret, stores_kept_refl]);
    case_match;
    try (apply preserves_ret, stores_kept_refl);
    apply preserves_act; intros w; apply stores_kept_emit.
Qed.

Lemma check_exists_stores_kept i label normalizer number :
  normalizer = DuplicatePreventionService.normalize_aadhaar
  \/ normalizer = DuplicatePreventionService.normalize_pan ->
  preserves stores_kept
    (DuplicatePreventionService.check_exists i label normalizer number).
Proof.
  intros Hn. unfold DuplicatePreventionService.check_exists.
  destruct number as [a|]; [|apply preserves_ret, stores_kept_refl].
  destruct (negb (Py.truthy a)); [apply preserves_ret, stores_kept_refl|].
  apply (preserves_bind _ stores_kept_trans);
    [apply normalize_stores_kept, Hn|].
  intros normalized. apply (preserves_try_except _ stores_kept_trans).
  - intros w. apply with_connection_stores_kept.
    + intros d w1. repeat case_match; cbn; auto with frames.
    + intros d w1 x d'. repeat case_match; cbn; congruence.
  - intros e. apply (preserves_bind _ stores_kept_trans).
    + apply preserves_act. intros w. apply stores_kept_emit.
    + intros _. apply preserves_ret, stores_kept_refl.
Qed.

Lemma validate_document_uniqueness_stores_kept ty data :
  preserves stores_kept
    (DuplicatePreventionService.validate_document_uniqueness ty data).
Proof.
  unfold DuplicatePreventionService.validate_document_uniqueness,
    DuplicatePreventionService.check_aadhaar_exists,
    DuplicatePreventionService.check_pan_exists.
  repeat case_match; try (apply preserves_ret, stores_kept_refl);
    (apply (preserves_bind _ stores_kept_trans);
     [apply check_exists_stores_kept; auto
     |intros [r|]; apply preserves_ret, stores_kept_refl]).
Qed.

Lemma log_duplicate_attempt_stores_kept ty data existing :
  preserves stores_kept
    (DuplicatePreventionService.log_duplicate_attempt ty data existing).
Proof. intros w. apply stores_kept_emit. Qed.

Lemma upper_aadhaar_label : String.eqb (Py.upper "AADHAAR") "AADHAAR" = true.
Proof. reflexivity. Qed.

(** What the uniqueness check of an Aadhaar document returns. *)
Lemma validate_aadhaar_spec data w d :
  get_db AadhaarDb w = Some d ->
  Py.truthy_opt (xd_aadhaar_number data) = true ->
  exists w1,
    stores_kept w w1
    /\ DuplicatePreventionService.validate_document_uniqueness "AADHAAR" data w
       = (Ok (match DuplicatePreventionService.select_existing AadhaarDb
                      (DuplicatePreventionNormalizer.normalize_aadhaar
                         (default "" (xd_aadhaar_number data))) d with
              | Ok (Some r) => (false, Some r)
              | _ => (true, None)
              end), w1).
Proof.
  intros Hd Ha.
  pose proof (validate_document_uniqueness_stores_kept "AADHAAR" data w) as Hk.
  destruct (xd_aadhaar_number data) as [a|] eqn:Ea; [|discriminate].
  cbn in Ha. cbn [default from_option].
  assert (exists w1,
    DuplicatePreventionService.validate_document_uniqueness "AADHAAR" data w
    = (Ok (match DuplicatePreventionService.select_existing AadhaarDb
                    (DuplicatePreventionNormalizer.normalize_aadhaar a) d with
           | Ok (Some r) => (false, Some r)
           | _ => (true, None)
           end), w1)) as (w1 & E).
  { unfold DuplicatePreventionService.validate_document_uniqueness.
    rewrite upper_aadhaar_label, Ea. cbn [Py.truthy_opt]. rewrite Ha.
    unfold DuplicatePreventionService.check_aadhaar_exists,
      DuplicatePreventionService.check_exists.
    rewrite Ha. cbn [negb].
    unfold DuplicatePreventionService.normalize_aadhaar.
    set (n := DuplicatePreventionNormalizer.normalize_aadhaar a).
    unfold bind, act, ret, try_except, with_connection.
    destruct (DuplicatePreventionNormalizer.normalize_aadhaar_warns a).
    - rewrite (connect_existing _ d) by (rewrite get_db_emit; exact Hd).
      destruct (DuplicatePreventionService.select_existing AadhaarDb n d)
        as [[r|]|e] eqn:Es; cbn; eexists; reflexivity.
    - rewrite (connect_existing _ d) by exact Hd.
      destruct (DuplicatePreventionService.select_existing AadhaarDb n d)
        as [[r|]|e] eqn:Es; cbn; eexists; reflexivity. }
  exists w1. rewrite E in Hk. split; [exact Hk | exact E].
Qed.

(** The two ways in which [store_in_database] ends on an existing store:
    without a stored document, the users tables being the only part of
    the stores that may have changed, or with the three insertions
    committed on top of the user step. *)
Ltac fail_case H :=
  match goal with
  | |- context [AadhaarExtractionTool.is_known_rejection ?e] =>
      destruct (AadhaarExtractionTool.is_known_rejection e),
        (is_sqlite_error e); cbn; (split; [exact H | discriminate])
  end.

Lemma store_in_database_cases x w d :
  get_db AadhaarDb w = Some d ->
  let r := AadhaarExtractionTool.store_in_database x w in
  let data := default AadhaarExtractionTool.empty_extracted_data
                (xr_extracted_data x) in
  (users_only_step w r.2 /\ forall doc uid, r.1 <> StorageSuccess doc uid)
  \/ (exists doc uid d2 d3 d4 d5 ts,
        r.1 = StorageSuccess doc uid
        /\ Py.truthy_opt (xd_aadhaar_number data) = true
        /\ Py.truthy_opt (xd_name data) = true
        /\ (forall e,
              DuplicatePreventionService.select_existing AadhaarDb
                (DuplicatePreventionNormalizer.normalize_aadhaar
                   (default "" (xd_aadhaar_number data))) d
              <> Ok (Some e))
        /\ same_documents d d2
        /\ AadhaarExtractionTool.insert_document x uid ts d2 = Ok (doc, d3)
        /\ AadhaarExtractionTool.insert_fields doc data uid d3 = Ok d4
        /\ AadhaarExtractionTool.insert_or_replace_user_document uid doc d4
           = Ok d5
        /\ get_db AadhaarDb r.2 = Some d5
        /\ forall dp, get_db PanDb w = Some dp ->
             exists dp', get_db PanDb r.2 = Some dp' /\ same_documents dp dp').
Proof.
  intros Hd r data.
  assert (Hr : r = AadhaarExtractionTool.store_in_database x w) by reflexivity.
  clearbody r.
  unfold AadhaarExtractionTool.store_in_database in Hr.
  destruct (negb (bool_decide (xr_status x = Some "success"))).
  { subst r. left. split; [apply users_only_step_refl | discriminate]. }
  subst data. destruct (xr_extracted_data x) as [data|] eqn:Ex.
  2:{ subst r. left. split; [apply users_only_step_refl | discriminate]. }
  cbn [default from_option]. unfold id.
  unfold AadhaarExtractionTool.store_checked in Hr.
  destruct (Py.truthy_opt (xd_aadhaar_number data)) eqn:Ea; cbn [negb orb] in Hr.
  2:{ subst r. left. cbn. split; [apply users_only_step_refl | discriminate]. }
  destruct (Py.truthy_opt (xd_name data)) eqn:En; cbn [negb orb] in Hr.
  2:{ subst r. left. cbn. split; [apply users_only_step_refl | discriminate]. }
  destruct (validate_aadhaar_spec data w d Hd Ea) as (w1 & Hk1 & Ev).
  unfold bind at 1 in Hr. rewrite Ev in Hr.
  destruct (DuplicatePreventionService.select_existing AadhaarDb _ d)
    as [[existing|]|e0] eqn:Es; cbn [fst snd negb] in Hr.
  { left. unfold bind, DuplicatePreventionService.log_duplicate_attempt,
      raise in Hr.
    subst r. cbn. split; [|discriminate].
    apply stores_kept_users_only.
    eapply stores_kept_trans; [exact Hk1|]. apply stores_kept_emit. }
  all: unfold bind at 1 in Hr;
    pose proof (get_or_create_user_id_users_only (xd_aadhaar_number data)
                  (xd_name data) (Some AadhaarDb) w1) as Hu;
    destruct (UserIDManager.get_or_create_user_id _ _ _ w1)
      as [[uid|e] w2] eqn:Eg; cbn [fst snd] in Hu;
    pose proof (users_only_step_trans _ _ _
                  (stores_kept_users_only _ _ Hk1) Hu) as Hu2.
  2,4: left; subst r; fail_case Hu2.
  all: destruct (Hu2 AadhaarDb d Hd) as (d2 & Hd2 & Hs2);
    unfold with_connection in Hr; rewrite (connect_existing _ _ _ Hd2) in Hr;
    destruct (AadhaarExtractionTool.insert_document x uid
                (current_timestamp w2) d2) as [[doc d3]|e] eqn:E3;
    [|left; subst r; fail_case Hu2];
    destruct (AadhaarExtractionTool.insert_fields doc data uid d3)
      as [d4|e] eqn:E4;
    [|left; subst r; fail_case Hu2];
    destruct (AadhaarExtractionTool.insert_or_replace_user_document uid doc d4)
      as [d5|e] eqn:E5;
    [|left; subst r; fail_case Hu2];
    right; exists doc, uid, d2, d3, d4, d5, (current_timestamp w2);
    subst r; cbn [fst snd];
    (split; [reflexivity|]); (split; [reflexivity|]);
    (split; [reflexivity|]);
    (split; [intros e'; congruence|]);
    (split; [exact Hs2|]); (split; [exact E3|]); (split; [exact E4|]);
    (split; [exact E5|]);
    (split; [unfold commit; rewrite get_db_set_db;
             destruct (decide (AadhaarDb = AadhaarDb)); congruence|]);
    intros dp Hp; unfold commit; rewrite get_db_set_db;
    destruct (decide (AadhaarDb = PanDb)); [discriminate|];
    apply Hu2, Hp.
Qed.

Lemma foldr_max_ge last ids :
  last <= foldr Z.max last ids
  /\ forall y, y ∈ ids -> y <= foldr Z.max last ids.
Proof.
  induction ids as [|z ids [IH1 IH2]]; cbn.
  - split; [lia|]. intros y H. inversion H.
  - split; [lia|]. intros y H. apply elem_of_cons in H as [->|H]; [lia|].
    specialize (IH2 y H). lia.
Qed.

(** The rowid of a new row is above every rowid of the table and above
    every rowid that the table has handed out. *)
Lemma next_rowid_above ids last y : y ∈ ids -> y < next_rowid ids last.
Proof.
  intros H. apply (proj2 (foldr_max_ge last ids)) in H.
  unfold next_rowid. lia.
Qed.

Lemma next_rowid_above_last ids last : last < next_rowid ids last.
Proof.
  pose proof (proj1 (foldr_max_ge last ids)). unfold next_rowid. lia.
Qed.

Lemma next_rowid_fresh ids last : next_rowid ids last ∉ ids.
Proof. intros H. apply (next_rowid_above ids last) in H. lia. Qed.

Lemma insert_document_inv x uid ts d doc d' :
  AadhaarExtractionTool.insert_document x uid ts d = Ok (doc, d') ->
  exists dt,
    documents d = Some dt
    /\ has_user_id dt = true
    /\ doc = next_rowid (d_id <$> rows dt) (last_rowid dt)
    /\ d' = Database
              (Some (Table
                       (rows dt ++
                        [DocRow doc (xr_file_path x) (xr_document_type x)
                           (xr_extraction_timestamp x)
                           (xr_extraction_confidence x) (xr_raw_text x)
                           (Some uid) ts]) true doc))
              (extracted_fields d) (users d) (user_documents d) (indexes d).
Proof.
  unfold AadhaarExtractionTool.insert_document.
  destruct (documents d) as [dt|]; [|discriminate].
  destruct (has_user_id dt) eqn:Hh; cbn [negb]; [|discriminate].
  destruct (xr_file_path x), (xr_document_type x),
    (xr_extraction_timestamp x); try discriminate.
  intros [= <- <-]. exists dt. repeat split; auto.
Qed.

Lemma insert_fields_inv doc data uid d d' :
  AadhaarExtractionTool.insert_fields doc data uid d = Ok d' ->
  exists ft,
    extracted_fields d = Some ft
    /\ has_user_id ft = true
    /\ let row :=
         FieldRow (next_rowid (f_id <$> rows ft) (last_rowid ft)) (Some doc)
           (xd_name data)
           None (xd_dob data) (xd_gender data) (xd_address data)
           (xd_aadhaar_number data) (Some uid) in
       unique_index_violation AadhaarDb d (rows ft) row = None
       /\ d' = Database (documents d)
                 (Some (Table (rows ft ++ [row]) true (f_id row)))
                 (users d) (user_documents d) (indexes d).
Proof.
  unfold AadhaarExtractionTool.insert_fields.
  destruct (extracted_fields d) as [ft|]; [|discriminate].
  destruct (has_user_id ft) eqn:Hh; cbn [negb]; [|discriminate].
  destruct (unique_index_violation _ _ _ _) eqn:Ev; [discriminate|].
  intros [= <-]. exists ft. repeat split; auto.
Qed.

Lemma insert_or_replace_user_document_inv uid doc d d' :
  AadhaarExtractionTool.insert_or_replace_user_document uid doc d = Ok d' ->
  documents d' = documents d
  /\ extracted_fields d' = extracted_fields d
  /\ users d' = users d
  /\ indexes d' = indexes d.
Proof.
  unfold AadhaarExtractionTool.insert_or_replace_user_document.
  destruct (user_documents d); [|discriminate].
  intros [= <-]. repeat split.
Qed.

(** What [INSERT OR REPLACE] leaves in [user_documents]: the new row, and
    of the earlier rows those that do not clash with it on the uniqueness
    constraint of the table. *)
Lemma insert_or_replace_user_document_rows uid doc d t :
  user_documents d = Some t ->
  exists d' t',
    AadhaarExtractionTool.insert_or_replace_user_document uid doc d = Ok d'
    /\ user_documents d' = Some t'
    /\ ud_key t' = ud_key t
    /\ forall r,
         r ∈ ud_rows t'
         <-> r = UserDocumentsRow uid "AADHAAR" doc
             \/ (r ∈ ud_rows t
                 /\ ~ (ud_user_id r = uid
                       /\ ud_document_type r = "AADHAAR"
                       /\ (ud_key t = KeyUserTypeDocument
                           -> ud_document_id r = doc))).
Proof.
  intros Ht. unfold AadhaarExtractionTool.insert_or_replace_user_document.
  rewrite Ht. eexists _, _. split; [reflexivity|].
  split; [reflexivity|]. split; [reflexivity|].
  intros r. cbn [ud_rows]. rewrite elem_of_app, list_elem_of_singleton.
  destruct (ud_key t); rewrite list_elem_of_filter; split.
  - intros [[Hn Hr]| ->]; [right|left; reflexivity].
    split; [exact Hr|]. intros (H1 & H2 & H3). apply Hn. auto.
  - intros [-> |[Hr Hn]]; [right; reflexivity|left].
    split; [|exact Hr]. intros (H1 & H2 & H3). apply Hn. auto.
  - intros [[Hn Hr]| ->]; [right|left; reflexivity].
    split; [exact Hr|]. intros (H1 & H2 & _). apply Hn. auto.
  - intros [-> |[Hr Hn]]; [right; reflexivity|left].
    split; [|exact Hr]. intros (H1 & H2). apply Hn.
    split; [exact H1|]. split; [exact H2|]. discriminate.
Qed.

(** What a successful [store_in_database] has written. *)
Lemma store_success_shape x w d doc uid :
  get_db AadhaarDb w = Some d ->
  (AadhaarExtractionTool.store_in_database x w).1 = StorageSuccess doc uid ->
  let data := default AadhaarExtractionTool.empty_extracted_data
                (xr_extracted_data x) in
  exists dt ft d' ts,
    documents d = Some dt
    /\ extracted_fields d = Some ft
    /\ doc = next_rowid (d_id <$> rows dt) (last_rowid dt)
    /\ Py.truthy_opt (xd_aadhaar_number data) = true
    /\ Py.truthy_opt (xd_name data) = true
    /\ (forall e,
          DuplicatePreventionService.select_existing AadhaarDb
            (DuplicatePreventionNormalizer.normalize_aadhaar
               (default "" (xd_aadhaar_number data))) d
          <> Ok (Some e))
    /\ (let row :=
          FieldRow (next_rowid (f_id <$> rows ft) (last_rowid ft)) (Some doc)
            (xd_name data)
            None (xd_dob data) (xd_gender data) (xd_address data)
            (xd_aadhaar_number data) (Some uid) in
        unique_index_violation AadhaarDb d (rows ft) row = None
        /\ get_db AadhaarDb (AadhaarExtractionTool.store_in_database x w).2
           = Some d'
        /\ documents d'
           = Some (Table
                     (rows dt ++
                      [DocRow doc (xr_file_path x) (xr_document_type x)
                         (xr_extraction_timestamp x)
                         (xr_extraction_confidence x) (xr_raw_text x)
                         (Some uid) ts]) true doc)
        /\ extracted_fields d'
           = Some (Table (rows ft ++ [row]) true (f_id row))
        /\ indexes d' = indexes d).
Proof.
  intros Hd Hs data.
  destruct (store_in_database_cases x w d Hd) as [[_ Hno]|H].
  { exfalso. eapply Hno, Hs. }
  destruct H as (doc' & uid' & d2 & d3 & d4 & d5 & ts & Hr & Ha & Hn & Hsel
                 & (S1 & S2 & S3 & S4) & E3 & E4 & E5 & Hg & _).
  rewrite Hr in Hs. injection Hs as -> ->.
  apply insert_document_inv in E3 as (dt & Hdt & _ & Hdoc & ->).
  apply insert_fields_inv in E4 as (ft & Hft & _ & Hviol & ->).
  apply insert_or_replace_user_document_inv in E5 as (D1 & D2 & _ & D4).
  cbn in *. exists dt, ft, d5, ts.
  split; [congruence|]. split; [congruence|]. split; [exact Hdoc|].
  split; [exact Ha|]. split; [exact Hn|]. split; [exact Hsel|].
  split.
  { unfold unique_index_violation in *. rewrite <- S4. exact Hviol. }
  split; [exact Hg|]. split; [exact D1|]. split; [exact D2|]. congruence.
Qed.

Lemma head_omap_None {A B} (g : A -> option B) l :
  head (omap g l) = None -> forall c, c ∈ l -> g c = None.
Proof.
  induction l as [|x l IH]; cbn; intros H c Hc; [inversion Hc|].
  destruct (g x) eqn:E; [discriminate|].
  apply elem_of_cons in Hc as [->|Hc]; auto.
Qed.

Lemma unique_index_violation_None d fs new a :
  aadhaar_unique_index ∈ indexes d ->
  unique_index_violation AadhaarDb d fs new = None ->
  f_number new = Some a ->
  a ∉ omap f_number fs.
Proof.
  intros Hi Hv Ha Hin.
  unfold unique_index_violation in Hv.
  pose proof (head_omap_None _ _ Hv ColNumber) as H.
  cbv beta in H. cbn [column_value] in H. rewrite Ha in H.
  rewrite bool_decide_eq_true_2 in H by exact Hi.
  rewrite bool_decide_eq_true_2 in H.
  - cbn in H.
    assert (ColNumber ∈ all_fields_columns) as Hc
      by (apply list_elem_of_In; cbn; auto 10).
    specialize (H Hc). discriminate.
  - apply list_elem_of_omap in Hin as (f & Hf & Hfa).
    apply Exists_exists. exists f. split; [exact Hf | exact Hfa].
Qed.

Lemma same_documents_stored_numbers d d' :
  same_documents d d' -> stored_numbers d' = stored_numbers d.
Proof. intros (_ & H & _). unfold stored_numbers. rewrite H. reflexivity. Qed.

Lemma NoDup_snoc {A} (l : list A) x : NoDup l -> x ∉ l -> NoDup (l ++ [x]).
Proof.
  intros Hl Hx. apply NoDup_app. split; [exact Hl|]. split.
  - intros y Hy Hy'. apply list_elem_of_singleton in Hy'. subst. auto.
  - apply NoDup_singleton.
Qed.

Lemma omap_snoc {A B} (g : A -> option B) l x :
  omap g (l ++ [x]) = omap g l ++ match g x with Some y => [y] | None => [] end.
Proof. rewrite omap_app. cbn. destruct (g x); reflexivity. Qed.

(** X5: once the unique index on the Aadhaar column exists, ingestion
    keeps the stored identifiers pairwise distinct and the index in place,
    whatever is submitted and however it is spelled. *)
Theorem unique_index_guards_ingestion
    (x : extraction_result) (w : world) (d : database) :
  get_db AadhaarDb w = Some d ->
  aadhaar_unique_index ∈ indexes d ->
  NoDup (stored_numbers d) ->
  exists d',
    get_db AadhaarDb (AadhaarExtractionTool.store_in_database x w).2 = Some d'
    /\ aadhaar_unique_index ∈ indexes d'
    /\ NoDup (stored_numbers d').
Proof.
  intros Hd Hi Hn.
  destruct (AadhaarExtractionTool.store_in_database x w).1 as [doc uid|m t|resp]
    eqn:Er.
  - destruct (store_success_shape x w d doc uid Hd Er)
      as (dt & ft & d' & ts & Hdt & Hft & _ & Ha & _ & _ & Hv & Hg & _ & Hf'
          & Hi').
    exists d'. split; [exact Hg|]. split; [rewrite Hi'; exact Hi|].
    unfold stored_numbers in *. rewrite Hf'. rewrite Hft in Hn. cbn in *.
    rewrite omap_snoc. cbn [f_number].
    destruct (xd_aadhaar_number _) as [a|] eqn:Ea; [|discriminate].
    apply NoDup_snoc; [exact Hn|].
    eapply unique_index_violation_None; [exact Hi | exact Hv | reflexivity].
  - destruct (store_in_database_cases x w d Hd) as [[Hu _]|H].
    + destruct (Hu AadhaarDb d Hd) as (d' & Hg & Hs).
      exists d'. split; [exact Hg|].
      rewrite (same_documents_stored_numbers _ _ Hs).
      destruct Hs as (_ & _ & _ & ->). auto.
    + destruct H as (? & ? & ? & ? & ? & ? & ? & Hr & _). congruence.
  - destruct (store_in_database_cases x w d Hd) as [[Hu _]|H].
    + destruct (Hu AadhaarDb d Hd) as (d' & Hg & Hs).
      exists d'. split; [exact Hg|].
      rewrite (same_documents_stored_numbers _ _ Hs).
      destruct Hs as (_ & _ & _ & ->). auto.
    + destruct H as (? & ? & ? & ? & ? & ? & ? & Hr & _). congruence.
Qed.

Lemma unique_index_guards_ingestion_witness :
  exists d',
    get_db AadhaarDb
      (AadhaarExtractionTool.store_in_database
         (ingest "123456789012" "John Doe") indexed_world).2 = Some d'
    /\ aadhaar_unique_index ∈ indexes d'
    /\ NoDup (stored_numbers d').
Proof.
  apply (unique_index_guards_ingestion (ingest "123456789012" "John Doe")
           indexed_world (store_of AadhaarDb indexed_world)).
  - vm_compute. reflexivity.
  - vm_compute. left.
  - vm_compute. constructor.
Defined.

Lemma select_existing_joined i n d dt ft :
  documents d = Some dt -> extracted_fields d = Some ft ->
  DuplicatePreventionService.select_existing i n d
  = Ok (head (joined_existing i n (rows ft) (rows dt))).
Proof.
  intros Hd Hf. unfold DuplicatePreventionService.select_existing.
  rewrite Hd, Hf. reflexivity.
Qed.

Lemma joined_existing_elem i n fs ds r :
  r ∈ joined_existing i n fs ds
  <-> exists f doc,
        f ∈ fs /\ doc ∈ ds /\ f_number f = Some n
        /\ f_document_id f = Some (d_id doc)
        /\ r = ExistingRecord (f_id f) (f_document_id f) (f_number f)
                 (f_name f) (d_file_path doc) (d_created_at doc)
                 (DuplicatePreventionService.database_label i)
                 "extracted_fields".
Proof.
  unfold joined_existing. rewrite list_elem_of_In, in_flat_map. split.
  - intros (f & Hf & Hr). destruct (decide (f_number f = Some n)) as [Hn|];
      [|inversion Hr].
    apply in_flat_map in Hr as (doc & Hdoc & Hr).
    destruct (decide (f_document_id f = Some (d_id doc))) as [Hj|];
      [|inversion Hr].
    destruct Hr as [<-|[]]. exists f, doc.
    rewrite !list_elem_of_In. auto.
  - intros (f & doc & Hf & Hdoc & Hn & Hj & ->).
    exists f. split; [apply list_elem_of_In, Hf|].
    rewrite decide_True by exact Hn. apply in_flat_map.
    exists doc. split; [apply list_elem_of_In, Hdoc|].
    rewrite decide_True by exact Hj. left. reflexivity.
Qed.

Lemma head_None_nil {A} (l : list A) : head l = None -> l = [].
Proof. destruct l; [reflexivity | discriminate]. Qed.

Lemma head_elem {A} (l : list A) x : head l = Some x -> x ∈ l.
Proof. destruct l; [discriminate|]. intros [= ->]. left. Qed.

(** In a well-linked store, a lookup that finds nothing means that no
    field row holds the identifier. *)
Lemma select_existing_None_absent n d :
  well_linked d ->
  (forall e, DuplicatePreventionService.select_existing AadhaarDb n d
             <> Ok (Some e)) ->
  n ∉ stored_numbers d.
Proof.
  intros (dt & ft & Hdt & Hft & Hl) Hsel Hin.
  rewrite (select_existing_joined _ _ _ _ _ Hdt Hft) in Hsel.
  unfold stored_numbers in Hin. rewrite Hft in Hin. cbn in Hin.
  apply list_elem_of_omap in Hin as (f & Hf & Hn).
  destruct (Hl f Hf) as (doc & Hdoc & Hj).
  destruct (head (joined_existing AadhaarDb n (rows ft) (rows dt))) as [e|]
    eqn:Eh; [eapply Hsel; reflexivity|].
  apply head_None_nil in Eh.
  assert (ExistingRecord (f_id f) (f_document_id f) (f_number f)
            (f_name f) (d_file_path doc) (d_created_at doc)
            (DuplicatePreventionService.database_label AadhaarDb)
            "extracted_fields"
          ∈ joined_existing AadhaarDb n (rows ft) (rows dt)) as Hx.
  { apply joined_existing_elem. exists f, doc. auto. }
  rewrite Eh in Hx. inversion Hx.
Qed.

(** X4: in a store whose field rows all refer to a document of the store
    and hold pairwise distinct identifiers, the ingestion of a document
    whose Aadhaar number is in normal form (it equals its own
    normalization) preserves both properties, whether it is accepted or
    rejected. *)
Theorem normal_form_ingestion_keeps_identifiers_unique
    (x : extraction_result) (w : world) (d : database) :
  get_db AadhaarDb w = Some d ->
  well_linked d ->
  NoDup (stored_numbers d) ->
  (forall a,
     xd_aadhaar_number
       (default AadhaarExtractionTool.empty_extracted_data
          (xr_extracted_data x)) = Some a ->
     DuplicatePreventionNormalizer.normalize_aadhaar a = a) ->
  exists d',
    get_db AadhaarDb (AadhaarExtractionTool.store_in_database x w).2 = Some d'
    /\ well_linked d'
    /\ NoDup (stored_numbers d').
Proof.
  intros Hd Hl Hn Hnorm.
  assert (forall d', same_documents d d' ->
            well_linked d' /\ NoDup (stored_numbers d')) as Hsame.
  { intros d' Hs. rewrite (same_documents_stored_numbers _ _ Hs).
    split; [|exact Hn].
    destruct Hs as (S1 & S2 & _), Hl as (dt & ft & Hdt & Hft & Hl).
    exists dt, ft. split; [congruence|]. split; [congruence | exact Hl]. }
  destruct (AadhaarExtractionTool.store_in_database x w).1 as [doc uid|m t|resp]
    eqn:Er.
  - destruct (store_success_shape x w d doc uid Hd Er)
      as (dt & ft & d' & ts & Hdt & Hft & Hdoc & Ha & _ & Hsel & _ & Hg & Hd'
          & Hf' & _).
    exists d'. split; [exact Hg|].
    destruct (xd_aadhaar_number _) as [a|] eqn:Ea; [|discriminate].
    cbn [default from_option] in Hsel. unfold id in Hsel.
    rewrite (Hnorm a eq_refl) in Hsel.
    pose proof (select_existing_None_absent a d Hl Hsel) as Habs.
    split.
    + destruct Hl as (dt0 & ft0 & Hdt0 & Hft0 & Hl).
      assert (dt0 = dt) by congruence. assert (ft0 = ft) by congruence.
      subst dt0 ft0.
      eexists _, _. split; [exact Hd'|]. split; [exact Hf'|].
      cbn [rows]. intros f Hf. apply elem_of_app in Hf as [Hf|Hf].
      * destruct (Hl f Hf) as (dc & Hdc & Hj). exists dc.
        split; [apply elem_of_app; left; exact Hdc | exact Hj].
      * apply list_elem_of_singleton in Hf. subst f.
        eexists. split; [apply elem_of_app; right; left|]. reflexivity.
    + unfold stored_numbers in *. rewrite Hf'. rewrite Hft in Hn, Habs.
      cbn in *. rewrite omap_snoc. cbn [f_number].
      apply NoDup_snoc; assumption.
  - destruct (store_in_database_cases x w d Hd) as [[Hu _]|H].
    + destruct (Hu AadhaarDb d Hd) as (d' & Hg & Hs).
      exists d'. split; [exact Hg | apply Hsame, Hs].
    + destruct H as (? & ? & ? & ? & ? & ? & ? & Hr & _). congruence.
  - destruct (store_in_database_cases x w d Hd) as [[Hu _]|H].
    + destruct (Hu AadhaarDb d Hd) as (d' & Hg & Hs).
      exists d'. split; [exact Hg | apply Hsame, Hs].
    + destruct H as (? & ? & ? & ? & ? & ? & ? & Hr & _). congruence.
Qed.

Lemma normal_form_ingestion_keeps_identifiers_unique_witness :
  exists d',
    get_db AadhaarDb
      (AadhaarExtractionTool.store_in_database
         (ingest "123456789012" "Jane Roe") ingested_world).2 = Some d'
    /\ well_linked d'
    /\ NoDup (stored_numbers d').
Proof.
  apply (normal_form_ingestion_keeps_identifiers_unique
           (ingest "123456789012" "Jane Roe") ingested_world
           (store_of AadhaarDb ingested_world)).
  - vm_compute. reflexivity.
  - eexists _, _. split; [vm_compute; reflexivity|].
    split; [vm_compute; reflexivity|].
    intros f Hf. apply list_elem_of_singleton in Hf. subst f.
    eexists. split; [left|]. reflexivity.
  - vm_compute. apply NoDup_singleton.
  - intros a [= <-]. reflexivity.
Defined.

(** What [check_aadhaar_exists] returns on an existing store. *)
Lemma check_aadhaar_exists_spec a w d :
  get_db AadhaarDb w = Some d ->
  Py.truthy a = true ->
  exists w1,
    stores_kept w w1
    /\ DuplicatePreventionService.check_aadhaar_exists (Some a) w
       = (Ok (match DuplicatePreventionService.select_existing AadhaarDb
                      (DuplicatePreventionNormalizer.normalize_aadhaar a) d
              with
              | Ok found => found
              | Raise _ => None
              end), w1).
Proof.
  intros Hd Ha.
  pose proof (check_exists_stores_kept AadhaarDb "Aadhaar"
                DuplicatePreventionService.normalize_aadhaar (Some a)
                (or_introl eq_refl) w) as Hk.
  fold (DuplicatePreventionService.check_aadhaar_exists (Some a)) in Hk.
  assert (exists w1,
    DuplicatePreventionService.check_aadhaar_exists (Some a) w
    = (Ok (match DuplicatePreventionService.select_existing AadhaarDb
                    (DuplicatePreventionNormalizer.normalize_aadhaar a) d with
           | Ok found => found
           | Raise _ => None
           end), w1)) as (w1 & E).
  { unfold DuplicatePreventionService.check_aadhaar_exists,
      DuplicatePreventionService.check_exists.
    rewrite Ha. cbn [negb].
    unfold DuplicatePreventionService.normalize_aadhaar.
    set (n := DuplicatePreventionNormalizer.normalize_aadhaar a).
    unfold bind, act, ret, try_except, with_connection.
    destruct (DuplicatePreventionNormalizer.normalize_aadhaar_warns a).
    - rewrite (connect_existing _ d) by (rewrite get_db_emit; exact Hd).
      destruct (DuplicatePreventionService.select_existing AadhaarDb n d)
        as [[r|]|e] eqn:Es; cbn; eexists; reflexivity.
    - rewrite (connect_existing _ d) by exact Hd.
      destruct (DuplicatePreventionService.select_existing AadhaarDb n d)
        as [[r|]|e] eqn:Es; cbn; eexists; reflexivity. }
  exists w1. rewrite E in Hk. split; [exact Hk | exact E].
Qed.

(** The lookup on a store to which a document and a field row have just
    been appended. *)
Lemma select_existing_after_insert n d d' dt ft docrow row s1 s2 :
  documents d = Some dt -> extracted_fields d = Some ft ->
  documents d' = Some (Table (rows dt ++ [docrow]) true s1) ->
  extracted_fields d' = Some (Table (rows ft ++ [row]) true s2) ->
  d_id docrow ∉ (d_id <$> rows dt) ->
  f_document_id row = Some (d_id docrow) ->
  f_number row = Some n ->
  (forall e, DuplicatePreventionService.select_existing AadhaarDb n d
             <> Ok (Some e)) ->
  exists r,
    DuplicatePreventionService.select_existing AadhaarDb n d' = Ok (Some r)
    /\ er_document_id r = Some (d_id docrow)
    /\ er_number r = Some n.
Proof.
  intros Hdt Hft Hdt' Hft' Hfresh Hj Hn Hsel.
  rewrite (select_existing_joined _ _ _ _ _ Hdt Hft) in Hsel.
  rewrite (select_existing_joined _ _ _ _ _ Hdt' Hft'). cbn [rows].
  assert (joined_existing AadhaarDb n (rows ft) (rows dt) = []) as Hold.
  { destruct (joined_existing AadhaarDb n (rows ft) (rows dt)) as [|e l]
      eqn:E; [reflexivity|]. exfalso. eapply Hsel. reflexivity. }
  destruct (head (joined_existing AadhaarDb n (rows ft ++ [row])
                    (rows dt ++ [docrow]))) as [r|] eqn:Eh.
  - exists r. split; [reflexivity|].
    apply head_elem, joined_existing_elem in Eh
      as (f & doc & Hf & Hdoc & Hfn & Hfj & ->).
    cbn [er_document_id er_number]. split; [|exact Hfn].
    rewrite Hfj. f_equal.
    apply elem_of_app in Hdoc as [Hdoc|Hdoc];
      [|apply list_elem_of_singleton in Hdoc; congruence].
    exfalso. apply elem_of_app in Hf as [Hf|Hf].
    + assert (ExistingRecord (f_id f) (f_document_id f) (f_number f)
                (f_name f) (d_file_path doc) (d_created_at doc)
                (DuplicatePreventionService.database_label AadhaarDb)
                "extracted_fields"
              ∈ joined_existing AadhaarDb n (rows ft) (rows dt)) as Hx.
      { apply joined_existing_elem. exists f, doc. auto. }
      rewrite Hold in Hx. inversion Hx.
    + apply list_elem_of_singleton in Hf. subst f.
      apply Hfresh. apply list_elem_of_fmap. exists doc.
      split; [congruence | exact Hdoc].
  - exfalso. apply head_None_nil in Eh.
    assert (ExistingRecord (f_id row) (f_document_id row) (f_number row)
              (f_name row) (d_file_path docrow) (d_created_at docrow)
              (DuplicatePreventionService.database_label AadhaarDb)
              "extracted_fields"
            ∈ joined_existing AadhaarDb n (rows ft ++ [row])
                (rows dt ++ [docrow])) as Hx.
    { apply joined_existing_elem. exists row, docrow.
      split; [apply elem_of_app; right; left|].
      split; [apply elem_of_app; right; left|]. auto. }
    rewrite Eh in Hx. inversion Hx.
Qed.

(** After a successful ingestion of an identifier in normal form, the
    lookup with any spelling of it finds the stored document. *)
Lemma lookup_after_ingestion x w d doc uid a a' :
  get_db AadhaarDb w = Some d ->
  (AadhaarExtractionTool.store_in_database x w).1 = StorageSuccess doc uid ->
  xd_aadhaar_number
    (default AadhaarExtractionTool.empty_extracted_data (xr_extracted_data x))
  = Some a ->
  DuplicatePreventionNormalizer.normalize_aadhaar a = a ->
  DuplicatePreventionNormalizer.normalize_aadhaar a' = a ->
  exists d' r,
    get_db AadhaarDb (AadhaarExtractionTool.store_in_database x w).2 = Some d'
    /\ DuplicatePreventionService.select_existing AadhaarDb
         (DuplicatePreventionNormalizer.normalize_aadhaar a') d'
       = Ok (Some r)
    /\ er_document_id r = Some doc
    /\ er_number r = Some a
    /\ Py.truthy a' = true.
Proof.
  intros Hd Hs Ea Hnorm Hnorm'.
  destruct (store_success_shape x w d doc uid Hd Hs)
    as (dt & ft & d' & ts & Hdt & Hft & Hdoc & Ha & _ & Hsel & _ & Hg & Hd'
        & Hf' & _).
  rewrite Ea in *. cbn [default from_option] in Hsel. unfold id in Hsel.
  rewrite Hnorm in Hsel. rewrite Hnorm'.
  destruct (select_existing_after_insert a d d' dt ft _ _ _ _ Hdt Hft Hd' Hf')
    as (r & Hr & Hrd & Hrn); auto.
  { cbn [d_id]. rewrite Hdoc. apply next_rowid_fresh. }
  exists d', r. split; [exact Hg|]. split; [exact Hr|].
  split; [exact Hrd|]. split; [exact Hrn|].
  destruct a' as [|c s]; [|reflexivity].
  cbn in Hnorm'. subst a. discriminate.
Qed.

(** X6: after [store_in_database] has accepted a document whose Aadhaar
    number [a] is in normal form, [check_aadhaar_exists] called with any
    spelling that normalizes to [a] returns a record of the stored
    identifier whose [document_id] is that of the accepted document, and
    changes no store. *)
Theorem ingested_identifier_is_found_again
    (x : extraction_result) (w : world) (d : database) (doc : Z)
    (uid a a' : string) :
  get_db AadhaarDb w = Some d ->
  (AadhaarExtractionTool.store_in_database x w).1 = StorageSuccess doc uid ->
  xd_aadhaar_number
    (default AadhaarExtractionTool.empty_extracted_data (xr_extracted_data x))
  = Some a ->
  DuplicatePreventionNormalizer.normalize_aadhaar a = a ->
  DuplicatePreventionNormalizer.normalize_aadhaar a' = a ->
  exists r w',
    DuplicatePreventionService.check_aadhaar_exists (Some a')
      (AadhaarExtractionTool.store_in_database x w).2
    = (Ok (Some r), w')
    /\ er_document_id r = Some doc
    /\ er_number r = Some a
    /\ stores_kept (AadhaarExtractionTool.store_in_database x w).2 w'.
Proof.
  intros Hd Hs Ea Hnorm Hnorm'.
  destruct (lookup_after_ingestion x w d doc uid a a' Hd Hs Ea Hnorm Hnorm')
    as (d' & r & Hg & Hr & Hrd & Hrn & Ht).
  destruct (check_aadhaar_exists_spec a' _ d' Hg Ht) as (w1 & Hk & E).
  rewrite Hr in E. exists r, w1. auto.
Qed.

Lemma ingested_identifier_is_found_again_witness :
  exists r w',
    DuplicatePreventionService.check_aadhaar_exists (Some "1234 5678 9012")
      (AadhaarExtractionTool.store_in_database
         (ingest "123456789012" "John Doe") tool_world).2
    = (Ok (Some r), w')
    /\ er_document_id r = Some 1
    /\ er_number r = Some "123456789012"
    /\ stores_kept
         (AadhaarExtractionTool.store_in_database
            (ingest "123456789012" "John Doe") tool_world).2 w'.
Proof.
  apply (ingested_identifier_is_found_again
           (ingest "123456789012" "John Doe") tool_world
           (store_of AadhaarDb tool_world) 1
           "6f1c0a52-0000-4000-8000-000000000000" "123456789012"
           "1234 5678 9012").
  - vm_compute. reflexivity.
  - vm_compute. reflexivity.
  - reflexivity.
  - reflexivity.
  - reflexivity.
Defined.

(** X7: after [store_in_database] has accepted a document whose Aadhaar
    number [a] is in normal form, a further successful extraction with a
    name and with any spelling of [a] is rejected as [DUPLICATE_AADHAAR];
    the rejection names the accepted document as [existing_document_id],
    carries no [existing_user_id], and leaves every store as it was. *)
Theorem repeated_ingestion_is_rejected
    (x x' : extraction_result) (w : world) (d : database) (doc : Z)
    (uid a a' : string) (data' : extracted_data) :
  get_db AadhaarDb w = Some d ->
  (AadhaarExtractionTool.store_in_database x w).1 = StorageSuccess doc uid ->
  xd_aadhaar_number
    (default AadhaarExtractionTool.empty_extracted_data (xr_extracted_data x))
  = Some a ->
  DuplicatePreventionNormalizer.normalize_aadhaar a = a ->
  xr_status x' = Some "success" ->
  xr_extracted_data x' = Some data' ->
  xd_aadhaar_number data' = Some a' ->
  Py.truthy_opt (xd_name data') = true ->
  DuplicatePreventionNormalizer.normalize_aadhaar a' = a ->
  let w1 := (AadhaarExtractionTool.store_in_database x w).2 in
  let r := AadhaarExtractionTool.store_in_database x' w1 in
  rejected_code r.1 = Some "DUPLICATE_AADHAAR"
  /\ rejected_existing_document_id r.1 = Some doc
  /\ rejected_existing_user_id r.1 = None
  /\ stores_kept w1 r.2.
Proof.
  intros Hd Hs Ea Hnorm Hst' Hx' Ea' Hn' Hnorm' w1 r.
  destruct (lookup_after_ingestion x w d doc uid a a' Hd Hs Ea Hnorm Hnorm')
    as (d' & e & Hg & Hr & Hrd & Hrn & Ht).
  fold w1 in Hg.
  assert (Py.truthy_opt (xd_aadhaar_number data') = true) as Hta
    by (rewrite Ea'; exact Ht).
  destruct (validate_aadhaar_spec data' w1 d' Hg Hta) as (w2 & Hk & Ev).
  rewrite Ea' in Ev. cbn [default from_option] in Ev. unfold id in Ev.
  rewrite Hr in Ev.
  destruct (duplicate_rejection_details x' data' e w1 w2 Hst' Hx' Hta Hn' Ev)
    as (R1 & R2 & R3 & R4 & _).
  fold r in R1, R2, R3, R4.
  split; [exact R1|]. split; [rewrite R3; exact Hrd|]. split; [exact R2|].
  subst r.
  destruct (store_in_database_cases x' w1 d' Hg) as [[Hu Hno]|H].
  2:{ destruct H as (? & ? & ? & ? & ? & ? & ? & Hr' & _).
      rewrite Hr' in R1. discriminate. }
  clear Hu Hno.
  unfold AadhaarExtractionTool.store_in_database.
  rewrite bool_decide_eq_true_2 by exact Hst'. cbn [negb].
  unfold AadhaarExtractionTool.store_checked. rewrite Hx'.
  cbn [default from_option]. unfold id. rewrite Hta, Hn'. cbn [negb orb].
  unfold bind at 1. rewrite Ev. cbn.
  eapply stores_kept_trans; [exact Hk | apply stores_kept_emit].
Qed.

Lemma repeated_ingestion_is_rejected_witness :
  let w1 := (AadhaarExtractionTool.store_in_database
               (ingest "123456789012" "John Doe") tool_world).2 in
  let r := AadhaarExtractionTool.store_in_database
             (ingest "1234 5678 9012" "Jane Roe") w1 in
  rejected_code r.1 = Some "DUPLICATE_AADHAAR"
  /\ rejected_existing_document_id r.1 = Some 1
  /\ rejected_existing_user_id r.1 = None
  /\ stores_kept w1 r.2.
Proof.
  apply (repeated_ingestion_is_rejected
           (ingest "123456789012" "John Doe")
           (ingest "1234 5678 9012" "Jane Roe") tool_world
           (store_of AadhaarDb tool_world) 1
           "6f1c0a52-0000-4000-8000-000000000000" "123456789012"
           "1234 5678 9012"
           (ExtractedData (Some "Jane Roe") None None None
              (Some "1234 5678 9012") None None)).
  - vm_compute. reflexivity.
  - vm_compute. reflexivity.
  - reflexivity.
  - reflexivity.
  - reflexivity.
  - reflexivity.
  - reflexivity.
  - reflexivity.
  - reflexivity.
Defined.

(** X3: on an existing store, [store_in_database] is all or nothing for
    the documents.  Either it does not report success, and then the
    document table, the field table, the cross-reference table and the
    indexes of every store are as before (the users tables alone may have
    changed); or it reports success, and then exactly one document row and
    one field row have been appended, each with an id above every id that
    its table holds and above the largest id that the table records as
    handed out before, both rows carry the returned user id and the
    submitted values, and each table records the new id as the largest one
    handed out. *)
Theorem ingestion_is_all_or_nothing
    (x : extraction_result) (w : world) (d : database) :
  get_db AadhaarDb w = Some d ->
  let r := AadhaarExtractionTool.store_in_database x w in
  let data := default AadhaarExtractionTool.empty_extracted_data
                (xr_extracted_data x) in
  ((forall doc uid, r.1 <> StorageSuccess doc uid)
   /\ users_only_step w r.2)
  \/ (exists doc field_id uid dt ft d' ts,
        r.1 = StorageSuccess doc uid
        /\ documents d = Some dt
        /\ extracted_fields d = Some ft
        /\ last_rowid dt < doc
        /\ (forall i, i ∈ (d_id <$> rows dt) -> i < doc)
        /\ last_rowid ft < field_id
        /\ (forall i, i ∈ (f_id <$> rows ft) -> i < field_id)
        /\ get_db AadhaarDb r.2 = Some d'
        /\ documents d'
           = Some (Table
                     (rows dt ++
                      [DocRow doc (xr_file_path x) (xr_document_type x)
                         (xr_extraction_timestamp x)
                         (xr_extraction_confidence x) (xr_raw_text x)
                         (Some uid) ts]) true doc)
        /\ extracted_fields d'
           = Some (Table
                     (rows ft ++
                      [FieldRow field_id (Some doc)
                         (xd_name data) None (xd_dob data) (xd_gender data)
                         (xd_address data) (xd_aadhaar_number data)
                         (Some uid)]) true field_id)
        /\ indexes d' = indexes d).
Proof.
  intros Hd r data.
  destruct r.1 as [doc uid|m t|resp] eqn:Er.
  - right. subst r.
    destruct (store_success_shape x w d doc uid Hd Er)
      as (dt & ft & d' & ts & Hdt & Hft & Hdoc & _ & _ & _ & _ & Hg & Hd'
          & Hf' & Hi).
    exists doc, (next_rowid (f_id <$> rows ft) (last_rowid ft)), uid, dt, ft,
      d', ts.
    split; [reflexivity|]. split; [exact Hdt|]. split; [exact Hft|].
    split; [rewrite Hdoc; apply next_rowid_above_last|].
    split; [intros i Hin; rewrite Hdoc; apply next_rowid_above, Hin|].
    split; [apply next_rowid_above_last|].
    split; [intros i Hin; apply next_rowid_above, Hin|]. auto.
  - left. split; [discriminate|]. subst r.
    destruct (store_in_database_cases x w d Hd) as [[Hu _]|H]; [exact Hu|].
    destruct H as (? & ? & ? & ? & ? & ? & ? & Hr & _). congruence.
  - left. split; [discriminate|]. subst r.
    destruct (store_in_database_cases x w d Hd) as [[Hu _]|H]; [exact Hu|].
    destruct H as (? & ? & ? & ? & ? & ? & ? & Hr & _). congruence.
Qed.

Lemma ingestion_is_all_or_nothing_witness :
  let x := ingest "123456789012" "John Doe" in
  let w := tool_world in
  let d := store_of AadhaarDb tool_world in
  let r := AadhaarExtractionTool.store_in_database x w in
  let data := default AadhaarExtractionTool.empty_extracted_data
                (xr_extracted_data x) in
  ((forall doc uid, r.1 <> StorageSuccess doc uid)
   /\ users_only_step w r.2)
  \/ (exists doc field_id uid dt ft d' ts,
        r.1 = StorageSuccess doc uid
        /\ documents d = Some dt
        /\ extracted_fields d = Some ft
        /\ last_rowid dt < doc
        /\ (forall i, i ∈ (d_id <$> rows dt) -> i < doc)
        /\ last_rowid ft < field_id
        /\ (forall i, i ∈ (f_id <$> rows ft) -> i < field_id)
        /\ get_db AadhaarDb r.2 = Some d'
        /\ documents d'
           = Some (Table
                     (rows dt ++
                      [DocRow doc (xr_file_path x) (xr_document_type x)
                         (xr_extraction_timestamp x)
                         (xr_extraction_confidence x) (xr_raw_text x)
                         (Some uid) ts]) true doc)
        /\ extracted_fields d'
           = Some (Table
                     (rows ft ++
                      [FieldRow field_id (Some doc)
                         (xd_name data) None (xd_dob data) (xd_gender data)
                         (xd_address data) (xd_aadhaar_number data)
                         (Some uid)]) true field_id)
        /\ indexes d' = indexes d).
Proof.
  apply (ingestion_is_all_or_nothing (ingest "123456789012" "John Doe")
           tool_world (store_of AadhaarDb tool_world)).
  vm_compute. reflexivity.
Defined.

(** X8: a record returned by [check_aadhaar_exists] comes from a field row
    of the Aadhaar store that is joined to a document row and whose stored
    identifier is, character for character, the normalization of the
    submitted one; the call leaves the stores as they were.  A stored
    identifier that is not in normal form is therefore never reported. *)
Theorem check_aadhaar_exists_reports_normal_form_only
    (number : option string) (w w' : world) (r : existing_record) :
  DuplicatePreventionService.check_aadhaar_exists number w
  = (Ok (Some r), w') ->
  exists a d dt ft f doc,
    number = Some a
    /\ get_db AadhaarDb w = Some d
    /\ documents d = Some dt /\ extracted_fields d = Some ft
    /\ f ∈ rows ft /\ doc ∈ rows dt
    /\ f_number f = Some (DuplicatePreventionNormalizer.normalize_aadhaar a)
    /\ f_document_id f = Some (d_id doc)
    /\ er_number r = f_number f
    /\ er_document_id r = Some (d_id doc)
    /\ er_field_id r = f_id f
    /\ stores_kept w w'.
Proof.
  intros E.
  destruct number as [a|]; [|discriminate].
  destruct (Py.truthy a) eqn:Ha.
  2:{ unfold DuplicatePreventionService.check_aadhaar_exists,
        DuplicatePreventionService.check_exists in E.
      rewrite Ha in E. discriminate. }
  destruct (get_db AadhaarDb w) as [d|] eqn:Hd.
  - destruct (check_aadhaar_exists_spec a w d Hd Ha) as (w1 & Hk & E1).
    rewrite E in E1. injection E1 as E1 <-.
    destruct (DuplicatePreventionService.select_existing AadhaarDb _ d)
      as [found|e] eqn:Es; [|discriminate].
    subst found.
    unfold DuplicatePreventionService.select_existing in Es.
    destruct (extracted_fields d) as [ft|] eqn:Hft; [|discriminate].
    destruct (documents d) as [dt|] eqn:Hdt; [|discriminate].
    injection Es as Es.
    apply head_elem in Es.
    change (r ∈ joined_existing AadhaarDb
                  (DuplicatePreventionNormalizer.normalize_aadhaar a)
                  (rows ft) (rows dt)) in Es.
    apply joined_existing_elem in Es as (f & doc & Hf & Hdoc & Hn & Hj & ->).
    exists a, d, dt, ft, f, doc. cbn. rewrite Hj. auto 12.
  - exfalso.
    unfold DuplicatePreventionService.check_aadhaar_exists,
      DuplicatePreventionService.check_exists in E.
    rewrite Ha in E. cbn [negb] in E.
    unfold DuplicatePreventionService.normalize_aadhaar, bind, act, ret,
      try_except, with_connection, connect in E.
    destruct (DuplicatePreventionNormalizer.normalize_aadhaar_warns a);
      rewrite ?get_db_emit, Hd in E; cbn in E; discriminate.
Qed.

Lemma check_aadhaar_exists_reports_normal_form_only_witness :
  exists r w',
    DuplicatePreventionService.check_aadhaar_exists (Some "1234 5678 9012")
      ingested_world = (Ok (Some r), w')
    /\ exists a d dt ft f doc,
         Some "1234 5678 9012" = Some a
         /\ get_db AadhaarDb ingested_world = Some d
         /\ documents d = Some dt /\ extracted_fields d = Some ft
         /\ f ∈ rows ft /\ doc ∈ rows dt
         /\ f_number f
            = Some (DuplicatePreventionNormalizer.normalize_aadhaar a)
         /\ f_document_id f = Some (d_id doc)
         /\ er_number r = f_number f
         /\ er_document_id r = Some (d_id doc)
         /\ er_field_id r = f_id f
         /\ stores_kept ingested_world w'.
Proof.
  eexists _, _. split.
  - vm_compute. reflexivity.
  - eapply (check_aadhaar_exists_reports_normal_form_only
              (Some "1234 5678 9012") ingested_world).
    vm_compute. reflexivity.
Defined.

(** The loop of [max]: the running maximum is the first member of the
    processed part that no other member of it exceeds. *)
Lemma max_fold_first (rest l1 mid : list record_info) (best : record_info) :
  (forall r, r ∈ l1 -> (DuplicateDataIdentifier.confidence_or_0 (ri_extraction_confidence r)
       < DuplicateDataIdentifier.confidence_or_0 (ri_extraction_confidence best))%Qc) ->
  (forall r, r ∈ mid -> (DuplicateDataIdentifier.confidence_or_0 (ri_extraction_confidence r)
       <= DuplicateDataIdentifier.confidence_or_0 (ri_extraction_confidence best))%Qc) ->
  let b := foldl (fun best y =>
                    if Qclt_le_dec
                         (DuplicateDataIdentifier.confidence_or_0
                            (ri_extraction_confidence best))
                         (DuplicateDataIdentifier.confidence_or_0
                            (ri_extraction_confidence y)) then y else best)
                 best rest in
  exists before after,
    l1 ++ best :: mid ++ rest = before ++ b :: after
    /\ (forall r, r ∈ before -> (DuplicateDataIdentifier.confidence_or_0 (ri_extraction_confidence r)
       < DuplicateDataIdentifier.confidence_or_0 (ri_extraction_confidence b))%Qc)
    /\ (forall r, r ∈ after -> (DuplicateDataIdentifier.confidence_or_0 (ri_extraction_confidence r)
       <= DuplicateDataIdentifier.confidence_or_0 (ri_extraction_confidence b))%Qc).
Proof.
  revert l1 mid best. induction rest as [|y rest IH]; intros l1 mid best H1 H2.
  - cbn. exists l1, mid. rewrite app_nil_r. auto.
  - cbn [foldl]. destruct (Qclt_le_dec
                         (DuplicateDataIdentifier.confidence_or_0
                            (ri_extraction_confidence best))
                         (DuplicateDataIdentifier.confidence_or_0
                            (ri_extraction_confidence y))) as [Hlt|Hle].
    + destruct (IH (l1 ++ best :: mid) [] y) as (before & after & E & B & A).
      * intros r Hr. apply elem_of_app in Hr as [Hr|Hr].
        -- eapply Qclt_trans; [apply H1, Hr | exact Hlt].
        -- apply elem_of_cons in Hr as [->|Hr]; [exact Hlt|].
           eapply Qcle_lt_trans; [apply H2, Hr | exact Hlt].
      * intros r Hr. inversion Hr.
      * exists before, after. split; [|auto].
        rewrite <- E. cbn. rewrite <- !app_assoc. cbn. reflexivity.
    + destruct (IH l1 (mid ++ [y]) best) as (before & after & E & B & A).
      * exact H1.
      * intros r Hr. apply elem_of_app in Hr as [Hr|Hr]; [apply H2, Hr|].
        apply list_elem_of_singleton in Hr. subst. exact Hle.
      * exists before, after. split; [|auto].
        rewrite <- E. rewrite <- !app_assoc. cbn. reflexivity.
Qed.

Lemma max_by_confidence_first records :
  records <> [] ->
  exists best before after,
    CleanupPlanning.max_by_confidence records = Ok best
    /\ records = before ++ best :: after
    /\ (forall r, r ∈ before -> (DuplicateDataIdentifier.confidence_or_0 (ri_extraction_confidence r)
       < DuplicateDataIdentifier.confidence_or_0 (ri_extraction_confidence best))%Qc)
    /\ (forall r, r ∈ after -> (DuplicateDataIdentifier.confidence_or_0 (ri_extraction_confidence r)
       <= DuplicateDataIdentifier.confidence_or_0 (ri_extraction_confidence best))%Qc).
Proof.
  destruct records as [|x rest]; [congruence|]. intros _.
  destruct (max_fold_first rest [] [] x) as (before & after & E & B & A);
    try (intros r Hr; inversion Hr).
  cbn in E. eexists _, before, after. split; [reflexivity|]. auto.
Qed.

(** X9: a group whose members agree on one name but not on the date of
    birth is resolved by confidence alone: the plan keeps the first member
    in the order of the scan that no other member exceeds in confidence,
    and removes every member that differs from it. *)
Theorem same_name_other_dob_keeps_most_confident
    (g : dup_group) (plan : cleanup_plan) :
  same_dob (dg_analysis g) = false ->
  List.length (unique_names (dg_analysis g)) = 1%nat ->
  dg_records g <> [] ->
  exists best before after,
    CleanupPlanning.plan_group g plan
    = Ok (CleanupPlan (total_groups plan)
            (records_to_keep plan ++ [best])
            (records_to_remove plan
             ++ filter (fun r => r <> best) (dg_records g))
            (merge_candidates plan)
            (manual_review_needed plan))
    /\ dg_records g = before ++ best :: after
    /\ (forall r, r ∈ before ->
          (confidence_score r < confidence_score best)%Qc)
    /\ (forall r, r ∈ after ->
          (confidence_score r <= confidence_score best)%Qc)
    /\ best ∉ filter (fun r => r <> best) (dg_records g).
Proof.
  intros Hdob Hnames Hne.
  destruct (max_by_confidence_first _ Hne) as (best & before & after & E & R & B & A).
  exists best, before, after.
  unfold CleanupPlanning.plan_group. rewrite Hdob, !andb_false_r, Hnames, E.
  cbn [Nat.eqb]. split; [reflexivity|]. split; [exact R|].
  split; [exact B|]. split; [exact A|].
  intros Hin. apply list_elem_of_filter in Hin as [Hin _]. congruence.
Qed.

Lemma same_name_other_dob_keeps_most_confident_witness :
  exists best before after,
    CleanupPlanning.plan_group other_dob_group empty_plan
    = Ok (CleanupPlan (total_groups empty_plan)
            (records_to_keep empty_plan ++ [best])
            (records_to_remove empty_plan
             ++ filter (fun r => r <> best) (dg_records other_dob_group))
            (merge_candidates empty_plan)
            (manual_review_needed empty_plan))
    /\ dg_records other_dob_group = before ++ best :: after
    /\ (forall r, r ∈ before ->
          (confidence_score r < confidence_score best)%Qc)
    /\ (forall r, r ∈ after ->
          (confidence_score r <= confidence_score best)%Qc)
    /\ best ∉ filter (fun r => r <> best) (dg_records other_dob_group).
Proof.
  apply (same_name_other_dob_keeps_most_confident other_dob_group empty_plan).
  - vm_compute. reflexivity.
  - vm_compute. reflexivity.
  - discriminate.
Defined.

Lemma filter_ne_absent {A} `{EqDecision A} (x : A) (l : list A) :
  x ∉ l -> filter (fun r => r <> x) l = l.
Proof.
  induction l as [|y l IH]; [reflexivity|].
  intros H. apply not_elem_of_cons in H as [Hne Hl].
  rewrite filter_cons_True by congruence. rewrite IH by exact Hl. reflexivity.
Qed.

(** What one round of the planning loop does to the plan. *)
Lemma plan_group_shape g plan :
  match CleanupPlanning.plan_group g plan with
  | Ok plan' =>
      total_groups plan' = total_groups plan
      /\ merge_candidates plan' = merge_candidates plan
      /\ if auto_resolved g then
           exists kept removed,
             records_to_keep plan' = records_to_keep plan ++ [kept]
             /\ records_to_remove plan' = records_to_remove plan ++ removed
             /\ manual_review_needed plan' = manual_review_needed plan
             /\ kept ∈ dg_records g
             /\ (forall r, r ∈ removed -> r ∈ dg_records g)
             /\ (NoDup (dg_records g) -> kept :: removed ≡ₚ dg_records g)
         else
           records_to_keep plan' = records_to_keep plan
           /\ records_to_remove plan' = records_to_remove plan
           /\ manual_review_needed plan' = manual_review_needed plan ++ [g]
  | Raise e =>
      auto_resolved g = true /\ dg_records g = []
      /\ (e = IndexError \/ e = ValueError "max() arg is an empty sequence")
  end.
Proof.
  unfold CleanupPlanning.plan_group, auto_resolved.
  assert (forall plan0,
    match CleanupPlanning.keep_first
            (CleanupPlanning.sorted_reverse (dg_records g)) plan0 with
    | Ok plan' =>
        total_groups plan' = total_groups plan0
        /\ merge_candidates plan' = merge_candidates plan0
        /\ exists kept removed,
             records_to_keep plan' = records_to_keep plan0 ++ [kept]
             /\ records_to_remove plan' = records_to_remove plan0 ++ removed
             /\ manual_review_needed plan' = manual_review_needed plan0
             /\ kept ∈ dg_records g
             /\ (forall r, r ∈ removed -> r ∈ dg_records g)
             /\ (NoDup (dg_records g) -> kept :: removed ≡ₚ dg_records g)
    | Raise e => dg_records g = [] /\ e = IndexError
    end) as Hsorted.
  { intros plan0.
    pose proof (sorted_reverse_perm (dg_records g)) as HP.
    destruct (CleanupPlanning.sorted_reverse (dg_records g)) as [|k rest]
      eqn:E; cbn.
    - split; [|reflexivity]. symmetry in HP.
      apply Permutation_nil_r in HP. exact HP.
    - split; [reflexivity|]. split; [reflexivity|].
      exists k, rest. repeat split; auto.
      + rewrite <- HP. left.
      + intros r Hr. rewrite <- HP. right. exact Hr. }
  destruct (same_name (dg_analysis g)) eqn:En,
    (same_dob (dg_analysis g)) eqn:Ed;
    rewrite ?andb_true_r, ?andb_false_r; cbn [andb orb].
  { destruct (Nat.eqb (List.length (dg_records g)) 2);
      specialize (Hsorted plan);
      destruct (CleanupPlanning.keep_first _ plan) as [plan'|e];
      try exact Hsorted; destruct Hsorted as [? ?]; auto. }
  all: destruct (Nat.eqb (List.length (unique_names (dg_analysis g))) 1) eqn:E1;
    [|cbn; auto].
  all: destruct (dg_records g) as [|x rest] eqn:Er; cbn; [auto|].
  all: split; [reflexivity|]; split; [reflexivity|].
  all: destruct (max_by_confidence_first (x :: rest) ltac:(discriminate))
         as (best & before & after & Eb & R & _ & _).
  all: cbn in Eb; injection Eb as Eb; rewrite Eb.
  all: exists best, (filter (fun r => r <> best) (x :: rest)).
  all: split; [reflexivity|]; split; [reflexivity|]; split; [reflexivity|].
  all: split; [rewrite R; apply elem_of_app; right; left|].
  all: split; [intros r Hr; apply list_elem_of_filter in Hr as [_ Hr];
               exact Hr|].
  all: intros Hnd; rewrite R in Hnd |- *.
  all: rewrite filter_app, filter_cons_False by auto.
  all: apply NoDup_app in Hnd as (N1 & N2 & N3).
  all: apply NoDup_cons in N3 as [N3 N4].
  all: rewrite !filter_ne_absent;
    [apply Permutation_middle | exact N3
    |intros Hb; eapply N2; [exact Hb | left]].
Qed.
(** The planning loop, started from any plan. *)
Lemma plan_groups_shape groups plan :
  match CleanupPlanning.plan_groups groups plan with
  | Ok plan' =>
      total_groups plan' = total_groups plan
      /\ merge_candidates plan' = merge_candidates plan
      /\ manual_review_needed plan'
         = manual_review_needed plan
           ++ filter (fun g => auto_resolved g = false) groups
      /\ List.length (records_to_keep plan')
         = (List.length (records_to_keep plan)
            + List.length (filter (fun g => auto_resolved g = true) groups))%nat
      /\ ((forall g, g ∈ groups -> NoDup (dg_records g)) ->
          records_to_keep plan' ++ records_to_remove plan'
          ≡ₚ (records_to_keep plan ++ records_to_remove plan)
             ++ List.concat (dg_records
                          <$> filter (fun g => auto_resolved g = true) groups))
  | Raise e =>
      exists g,
        g ∈ groups /\ auto_resolved g = true /\ dg_records g = []
        /\ (e = IndexError \/ e = ValueError "max() arg is an empty sequence")
  end.
Proof.
  revert plan. induction groups as [|g groups IH]; intros plan.
  - cbn. rewrite !app_nil_r. repeat split; auto.
  - cbn [CleanupPlanning.plan_groups].
    pose proof (plan_group_shape g plan) as Hg.
    destruct (CleanupPlanning.plan_group g plan) as [plan1|e].
    2:{ destruct Hg as (Ha & Hr & He). exists g.
        split; [left|]. auto. }
    specialize (IH plan1).
    destruct (CleanupPlanning.plan_groups groups plan1) as [plan'|e].
    2:{ destruct IH as (g' & Hin & H). exists g'. split; [right; exact Hin|].
        exact H. }
    destruct Hg as (T1 & M1 & Hg), IH as (T2 & M2 & R2 & K2 & P2).
    split; [congruence|]. split; [congruence|].
    destruct (auto_resolved g) eqn:Ea.
    + destruct Hg as (kept & removed & Hk & Hr & Hm & _ & _ & HP).
      rewrite filter_cons_False by congruence.
      rewrite filter_cons_True by congruence.
      split; [congruence|].
      split; [rewrite K2, Hk, length_app; cbn; lia|].
      intros Hnd. rewrite P2 by (intros g' Hg'; apply Hnd; right; exact Hg').
      rewrite Hk, Hr. cbn [fmap list_fmap List.concat].
      rewrite <- (HP (Hnd g ltac:(left))).
      solve_Permutation.
    + destruct Hg as (Hk & Hr & Hm).
      rewrite filter_cons_True by congruence.
      rewrite filter_cons_False by congruence.
      split; [rewrite R2, Hm, <- app_assoc; reflexivity|].
      split; [rewrite K2, Hk; reflexivity|].
      intros Hnd. rewrite P2 by (intros g' Hg'; apply Hnd; right; exact Hg').
      rewrite Hk, Hr. reflexivity.
Qed.

(** X10: the cleanup plan accounts for every group.  When planning
    succeeds, [total_groups] is the number of groups, every group has
    either contributed exactly one kept record or been appended, in order,
    to the manual-review list (the groups that neither agree on name and
    date of birth nor have exactly one distinct name), and
    [merge_candidates] is empty.  Planning fails only on a group without
    member records that it would resolve itself, with the [IndexError] of
    [sorted_records[0]] or the [ValueError] of [max]. *)
Theorem cleanup_plan_accounts_for_every_group (groups : list dup_group) :
  match CleanupPlanning.analyze_duplicates_for_cleanup groups with
  | Ok plan =>
      total_groups plan = List.length groups
      /\ merge_candidates plan = []
      /\ manual_review_needed plan
         = filter (fun g => auto_resolved g = false) groups
      /\ List.length (records_to_keep plan)
         = List.length (filter (fun g => auto_resolved g = true) groups)
      /\ (List.length (records_to_keep plan)
          + List.length (manual_review_needed plan))%nat
         = List.length groups
  | Raise e =>
      exists g,
        g ∈ groups /\ auto_resolved g = true /\ dg_records g = []
        /\ (e = IndexError \/ e = ValueError "max() arg is an empty sequence")
  end.
Proof.
  unfold CleanupPlanning.analyze_duplicates_for_cleanup.
  pose proof (plan_groups_shape groups
                (CleanupPlan (List.length groups) [] [] [] [])) as H.
  destruct (CleanupPlanning.plan_groups groups _) as [plan|e]; [|exact H].
  destruct H as (T & M & R & K & _). cbn in *.
  split; [exact T|]. split; [exact M|]. split; [exact R|].
  split; [exact K|]. rewrite K, R.
  clear. induction groups as [|g groups IH]; [reflexivity|].
  destruct (auto_resolved g) eqn:E.
  - rewrite filter_cons_True, filter_cons_False by congruence. cbn. lia.
  - rewrite filter_cons_False, filter_cons_True by congruence. cbn. lia.
Qed.

Lemma concat_filter_sublist {A B} (f : A -> list B) (P : A -> Prop)
    `{forall x, Decision (P x)} (l : list A) :
  sublist (List.concat (f <$> filter P l)) (List.concat (f <$> l)).
Proof.
  induction l as [|x l IH]; [constructor|].
  destruct (decide (P x)).
  - rewrite filter_cons_True by assumption. cbn.
    apply sublist_app; [reflexivity | exact IH].
  - rewrite filter_cons_False by assumption. cbn.
    apply sublist_inserts_l. exact IH.
Qed.

(** X11: when the members of each group are pairwise distinct, the kept
    and the removed records of a plan are, taken together, exactly the
    members of the groups that the plan resolves itself: each such member
    is kept or removed, once, and no member of another group is touched.
    If moreover no record belongs to two groups, no record is both kept
    and removed. *)
Theorem cleanup_plan_partitions_resolved_groups
    (groups : list dup_group) (plan : cleanup_plan) :
  CleanupPlanning.analyze_duplicates_for_cleanup groups = Ok plan ->
  (forall g, g ∈ groups -> NoDup (dg_records g)) ->
  records_to_keep plan ++ records_to_remove plan
  ≡ₚ List.concat (dg_records <$> filter (fun g => auto_resolved g = true) groups)
  /\ (NoDup (List.concat (dg_records <$> groups)) ->
      NoDup (records_to_keep plan ++ records_to_remove plan)).
Proof.
  intros Hp Hnd. unfold CleanupPlanning.analyze_duplicates_for_cleanup in Hp.
  pose proof (plan_groups_shape groups
                (CleanupPlan (List.length groups) [] [] [] [])) as H.
  rewrite Hp in H. destruct H as (_ & _ & _ & _ & P).
  specialize (P Hnd). cbn in P. split; [exact P|].
  intros Hall. rewrite P.
  eapply sublist_NoDup; [exact Hall | apply concat_filter_sublist].
Qed.

Lemma cleanup_plan_partitions_resolved_groups_witness :
  records_to_keep (plan_of sample_groups)
  ++ records_to_remove (plan_of sample_groups)
  ≡ₚ List.concat (dg_records
               <$> filter (fun g => auto_resolved g = true) sample_groups)
  /\ (NoDup (List.concat (dg_records <$> sample_groups)) ->
      NoDup (records_to_keep (plan_of sample_groups)
             ++ records_to_remove (plan_of sample_groups))).
Proof.
  apply (cleanup_plan_partitions_resolved_groups sample_groups
           (plan_of sample_groups)).
  - vm_compute. reflexivity.
  - intros g Hg. unfold sample_groups in Hg.
    repeat (apply elem_of_cons in Hg as [->|Hg]);
      [| | |inversion Hg]; vm_compute;
      repeat (constructor; [intros Hx; repeat (apply elem_of_cons in Hx
                as [Hx|Hx]; [discriminate|]); inversion Hx|]);
      constructor.
Defined.

(** The date-range loop keeps the least and the greatest creation time of
    the members seen so far. *)
Lemma track_date_range_fold (rest seen : list record_info) (e l : string) :
  Py.truthy e = true -> Py.truthy l = true ->
  (forall r, r ∈ rest -> Py.truthy (ri_created_at r) = true) ->
  (exists r, r ∈ seen /\ ri_created_at r = e) ->
  (exists r, r ∈ seen /\ ri_created_at r = l) ->
  (forall r, r ∈ seen ->
     Py.str_lt (ri_created_at r) e = false
     /\ Py.str_lt l (ri_created_at r) = false) ->
  exists e' l',
    foldl DuplicateDataIdentifier.track_date_range (Some e, Some l) rest
    = (Some e', Some l')
    /\ (exists r, r ∈ seen ++ rest /\ ri_created_at r = e')
    /\ (exists r, r ∈ seen ++ rest /\ ri_created_at r = l')
    /\ (forall r, r ∈ seen ++ rest ->
          Py.str_lt (ri_created_at r) e' = false
          /\ Py.str_lt l' (ri_created_at r) = false).
Proof.
  revert seen e l. induction rest as [|x rest IH];
    intros seen e l He Hl Hrest Hein Hlin Hb.
  - exists e, l. rewrite app_nil_r. auto.
  - cbn [foldl]. unfold DuplicateDataIdentifier.track_date_range at 2.
    cbn [fst snd]. rewrite He, Hl. cbn [negb orb].
    change (Py.str_gt (ri_created_at x) l)
      with (Py.str_lt l (ri_created_at x)).
    assert (Py.truthy (ri_created_at x) = true) as Hx
      by (apply Hrest; left).
    assert (forall r, r ∈ rest -> Py.truthy (ri_created_at r) = true) as Hrest'
      by (intros r Hr; apply Hrest; right; exact Hr).
    set (e1 := if Py.str_lt (ri_created_at x) e then ri_created_at x else e).
    set (l1 := if Py.str_lt l (ri_created_at x) then ri_created_at x else l).
    assert ((if Py.str_lt (ri_created_at x) e then Some (ri_created_at x)
             else Some e) = Some e1) as -> by (subst e1; case_match; auto).
    assert ((if Py.str_lt l (ri_created_at x) then Some (ri_created_at x)
             else Some l) = Some l1) as -> by (subst l1; case_match; auto).
    destruct (IH (seen ++ [x]) e1 l1) as (e' & l' & E & Ein & Lin & B).
    + subst e1. case_match; auto.
    + subst l1. case_match; auto.
    + exact Hrest'.
    + subst e1. destruct (Py.str_lt (ri_created_at x) e).
      * exists x. split; [apply elem_of_app; right; left | reflexivity].
      * destruct Hein as (r & Hr & Hre). exists r.
        split; [apply elem_of_app; left; exact Hr | exact Hre].
    + subst l1. destruct (Py.str_lt l (ri_created_at x)).
      * exists x. split; [apply elem_of_app; right; left | reflexivity].
      * destruct Hlin as (r & Hr & Hre). exists r.
        split; [apply elem_of_app; left; exact Hr | exact Hre].
    + intros r Hr. apply elem_of_app in Hr as [Hr|Hr].
      * destruct (Hb r Hr) as [B1 B2]. subst e1 l1. split.
        -- destruct (Py.str_lt (ri_created_at x) e) eqn:Ex; [|exact B1].
           destruct (Py.str_lt (ri_created_at r) (ri_created_at x)) eqn:Er;
             [|reflexivity].
           rewrite (str_lt_trans _ _ _ Er Ex) in B1. discriminate.
        -- destruct (Py.str_lt l (ri_created_at x)) eqn:Ex; [|exact B2].
           destruct (Py.str_lt (ri_created_at x) (ri_created_at r)) eqn:Er;
             [|reflexivity].
           rewrite (str_lt_trans _ _ _ Ex Er) in B2. discriminate.
      * apply list_elem_of_singleton in Hr. subst r. subst e1 l1. split.
        -- destruct (Py.str_lt (ri_created_at x) e) eqn:Ex;
             [apply str_lt_irrefl | exact Ex].
        -- destruct (Py.str_lt l (ri_created_at x)) eqn:Ex;
             [apply str_lt_irrefl | exact Ex].
    + exists e', l'. rewrite <- app_assoc in Ein, Lin, B. cbn in Ein, Lin, B.
      auto.
Qed.

(** X12: when every member of a group has a non-empty creation time, the
    [date_range] of its analysis is exact: [earliest] and [latest] are
    creation times of members, no member was created before [earliest] and
    none after [latest] (in the order of the time strings). *)
Theorem analysis_date_range_bounds
    (k : doc_kind) (records : list record_info) (an : analysis) :
  DuplicateDataIdentifier.analyze k records = Ok an ->
  (forall r, r ∈ records -> Py.truthy (ri_created_at r) = true) ->
  exists e l,
    date_range_earliest an = Some e
    /\ date_range_latest an = Some l
    /\ (exists r, r ∈ records /\ ri_created_at r = e)
    /\ (exists r, r ∈ records /\ ri_created_at r = l)
    /\ forall r, r ∈ records ->
         Py.str_lt (ri_created_at r) e = false
         /\ Py.str_lt l (ri_created_at r) = false.
Proof.
  intros Ha Ht. unfold DuplicateDataIdentifier.analyze in Ha.
  destruct records as [|x rest]; [discriminate|].
  injection Ha as <-. cbn [date_range_earliest date_range_latest].
  cbn [foldl]. unfold DuplicateDataIdentifier.track_date_range at 2 4.
  cbn [fst snd].
  destruct (track_date_range_fold rest [x] (ri_created_at x) (ri_created_at x))
    as (e & l & E & Ein & Lin & B).
  - apply Ht. left.
  - apply Ht. left.
  - intros r Hr. apply Ht. right. exact Hr.
  - exists x. split; [left | reflexivity].
  - exists x. split; [left | reflexivity].
  - intros r Hr. apply list_elem_of_singleton in Hr. subst r.
    split; apply str_lt_irrefl.
  - rewrite E. exists e, l. cbn. auto.
Qed.

Lemma analysis_date_range_bounds_witness :
  exists e l,
    date_range_earliest (dg_analysis other_dob_group) = Some e
    /\ date_range_latest (dg_analysis other_dob_group) = Some l
    /\ (exists r, r ∈ dg_records other_dob_group /\ ri_created_at r = e)
    /\ (exists r, r ∈ dg_records other_dob_group /\ ri_created_at r = l)
    /\ forall r, r ∈ dg_records other_dob_group ->
         Py.str_lt (ri_created_at r) e = false
         /\ Py.str_lt l (ri_created_at r) = false.
Proof.
  apply (analysis_date_range_bounds AADHAAR (dg_records other_dob_group)
           (dg_analysis other_dob_group)).
  - vm_compute. reflexivity.
  - intros r Hr. unfold other_dob_group, aadhaar_group in Hr. cbn in Hr.
    repeat (apply elem_of_cons in Hr as [->|Hr]; [reflexivity|]).
    inversion Hr.
Defined.

(** X13: [migrate_aadhaar_database] / [migrate_pan_database] on a store
    that has its document and field tables, when the backup copy succeeds
    and the users table holds no repeated Aadhaar number: the call takes
    the backup, creates the users table, its index and the
    cross-reference table, adds both [user_id] columns and, if the stored
    identifiers are pairwise distinct, the unique index -- and then
    returns [False] and logs the migration as ["failed"], because
    [add_foreign_key_constraints] is called without its [table_name]
    argument.  The rows of the document and field tables are untouched. *)
Theorem migration_applies_schema_but_reports_failure
    (k : doc_kind) (w : world) (d : database)
    (dt : table doc_row) (ft : table field_row) :
  get_db (kind_db k) w = Some d ->
  documents d = Some dt ->
  extracted_fields d = Some ft ->
  copy_ok w = true ->
  NoDup (u_aadhaar_number <$> default [] (users d)) ->
  exists w' d' path,
    DatabaseSchemaManager.migrate_database k w = (Ok false, w')
    /\ get_db (kind_db k) w' = Some d'
    /\ is_Some (users d')
    /\ is_Some (user_documents d')
    /\ documents d' = Some (Table (rows dt) true (last_rowid dt))
    /\ extracted_fields d' = Some (Table (rows ft) true (last_rowid ft))
    /\ "idx_users_aadhaar" ∈ indexes d'
    /\ (NoDup (omap f_number (rows ft)) ->
        unique_index_name "extracted_fields"
          (column_name (kind_db k) ColNumber) ∈ indexes d')
    /\ BackupFile path d ∈ schema_backups w'
    /\ schema_migration_log w'
       = schema_migration_log w
         ++ [SchemaLogEntry (now_iso w)
               (DatabaseSchemaManager.operation_name k) "failed" None None
               (Some "DatabaseSchemaManager.add_foreign_key_constraints() missing 1 required positional argument: 'table_name'")].
Proof.
  intros Hd Hdt Hft Hc Hu.
  destruct d as [dd df du dx di]. cbn in Hdt, Hft, Hu. subst dd df.
  unfold DatabaseSchemaManager.migrate_database, try_except.
  unfold bind at 1. unfold DatabaseSchemaManager.create_backup.
  rewrite Hd, Hc.
  set (path := (DatabaseSchemaManager.backup_dir +:+ "/" +:+ db_stem (kind_db k)
                +:+ "_backup_" +:+ now_stamp w +:+ ".db")).
  set (w1 := set_schema_backups _ w).
  assert (get_db (kind_db k) w1 = Some (Database (Some dt) (Some ft) du dx di))
    as Hd1 by (subst w1; destruct k; exact Hd).
  unfold bind at 1. unfold DatabaseSchemaManager.create_users_table.
  rewrite (connect_existing _ _ _ Hd1). cbn [users indexes documents
    extracted_fields user_documents].
  set (us := match du with Some u => Some u | None => Some [] end).
  assert (default [] us = default [] du) as Hus
    by (subst us; destruct du; reflexivity).
  rewrite Hus.
  rewrite (bool_decide_eq_true_2 (NoDup _) Hu), orb_true_r.
  set (d2 := Database (Some dt) (Some ft) us _ _).
  set (w2 := commit (kind_db k) d2 _).
  assert (get_db (kind_db k) w2 = Some d2) as Hd2.
  { subst w2. unfold commit. rewrite get_db_set_db.
    destruct (decide (kind_db k = kind_db k)); congruence. }
  cbn [negb]. unfold bind at 1. unfold ret at 1. unfold bind at 1.
  unfold DatabaseSchemaManager.add_user_id_columns.
  rewrite (connect_existing _ _ _ Hd2). subst d2.
  cbn [users indexes documents extracted_fields user_documents rows].
  set (d3 := Database (Some (Table (rows dt) true (last_rowid dt)))
               (Some (Table (rows ft) true (last_rowid ft)))
               us _ _).
  set (w3 := commit (kind_db k) d3 _).
  assert (get_db (kind_db k) w3 = Some d3) as Hd3.
  { subst w3. unfold commit. rewrite get_db_set_db.
    destruct (decide (kind_db k = kind_db k)); congruence. }
  cbn [negb]. unfold bind at 1. unfold ret at 1. unfold bind at 1.
  assert (exists b w4 d4,
            DatabaseSchemaManager.add_unique_constraints (kind_db k)
              ColNumber w3 = (Ok b, w4)
            /\ get_db (kind_db k) w4 = Some d4
            /\ users d4 = us /\ is_Some (user_documents d4)
            /\ documents d4 = Some (Table (rows dt) true (last_rowid dt))
            /\ extracted_fields d4 = Some (Table (rows ft) true (last_rowid ft))
            /\ "idx_users_aadhaar" ∈ indexes d4
            /\ (NoDup (omap f_number (rows ft)) ->
                unique_index_name "extracted_fields"
                  (column_name (kind_db k) ColNumber) ∈ indexes d4)
            /\ schema_backups w4 = schema_backups w1
            /\ schema_migration_log w4 = schema_migration_log w
            /\ now_iso w4 = now_iso w)
    as (b & w4 & d4 & E4 & Hd4 & U4 & X4 & D4 & F4 & I4 & N4 & B4 & L4 & T4).
  { unfold DatabaseSchemaManager.add_unique_constraints, try_except,
      with_connection.
    rewrite (connect_existing _ _ _ Hd3).
    assert (is_Some (user_documents d3)) as HX
      by (subst d3; cbn; destruct dx; eauto).
    assert ("idx_users_aadhaar" ∈ indexes d3) as HI.
    { subst d3. cbn. case_bool_decide; [assumption|].
      apply elem_of_app. right. left. }
    assert (schema_backups w3 = schema_backups w1
            /\ schema_migration_log w3 = schema_migration_log w
            /\ now_iso w3 = now_iso w) as (HB & HL & HT).
    { subst w3 w2 w1. unfold commit. destruct k; cbn; auto. }
    destruct (decide (unique_index_name "extracted_fields"
                        (column_name (kind_db k) ColNumber) ∈ indexes d3))
      as [Hidx|Hidx];
      [rewrite (bool_decide_eq_true_2 _ Hidx)
      |rewrite (bool_decide_eq_false_2 _ Hidx)].
    - eexists true, _, d3. split; [reflexivity|].
      unfold commit. rewrite get_db_set_db.
      destruct (decide (kind_db k = kind_db k)); [|congruence].
      split; [reflexivity|]. split; [reflexivity|]. split; [exact HX|].
      split; [reflexivity|]. split; [reflexivity|]. split; [exact HI|].
      split; [intros _; exact Hidx|].
      destruct k; cbn; auto.
    - unfold DatabaseSchemaManager.create_unique_index.
      cbn [extracted_fields d3].
      assert (store_has_column (kind_db k) ColNumber = true) as ->
        by (destruct k; reflexivity).
      cbn [negb rows column_value].
      change (omap (column_value ColNumber) (rows ft))
        with (omap f_number (rows ft)).
      destruct (decide (NoDup (omap f_number (rows ft)))) as [Hnd|Hnd];
        [rewrite (bool_decide_eq_true_2 _ Hnd)
        |rewrite (bool_decide_eq_false_2 _ Hnd)].
      + eexists true, _, _. split; [reflexivity|].
        unfold commit. rewrite get_db_set_db.
        destruct (decide (kind_db k = kind_db k)); [|congruence].
        split; [reflexivity|]. cbn.
        split; [reflexivity|]. split; [exact HX|].
        split; [reflexivity|]. split; [reflexivity|].
        split; [apply elem_of_app; left; exact HI|].
        split; [intros _; apply elem_of_app; right; left|].
        destruct k; cbn; auto.
      + eexists false, _, d3. split; [reflexivity|].
        cbn. rewrite get_db_emit.
        split; [exact Hd3|]. split; [reflexivity|]. split; [exact HX|].
        split; [reflexivity|]. split; [reflexivity|]. split; [exact HI|].
        split; [intros H; contradiction|]. auto. }
  rewrite E4.
  assert (exists w5,
            (if negb b
             then act (emit DatabaseSchemaManager.logger WARNING
                         (Text "Failed to add unique constraint - may already exist or have duplicates"))
             else ret tt) w4 = (Ok tt, w5)
            /\ get_db (kind_db k) w5 = Some d4
            /\ schema_backups w5 = schema_backups w1
            /\ schema_migration_log w5 = schema_migration_log w
            /\ now_iso w5 = now_iso w) as (w5 & E5 & Hd5 & B5 & L5 & T5).
  { destruct b; cbn; eexists; (split; [reflexivity|]);
      rewrite ?get_db_emit; auto. }
  unfold bind at 1. rewrite E5.
  unfold bind at 1. unfold call_missing_argument, raise at 1.
  cbn [exn_str]. unfold bind, act, DatabaseSchemaManager.log_migration, ret.
  exists (set_schema_migration_log
            (schema_migration_log
               (emit DatabaseSchemaManager.logger ERROR
                  (Text (DatabaseSchemaManager.kind_label k
                         +:+ " database migration failed: "
                         +:+ ("DatabaseSchemaManager.add_foreign_key_constraints"
                              +:+ "() missing 1 required positional argument: '"
                              +:+ "table_name" +:+ "'"))) w5)
             ++ [SchemaLogEntry
                   (now_iso
                      (emit DatabaseSchemaManager.logger ERROR
                         (Text (DatabaseSchemaManager.kind_label k
                                +:+ " database migration failed: "
                                +:+ ("DatabaseSchemaManager.add_foreign_key_constraints"
                                     +:+ "() missing 1 required positional argument: '"
                                     +:+ "table_name" +:+ "'"))) w5))
                   (DatabaseSchemaManager.operation_name k) "failed" None None
                   (Some ("DatabaseSchemaManager.add_foreign_key_constraints"
                          +:+ "() missing 1 required positional argument: '"
                          +:+ "table_name" +:+ "'"))])
            (emit DatabaseSchemaManager.logger ERROR
               (Text (DatabaseSchemaManager.kind_label k
                      +:+ " database migration failed: "
                      +:+ ("DatabaseSchemaManager.add_foreign_key_constraints"
                           +:+ "() missing 1 required positional argument: '"
                           +:+ "table_name" +:+ "'"))) w5)), d4, path.
  split; [reflexivity|].
  split; [destruct k; cbn; exact Hd5|].
  split; [rewrite U4; subst us; destruct du; eauto|].
  split; [exact X4|]. split; [exact D4|]. split; [exact F4|].
  split; [exact I4|]. split; [exact N4|].
  split.
  - cbn. rewrite B5. subst w1. cbn. unfold write_backup.
    apply elem_of_app. right. left.
  - cbn. rewrite L5, T5. reflexivity.
Qed.
Lemma migration_applies_schema_but_reports_failure_witness :
  let dt := Table [DocRow 1 (Some "a.pdf") (Some "AADHAAR") None
                     (Some (q 9 10)) None None "2024-01-01 10:00:00";
                   DocRow 2 (Some "b.pdf") (Some "AADHAAR") None
                     (Some (q 7 10)) None None "2024-01-02 10:00:00"] true 2 in
  let ft := Table [FieldRow 1 (Some 1) (Some "X") None (Some "1/1/2000")
                     None None (Some "A1") None;
                   FieldRow 2 (Some 2) (Some "X") None (Some "1/1/2000")
                     None None (Some "A1") None] true 2 in
  exists w' d' path,
    DatabaseSchemaManager.migrate_database AADHAAR migrator_world
    = (Ok false, w')
    /\ get_db (kind_db AADHAAR) w' = Some d'
    /\ is_Some (users d')
    /\ is_Some (user_documents d')
    /\ documents d' = Some (Table (rows dt) true (last_rowid dt))
    /\ extracted_fields d' = Some (Table (rows ft) true (last_rowid ft))
    /\ "idx_users_aadhaar" ∈ indexes d'
    /\ (NoDup (omap f_number (rows ft)) ->
        unique_index_name "extracted_fields"
          (column_name (kind_db AADHAAR) ColNumber) ∈ indexes d')
    /\ BackupFile path two_record_store ∈ schema_backups w'
    /\ schema_migration_log w'
       = schema_migration_log migrator_world
         ++ [SchemaLogEntry (now_iso migrator_world)
               (DatabaseSchemaManager.operation_name AADHAAR) "failed" None
               None
               (Some "DatabaseSchemaManager.add_foreign_key_constraints() missing 1 required positional argument: 'table_name'")].
Proof.
  apply (migration_applies_schema_but_reports_failure AADHAAR migrator_world
           two_record_store).
  - reflexivity.
  - reflexivity.
  - reflexivity.
  - reflexivity.
  - constructor.
Defined.
Lemma find_write_backup path content files :
  List.find (fun f => String.eqb (bk_path f) path)
    (write_backup path content files ++ [])
  = Some (BackupFile path content).
Proof.
  rewrite app_nil_r. unfold write_backup.
  induction files as [|f files IH].
  - cbn. rewrite String.eqb_refl. reflexivity.
  - destruct (decide (bk_path f <> path)) as [Hne|He].
    + rewrite filter_cons_True by exact Hne. cbn.
      destruct (String.eqb_spec (bk_path f) path); [contradiction|]. exact IH.
    + rewrite filter_cons_False by exact He. exact IH.
Qed.

Lemma find_app_Some {A} (p : A -> bool) l1 l2 x :
  List.find p l1 = Some x -> List.find p (l1 ++ l2) = Some x.
Proof.
  induction l1 as [|y l1 IH]; cbn; [discriminate|].
  destruct (p y); [auto | exact IH].
Qed.

(** X14: a backup taken by [create_backup] restores the store as it was.
    When the copy succeeds, [create_backup] returns the path of the backup
    and changes no store; as long as the backup directory is as the call
    left it, [restore_backup] of that path, whatever has happened to the
    stores since, returns [True], puts the store back to its content at
    the time of the backup and leaves the other store alone. *)
Theorem backup_then_restore_round_trip
    (i : db_id) (w w2 : world) (d : database) :
  get_db i w = Some d ->
  copy_ok w = true ->
  let b := DatabaseSchemaManager.create_backup i w in
  schema_backups w2 = schema_backups b.2 ->
  copy_ok w2 = true ->
  exists path,
    b.1 = Ok path
    /\ (forall j, get_db j b.2 = get_db j w)
    /\ restore_backup path i w2 = (Ok true, set_db i (Some d) w2)
    /\ get_db i (restore_backup path i w2).2 = Some d
    /\ forall j, j <> i ->
         get_db j (restore_backup path i w2).2 = get_db j w2.
Proof.
  intros Hd Hc b Hb Hc2. subst b.
  unfold DatabaseSchemaManager.create_backup in *. rewrite Hd, Hc in *.
  cbn [fst snd] in *.
  set (path := DatabaseSchemaManager.backup_dir +:+ "/" +:+ db_stem i
               +:+ "_backup_" +:+ now_stamp w +:+ ".db") in *.
  exists path. split; [reflexivity|].
  split; [intros j; destruct j; reflexivity|].
  assert (restore_backup path i w2 = (Ok true, set_db i (Some d) w2)) as E.
  { unfold restore_backup, read_file.
    assert (String.eqb path (db_path AadhaarDb) = false) as ->
      by (subst path; reflexivity).
    assert (String.eqb path (db_path PanDb) = false) as ->
      by (subst path; reflexivity).
    assert (String.eqb path (db_path i) = false) as ->
      by (subst path; destruct i; reflexivity).
    rewrite Hb. cbn [schema_backups set_schema_backups].
    pose proof (find_write_backup path d (schema_backups w)) as Hf.
    rewrite app_nil_r in Hf.
    rewrite (find_app_Some _ _ (migration_backups w2) _ Hf).
    cbn. rewrite Hc2. reflexivity. }
  split; [exact E|]. rewrite E. cbn [snd].
  split.
  - rewrite get_db_set_db. destruct (decide (i = i)); congruence.
  - intros j Hj. rewrite get_db_set_db.
    destruct (decide (i = j)); congruence.
Qed.

Lemma backup_then_restore_round_trip_witness :
  let b := DatabaseSchemaManager.create_backup AadhaarDb migrator_world in
  let w2 := set_db AadhaarDb (Some empty_database) b.2 in
  exists path,
    b.1 = Ok path
    /\ (forall j, get_db j b.2 = get_db j migrator_world)
    /\ restore_backup path AadhaarDb w2
       = (Ok true, set_db AadhaarDb (Some two_record_store) w2)
    /\ get_db AadhaarDb (restore_backup path AadhaarDb w2).2
       = Some two_record_store
    /\ forall j, j <> AadhaarDb ->
         get_db j (restore_backup path AadhaarDb w2).2 = get_db j w2.
Proof.
  apply (backup_then_restore_round_trip AadhaarDb migrator_world
           (set_db AadhaarDb (Some empty_database)
              (DatabaseSchemaManager.create_backup AadhaarDb
                 migrator_world).2)
           two_record_store).
  - reflexivity.
  - reflexivity.
  - reflexivity.
  - reflexivity.
Defined.
(** X15: on a column without repeated values, [add_unique_constraints]
    returns [True], logs nothing and leaves every table as it was; the
    index is appended to the indexes of the store unless it was there
    already, and a second call returns [True] without changing
    anything. *)
Theorem add_unique_constraints_creates_index_once
    (i : db_id) (c : fields_column) (w : world) (d : database)
    (ft : table field_row) :
  get_db i w = Some d ->
  extracted_fields d = Some ft ->
  store_has_column i c = true ->
  NoDup (omap (column_value c) (rows ft)) ->
  let name := unique_index_name "extracted_fields" (column_name i c) in
  let r := DatabaseSchemaManager.add_unique_constraints i c w in
  exists d',
    r.1 = Ok true
    /\ get_db i r.2 = Some d'
    /\ documents d' = documents d
    /\ extracted_fields d' = extracted_fields d
    /\ users d' = users d
    /\ user_documents d' = user_documents d
    /\ indexes d' = (if bool_decide (name ∈ indexes d) then indexes d
                     else indexes d ++ [name])
    /\ log r.2 = log w
    /\ DatabaseSchemaManager.add_unique_constraints i c r.2 = (Ok true, r.2).
Proof.
  intros Hd Hft Hcol Hnd name r.
  assert (forall d0 w0,
            get_db i w0 = Some d0 -> name ∈ indexes d0 ->
            DatabaseSchemaManager.add_unique_constraints i c w0
            = (Ok true, w0)) as Hagain.
  { intros d0 w0 H0 Hin.
    unfold DatabaseSchemaManager.add_unique_constraints, try_except,
      with_connection.
    rewrite (connect_existing _ _ _ H0). fold name.
    rewrite (bool_decide_eq_true_2 _ Hin). unfold commit.
    rewrite (set_db_same _ _ _ H0). reflexivity. }
  destruct (decide (name ∈ indexes d)) as [Hin|Hin].
  - subst r. rewrite (Hagain d w Hd Hin). cbn [fst snd].
    rewrite (bool_decide_eq_true_2 _ Hin).
    exists d. split; [reflexivity|]. split; [exact Hd|].
    do 6 (split; [reflexivity|]). exact (Hagain d w Hd Hin).
  - assert (r = (Ok true,
                 commit i (Database (documents d) (extracted_fields d)
                             (users d) (user_documents d)
                             (indexes d ++ [name])) w)) as ->.
    { subst r.
      unfold DatabaseSchemaManager.add_unique_constraints, try_except,
        with_connection.
      rewrite (connect_existing _ _ _ Hd). fold name.
      rewrite (bool_decide_eq_false_2 _ Hin).
      unfold DatabaseSchemaManager.create_unique_index.
      rewrite Hft, Hcol. cbn [negb].
      rewrite (bool_decide_eq_true_2 _ Hnd). rewrite <- Hft. reflexivity. }
    cbn [fst snd]. rewrite (bool_decide_eq_false_2 _ Hin).
    eexists. split; [reflexivity|]. unfold commit.
    split; [rewrite get_db_set_db; destruct (decide (i = i));
            [reflexivity | congruence]|].
    cbn. do 5 (split; [reflexivity|]). split; [destruct i; reflexivity|].
    eapply Hagain.
    + rewrite get_db_set_db. destruct (decide (i = i));
        [reflexivity | congruence].
    + cbn. apply elem_of_app. right. left.
Qed.

Lemma add_unique_constraints_creates_index_once_witness :
  let name :=
    unique_index_name "extracted_fields" (column_name AadhaarDb ColNumber) in
  let r := DatabaseSchemaManager.add_unique_constraints AadhaarDb ColNumber
             tool_world in
  exists d',
    r.1 = Ok true
    /\ get_db AadhaarDb r.2 = Some d'
    /\ documents d' = documents (store_of AadhaarDb tool_world)
    /\ extracted_fields d' = extracted_fields (store_of AadhaarDb tool_world)
    /\ users d' = users (store_of AadhaarDb tool_world)
    /\ user_documents d' = user_documents (store_of AadhaarDb tool_world)
    /\ indexes d'
       = (if bool_decide (name ∈ indexes (store_of AadhaarDb tool_world))
          then indexes (store_of AadhaarDb tool_world)
          else indexes (store_of AadhaarDb tool_world) ++ [name])
    /\ log r.2 = log tool_world
    /\ DatabaseSchemaManager.add_unique_constraints AadhaarDb ColNumber r.2
       = (Ok true, r.2).
Proof.
  apply (add_unique_constraints_creates_index_once AadhaarDb ColNumber
           tool_world (store_of AadhaarDb tool_world) (Table [] true 0)).
  - vm_compute. reflexivity.
  - vm_compute. reflexivity.
  - reflexivity.
  - constructor.
Defined.

(** Deleting one field row from a linked store. *)
Lemma delete_record_spec (i : db_id) (field_id document_id : Z)
    (d : database) :
  well_linked d ->
  exists d' dt ft dt' ft',
    DataCleanupMigrator.delete_record i field_id document_id d = Ok d'
    /\ documents d = Some dt /\ extracted_fields d = Some ft
    /\ documents d' = Some dt' /\ extracted_fields d' = Some ft'
    /\ rows ft' = filter (fun f => f_id f <> field_id) (rows ft)
    /\ (forall doc, doc ∈ rows dt' <->
          doc ∈ rows dt
          /\ (d_id doc = document_id ->
              exists f, f ∈ rows ft' /\ f_document_id f = Some document_id))
    /\ sublist (rows dt') (rows dt)
    /\ well_linked d'
    /\ users d' = users d
    /\ user_documents d' = user_documents d
    /\ indexes d' = indexes d.
Proof.
  intros (dt & ft & Hdt & Hft & Hl).
  unfold DataCleanupMigrator.delete_record. rewrite Hft, Hdt.
  set (remaining := filter (fun f => f_id f <> field_id) (rows ft)).
  assert (forall f, f ∈ remaining -> f ∈ rows ft) as Hrem
    by (intros f Hf; apply list_elem_of_filter in Hf as [_ Hf]; exact Hf).
  destruct (Nat.eqb (List.length
              (filter (fun f => f_document_id f = Some document_id)
                 remaining)) 0) eqn:E0.
  - apply Nat.eqb_eq, length_zero_iff_nil in E0.
    assert (forall f, f ∈ remaining -> f_document_id f <> Some document_id)
      as Hnone.
    { intros f Hf Hj.
      assert (f ∈ filter (fun f => f_document_id f = Some document_id)
                    remaining) as Hx
        by (apply list_elem_of_filter; auto).
      rewrite E0 in Hx. inversion Hx. }
    eexists _, dt, ft, _, _.
    split; [reflexivity|]. split; [reflexivity|]. split; [reflexivity|].
    cbn [documents extracted_fields users user_documents indexes rows].
    split; [reflexivity|]. split; [reflexivity|]. split; [reflexivity|].
    split.
    { intros doc. cbn [rows]. rewrite list_elem_of_filter. split.
      - intros [Hne Hin]. split; [exact Hin|]. intros He. contradiction.
      - intros [Hin Hc]. split; [|exact Hin]. intros He.
        destruct (Hc He) as (f & Hf & Hj). eapply Hnone; eassumption. }
    split; [apply sublist_filter|].
    split; [|auto].
    eexists _, _. split; [reflexivity|]. split; [reflexivity|].
    cbn [rows]. intros f Hf. destruct (Hl f (Hrem f Hf)) as (doc & Hdoc & Hj).
    exists doc. split; [|exact Hj].
    apply list_elem_of_filter. split; [|exact Hdoc].
    intros He. apply (Hnone f Hf). rewrite Hj, He. reflexivity.
  - eexists _, dt, ft, _, _.
    split; [reflexivity|]. split; [reflexivity|]. split; [reflexivity|].
    cbn [documents extracted_fields users user_documents indexes rows].
    split; [reflexivity|]. split; [reflexivity|]. split; [reflexivity|].
    split.
    { intros doc. cbn [rows]. split; [|intros [H _]; exact H].
      intros Hin. split; [exact Hin|]. intros _.
      destruct (filter (fun f => f_document_id f = Some document_id)
                  remaining) as [|f l] eqn:Ef; [discriminate|].
      assert (f ∈ filter (fun f => f_document_id f = Some document_id)
                    remaining) as Hx by (rewrite Ef; left).
      apply list_elem_of_filter in Hx as [Hj Hf]. eauto. }
    split; [reflexivity|].
    split; [|auto].
    eexists _, _. split; [reflexivity|]. split; [reflexivity|].
    cbn [rows]. intros f Hf. apply Hl, Hrem, Hf.
Qed.

(** One call of [remove_duplicate_record] on a linked store. *)
Lemma remove_duplicate_record_run (i : db_id) (field_id document_id : Z)
    (w : world) (d : database) :
  get_db i w = Some d ->
  well_linked d ->
  exists d',
    DataCleanupMigrator.delete_record i field_id document_id d = Ok d'
    /\ DataCleanupMigrator.remove_duplicate_record i field_id document_id w
       = (Ok true, set_db i (Some d') w).
Proof.
  intros Hd Hl.
  destruct (delete_record_spec i field_id document_id d Hl)
    as (d' & _ & _ & _ & _ & Hdel & _).
  exists d'. split; [exact Hdel|].
  unfold DataCleanupMigrator.remove_duplicate_record, try_except,
    with_connection.
  rewrite (connect_existing _ _ _ Hd), Hdel. reflexivity.
Qed.

(** X16: in a store whose field rows all refer to a document of the
    store, [remove_duplicate_record] returns [True] and deletes the field
    rows of the given id, and nothing else from the field table; it
    deletes a document row only if that row has the given document id and
    no remaining field row refers to it.  Every remaining field row still
    refers to a document of the store, and the users, the cross-reference
    table and the indexes are as before. *)
Theorem remove_duplicate_record_keeps_links
    (i : db_id) (field_id document_id : Z) (w : world) (d : database) :
  get_db i w = Some d ->
  well_linked d ->
  exists d' dt ft dt' ft',
    DataCleanupMigrator.remove_duplicate_record i field_id document_id w
    = (Ok true, set_db i (Some d') w)
    /\ documents d = Some dt /\ extracted_fields d = Some ft
    /\ documents d' = Some dt' /\ extracted_fields d' = Some ft'
    /\ rows ft' = filter (fun f => f_id f <> field_id) (rows ft)
    /\ (forall doc, doc ∈ rows dt' <->
          doc ∈ rows dt
          /\ (d_id doc = document_id ->
              exists f, f ∈ rows ft' /\ f_document_id f = Some document_id))
    /\ well_linked d'
    /\ users d' = users d
    /\ user_documents d' = user_documents d
    /\ indexes d' = indexes d.
Proof.
  intros Hd Hl.
  destruct (remove_duplicate_record_run i field_id document_id w d Hd Hl)
    as (d' & Hdel & Hrun).
  destruct (delete_record_spec i field_id document_id d Hl)
    as (d'' & dt & ft & dt' & ft' & Hdel' & H).
  rewrite Hdel in Hdel'. injection Hdel' as <-.
  exists d', dt, ft, dt', ft'. split; [exact Hrun|]. tauto.
Qed.

Lemma remove_duplicate_record_keeps_links_witness :
  let dt := Table [DocRow 1 (Some "a.pdf") (Some "AADHAAR") None
                     (Some (q 9 10)) None None "2024-01-01 10:00:00";
                   DocRow 2 (Some "b.pdf") (Some "AADHAAR") None
                     (Some (q 7 10)) None None "2024-01-02 10:00:00"] true 2 in
  let ft := Table [FieldRow 1 (Some 1) (Some "X") None (Some "1/1/2000")
                     None None (Some "A1") None;
                   FieldRow 2 (Some 2) (Some "X") None (Some "1/1/2000")
                     None None (Some "A1") None] true 2 in
  exists d' dt0 ft0 dt' ft',
    DataCleanupMigrator.remove_duplicate_record AadhaarDb 2 2 migrator_world
    = (Ok true, set_db AadhaarDb (Some d') migrator_world)
    /\ documents two_record_store = Some dt0
    /\ extracted_fields two_record_store = Some ft0
    /\ documents d' = Some dt' /\ extracted_fields d' = Some ft'
    /\ rows ft' = filter (fun f => f_id f <> 2) (rows ft0)
    /\ (forall doc, doc ∈ rows dt' <->
          doc ∈ rows dt0
          /\ (d_id doc = 2 ->
              exists f, f ∈ rows ft' /\ f_document_id f = Some 2))
    /\ well_linked d'
    /\ users d' = users two_record_store
    /\ user_documents d' = user_documents two_record_store
    /\ indexes d' = indexes two_record_store.
Proof.
  intros dt ft.
  apply (remove_duplicate_record_keeps_links AadhaarDb 2 2 migrator_world
           two_record_store).
  - reflexivity.
  - exists dt, ft. split; [reflexivity|]. split; [reflexivity|].
    intros f Hf. cbn in Hf.
    repeat (apply elem_of_cons in Hf as [->|Hf]);
      [eexists; split; [left|]; reflexivity
      |eexists; split; [right; left|]; reflexivity
      |inversion Hf].
Defined.

(** The loop body in terms of the choice it makes. *)
Lemma plan_group_choice g plan :
  CleanupPlanning.plan_group g plan
  = match choice g with
    | Raise e => Raise e
    | Ok (Some (kept, removed)) =>
        Ok (CleanupPlan (total_groups plan)
              (records_to_keep plan ++ [kept])
              (records_to_remove plan ++ removed)
              (merge_candidates plan)
              (manual_review_needed plan))
    | Ok None =>
        Ok (CleanupPlan (total_groups plan)
              (records_to_keep plan)
              (records_to_remove plan)
              (merge_candidates plan)
              (manual_review_needed plan ++ [g]))
    end.
Proof.
  unfold CleanupPlanning.plan_group, choice, CleanupPlanning.keep_first.
  destruct (same_name (dg_analysis g)), (same_dob (dg_analysis g));
    rewrite ?andb_true_r, ?andb_false_r; cbn [andb].
  - destruct (Nat.eqb (List.length (dg_records g)) 2);
      destruct (CleanupPlanning.sorted_reverse (dg_records g)); reflexivity.
  - destruct (Nat.eqb (List.length (unique_names (dg_analysis g))) 1);
      [|reflexivity].
    destruct (CleanupPlanning.max_by_confidence (dg_records g)); reflexivity.
  - destruct (Nat.eqb (List.length (unique_names (dg_analysis g))) 1);
      [|reflexivity].
    destruct (CleanupPlanning.max_by_confidence (dg_records g)); reflexivity.
  - destruct (Nat.eqb (List.length (unique_names (dg_analysis g))) 1);
      [|reflexivity].
    destruct (CleanupPlanning.max_by_confidence (dg_records g)); reflexivity.
Qed.

(** A choice splits the members of its group. *)
Lemma choice_splits g kept removed :
  choice g = Ok (Some (kept, removed)) ->
  NoDup (dg_records g) ->
  kept :: removed ≡ₚ dg_records g.
Proof.
  unfold choice. intros Hc Hnd.
  destruct (same_name (dg_analysis g) && same_dob (dg_analysis g)).
  - pose proof (sorted_reverse_perm (dg_records g)) as HP.
    destruct (CleanupPlanning.sorted_reverse (dg_records g)) as [|k rest];
      [discriminate|].
    injection Hc as <- <-. exact HP.
  - destruct (Nat.eqb (List.length (unique_names (dg_analysis g))) 1);
      [|discriminate].
    destruct (dg_records g) as [|x rest] eqn:Er; [discriminate|].
    destruct (max_by_confidence_first (x :: rest) ltac:(discriminate))
      as (best & before & after & Eb & R & _ & _).
    rewrite Eb in Hc. injection Hc as <- <-.
    rewrite R in Hnd |- *.
    rewrite filter_app, filter_cons_False by auto.
    apply NoDup_app in Hnd as (N1 & N2 & N3).
    apply NoDup_cons in N3 as [N3 N4].
    rewrite !filter_ne_absent;
      [apply Permutation_middle | exact N3
      |intros Hb; eapply N2; [exact Hb | left]].
Qed.

(** The records that a plan removes are those that the choices remove. *)
Lemma plan_groups_removed groups plan plan' :
  CleanupPlanning.plan_groups groups plan = Ok plan' ->
  records_to_remove plan'
  = records_to_remove plan ++ List.concat (removed_of <$> groups).
Proof.
  revert plan. induction groups as [|g groups IH]; intros plan H.
  - cbn in *. injection H as <-. rewrite app_nil_r. reflexivity.
  - cbn [CleanupPlanning.plan_groups] in H.
    rewrite plan_group_choice in H. unfold removed_of at 1.
    cbn [fmap list_fmap List.concat]. fold (removed_of <$> groups).
    destruct (choice g) as [[[kept removed]|]|e]; [| |discriminate];
      apply IH in H; rewrite H; cbn [records_to_remove];
      rewrite <- ?app_assoc; reflexivity.
Qed.

(** A group that is resolved automatically and has members has a choice. *)
Lemma choice_resolved g :
  auto_resolved g = true -> dg_records g <> [] ->
  exists kept removed, choice g = Ok (Some (kept, removed)).
Proof.
  unfold auto_resolved, choice. intros Ha Hne.
  destruct (same_name (dg_analysis g) && same_dob (dg_analysis g)).
  - destruct (sorted_reverse_nonempty (dg_records g) Hne) as (k & rest & ->).
    eauto.
  - cbn in Ha. rewrite Ha.
    destruct (max_by_confidence_first (dg_records g) Hne)
      as (best & before & after & Eb & _).
    rewrite Eb. eauto.
Qed.

Lemma choice_unresolved g :
  auto_resolved g = false -> removed_of g = [].
Proof.
  unfold auto_resolved, removed_of, choice. intros Ha.
  apply orb_false_iff in Ha as [-> ->]. reflexivity.
Qed.

Lemma set_db_set_db (i : db_id) (x y : option database) (w : world) :
  set_db i x (set_db i y w) = set_db i x w.
Proof. destruct i; reflexivity. Qed.

Lemma filter_all {A} (P : A -> Prop) `{forall x, Decision (P x)}
    (l : list A) :
  (forall x, x ∈ l -> P x) -> filter P l = l.
Proof.
  induction l as [|x l IH]; intros Hall; [reflexivity|].
  rewrite filter_cons_True by (apply Hall; left).
  rewrite IH; [reflexivity|]. intros y Hy. apply Hall. right. exact Hy.
Qed.

(** The removal loop on a linked store: every call succeeds, and what is
    left of the field table are the rows whose id is not among the
    records. *)
Lemma remove_records_spec (i : db_id) (records : list record_info) :
  forall (n : nat) (w : world) (d : database),
    get_db i w = Some d ->
    well_linked d ->
    exists d' dt ft dt' ft',
      DataCleanupMigrator.remove_records i records n w
      = (Ok (n + List.length records)%nat, set_db i (Some d') w)
      /\ documents d = Some dt /\ extracted_fields d = Some ft
      /\ documents d' = Some dt' /\ extracted_fields d' = Some ft'
      /\ rows ft'
         = filter (fun f => f_id f ∉ (ri_field_id <$> records)) (rows ft)
      /\ sublist (rows dt') (rows dt)
      /\ well_linked d'
      /\ users d' = users d
      /\ user_documents d' = user_documents d
      /\ indexes d' = indexes d.
Proof.
  induction records as [|r records IH]; intros n w d Hd Hl.
  - destruct Hl as (dt & ft & Hdt & Hft & Hl).
    exists d, dt, ft, dt, ft. cbn [DataCleanupMigrator.remove_records].
    unfold ret. rewrite (set_db_same _ _ _ Hd), Nat.add_0_r.
    split; [reflexivity|]. split; [exact Hdt|]. split; [exact Hft|].
    split; [exact Hdt|]. split; [exact Hft|].
    split.
    { cbn. symmetry. apply filter_all. intros f _ Hx. inversion Hx. }
    split; [reflexivity|]. split; [exists dt, ft; auto|]. auto.
  - destruct (remove_duplicate_record_run i (ri_field_id r)
                (ri_document_id r) w d Hd Hl) as (d1 & Hdel & Hrun).
    destruct (delete_record_spec i (ri_field_id r) (ri_document_id r) d Hl)
      as (d1' & dt & ft & dt1 & ft1 & Hdel' & Hdt & Hft & Hdt1 & Hft1 & Hrows1
          & _ & Hsub1 & Hl1 & Hu1 & Hud1 & Hi1).
    rewrite Hdel in Hdel'. injection Hdel' as <-.
    assert (get_db i (set_db i (Some d1) w) = Some d1) as Hd1.
    { rewrite get_db_set_db. destruct (decide (i = i)); congruence. }
    destruct (IH (S n) _ d1 Hd1 Hl1)
      as (d' & dt1' & ft1' & dt' & ft' & Hrec & Hdt1' & Hft1' & Hdt' & Hft'
          & Hrows & Hsub & Hl' & Hu & Hud & Hi).
    rewrite Hdt1 in Hdt1'. injection Hdt1' as <-.
    rewrite Hft1 in Hft1'. injection Hft1' as <-.
    exists d', dt, ft, dt', ft'.
    cbn [DataCleanupMigrator.remove_records]. unfold bind at 1.
    rewrite Hrun, Hrec, set_db_set_db.
    split; [f_equal; f_equal; cbn; lia|].
    split; [exact Hdt|]. split; [exact Hft|].
    split; [exact Hdt'|]. split; [exact Hft'|].
    split.
    { rewrite Hrows, Hrows1, list_filter_filter.
      apply list_filter_iff. intros f. cbn. rewrite not_elem_of_cons. tauto. }
    split; [etransitivity; eassumption|].
    split; [exact Hl'|]. repeat split; congruence.
Qed.

Lemma flat_map_nil {A B} (f : A -> list B) (l : list A) :
  (forall x, x ∈ l -> f x = []) -> flat_map f l = [].
Proof.
  induction l as [|x l IH]; intros Hall; [reflexivity|].
  cbn. rewrite (Hall x) by left. apply IH.
  intros y Hy. apply Hall. right. exact Hy.
Qed.

(** A field row that refers to a document of a keyed table joins with
    exactly that document. *)
Lemma join_row_linked (f : field_row) (ds : list doc_row) (doc : doc_row) :
  NoDup (d_id <$> ds) -> doc ∈ ds ->
  f_document_id f = Some (d_id doc) ->
  flat_map (fun d => if decide (f_document_id f = Some (d_id d))
                     then [DuplicateDataIdentifier.make_record f d] else [])
    ds
  = [DuplicateDataIdentifier.make_record f doc].
Proof.
  intros Hnd Hin Hj. induction ds as [|x ds IH]; [inversion Hin|].
  cbn [fmap list_fmap] in Hnd. apply NoDup_cons in Hnd as [Hx Hnd].
  cbn [flat_map].
  apply elem_of_cons in Hin as [->|Hin].
  - destruct (decide (f_document_id f = Some (d_id x))); [|contradiction].
    rewrite flat_map_nil; [reflexivity|].
    intros y Hy. destruct (decide _) as [E|]; [|reflexivity].
    exfalso. apply Hx. rewrite Hj in E. injection E as ->.
    apply list_elem_of_fmap. eauto.
  - destruct (decide (f_document_id f = Some (d_id x))) as [E|].
    + exfalso. apply Hx. rewrite Hj in E. injection E as <-.
      apply list_elem_of_fmap. eauto.
    + cbn. apply IH; assumption.
Qed.

(** In a linked store with keyed documents, the members of a group are,
    by their field ids, the field rows of the identifier. *)
Lemma joined_field_ids (a : string) (fs : list field_row)
    (ds : list doc_row) :
  NoDup (d_id <$> ds) ->
  (forall f, f ∈ fs ->
     exists doc, doc ∈ ds /\ f_document_id f = Some (d_id doc)) ->
  ri_field_id <$> DuplicateDataIdentifier.joined_records a fs ds
  ≡ₚ f_id <$> filter (fun f => f_number f = Some a) fs.
Proof.
  intros Hnd Hl. unfold DuplicateDataIdentifier.joined_records.
  rewrite merge_sort_Permutation.
  induction fs as [|f fs IH]; [reflexivity|].
  cbn [flat_map]. rewrite fmap_app.
  rewrite IH by (intros g Hg; apply Hl; right; exact Hg).
  destruct (decide (f_number f = Some a)) as [E|E].
  - rewrite filter_cons_True by exact E.
    destruct (Hl f ltac:(left)) as (doc & Hdoc & Hj).
    rewrite (join_row_linked f ds doc Hnd Hdoc Hj). reflexivity.
  - rewrite filter_cons_False by exact E. reflexivity.
Qed.

Lemma Forall2_elem_of_r {A B} (R : A -> B -> Prop) l k y :
  Forall2 R l k -> y ∈ k -> exists x, x ∈ l /\ R x y.
Proof.
  induction 1 as [|a b l k Hab _ IH]; intros Hy; [inversion Hy|].
  apply elem_of_cons in Hy as [->|Hy].
  - exists a. split; [left|exact Hab].
  - destruct (IH Hy) as (x & Hx & HR). exists x. split; [right|]; assumption.
Qed.

(** On a store whose tables are keyed the scan builds the group of every
    row of the grouping query and meets no error. *)
Lemma scan_keyed (k : doc_kind) (d : database) :
  keyed_store d ->
  exists dt ft gs,
    documents d = Some dt /\ extracted_fields d = Some ft
    /\ DuplicateDataIdentifier.scan k (Some d) = (gs, None)
    /\ Forall2 (group_of k (rows ft) (rows dt))
         (DuplicateDataIdentifier.duplicate_groups (rows ft)) gs.
Proof.
  intros ((dt & ft & Hdt & Hft & Hl) & Hnf & Hnd).
  rewrite Hft in Hnf. rewrite Hdt in Hnd. cbn in Hnf, Hnd.
  unfold DuplicateDataIdentifier.scan. rewrite Hft, Hdt.
  destruct (scan_groups_spec k dt (rows ft)
              (DuplicateDataIdentifier.duplicate_groups (rows ft)) [])
    as (pre & post & built & Hsplit & Hfst & HF & Hsnd).
  destruct (DuplicateDataIdentifier.scan_groups k (Some dt) (rows ft)
              (DuplicateDataIdentifier.duplicate_groups (rows ft)) [])
    as [gs caught] eqn:Escan.
  cbn [fst snd] in *. rewrite app_nil_l in Hfst. subst gs.
  exists dt, ft, built. split; [reflexivity|]. split; [reflexivity|].
  destruct caught as [e|].
  - exfalso. destruct Hsnd as ([a c] & rest & -> & Hnil).
    assert ((a, c) ∈ DuplicateDataIdentifier.duplicate_groups (rows ft))
      as Hin.
    { rewrite Hsplit. apply elem_of_app. right. left. }
    apply duplicate_groups_elem in Hin as (_ & Hc & Hlt).
    pose proof (joined_field_ids a (rows ft) (rows dt) Hnd Hl) as HP.
    cbn [fst] in Hnil. rewrite Hnil in HP.
    apply Permutation_length in HP. cbn [fmap list_fmap length] in HP.
    rewrite length_fmap in HP.
    unfold DuplicateDataIdentifier.number_count in Hc.
    change (List.length (@nil Z)) with 0%nat in HP. lia.
  - subst post. rewrite app_nil_r in Hsplit. subst pre.
    split; [reflexivity|exact HF].
Qed.

Lemma NoDup_fmap_elem_inj {A B} (f : A -> B) (l : list A) x y :
  NoDup (f <$> l) -> x ∈ l -> y ∈ l -> f x = f y -> x = y.
Proof.
  induction l as [|a l IH]; intros Hnd Hx Hy E; [inversion Hx|].
  cbn [fmap list_fmap] in Hnd. apply NoDup_cons in Hnd as [Ha Hnd].
  apply elem_of_cons in Hx as [->|Hx]; apply elem_of_cons in Hy as [->|Hy].
  - reflexivity.
  - exfalso. apply Ha. rewrite E. apply list_elem_of_fmap. eauto.
  - exfalso. apply Ha. rewrite <- E. apply list_elem_of_fmap. eauto.
  - apply IH; assumption.
Qed.

Lemma choice_some_resolved g kept removed :
  choice g = Ok (Some (kept, removed)) -> auto_resolved g = true.
Proof.
  unfold choice, auto_resolved.
  destruct (same_name (dg_analysis g) && same_dob (dg_analysis g));
    [reflexivity|].
  destruct (Nat.eqb (List.length (unique_names (dg_analysis g))) 1);
    [reflexivity|discriminate].
Qed.

Lemma removed_of_elem (l : list dup_group) (r : record_info) :
  r ∈ List.concat (removed_of <$> l) ->
  exists g kept removed,
    g ∈ l /\ choice g = Ok (Some (kept, removed)) /\ r ∈ removed.
Proof.
  induction l as [|g l IH]; cbn; intros Hr; [inversion Hr|].
  apply elem_of_app in Hr as [Hr|Hr].
  - unfold removed_of in Hr.
    destruct (choice g) as [[[kept removed]|]|e] eqn:Ec;
      try (inversion Hr; fail).
    exists g, kept, removed. split; [left|]. auto.
  - destruct (IH Hr) as (g' & kept & removed & Hg & Hc & Hin).
    exists g', kept, removed. split; [right|]; auto.
Qed.

Lemma removed_of_incl (l : list dup_group) g (r : record_info) :
  g ∈ l -> r ∈ removed_of g -> r ∈ List.concat (removed_of <$> l).
Proof.
  induction l as [|x l IH]; intros Hg Hr; [inversion Hg|].
  cbn. apply elem_of_app.
  apply elem_of_cons in Hg as [->|Hg]; [left; exact Hr|right; auto].
Qed.

Section Cleanup.

Variable fs : list field_row.
Variable gs : list dup_group.

Hypothesis field_ids : NoDup (f_id <$> fs).
Hypothesis group_numbers : NoDup (dg_number <$> gs).
Hypothesis group_members :
  forall g, g ∈ gs ->
    ri_field_id <$> dg_records g
    ≡ₚ f_id <$> filter (fun f => f_number f = Some (dg_number g)) fs.

Lemma member_row g r :
  g ∈ gs -> r ∈ dg_records g ->
  exists f, f ∈ fs /\ f_number f = Some (dg_number g)
            /\ f_id f = ri_field_id r.
Proof.
  intros Hg Hr.
  assert (ri_field_id r ∈ ri_field_id <$> dg_records g) as Hin
    by (apply list_elem_of_fmap; eauto).
  rewrite (group_members g Hg) in Hin.
  apply list_elem_of_fmap in Hin as (f & E & Hf).
  apply list_elem_of_filter in Hf as [Hn Hf]. eauto.
Qed.

Lemma member_ids_NoDup g :
  g ∈ gs -> NoDup (ri_field_id <$> dg_records g).
Proof.
  intros Hg. rewrite (group_members g Hg).
  eapply sublist_NoDup; [exact field_ids|].
  apply fmap_sublist, sublist_filter.
Qed.

Lemma members_NoDup g : g ∈ gs -> NoDup (dg_records g).
Proof. intros Hg. eapply NoDup_fmap_1, member_ids_NoDup, Hg. Qed.

(** The choice of a group, by field ids. *)
Lemma choice_ids g kept removed :
  g ∈ gs -> choice g = Ok (Some (kept, removed)) ->
  ri_field_id kept :: (ri_field_id <$> removed)
  ≡ₚ f_id <$> filter (fun f => f_number f = Some (dg_number g)) fs.
Proof.
  intros Hg Hc. rewrite <- (group_members g Hg).
  rewrite <- (choice_splits g kept removed Hc (members_NoDup g Hg)).
  reflexivity.
Qed.

(** A removed record is the row of a resolved group, and not the kept
    one. *)
Lemma removed_row (l : list dup_group) r :
  (forall g, g ∈ l -> g ∈ gs) ->
  r ∈ List.concat (removed_of <$> l) ->
  exists g kept removed f,
    g ∈ l /\ choice g = Ok (Some (kept, removed)) /\ r ∈ removed
    /\ f ∈ fs /\ f_number f = Some (dg_number g)
    /\ f_id f = ri_field_id r /\ ri_field_id r <> ri_field_id kept.
Proof.
  intros Hl Hr.
  destruct (removed_of_elem l r Hr) as (g & kept & removed & Hg & Hc & Hin).
  pose proof (choice_splits g kept removed Hc (members_NoDup g (Hl g Hg)))
    as HP.
  assert (r ∈ dg_records g) as Hm by (rewrite <- HP; right; exact Hin).
  destruct (member_row g r (Hl g Hg) Hm) as (f & Hf & Hn & Hi).
  exists g, kept, removed, f. repeat split; auto.
  pose proof (member_ids_NoDup g (Hl g Hg)) as Hnd.
  rewrite <- HP in Hnd. cbn [fmap list_fmap] in Hnd.
  apply NoDup_cons in Hnd as [Hk _]. intros E. apply Hk. rewrite <- E.
  apply list_elem_of_fmap. eauto.
Qed.

Lemma group_by_number g1 g2 :
  g1 ∈ gs -> g2 ∈ gs -> dg_number g1 = dg_number g2 -> g1 = g2.
Proof. apply NoDup_fmap_elem_inj, group_numbers. Qed.

Lemma row_by_id f1 f2 :
  f1 ∈ fs -> f2 ∈ fs -> f_id f1 = f_id f2 -> f1 = f2.
Proof. apply NoDup_fmap_elem_inj, field_ids. Qed.

(** Each resolved identifier is left with exactly one row. *)
Lemma remaining_one_row g :
  g ∈ gs -> auto_resolved g = true -> dg_records g <> [] ->
  DuplicateDataIdentifier.number_count (dg_number g) (remaining gs fs) = 1%nat.
Proof.
  intros Hg Ha Hne.
  destruct (choice_resolved g Ha Hne) as (kept & removed & Hc).
  pose proof (choice_ids g kept removed Hg Hc) as Hids.
  pose proof (choice_splits g kept removed Hc (members_NoDup g Hg)) as HP.
  assert (kept ∈ dg_records g) as Hk by (rewrite <- HP; left).
  destruct (member_row g kept Hg Hk) as (f0 & Hf0 & Hn0 & Hi0).
  unfold DuplicateDataIdentifier.number_count.
  enough (filter (fun f => f_number f = Some (dg_number g)) (remaining gs fs)
          ≡ₚ [f0]) as -> by reflexivity.
  apply NoDup_Permutation.
  - eapply sublist_NoDup; [eapply NoDup_fmap_1, field_ids|].
    etransitivity; apply sublist_filter.
  - apply NoDup_singleton.
  - intros f. rewrite list_elem_of_singleton, list_elem_of_filter.
    unfold remaining. rewrite list_elem_of_filter. split.
    + intros (Hn & Hnot & Hf).
      assert (f_id f ∈ f_id <$> filter (fun f => f_number f
                                         = Some (dg_number g)) fs) as Hin.
      { apply list_elem_of_fmap. exists f. split; [reflexivity|].
        apply list_elem_of_filter. auto. }
      rewrite <- Hids in Hin. apply elem_of_cons in Hin as [E|Hin].
      * apply row_by_id; congruence.
      * exfalso. apply Hnot. unfold removed_ids.
        apply list_elem_of_fmap in Hin as (r & E & Hr).
        apply list_elem_of_fmap. exists r. split; [exact E|].
        apply (removed_of_incl gs g r Hg). unfold removed_of.
        rewrite Hc. exact Hr.
    + intros ->. split; [exact Hn0|]. split; [|exact Hf0].
      unfold removed_ids. intros Hin.
      apply list_elem_of_fmap in Hin as (r & E & Hr).
      destruct (removed_row gs r ltac:(auto) Hr)
        as (g' & kept' & removed' & f1 & Hg' & Hc' & Hin' & Hf1 & Hn1
            & Hi1 & Hne1).
      assert (f1 = f0) as -> by (apply row_by_id; congruence).
      assert (g' = g) as ->
        by (apply group_by_number; auto; congruence).
      rewrite Hc in Hc'. injection Hc' as <- <-. congruence.
Qed.

(** The rows of every other identifier stay. *)
Lemma remaining_others f :
  f ∈ fs ->
  (forall g, g ∈ gs -> auto_resolved g = true ->
     f_number f <> Some (dg_number g)) ->
  f ∈ remaining gs fs.
Proof.
  intros Hf Hother. apply list_elem_of_filter. split; [|exact Hf].
  unfold removed_ids. intros Hin.
  apply list_elem_of_fmap in Hin as (r & E & Hr).
  destruct (removed_row gs r ltac:(auto) Hr)
    as (g & kept & removed & f1 & Hg & Hc & _ & Hf1 & Hn1 & Hi1 & _).
  assert (f1 = f) as -> by (apply row_by_id; congruence).
  exact (Hother g Hg (choice_some_resolved g kept removed Hc) Hn1).
Qed.

Lemma removed_ids_NoDup (l : list dup_group) :
  (forall g, g ∈ l -> g ∈ gs) -> NoDup (dg_number <$> l) ->
  NoDup (ri_field_id <$> List.concat (removed_of <$> l)).
Proof.
  induction l as [|g l IH]; intros Hl Hnd; [constructor|].
  cbn [fmap list_fmap] in Hnd. apply NoDup_cons in Hnd as [Hg Hnd].
  cbn [fmap list_fmap List.concat]. fold (removed_of <$> l).
  rewrite fmap_app. apply NoDup_app. split; [|split].
  - unfold removed_of.
    destruct (choice g) as [[[kept removed]|]|e] eqn:Ec; try constructor.
    pose proof (member_ids_NoDup g (Hl g ltac:(left))) as Hm.
    rewrite <- (choice_splits g kept removed Ec
                  (members_NoDup g (Hl g ltac:(left)))) in Hm.
    cbn [fmap list_fmap] in Hm. apply NoDup_cons in Hm as [_ Hm]. exact Hm.
  - intros id H1 H2.
    apply list_elem_of_fmap in H1 as (r1 & -> & Hr1).
    apply list_elem_of_fmap in H2 as (r2 & E & Hr2).
    assert (r1 ∈ List.concat (removed_of <$> [g])) as Hr1'
      by (cbn; rewrite app_nil_r; exact Hr1).
    destruct (removed_row [g] r1) as (g1 & _ & _ & f1 & Hg1 & _ & _ & Hf1
                                      & Hn1 & Hi1 & _); [|exact Hr1'|].
    { intros x Hx. apply list_elem_of_singleton in Hx as ->.
      apply Hl. left. }
    apply list_elem_of_singleton in Hg1 as ->.
    destruct (removed_row l r2) as (g2 & _ & _ & f2 & Hg2 & _ & _ & Hf2
                                    & Hn2 & Hi2 & _); [|exact Hr2|].
    { intros x Hx. apply Hl. right. exact Hx. }
    assert (f1 = f2) as -> by (apply row_by_id; congruence).
    apply Hg. apply list_elem_of_fmap. exists g2. split; [congruence|auto].
  - apply IH; [|exact Hnd]. intros x Hx. apply Hl. right. exact Hx.
Qed.

(** The rows that go are as many as the records removed. *)
Lemma remaining_length :
  List.length fs
  = (List.length (remaining gs fs)
     + List.length (List.concat (removed_of <$> gs)))%nat.
Proof.
  pose proof (filter_app_complement (fun f => f_id f ∈ removed_ids gs) fs)
    as HP.
  apply Permutation_length in HP. rewrite length_app in HP.
  assert (filter (fun f => ~ f_id f ∈ removed_ids gs) fs = remaining gs fs) as E
    by (apply list_filter_iff; reflexivity).
  rewrite E in HP. rewrite <- HP.
  enough (f_id <$> filter (fun f => f_id f ∈ removed_ids gs) fs
          ≡ₚ removed_ids gs) as HQ.
  { apply Permutation_length in HQ. rewrite length_fmap in HQ.
    change (List.length (removed_ids gs))
      with (List.length (ri_field_id <$> List.concat (removed_of <$> gs)))
      in HQ.
    rewrite length_fmap in HQ. lia. }
  apply NoDup_Permutation.
  - eapply sublist_NoDup; [exact field_ids|].
    apply fmap_sublist, sublist_filter.
  - apply removed_ids_NoDup; auto.
  - intros id. rewrite list_elem_of_fmap. split.
    + intros (f & -> & Hf). apply list_elem_of_filter in Hf as [Hin _].
      exact Hin.
    + intros Hin. pose proof Hin as Hin'. unfold removed_ids in Hin'.
      apply list_elem_of_fmap in Hin' as (r & -> & Hr).
      destruct (removed_row gs r ltac:(auto) Hr)
        as (_ & _ & _ & f & _ & _ & _ & Hf & _ & Hi & _).
      exists f. split; [congruence|]. apply list_elem_of_filter.
      split; [rewrite Hi; exact Hin|exact Hf].
Qed.

End Cleanup.

(** The groups of the scan of a keyed store: pairwise different
    identifiers, and as members the field rows of the identifier. *)
Lemma scan_keyed_groups (k : doc_kind) (d : database) :
  keyed_store d ->
  exists dt ft gs,
    documents d = Some dt /\ extracted_fields d = Some ft
    /\ DuplicateDataIdentifier.scan k (Some d) = (gs, None)
    /\ dg_number <$> gs
       = (DuplicateDataIdentifier.duplicate_groups (rows ft)).*1
    /\ NoDup (dg_number <$> gs)
    /\ (forall g, g ∈ gs ->
          ri_field_id <$> dg_records g
          ≡ₚ f_id <$> filter (fun f => f_number f = Some (dg_number g))
                        (rows ft))
    /\ (forall g, g ∈ gs -> dg_records g <> []).
Proof.
  intros Hk.
  destruct (scan_keyed k d Hk) as (dt & ft & gs & Hdt & Hft & Hscan & HF).
  destruct Hk as ((dt0 & ft0 & Hdt0 & Hft0 & Hl) & Hnf & Hnd).
  rewrite Hdt in Hdt0. injection Hdt0 as <-.
  rewrite Hft in Hft0. injection Hft0 as <-.
  rewrite Hdt in Hnd. cbn in Hnd.
  exists dt, ft, gs. split; [exact Hdt|]. split; [exact Hft|].
  split; [exact Hscan|].
  assert (dg_number <$> gs
          = (DuplicateDataIdentifier.duplicate_groups (rows ft)).*1) as Hnums.
  { clear -HF. induction HF as [|p g pre built Hpg _ IH]; [reflexivity|].
    cbn. rewrite IH. destruct Hpg as (-> & _). reflexivity. }
  split; [exact Hnums|]. split; [|split].
  - rewrite Hnums. apply duplicate_groups_NoDup.
  - intros g Hg.
    destruct (Forall2_elem_of_r _ _ _ _ HF Hg)
      as (p & _ & Hn & _ & _ & Hr & _).
    rewrite Hr, Hn. apply joined_field_ids; assumption.
  - intros g Hg. apply (scan_groups_have_records k (Some d)).
    rewrite Hscan. exact Hg.
Qed.

Lemma get_db_set_ml_operations (i : db_id) ops (w : world) :
  get_db i (set_ml_operations ops w) = get_db i w.
Proof. destruct i; reflexivity. Qed.

(** A cleanup run on a keyed store, in full: the groups of the scan, the
    result returned and the store left behind. *)
Lemma cleanup_duplicates_run (k : doc_kind) (w : world) (d : database) :
  get_db (kind_db k) w = Some d ->
  keyed_store d ->
  exists dt ft gs d' dt' ft' w',
    documents d = Some dt /\ extracted_fields d = Some ft
    /\ DuplicateDataIdentifier.scan k (Some d) = (gs, None)
    /\ dg_number <$> gs
       = (DuplicateDataIdentifier.duplicate_groups (rows ft)).*1
    /\ NoDup (dg_number <$> gs)
    /\ (forall g, g ∈ gs ->
          ri_field_id <$> dg_records g
          ≡ₚ f_id <$> filter (fun f => f_number f = Some (dg_number g))
                        (rows ft))
    /\ (forall g, g ∈ gs -> dg_records g <> [])
    /\ DataCleanupMigrator.cleanup_duplicates k false w
       = (Ok (match gs with
              | [] => CleanupSuccess 0 0 None
              | _ :: _ =>
                  CleanupSuccess
                    (List.length (List.concat (removed_of <$> gs)))
                    (List.length
                       (filter (fun g => auto_resolved g = true) gs))
                    (Some (filter (fun g => auto_resolved g = false) gs))
              end), w')
    /\ get_db (kind_db k) w' = Some d'
    /\ (forall j, j <> kind_db k -> get_db j w' = get_db j w)
    /\ log w' = log w
    /\ documents d' = Some dt' /\ extracted_fields d' = Some ft'
    /\ rows ft' = remaining gs (rows ft)
    /\ sublist (rows dt') (rows dt)
    /\ keyed_store d'.
Proof.
  intros Hd Hk.
  destruct (scan_keyed_groups k d Hk)
    as (dt & ft & gs & Hdt & Hft & Hscan & Hnums & Hnum & Hmem & Hne).
  pose proof Hk as (Hl & Hnf & Hnd).
  rewrite Hft in Hnf. rewrite Hdt in Hnd. cbn in Hnf, Hnd.
  unfold DataCleanupMigrator.cleanup_duplicates.
  unfold bind at 1. unfold DuplicateDataIdentifier.scan_duplicates.
  rewrite Hd, Hscan. cbn [fst DuplicateDataIdentifier.log_scan_problem].
  destruct gs as [|g0 gs0] eqn:Egs.
  - exists dt, ft, [], d, dt, ft, w.
    split; [exact Hdt|]. split; [exact Hft|]. split; [reflexivity|].
    split; [exact Hnums|]. split; [exact Hnum|]. split; [exact Hmem|].
    split; [exact Hne|]. split; [reflexivity|]. split; [exact Hd|].
    split; [reflexivity|]. split; [reflexivity|]. split; [exact Hdt|].
    split; [exact Hft|]. split; [|split; [reflexivity|exact Hk]].
    symmetry. apply filter_all. intros f _ Hin. inversion Hin.
  - rewrite <- Egs in *.
    unfold DataCleanupMigrator.analyze_duplicates_for_cleanup,
      CleanupPlanning.analyze_duplicates_for_cleanup.
    pose proof (plan_groups_shape gs
                  (CleanupPlan (List.length gs) [] [] [] [])) as Hshape.
    destruct (CleanupPlanning.plan_groups gs _) as [plan|e] eqn:Eplan.
    2:{ destruct Hshape as (g & Hg & _ & Hnil & _).
        exfalso. exact (Hne g Hg Hnil). }
    destruct Hshape as (_ & _ & Hmanual & Hkept & _). cbn in Hkept, Hmanual.
    pose proof (plan_groups_removed _ _ _ Eplan) as Hrem. cbn in Hrem.
    destruct (remove_records_spec (kind_db k) (records_to_remove plan)
                0 w d Hd Hl)
      as (d' & dt0 & ft0 & dt' & ft' & Hrun & Hdt0 & Hft0 & Hdt' & Hft'
          & Hrows & Hsub & Hl' & _).
    rewrite Hdt in Hdt0. injection Hdt0 as <-.
    rewrite Hft in Hft0. injection Hft0 as <-.
    unfold bind, ret. rewrite Hrun, Hkept, Hmanual, Hrem, Nat.add_0_l.
    eexists dt, ft, gs, d', dt', ft', _.
    split; [exact Hdt|]. split; [exact Hft|]. split; [reflexivity|].
    split; [exact Hnums|]. split; [exact Hnum|]. split; [exact Hmem|].
    split; [exact Hne|].
    split; [rewrite Egs; reflexivity|].
    split.
    { rewrite get_db_set_ml_operations, get_db_set_db.
      destruct (decide (kind_db k = kind_db k)); congruence. }
    split.
    { intros j Hj. rewrite get_db_set_ml_operations, get_db_set_db.
      destruct (decide (kind_db k = j)); congruence. }
    split; [destruct k; reflexivity|].
    split; [exact Hdt'|]. split; [exact Hft'|].
    split; [rewrite Hrows, Hrem; reflexivity|].
    split; [exact Hsub|].
    split; [exact Hl'|]. rewrite Hft', Hdt'. cbn. split.
    + eapply sublist_NoDup; [exact Hnf|].
      rewrite Hrows. apply fmap_sublist, sublist_filter.
    + eapply sublist_NoDup; [exact Hnd|].
      apply fmap_sublist, Hsub.
Qed.

(** X17: cleaning up a store whose tables are keyed.  The call returns
    normally with status [success]; afterwards every identifier whose
    group the plan resolved itself is held by exactly one field row, the
    field rows of all other identifiers (those of groups left to manual
    review included) are all still there, and nothing was added.
    [removed_count] is the number of field rows that are gone and
    [kept_count] the number of groups resolved.  The store is keyed as
    before, and the other store is untouched. *)
Theorem cleanup_leaves_one_row_per_resolved_identifier
    (k : doc_kind) (w : world) (d : database) :
  get_db (kind_db k) w = Some d ->
  keyed_store d ->
  exists d' ft ft' res w',
    DataCleanupMigrator.cleanup_duplicates k false w = (Ok res, w')
    /\ get_db (kind_db k) w' = Some d'
    /\ (forall j, j <> kind_db k -> get_db j w' = get_db j w)
    /\ extracted_fields d = Some ft /\ extracted_fields d' = Some ft'
    /\ keyed_store d'
    /\ (forall g, g ∈ (DuplicateDataIdentifier.scan k (Some d)).1 ->
          auto_resolved g = true ->
          DuplicateDataIdentifier.number_count (dg_number g) (rows ft')
          = 1%nat)
    /\ (forall f, f ∈ rows ft ->
          (forall g, g ∈ (DuplicateDataIdentifier.scan k (Some d)).1 ->
             auto_resolved g = true -> f_number f <> Some (dg_number g)) ->
          f ∈ rows ft')
    /\ (forall f, f ∈ rows ft' -> f ∈ rows ft)
    /\ match res with
       | CleanupSuccess removed_count kept_count _ =>
           List.length (rows ft)
           = (List.length (rows ft') + removed_count)%nat
           /\ kept_count
              = List.length
                  (filter (fun g => auto_resolved g = true)
                     (DuplicateDataIdentifier.scan k (Some d)).1)
       | CleanupDryRun _ _ _ => False
       end.
Proof.
  intros Hd Hk.
  destruct (cleanup_duplicates_run k w d Hd Hk)
    as (dt & ft & gs & d' & dt' & ft' & w' & Hdt & Hft & Hscan & _ & Hnum
        & Hmem & Hne & Hrun & Hd' & Hother & _ & _ & Hft' & Hrows & _ & Hk').
  destruct Hk as (_ & Hnf & _). rewrite Hft in Hnf. cbn in Hnf.
  rewrite Hscan. cbn [fst].
  eexists d', ft, ft', _, w'. split; [exact Hrun|].
  split; [exact Hd'|]. split; [exact Hother|].
  split; [exact Hft|]. split; [exact Hft'|]. split; [exact Hk'|].
  rewrite Hrows.
  split.
  { intros g Hg Ha.
    apply (remaining_one_row (rows ft) gs Hnf Hnum Hmem g Hg Ha
             (Hne g Hg)). }
  split.
  { intros f Hf Hothers.
    apply (remaining_others (rows ft) gs Hnf Hmem f Hf Hothers). }
  split.
  { intros f Hf. apply list_elem_of_filter in Hf as [_ Hf]. exact Hf. }
  pose proof (remaining_length (rows ft) gs Hnf Hnum Hmem) as Hlen.
  destruct gs as [|g0 gs0]; [|split; [exact Hlen|reflexivity]].
  split; [|reflexivity]. cbn in Hlen. exact Hlen.
Qed.

Lemma cleanup_leaves_one_row_per_resolved_identifier_witness :
  exists d' ft ft' res w',
    DataCleanupMigrator.cleanup_duplicates AADHAAR false migrator_world
    = (Ok res, w')
    /\ get_db AadhaarDb w' = Some d'
    /\ (forall j, j <> AadhaarDb -> get_db j w' = get_db j migrator_world)
    /\ extracted_fields two_record_store = Some ft
    /\ extracted_fields d' = Some ft'
    /\ keyed_store d'
    /\ (forall g,
          g ∈ (DuplicateDataIdentifier.scan AADHAAR
                 (Some two_record_store)).1 ->
          auto_resolved g = true ->
          DuplicateDataIdentifier.number_count (dg_number g) (rows ft')
          = 1%nat)
    /\ (forall f, f ∈ rows ft ->
          (forall g,
             g ∈ (DuplicateDataIdentifier.scan AADHAAR
                    (Some two_record_store)).1 ->
             auto_resolved g = true -> f_number f <> Some (dg_number g)) ->
          f ∈ rows ft')
    /\ (forall f, f ∈ rows ft' -> f ∈ rows ft)
    /\ match res with
       | CleanupSuccess removed_count kept_count _ =>
           List.length (rows ft)
           = (List.length (rows ft') + removed_count)%nat
           /\ kept_count
              = List.length
                  (filter (fun g => auto_resolved g = true)
                     (DuplicateDataIdentifier.scan AADHAAR
                        (Some two_record_store)).1)
       | CleanupDryRun _ _ _ => False
       end.
Proof.
  apply (cleanup_leaves_one_row_per_resolved_identifier AADHAAR
           migrator_world two_record_store).
  - reflexivity.
  - split; [|split].
    + eexists _, _. split; [reflexivity|]. split; [reflexivity|].
      intros f Hf. cbn in Hf.
      repeat (apply elem_of_cons in Hf as [->|Hf]);
        [eexists; split; [left|]; reflexivity
        |eexists; split; [right; left|]; reflexivity
        |inversion Hf].
    + cbn. apply NoDup_cons. split; [|apply NoDup_singleton].
      intros H. apply list_elem_of_singleton in H. discriminate.
    + cbn. apply NoDup_cons. split; [|apply NoDup_singleton].
      intros H. apply list_elem_of_singleton in H. discriminate.
Defined.

Lemma filter_ext_elem {A} (P Q : A -> Prop) `{forall x, Decision (P x)}
    `{forall x, Decision (Q x)} (l : list A) :
  (forall x, x ∈ l -> P x <-> Q x) -> filter P l = filter Q l.
Proof.
  induction l as [|x l IH]; intros Hext; [reflexivity|].
  assert (filter P l = filter Q l) as E
    by (apply IH; intros y Hy; apply Hext; right; exact Hy).
  destruct (decide (P x)) as [HP|HP].
  - rewrite !filter_cons_True; [congruence| |exact HP].
    apply Hext; [left|exact HP].
  - rewrite !filter_cons_False; [exact E| |exact HP].
    intros HQ. apply HP. apply Hext; [left|exact HQ].
Qed.

Lemma flat_map_ext_elem {A B} (f g : A -> list B) (l : list A) :
  (forall x, x ∈ l -> f x = g x) -> flat_map f l = flat_map g l.
Proof.
  induction l as [|x l IH]; intros Hext; [reflexivity|].
  cbn. rewrite (Hext x) by left. f_equal.
  apply IH. intros y Hy. apply Hext. right. exact Hy.
Qed.

Lemma flat_map_filter {A B} (P : A -> Prop) `{forall x, Decision (P x)}
    (f : A -> list B) (l : list A) :
  flat_map (fun x => if decide (P x) then f x else []) l
  = flat_map f (filter P l).
Proof.
  induction l as [|x l IH]; [reflexivity|].
  cbn [flat_map]. rewrite IH. destruct (decide (P x)).
  - rewrite filter_cons_True by assumption. reflexivity.
  - rewrite filter_cons_False by assumption. reflexivity.
Qed.

(** The members of a group do not change when rows of other identifiers
    and documents without rows go. *)
Lemma joined_records_kept (a : string) (fs fs' : list field_row)
    (ds ds' : list doc_row) :
  NoDup (d_id <$> ds) -> sublist ds' ds ->
  (forall f, f ∈ fs' ->
     exists doc, doc ∈ ds' /\ f_document_id f = Some (d_id doc)) ->
  filter (fun f => f_number f = Some a) fs'
  = filter (fun f => f_number f = Some a) fs ->
  DuplicateDataIdentifier.joined_records a fs' ds'
  = DuplicateDataIdentifier.joined_records a fs ds.
Proof.
  intros Hnd Hsub Hl Hsame. unfold DuplicateDataIdentifier.joined_records.
  f_equal. rewrite !flat_map_filter, <- Hsame.
  apply flat_map_ext_elem. intros f Hf.
  apply list_elem_of_filter in Hf as [_ Hf].
  destruct (Hl f Hf) as (doc & Hdoc & Hj).
  rewrite (join_row_linked f ds' doc); [|
    eapply sublist_NoDup; [exact Hnd|apply fmap_sublist, Hsub]
    |exact Hdoc|exact Hj].
  rewrite (join_row_linked f ds doc Hnd); [reflexivity| |exact Hj].
  eapply elem_of_sublist; eassumption.
Qed.

Lemma group_of_unique k fs ds fs' ds' p p' g g' :
  group_of k fs ds p g -> group_of k fs' ds' p' g' ->
  p = p' ->
  DuplicateDataIdentifier.joined_records p.1 fs ds
  = DuplicateDataIdentifier.joined_records p.1 fs' ds' ->
  g = g'.
Proof.
  intros (N & Z & C & R & A) (N' & Z' & C' & R' & A') <- E.
  destruct g, g'. cbn in *. subst. rewrite <- E in A'.
  rewrite A in A'. injection A' as <-. rewrite E. reflexivity.
Qed.

Lemma Forall2_elem_of_l {A B} (R : A -> B -> Prop) l k x :
  Forall2 R l k -> x ∈ l -> exists y, y ∈ k /\ R x y.
Proof.
  induction 1 as [|a b l k Hab _ IH]; intros Hx; [inversion Hx|].
  apply elem_of_cons in Hx as [->|Hx].
  - exists b. split; [left|exact Hab].
  - destruct (IH Hx) as (y & Hy & HR). exists y. split; [right|]; assumption.
Qed.

(** The rows of an identifier that no resolved group holds are all left. *)
Lemma remaining_other_identifier (fs : list field_row)
    (gs : list dup_group) (a : string) :
  NoDup (f_id <$> fs) ->
  (forall g, g ∈ gs ->
     ri_field_id <$> dg_records g
     ≡ₚ f_id <$> filter (fun f => f_number f = Some (dg_number g)) fs) ->
  (forall g, g ∈ gs -> auto_resolved g = true -> a <> dg_number g) ->
  filter (fun f => f_number f = Some a) (remaining gs fs)
  = filter (fun f => f_number f = Some a) fs.
Proof.
  intros Hnf Hmem Hother. unfold remaining. rewrite list_filter_filter.
  apply filter_ext_elem. intros f Hf. split; [tauto|].
  intros Hn. split; [exact Hn|].
  assert (f ∈ remaining gs fs) as Hin.
  { apply (remaining_others fs gs Hnf Hmem f Hf).
    intros g Hg Ha E. rewrite Hn in E. injection E as ->.
    exact (Hother g Hg Ha eq_refl). }
  apply list_elem_of_filter in Hin as [Hin _]. exact Hin.
Qed.

Lemma filter_filter_length {A} (P Q : A -> Prop)
    `{forall x, Decision (P x)} `{forall x, Decision (Q x)} (l : list A) :
  (List.length (filter Q (filter P l)) <= List.length (filter Q l))%nat.
Proof.
  induction l as [|x l IH]; [reflexivity|].
  destruct (decide (P x)) as [HP|HP], (decide (Q x)) as [HQ|HQ];
    repeat first [rewrite filter_cons_True by assumption
                 |rewrite filter_cons_False by assumption];
    cbn [Datatypes.length]; lia.
Qed.

(** X18: after cleaning up a store whose tables are keyed, a second scan
    meets no error, logs nothing and returns, up to their order, exactly
    the groups that the cleanup left to manual review, each with its
    count, members and analysis as in the scan before; the identifiers
    that the cleanup resolved are no longer reported. *)
Theorem rescan_after_cleanup_reports_manual_review_only
    (k : doc_kind) (w : world) (d : database) :
  get_db (kind_db k) w = Some d ->
  keyed_store d ->
  exists res w' gs',
    DataCleanupMigrator.cleanup_duplicates k false w = (Ok res, w')
    /\ DuplicateDataIdentifier.scan_duplicates k w' = (Ok gs', w')
    /\ gs' ≡ₚ filter (fun g => auto_resolved g = false)
                (DuplicateDataIdentifier.scan k (Some d)).1.
Proof.
  intros Hd Hk.
  destruct (cleanup_duplicates_run k w d Hd Hk)
    as (dt & ft & gs & d' & dt' & ft' & w' & Hdt & Hft & Hscan & _ & Hnum
        & Hmem & Hne & Hrun & Hd' & _ & _ & Hdt' & Hft' & Hrows & Hsub & Hk').
  destruct (scan_keyed k d Hk) as (dt0 & ft0 & gs0 & Hdt0 & Hft0 & Hscan0 & HF).
  rewrite Hdt in Hdt0. injection Hdt0 as <-.
  rewrite Hft in Hft0. injection Hft0 as <-.
  rewrite Hscan in Hscan0. injection Hscan0 as <-.
  destruct (scan_keyed k d' Hk')
    as (dt1 & ft1 & gs' & Hdt1 & Hft1 & Hscan' & HF').
  rewrite Hdt' in Hdt1. injection Hdt1 as <-.
  rewrite Hft' in Hft1. injection Hft1 as <-.
  destruct (scan_keyed_groups k d' Hk')
    as (dt1 & ft1 & gs1 & _ & _ & Hscan1 & _ & Hnum' & _).
  rewrite Hscan' in Hscan1. injection Hscan1 as <-. clear dt1 ft1.
  pose proof Hk as (_ & Hnf & Hnd). rewrite Hft in Hnf. rewrite Hdt in Hnd.
  cbn in Hnf, Hnd.
  pose proof Hk' as ((dt1 & ft1 & Hdt1 & Hft1 & Hl') & _).
  rewrite Hdt' in Hdt1. injection Hdt1 as <-.
  rewrite Hft' in Hft1. injection Hft1 as <-.
  eexists _, w', gs'. split; [exact Hrun|]. split.
  { unfold DuplicateDataIdentifier.scan_duplicates. rewrite Hd', Hscan'.
    reflexivity. }
  rewrite Hscan. cbn [fst].
  assert (forall a c,
            (a, c) ∈ DuplicateDataIdentifier.duplicate_groups (rows ft) ->
            (forall g, g ∈ gs -> auto_resolved g = true ->
               a <> dg_number g) ->
            (a, c) ∈ DuplicateDataIdentifier.duplicate_groups (rows ft')
            /\ DuplicateDataIdentifier.joined_records a (rows ft) (rows dt)
               = DuplicateDataIdentifier.joined_records a (rows ft')
                   (rows dt')) as Hstay.
  { intros a c Hin Hother.
    pose proof (remaining_other_identifier (rows ft) gs a Hnf Hmem Hother)
      as Hsame.
    rewrite <- Hrows in Hsame. split.
    - apply duplicate_groups_elem in Hin as (He & Hc & Hlt).
      apply duplicate_groups_elem. split; [exact He|]. split; [|exact Hlt].
      unfold DuplicateDataIdentifier.number_count in *. rewrite Hsame.
      exact Hc.
    - symmetry. apply joined_records_kept; assumption. }
  assert (forall g, g ∈ gs -> auto_resolved g = false ->
            forall g0, g0 ∈ gs -> auto_resolved g0 = true ->
              dg_number g <> dg_number g0) as Hdiff.
  { intros g Hg Ha g0 Hg0 Ha0 E.
    assert (g = g0) as ->
      by (eapply NoDup_fmap_elem_inj; [exact Hnum| | |]; assumption).
    congruence. }
  apply NoDup_Permutation.
  - eapply NoDup_fmap_1, Hnum'.
  - eapply sublist_NoDup; [eapply NoDup_fmap_1, Hnum|apply sublist_filter].
  - intros x. rewrite list_elem_of_filter. split.
    + intros Hx.
      destruct (Forall2_elem_of_r _ _ _ _ HF' Hx) as ([a c'] & Hp' & Hgo').
      pose proof Hp' as Hp''.
      apply duplicate_groups_elem in Hp'' as (He & Hc' & Hlt').
      assert ((c' <= DuplicateDataIdentifier.number_count a (rows ft))%nat)
        as Hle.
      { rewrite Hc'. unfold DuplicateDataIdentifier.number_count.
        rewrite Hrows. apply filter_filter_length. }
      assert ((a, DuplicateDataIdentifier.number_count a (rows ft))
              ∈ DuplicateDataIdentifier.duplicate_groups (rows ft)) as Hp.
      { apply duplicate_groups_elem. split; [exact He|].
        split; [reflexivity|lia]. }
      destruct (Forall2_elem_of_l _ _ _ _ HF Hp) as (g & Hg & Hgo).
      pose proof Hgo as (Hn & _). cbn [fst] in Hn.
      destruct (auto_resolved g) eqn:Ha.
      * exfalso.
        pose proof (remaining_one_row (rows ft) gs Hnf Hnum Hmem g Hg Ha
                      (Hne g Hg)) as H1.
        rewrite <- Hrows, Hn, <- Hc' in H1. lia.
      * destruct (Hstay a _ Hp) as (Hp1 & Hrec).
        { intros g0 Hg0 Ha0. rewrite <- Hn. apply Hdiff; assumption. }
        assert (c' = DuplicateDataIdentifier.number_count a (rows ft)) as Ec.
        { apply duplicate_groups_elem in Hp1 as (_ & Hc1 & _).
          rewrite Hc'. symmetry. exact Hc1. }
        assert (g = x) as <-.
        { eapply group_of_unique; [exact Hgo|exact Hgo'| |exact Hrec].
          rewrite Ec. reflexivity. }
        split; [exact Ha|exact Hg].
    + intros [Ha Hg].
      destruct (Forall2_elem_of_r _ _ _ _ HF Hg) as ([a c] & Hp & Hgo).
      pose proof Hgo as (Hn & _). cbn [fst] in Hn.
      destruct (Hstay a c Hp) as (Hp1 & Hrec).
      { intros g0 Hg0 Ha0. rewrite <- Hn. apply Hdiff; assumption. }
      destruct (Forall2_elem_of_l _ _ _ _ HF' Hp1) as (x' & Hx' & Hgo').
      assert (x = x') as ->
        by (eapply group_of_unique;
            [exact Hgo|exact Hgo'|reflexivity|exact Hrec]).
      exact Hx'.
Qed.

Lemma rescan_after_cleanup_reports_manual_review_only_witness :
  exists res w' gs',
    DataCleanupMigrator.cleanup_duplicates AADHAAR false migrator_world
    = (Ok res, w')
    /\ DuplicateDataIdentifier.scan_duplicates AADHAAR w' = (Ok gs', w')
    /\ gs' ≡ₚ filter (fun g => auto_resolved g = false)
                (DuplicateDataIdentifier.scan AADHAAR
                   (Some two_record_store)).1.
Proof.
  apply (rescan_after_cleanup_reports_manual_review_only AADHAAR
           migrator_world two_record_store).
  - reflexivity.
  - split; [|split].
    + eexists _, _. split; [reflexivity|]. split; [reflexivity|].
      intros f Hf. cbn in Hf.
      repeat (apply elem_of_cons in Hf as [->|Hf]);
        [eexists; split; [left|]; reflexivity
        |eexists; split; [right; left|]; reflexivity
        |inversion Hf].
    + cbn. apply NoDup_cons. split; [|apply NoDup_singleton].
      intros H. apply list_elem_of_singleton in H. discriminate.
    + cbn. apply NoDup_cons. split; [|apply NoDup_singleton].
      intros H. apply list_elem_of_singleton in H. discriminate.
Defined.

Lemma find_existsb {A} (p : A -> bool) (l : list A) :
  existsb p l = bool_decide (List.find p l <> None).
Proof.
  induction l as [|x l IH]; [reflexivity|].
  cbn. destruct (p x); [reflexivity|exact IH].
Qed.

Lemma existsb_false_elem {A} (p : A -> bool) (l : list A) :
  (forall x, x ∈ l -> p x = false) -> existsb p l = false.
Proof.
  induction l as [|x l IH]; intros H; [reflexivity|].
  cbn. rewrite (H x) by left. apply IH. intros y Hy. apply H. right. exact Hy.
Qed.

Lemma find_app_None {A} (p : A -> bool) (l k : list A) :
  List.find p l = None -> List.find p (l ++ k) = List.find p k.
Proof.
  induction l as [|x l IH]; [reflexivity|].
  cbn. destruct (p x); [discriminate|exact IH].
Qed.

Lemma find_some_row (uid : string) (us : list users_row) (row : users_row) :
  List.find (fun r => String.eqb (u_user_id r) uid) us = Some row ->
  u_user_id row = uid.
Proof.
  intros H. apply find_some in H as [_ H]. apply String.eqb_eq in H. exact H.
Qed.

(** The lookup by id in one store that has a users table. *)
Lemma get_user_by_id_in_run (uid : string) (i : db_id) (w : world)
    (d : database) (us : list users_row) :
  get_db i w = Some d -> users d = Some us ->
  UserIDManager.get_user_by_id_in uid i w
  = (Ok ((fun r => UserIDManager.row_to_user_data r i)
           <$> List.find (fun r => String.eqb (u_user_id r) uid) us), w).
Proof.
  intros Hd Hu.
  unfold UserIDManager.get_user_by_id_in, try_except, with_connection,
    UserIDManager.select_by_id.
  rewrite (connect_existing _ _ _ Hd), Hu.
  destruct (List.find _ us); cbn; unfold commit;
    rewrite (set_db_same _ _ _ Hd); reflexivity.
Qed.

(** The lookup by id over both stores. *)
Lemma get_user_by_id_run (uid : string) (w : world) (da dp : database)
    (ua up : list users_row) :
  Py.truthy uid = true ->
  get_db AadhaarDb w = Some da -> get_db PanDb w = Some dp ->
  users da = Some ua -> users dp = Some up ->
  UserIDManager.get_user_by_id uid w
  = (Ok (match List.find (fun r => String.eqb (u_user_id r) uid) ua with
         | Some r => Some (UserIDManager.row_to_user_data r AadhaarDb)
         | None =>
             (fun r => UserIDManager.row_to_user_data r PanDb)
               <$> List.find (fun r => String.eqb (u_user_id r) uid) up
         end), w).
Proof.
  intros Ht Ha Hp Hua Hup. unfold UserIDManager.get_user_by_id.
  rewrite Ht. cbn [negb]. unfold bind.
  rewrite (get_user_by_id_in_run uid AadhaarDb w da ua Ha Hua).
  destruct (List.find _ ua) as [r|]; [reflexivity|]. cbn [fmap option_fmap option_map].
  rewrite (get_user_by_id_in_run uid PanDb w dp up Hp Hup). reflexivity.
Qed.

Lemma target_db_involutive (s : db_id) : target_db (target_db s) = s.
Proof. destruct s; reflexivity. Qed.

Lemma target_db_other (s : db_id) : target_db s <> s.
Proof. destruct s; discriminate. Qed.

(** The lookup by id names the store that holds the row, the Aadhaar
    store first. *)
Lemma get_user_by_id_source (uid : string) (w : world) (s : db_id)
    (ds dt : database) (us ut : list users_row) (row : users_row) :
  Py.truthy uid = true ->
  get_db s w = Some ds -> get_db (target_db s) w = Some dt ->
  users ds = Some us -> users dt = Some ut ->
  List.find (fun r => String.eqb (u_user_id r) uid) us = Some row ->
  List.find (fun r => String.eqb (u_user_id r) uid) ut = None ->
  UserIDManager.get_user_by_id uid w
  = (Ok (Some (UserIDManager.row_to_user_data row s)), w).
Proof.
  intros Ht Hs Htg Hus Hut Hrow Hnone. destruct s; cbn [target_db] in *.
  - rewrite (get_user_by_id_run uid w ds dt us ut Ht Hs Htg Hus Hut), Hrow.
    reflexivity.
  - rewrite (get_user_by_id_run uid w dt ds ut us Ht Htg Hs Hut Hus), Hnone,
      Hrow.
    reflexivity.
Qed.

(** A call of [sync_user_across_databases] that copies. *)
Lemma sync_user_across_databases_run
    (uid : string) (w : world) (s : db_id) (ds dt : database)
    (us ut : list users_row) (row : users_row) :
  Py.truthy uid = true ->
  get_db s w = Some ds -> get_db (target_db s) w = Some dt ->
  users ds = Some us -> users dt = Some ut ->
  List.find (fun r => String.eqb (u_user_id r) uid) us = Some row ->
  List.find (fun r => String.eqb (u_user_id r) uid) ut = None ->
  (forall x, x ∈ ut -> u_aadhaar_number x <> u_aadhaar_number row) ->
  sync_user_across_databases uid w
  = (Ok true,
     set_db (target_db s)
       (Some (Database (documents dt) (extracted_fields dt)
                (Some (ut ++ [row])) (user_documents dt) (indexes dt))) w).
Proof.
  intros Ht Hs Htg Hus Hut Hrow Hnone Hfree.
  pose proof (find_some_row uid us row Hrow) as Hid. subst uid.
  unfold sync_user_across_databases, bind.
  rewrite (get_user_by_id_source _ w s ds dt us ut row Ht Hs Htg Hus Hut
             Hrow Hnone).
  unfold UserIDManager.row_to_user_data. cbn [source_db].
  unfold try_except, with_connection.
  rewrite (connect_existing _ _ _ Htg).
  unfold UserIDManager.select_by_id. rewrite Hut, Hnone.
  unfold insert_users_row. rewrite Hut.
  cbn [u_user_id u_aadhaar_number user_id aadhaar_number primary_name
       created_at updated_at document_count].
  rewrite find_existsb.
  rewrite Hnone.
  rewrite bool_decide_eq_false_2 by (intros H; apply H; reflexivity).
  rewrite existsb_false_elem.
  - destruct row; reflexivity.
  - intros x Hx. apply String.eqb_neq, Hfree, Hx.
Qed.

(** X19: [sync_user_across_databases] copies a user to the other store.
    When the user's row is in one store and the users table of the other
    store has neither that user id nor that Aadhaar number, the call
    returns [True] and appends exactly that row, with its timestamps and
    document count, to the users table of the other store; nothing else
    changes.  The lookup by id in the other store then finds the same
    data, and a second call returns [True] and changes nothing. *)
Theorem sync_copies_user_to_other_store
    (uid : string) (w : world) (s : db_id) (ds dt : database)
    (us ut : list users_row) (row : users_row) :
  Py.truthy uid = true ->
  get_db s w = Some ds -> get_db (target_db s) w = Some dt ->
  users ds = Some us -> users dt = Some ut ->
  List.find (fun r => String.eqb (u_user_id r) uid) us = Some row ->
  List.find (fun r => String.eqb (u_user_id r) uid) ut = None ->
  (forall x, x ∈ ut -> u_aadhaar_number x <> u_aadhaar_number row) ->
  let w' :=
    set_db (target_db s)
      (Some (Database (documents dt) (extracted_fields dt)
               (Some (ut ++ [row])) (user_documents dt) (indexes dt))) w in
  sync_user_across_databases uid w = (Ok true, w')
  /\ UserIDManager.get_user_by_id_in uid (target_db s) w'
     = (Ok (Some (UserIDManager.row_to_user_data row (target_db s))), w')
  /\ sync_user_across_databases uid w' = (Ok true, w').
Proof.
  intros Ht Hs Htg Hus Hut Hrow Hnone Hfree w'.
  pose proof (find_some_row uid us row Hrow) as Hid. subst uid.
  assert (get_db (target_db s) w' = Some (Database (documents dt)
            (extracted_fields dt) (Some (ut ++ [row])) (user_documents dt)
            (indexes dt))) as Htg'.
  { unfold w'. rewrite get_db_set_db.
    destruct (decide (target_db s = target_db s)); congruence. }
  assert (get_db s w' = Some ds) as Hs'.
  { unfold w'. rewrite get_db_set_db.
    destruct (decide (target_db s = s)) as [E|_]; [|exact Hs].
    exfalso. exact (target_db_other s E). }
  assert (List.find (fun r => String.eqb (u_user_id r) (u_user_id row))
            (ut ++ [row])
          = Some row) as Hfound.
  { rewrite (find_app_None _ _ _ Hnone). cbn. rewrite String.eqb_refl.
    reflexivity. }
  split; [|split].
  - apply (sync_user_across_databases_run _ w s ds dt us ut row);
      assumption.
  - rewrite (get_user_by_id_in_run _ (target_db s) w' _ _ Htg' eq_refl).
    rewrite Hfound. reflexivity.
  - unfold sync_user_across_databases, bind.
    assert (UserIDManager.get_user_by_id (u_user_id row) w'
            = (Ok (Some (UserIDManager.row_to_user_data row AadhaarDb)), w')
            /\ exists d' us',
                 get_db PanDb w' = Some d' /\ users d' = Some us'
                 /\ List.find (fun r => String.eqb (u_user_id r)
                                          (u_user_id row)) us'
                    = Some row) as (-> & d' & us' & Hd' & Hus' & Hf').
    { destruct s; cbn [target_db] in *.
      - rewrite (get_user_by_id_run _ w' _ _ us (ut ++ [row]) Ht Hs' Htg'
                   Hus eq_refl), Hrow.
        split; [reflexivity|]. eauto.
      - rewrite (get_user_by_id_run _ w' _ _ (ut ++ [row]) us Ht Htg' Hs'
                   eq_refl Hus), Hfound.
        split; [reflexivity|]. eauto. }
    unfold UserIDManager.row_to_user_data. cbn [source_db target_db].
    unfold try_except, with_connection.
    rewrite (connect_existing _ _ _ Hd').
    unfold UserIDManager.select_by_id. rewrite Hus', Hf'.
    unfold commit. rewrite (set_db_same _ _ _ Hd'). reflexivity.
Qed.

Lemma sync_copies_user_to_other_store_witness :
  exists w',
    sync_user_across_databases "6f1c0a52-0000-4000-8000-000000000001"
      registered_world = (Ok true, w')
    /\ UserIDManager.get_user_by_id_in "6f1c0a52-0000-4000-8000-000000000001"
         PanDb w'
       = (Ok (Some (UserData "6f1c0a52-0000-4000-8000-000000000001"
                      "123456789012" "John Doe" "2024-01-01 10:00:00"
                      "2024-01-01 10:00:00" 1 PanDb)), w')
    /\ sync_user_across_databases "6f1c0a52-0000-4000-8000-000000000001" w'
       = (Ok true, w').
Proof.
  eexists.
  apply (sync_copies_user_to_other_store
           "6f1c0a52-0000-4000-8000-000000000001" registered_world
           AadhaarDb (store_of AadhaarDb registered_world)
           (store_of PanDb registered_world)
           [UsersRow "6f1c0a52-0000-4000-8000-000000000001" "123456789012"
              "John Doe" "2024-01-01 10:00:00" "2024-01-01 10:00:00" 1]
           []
           (UsersRow "6f1c0a52-0000-4000-8000-000000000001" "123456789012"
              "John Doe" "2024-01-01 10:00:00" "2024-01-01 10:00:00" 1)).
  - reflexivity.
  - vm_compute. reflexivity.
  - vm_compute. reflexivity.
  - vm_compute. reflexivity.
  - vm_compute. reflexivity.
  - vm_compute. reflexivity.
  - reflexivity.
  - intros x Hx. inversion Hx.
Defined.

(** X20: when [sync_user_across_databases] does not copy.  For a user id
    that neither store knows the call returns [False] and changes and
    logs nothing.  When the other store already holds a different user
    with the same Aadhaar number, the insertion violates the [UNIQUE]
    constraint of [users.aadhaar_number]: the call returns [False], logs
    the error and leaves both stores as they were, so the user stays
    unknown to the other store. *)
Theorem sync_refuses_unknown_user_and_taken_number
    (uid : string) (w : world) (s : db_id) (ds dt : database)
    (us ut : list users_row) :
  get_db s w = Some ds -> get_db (target_db s) w = Some dt ->
  users ds = Some us -> users dt = Some ut ->
  List.find (fun r => String.eqb (u_user_id r) uid) ut = None ->
  (List.find (fun r => String.eqb (u_user_id r) uid) us = None ->
   sync_user_across_databases uid w = (Ok false, w))
  /\ (forall row other,
        Py.truthy uid = true ->
        List.find (fun r => String.eqb (u_user_id r) uid) us = Some row ->
        other ∈ ut -> u_aadhaar_number other = u_aadhaar_number row ->
        sync_user_across_databases uid w
        = (Ok false,
           emit UserIDManager.logger ERROR
             (Text ("Error syncing user across databases: "
                    +:+ "UNIQUE constraint failed: users.aadhaar_number"))
             w)).
Proof.
  intros Hs Htg Hus Hut Hnone. split.
  - intros Hnone'. unfold sync_user_across_databases, bind.
    assert (UserIDManager.get_user_by_id uid w = (Ok None, w)) as ->;
      [|reflexivity].
    destruct (Py.truthy uid) eqn:Ht.
    + destruct s; cbn [target_db] in *.
      * rewrite (get_user_by_id_run uid w ds dt us ut Ht Hs Htg Hus Hut),
          Hnone', Hnone.
        reflexivity.
      * rewrite (get_user_by_id_run uid w dt ds ut us Ht Htg Hs Hut Hus),
          Hnone', Hnone.
        reflexivity.
    + unfold UserIDManager.get_user_by_id. rewrite Ht. reflexivity.
  - intros row other Ht Hrow Hother Hsame.
    unfold sync_user_across_databases, bind.
    rewrite (get_user_by_id_source uid w s ds dt us ut row Ht Hs Htg Hus Hut
               Hrow Hnone).
    unfold UserIDManager.row_to_user_data. cbn [source_db].
    unfold try_except, with_connection.
    rewrite (connect_existing _ _ _ Htg).
    unfold UserIDManager.select_by_id. rewrite Hut, Hnone.
    unfold insert_users_row. rewrite Hut.
    cbn [u_user_id u_aadhaar_number user_id aadhaar_number primary_name
         created_at updated_at document_count].
    rewrite find_existsb.
    rewrite (find_some_row uid us row Hrow), Hnone.
    rewrite bool_decide_eq_false_2 by (intros H; apply H; reflexivity).
    assert (existsb (fun x => String.eqb (u_aadhaar_number x)
                                (u_aadhaar_number row)) ut = true) as ->.
    { apply existsb_exists. exists other. split.
      - apply list_elem_of_In. exact Hother.
      - apply String.eqb_eq. exact Hsame. }
    reflexivity.
Qed.

Lemma sync_refuses_unknown_user_and_taken_number_witness :
  (List.find (fun r => String.eqb (u_user_id r) "nobody")
     [UsersRow "6f1c0a52-0000-4000-8000-000000000001" "123456789012"
        "John Doe" "2024-01-01 10:00:00" "2024-01-01 10:00:00" 1] = None ->
   sync_user_across_databases "nobody" registered_world
   = (Ok false, registered_world))
  /\ (forall row other,
        Py.truthy "nobody" = true ->
        List.find (fun r => String.eqb (u_user_id r) "nobody")
          [UsersRow "6f1c0a52-0000-4000-8000-000000000001" "123456789012"
             "John Doe" "2024-01-01 10:00:00" "2024-01-01 10:00:00" 1]
        = Some row ->
        other ∈ [] -> u_aadhaar_number other = u_aadhaar_number row ->
        sync_user_across_databases "nobody" registered_world
        = (Ok false,
           emit UserIDManager.logger ERROR
             (Text ("Error syncing user across databases: "
                    +:+ "UNIQUE constraint failed: users.aadhaar_number"))
             registered_world)).
Proof.
  apply (sync_refuses_unknown_user_and_taken_number "nobody"
           registered_world AadhaarDb (store_of AadhaarDb registered_world)
           (store_of PanDb registered_world)).
  - vm_compute. reflexivity.
  - vm_compute. reflexivity.
  - vm_compute. reflexivity.
  - vm_compute. reflexivity.
  - reflexivity.
Defined.

Lemma count_users_in_run (i : db_id) (w : world) (d : database)
    (us : list users_row) :
  get_db i w = Some d -> users d = Some us ->
  count_users_in i w
  = (Ok (Some (List.length us,
               List.length
                 (filter (fun r => (1 < u_document_count r)%Z) us))), w).
Proof.
  intros Hd Hu. unfold count_users_in, try_except, with_connection.
  rewrite (connect_existing _ _ _ Hd), Hu. unfold commit.
  rewrite (set_db_same _ _ _ Hd). reflexivity.
Qed.

Lemma user_ids_in_run (i : db_id) (w : world) (d : database)
    (us : list users_row) :
  get_db i w = Some d -> users d = Some us ->
  user_ids_in i w = (Ok (u_user_id <$> us), w).
Proof.
  intros Hd Hu. unfold user_ids_in, try_except, with_connection.
  rewrite (connect_existing _ _ _ Hd), Hu. unfold commit.
  rewrite (set_db_same _ _ _ Hd). reflexivity.
Qed.

(** The statistics of two stores that both have a users table. *)
Lemma get_user_statistics_run (w : world) (da dp : database)
    (ua up : list users_row) :
  get_db AadhaarDb w = Some da -> get_db PanDb w = Some dp ->
  users da = Some ua -> users dp = Some up ->
  get_user_statistics w
  = (Ok (UserStatistics
           (size (list_to_set ((u_user_id <$> ua) ++ (u_user_id <$> up))
                  : gset string))
           (List.length ua) (List.length up)
           (List.length (filter (fun r => (1 < u_document_count r)%Z) ua)
            + List.length (filter (fun r => (1 < u_document_count r)%Z) up))),
     w).
Proof.
  intros Ha Hp Hua Hup. unfold get_user_statistics, bind.
  rewrite (count_users_in_run AadhaarDb w da ua Ha Hua).
  rewrite (count_users_in_run PanDb w dp up Hp Hup).
  rewrite (user_ids_in_run AadhaarDb w da ua Ha Hua).
  rewrite (user_ids_in_run PanDb w dp up Hp Hup).
  reflexivity.
Qed.

(** X21: the statistics of two stores that both have a users table whose
    user ids are pairwise different.  The call changes and logs nothing;
    [aadhaar_db_users] and [pan_db_users] are the sizes of the two tables;
    [total_users] counts a user id that is in both tables once, so it is
    the sum of the two sizes less the number of shared ids;
    [users_with_multiple_docs] is the sum over both tables of the users
    with more than one document, so it counts a shared user twice. *)
Theorem user_statistics_count_shared_users_once
    (w : world) (da dp : database) (ua up : list users_row) :
  get_db AadhaarDb w = Some da -> get_db PanDb w = Some dp ->
  users da = Some ua -> users dp = Some up ->
  NoDup (u_user_id <$> ua) -> NoDup (u_user_id <$> up) ->
  exists st,
    get_user_statistics w = (Ok st, w)
    /\ aadhaar_db_users st = List.length ua
    /\ pan_db_users st = List.length up
    /\ (total_users st
        + List.length
            (filter (fun r => u_user_id r ∈ (u_user_id <$> ua)) up))%nat
       = (List.length ua + List.length up)%nat
    /\ users_with_multiple_docs st
       = (List.length (filter (fun r => (1 < u_document_count r)%Z) ua)
          + List.length (filter (fun r => (1 < u_document_count r)%Z) up))%nat.
Proof.
  intros Ha Hp Hua Hup Hna Hnp.
  eexists. split; [apply (get_user_statistics_run w da dp ua up); assumption|].
  cbn [aadhaar_db_users pan_db_users total_users users_with_multiple_docs].
  split; [reflexivity|]. split; [reflexivity|]. split; [|reflexivity].
  rewrite list_to_set_app_L, size_union_alt.
  rewrite (size_list_to_set _ Hna), length_fmap.
  assert ((list_to_set (u_user_id <$> up) : gset string)
          ∖ list_to_set (u_user_id <$> ua)
          = list_to_set
              (u_user_id <$> filter (fun r => u_user_id r ∉ (u_user_id <$> ua))
                               up)) as ->.
  { apply set_eq. intros x.
    rewrite elem_of_difference, !elem_of_list_to_set, !list_elem_of_fmap.
    split.
    - intros [(r & -> & Hr) Hnot]. exists r. split; [reflexivity|].
      apply list_elem_of_filter. split; [|exact Hr].
      intros Hin. apply Hnot. apply list_elem_of_fmap in Hin. exact Hin.
    - intros (r & -> & Hr). apply list_elem_of_filter in Hr as [Hnot Hr].
      split; [eauto|]. intros Hin. apply Hnot.
      apply list_elem_of_fmap. exact Hin. }
  rewrite size_list_to_set, length_fmap.
  2:{ eapply sublist_NoDup; [exact Hnp|]. apply fmap_sublist, sublist_filter. }
  pose proof (filter_app_complement
                (fun r => u_user_id r ∈ (u_user_id <$> ua)) up) as HP.
  apply Permutation_length in HP. rewrite length_app in HP.
  set (shared := List.length
                   (filter (fun r => u_user_id r ∈ (u_user_id <$> ua)) up))
    in *.
  set (others := List.length
                   (filter (fun r => u_user_id r ∉ (u_user_id <$> ua)) up))
    in *.
  lia.
Qed.

Lemma user_statistics_count_shared_users_once_witness :
  exists st,
    get_user_statistics registered_world = (Ok st, registered_world)
    /\ aadhaar_db_users st = 1%nat
    /\ pan_db_users st = 0%nat
    /\ (total_users st + 0)%nat = (1 + 0)%nat
    /\ users_with_multiple_docs st = (0 + 0)%nat.
Proof.
  apply (user_statistics_count_shared_users_once registered_world
           (store_of AadhaarDb registered_world)
           (store_of PanDb registered_world)
           [UsersRow "6f1c0a52-0000-4000-8000-000000000001" "123456789012"
              "John Doe" "2024-01-01 10:00:00" "2024-01-01 10:00:00" 1]
           []).
  - vm_compute. reflexivity.
  - vm_compute. reflexivity.
  - vm_compute. reflexivity.
  - vm_compute. reflexivity.
  - apply NoDup_singleton.
  - apply NoDup_nil_2.
Defined.

(** X22: the statistics after a user has been copied to the other store.
    [total_users] is what it was, one of [aadhaar_db_users] and
    [pan_db_users] has grown by one, and [users_with_multiple_docs] has
    grown by one when the user has more than one document: the user is
    then counted in both stores. *)
Theorem sync_counts_multi_document_user_twice
    (uid : string) (w : world) (s : db_id) (ds dt : database)
    (us ut : list users_row) (row : users_row) :
  Py.truthy uid = true ->
  get_db s w = Some ds -> get_db (target_db s) w = Some dt ->
  users ds = Some us -> users dt = Some ut ->
  List.find (fun r => String.eqb (u_user_id r) uid) us = Some row ->
  List.find (fun r => String.eqb (u_user_id r) uid) ut = None ->
  (forall x, x ∈ ut -> u_aadhaar_number x <> u_aadhaar_number row) ->
  exists st st' w',
    get_user_statistics w = (Ok st, w)
    /\ sync_user_across_databases uid w = (Ok true, w')
    /\ get_user_statistics w' = (Ok st', w')
    /\ total_users st' = total_users st
    /\ (aadhaar_db_users st' + pan_db_users st')%nat
       = (aadhaar_db_users st + pan_db_users st + 1)%nat
    /\ users_with_multiple_docs st'
       = (users_with_multiple_docs st
          + if (1 <? u_document_count row)%Z then 1 else 0)%nat.
Proof.
  intros Ht Hs Htg Hus Hut Hrow Hnone Hfree.
  pose proof (sync_user_across_databases_run uid w s ds dt us ut row Ht Hs Htg
                Hus Hut Hrow Hnone Hfree) as Hsync.
  set (dt' := Database (documents dt) (extracted_fields dt)
                (Some (ut ++ [row])) (user_documents dt) (indexes dt)) in *.
  set (w' := set_db (target_db s) (Some dt') w) in *.
  assert (get_db (target_db s) w' = Some dt') as Htg'.
  { unfold w'. rewrite get_db_set_db.
    destruct (decide (target_db s = target_db s)); congruence. }
  assert (get_db s w' = Some ds) as Hs'.
  { unfold w'. rewrite get_db_set_db.
    destruct (decide (target_db s = s)) as [E|_]; [|exact Hs].
    exfalso. exact (target_db_other s E). }
  assert (u_user_id row ∈ u_user_id <$> us) as Hin.
  { apply list_elem_of_fmap. exists row. split; [reflexivity|].
    apply find_some in Hrow as [Hrow _]. apply list_elem_of_In. exact Hrow. }
  assert (List.length
            (filter (fun r => (1 < u_document_count r)%Z) (ut ++ [row]))
          = (List.length (filter (fun r => (1 < u_document_count r)%Z) ut)
             + if (1 <? u_document_count row)%Z then 1 else 0)%nat) as Hmulti.
  { rewrite filter_app, length_app. f_equal.
    destruct (Z.ltb_spec 1 (u_document_count row)).
    - rewrite filter_cons_True by assumption. reflexivity.
    - rewrite filter_cons_False by lia. reflexivity. }
  destruct s; cbn [target_db] in *.
  - eexists _, _, w'.
    split; [apply (get_user_statistics_run w ds dt us ut); assumption|].
    split; [exact Hsync|].
    split; [apply (get_user_statistics_run w' ds dt' us (ut ++ [row]));
            auto|].
    cbn [aadhaar_db_users pan_db_users total_users users_with_multiple_docs].
    split; [|split; [rewrite length_app; cbn; lia|rewrite Hmulti; lia]].
    f_equal. apply set_eq. intros x.
    rewrite !elem_of_list_to_set, !fmap_app, !elem_of_app.
    cbn. rewrite list_elem_of_singleton. split; [|tauto].
    intros [H|[H| ->]]; auto.
  - eexists _, _, w'.
    split; [apply (get_user_statistics_run w dt ds ut us); assumption|].
    split; [exact Hsync|].
    split; [apply (get_user_statistics_run w' dt' ds (ut ++ [row]) us);
            auto|].
    cbn [aadhaar_db_users pan_db_users total_users users_with_multiple_docs].
    split; [|split; [rewrite length_app; cbn; lia|rewrite Hmulti; lia]].
    f_equal. apply set_eq. intros x.
    rewrite !elem_of_list_to_set, !fmap_app, !elem_of_app.
    cbn. rewrite list_elem_of_singleton. split; [|tauto].
    intros [[H| ->]|H]; auto.
Qed.

Lemma sync_counts_multi_document_user_twice_witness :
  exists st st' w',
    get_user_statistics registered_world = (Ok st, registered_world)
    /\ sync_user_across_databases "6f1c0a52-0000-4000-8000-000000000001"
         registered_world = (Ok true, w')
    /\ get_user_statistics w' = (Ok st', w')
    /\ total_users st' = total_users st
    /\ (aadhaar_db_users st' + pan_db_users st')%nat
       = (aadhaar_db_users st + pan_db_users st + 1)%nat
    /\ users_with_multiple_docs st'
       = (users_with_multiple_docs st + 0)%nat.
Proof.
  apply (sync_counts_multi_document_user_twice
           "6f1c0a52-0000-4000-8000-000000000001" registered_world
           AadhaarDb (store_of AadhaarDb registered_world)
           (store_of PanDb registered_world)
           [UsersRow "6f1c0a52-0000-4000-8000-000000000001" "123456789012"
              "John Doe" "2024-01-01 10:00:00" "2024-01-01 10:00:00" 1]
           []
           (UsersRow "6f1c0a52-0000-4000-8000-000000000001" "123456789012"
              "John Doe" "2024-01-01 10:00:00" "2024-01-01 10:00:00" 1)).
  - reflexivity.
  - vm_compute. reflexivity.
  - vm_compute. reflexivity.
  - vm_compute. reflexivity.
  - vm_compute. reflexivity.
  - vm_compute. reflexivity.
  - reflexivity.
  - intros x Hx. inversion Hx.
Defined.

Lemma same_stores_trans w1 w2 w3 :
  same_stores w1 w2 -> same_stores w2 w3 -> same_stores w1 w3.
Proof. intros H1 H2 i. rewrite H2. apply H1. Qed.

Lemma check_database_exists_run (i : db_id) (w : world) :
  exists w',
    check_database_exists i w = (Ok (bool_decide (is_Some (get_db i w))), w')
    /\ same_stores w w'.
Proof.
  unfold check_database_exists. destruct (get_db i w) as [d|] eqn:E.
  - exists w. split; [|apply same_stores_refl].
    rewrite bool_decide_eq_true_2 by eauto. reflexivity.
  - eexists. split; [|apply same_stores_emit].
    rewrite bool_decide_eq_false_2; [reflexivity|].
    intros [x Hx]. discriminate.
Qed.

Lemma scan_duplicates_run (k : doc_kind) (w : world) :
  exists w',
    DuplicateDataIdentifier.scan_duplicates k w
    = (Ok (DuplicateDataIdentifier.scan k (get_db (kind_db k) w)).1, w')
    /\ same_stores w w'.
Proof.
  unfold DuplicateDataIdentifier.scan_duplicates.
  destruct (DuplicateDataIdentifier.scan k (get_db (kind_db k) w))
    as [l p]. eexists. split; [reflexivity|].
  destruct p as [[|e]|]; cbn; auto using same_stores_emit, same_stores_refl.
Qed.

Lemma same_stores_commit_existing (i : db_id) (d : database) (w : world) :
  get_db i w = Some d -> same_stores w (commit i d w).
Proof.
  intros Hd. unfold commit. rewrite (set_db_same _ _ _ Hd).
  apply same_stores_refl.
Qed.

Lemma aadhaar_quality_issues_run (w : world) :
  exists issues w',
    aadhaar_quality_issues w = (Ok issues, w') /\ same_stores w w'.
Proof.
  unfold aadhaar_quality_issues, bind, check_database_exists.
  destruct (get_db AadhaarDb w) as [d|] eqn:Hd.
  - rewrite (connect_existing _ _ _ Hd).
    destruct (count_where invalid_aadhaar_format d) as [n|e].
    + destruct (count_where missing_name d) as [m|e].
      * eexists _, _. split; [reflexivity|].
        apply same_stores_commit_existing, Hd.
      * eexists _, _. split; [reflexivity|]. apply same_stores_emit.
    + eexists _, _. split; [reflexivity|]. apply same_stores_emit.
  - eexists _, _. split; [reflexivity|]. apply same_stores_emit.
Qed.

Lemma pan_quality_issues_run (w : world) :
  exists issues w',
    pan_quality_issues w = (Ok issues, w') /\ same_stores w w'.
Proof.
  unfold pan_quality_issues, bind, check_database_exists.
  destruct (get_db PanDb w) as [d|] eqn:Hd.
  - rewrite (connect_existing _ _ _ Hd).
    destruct (count_where invalid_pan_format d) as [n|e].
    + eexists _, _. split; [reflexivity|].
      apply same_stores_commit_existing, Hd.
    + eexists _, _. split; [reflexivity|]. apply same_stores_emit.
  - eexists _, _. split; [reflexivity|]. apply same_stores_emit.
Qed.

Lemma scan_data_quality_issues_run (w : world) :
  exists issues w',
    scan_data_quality_issues w = (Ok issues, w') /\ same_stores w w'.
Proof.
  unfold scan_data_quality_issues, bind.
  destruct (aadhaar_quality_issues_run w) as (ia & w1 & -> & H1).
  destruct (pan_quality_issues_run w1) as (ip & w2 & -> & H2).
  eexists _, _. split; [reflexivity|].
  eapply same_stores_trans; eassumption.
Qed.

(** Every group of a scan counts more than one row. *)
Lemma scan_groups_count k db g :
  g ∈ (DuplicateDataIdentifier.scan k db).1 ->
  (1 < dg_duplicate_count g)%nat.
Proof.
  destruct db as [d|]; [|intros H; inversion H].
  unfold DuplicateDataIdentifier.scan.
  destruct (extracted_fields d) as [ft|]; [|intros H; inversion H].
  destruct (documents d) as [dt|].
  - destruct (scan_groups_spec k dt (rows ft)
                (DuplicateDataIdentifier.duplicate_groups (rows ft)) [])
      as (pre & post & built & Hsplit & Hfst & HF & _).
    destruct (DuplicateDataIdentifier.scan_groups k (Some dt) (rows ft)
                (DuplicateDataIdentifier.duplicate_groups (rows ft)) [])
      as [gs caught].
    cbn [fst] in *. rewrite app_nil_l in Hfst. subst gs. intros Hg.
    destruct (Forall2_elem_of_r _ _ _ _ HF Hg) as ([a c] & Hp & Hgo).
    destruct Hgo as (_ & _ & -> & _). cbn.
    assert ((a, c) ∈ DuplicateDataIdentifier.duplicate_groups (rows ft))
      as Hin by (rewrite Hsplit; apply elem_of_app; left; exact Hp).
    apply duplicate_groups_elem in Hin. tauto.
  - destruct (scan_groups_no_documents k (rows ft)
                (DuplicateDataIdentifier.duplicate_groups (rows ft)) [])
      as [Hfst _].
    destruct (DuplicateDataIdentifier.scan_groups k None (rows ft)
                (DuplicateDataIdentifier.duplicate_groups (rows ft)) [])
      as [gs caught].
    cbn [fst] in *. subst gs. intros H. inversion H.
Qed.

Lemma list_sum_at_least_twice (l : list dup_group) :
  (forall g, g ∈ l -> (1 < dg_duplicate_count g)%nat) ->
  (2 * List.length l <= list_sum (dg_duplicate_count <$> l))%nat.
Proof.
  induction l as [|g l IH]; intros H; [cbn; lia|].
  pose proof (H g ltac:(left)) as Hg.
  assert (forall x, x ∈ l -> (1 < dg_duplicate_count x)%nat) as Hl
    by (intros x Hx; apply H; right; exact Hx).
  specialize (IH Hl).
  rewrite fmap_cons. cbn [list_sum fold_right Datatypes.length].
  change (fold_right Init.Nat.add 0%nat (dg_duplicate_count <$> l))
    with (list_sum (dg_duplicate_count <$> l)).
  lia.
Qed.

(** X23: [run_full_scan] returns normally whatever the stores hold and
    changes no store.  It appends the paths of the stores that exist to
    the [databases_scanned] that the object already holds, so the summary
    of a further run of the same object counts them again; the duplicate
    groups it reports are those of the two scans, and in the summary each
    kind has at least twice as many duplicate records as groups. *)
Theorem run_full_scan_appends_scanned_databases
    (report : DuplicateDataIdentifier.report_data) (w : world) :
  exists report' w',
    run_full_scan report w
    = (Ok (report',
           DuplicateDataIdentifier.generate_summary_statistics report'), w')
    /\ (forall i, get_db i w' = get_db i w)
    /\ DuplicateDataIdentifier.databases_scanned report'
       = DuplicateDataIdentifier.databases_scanned report
         ++ (db_path <$> filter (fun i => is_Some (get_db i w))
                           [AadhaarDb; PanDb])
    /\ DuplicateDataIdentifier.aadhaar_duplicates report'
       = (DuplicateDataIdentifier.scan AADHAAR (get_db AadhaarDb w)).1
    /\ DuplicateDataIdentifier.pan_duplicates report'
       = (DuplicateDataIdentifier.scan PAN (get_db PanDb w)).1
    /\ (let s := DuplicateDataIdentifier.generate_summary_statistics report' in
        (2 * DuplicateDataIdentifier.total_aadhaar_duplicate_groups s
         <= DuplicateDataIdentifier.total_aadhaar_duplicate_records s)%nat
        /\ (2 * DuplicateDataIdentifier.total_pan_duplicate_groups s
            <= DuplicateDataIdentifier.total_pan_duplicate_records s)%nat
        /\ DuplicateDataIdentifier.summary_databases_scanned s
           = (List.length (DuplicateDataIdentifier.databases_scanned report)
              + List.length (filter (fun i => is_Some (get_db i w))
                               [AadhaarDb; PanDb]))%nat).
Proof.
  unfold run_full_scan, bind.
  destruct (check_database_exists_run AadhaarDb w) as (w1 & -> & H1).
  destruct (check_database_exists_run PanDb w1) as (w2 & -> & H2).
  unfold DuplicateDataIdentifier.scan_aadhaar_duplicates,
    DuplicateDataIdentifier.scan_pan_duplicates.
  destruct (scan_duplicates_run AADHAAR w2) as (w3 & -> & H3).
  destruct (scan_duplicates_run PAN w3) as (w4 & -> & H4).
  destruct (scan_data_quality_issues_run w4) as (issues & w5 & -> & H5).
  cbn [kind_db]. rewrite (H3 PanDb), (H2 PanDb), (H2 AadhaarDb),
    (H1 AadhaarDb), (H1 PanDb).
  eexists _, w5. split; [reflexivity|].
  cbn [DuplicateDataIdentifier.databases_scanned
       DuplicateDataIdentifier.aadhaar_duplicates
       DuplicateDataIdentifier.pan_duplicates].
  split.
  { intros i. rewrite (H5 i), (H4 i), (H3 i), (H2 i), (H1 i). reflexivity. }
  assert ((if bool_decide (is_Some (get_db AadhaarDb w))
           then [db_path AadhaarDb] else [])
          ++ (if bool_decide (is_Some (get_db PanDb w))
              then [db_path PanDb] else [])
          = db_path <$> filter (fun i => is_Some (get_db i w))
                          [AadhaarDb; PanDb]) as Hscanned.
  { destruct (decide (is_Some (get_db AadhaarDb w))) as [Ha|Ha],
      (decide (is_Some (get_db PanDb w))) as [Hp|Hp];
      rewrite ?(bool_decide_eq_true_2 _ Ha), ?(bool_decide_eq_false_2 _ Ha),
        ?(bool_decide_eq_true_2 _ Hp), ?(bool_decide_eq_false_2 _ Hp);
      repeat first [rewrite filter_cons_True by assumption
                   |rewrite filter_cons_False by assumption];
      reflexivity. }
  split; [rewrite Hscanned; reflexivity|].
  split; [reflexivity|]. split; [reflexivity|].
  unfold DuplicateDataIdentifier.generate_summary_statistics.
  cbn [DuplicateDataIdentifier.total_aadhaar_duplicate_groups
       DuplicateDataIdentifier.total_aadhaar_duplicate_records
       DuplicateDataIdentifier.total_pan_duplicate_groups
       DuplicateDataIdentifier.total_pan_duplicate_records
       DuplicateDataIdentifier.summary_databases_scanned
       DuplicateDataIdentifier.databases_scanned
       DuplicateDataIdentifier.aadhaar_duplicates
       DuplicateDataIdentifier.pan_duplicates].
  split; [|split].
  - apply list_sum_at_least_twice. intros g. apply scan_groups_count.
  - apply list_sum_at_least_twice. intros g. apply scan_groups_count.
  - rewrite Hscanned, length_app, length_fmap. reflexivity.
Qed.

Lemma compact_length_written (x : string) :
  all_chars written_aadhaar_char x = true ->
  compact_length x
  = String.length (Py.re_sub_not_in aadhaar_class (Py.upper x)).
Proof.
  unfold compact_length. induction x as [|c x IH]; [reflexivity|].
  cbn [all_chars]. intros H. apply andb_true_iff in H as [Hc Hx].
  specialize (IH Hx).
  cbn [Py.replace_char Py.upper Py.re_sub_not_in].
  destruct (Ascii.eqb c " ") eqn:Es.
  - apply Ascii.eqb_eq in Es. subst c. cbn. exact IH.
  - cbn [Py.replace_char]. destruct (Ascii.eqb c "-") eqn:Eh.
    + apply Ascii.eqb_eq in Eh. subst c. cbn. exact IH.
    + assert (aadhaar_class (Py.upper_char c) = true
              /\ Ascii.eqb c "000" = false) as [-> E0].
      { clear -Hc Es Eh. unfold written_aadhaar_char in Hc.
        rewrite Es, Eh, !orb_false_r in Hc.
        destruct c as [[] [] [] [] [] [] [] []]; try discriminate Hc;
          split; reflexivity. }
      cbn [Sql.length String.length]. rewrite E0, IH. reflexivity.
Qed.

Lemma invalid_aadhaar_format_warns (f : field_row) :
  (forall x, f_number f = Some x ->
     all_chars written_aadhaar_char x = true) ->
  invalid_aadhaar_format f = number_warns f.
Proof.
  unfold invalid_aadhaar_format, number_warns,
    DuplicatePreventionNormalizer.normalize_aadhaar_warns.
  destruct (f_number f) as [x|]; [|reflexivity]. intros H.
  rewrite (compact_length_written x (H x eq_refl)). reflexivity.
Qed.

Lemma List_filter_ext_elem {A} (p q : A -> bool) (l : list A) :
  (forall x, x ∈ l -> p x = q x) -> List.filter p l = List.filter q l.
Proof.
  induction l as [|x l IH]; intros H; [reflexivity|].
  cbn. rewrite (H x) by left. rewrite IH; [reflexivity|].
  intros y Hy. apply H. right. exact Hy.
Qed.

(** X24: on an Aadhaar store whose stored numbers are written with
    digits, the mask letter, spaces and hyphens only, the format check of
    [scan_data_quality_issues] agrees with the normalizer of the
    duplicate prevention service: [invalid_aadhaar_format] is reported
    exactly when some stored number makes [normalize_aadhaar] warn about
    its length, with the number of such rows as count.  It is followed by
    [missing_names] when some name is [NULL], empty or blank, and then by
    the PAN findings; the Aadhaar store is left as it is. *)
Theorem quality_scan_agrees_with_normalizer
    (w : world) (d : database) (ft : table field_row) :
  get_db AadhaarDb w = Some d ->
  extracted_fields d = Some ft ->
  (forall f x, f ∈ rows ft -> f_number f = Some x ->
     all_chars written_aadhaar_char x = true) ->
  exists pan_issues w',
    scan_data_quality_issues w
    = (Ok (issue_if_any "invalid_aadhaar_format" "aadhaar"
             (List.length (List.filter number_warns (rows ft)))
             "Aadhaar numbers with invalid format (not 12 digits)"
           ++ issue_if_any "missing_names" "aadhaar"
                (List.length (List.filter missing_name (rows ft)))
                "Records with missing or empty names"
           ++ pan_issues), w')
    /\ (forall i, get_db i w' = get_db i w)
    /\ (forall q, q ∈ pan_issues ->
          DuplicateDataIdentifier.qi_database q = "pan").
Proof.
  intros Hd Hft Hwritten.
  unfold scan_data_quality_issues, bind.
  assert (aadhaar_quality_issues w
          = (Ok (issue_if_any "invalid_aadhaar_format" "aadhaar"
                   (List.length (List.filter number_warns (rows ft)))
                   "Aadhaar numbers with invalid format (not 12 digits)"
                 ++ issue_if_any "missing_names" "aadhaar"
                      (List.length (List.filter missing_name (rows ft)))
                      "Records with missing or empty names"), w)) as ->.
  { unfold aadhaar_quality_issues, bind, check_database_exists.
    rewrite Hd, (connect_existing _ _ _ Hd). unfold count_where.
    rewrite Hft. unfold commit. rewrite (set_db_same _ _ _ Hd).
    rewrite (List_filter_ext_elem invalid_aadhaar_format number_warns);
      [reflexivity|].
    intros f Hf. apply invalid_aadhaar_format_warns.
    intros x Hx. exact (Hwritten f x Hf Hx). }
  destruct (pan_quality_issues_run w) as (ip & w' & Hrun & Hsame).
  rewrite Hrun. exists ip, w'. split; [rewrite <- app_assoc; reflexivity|].
  split; [exact Hsame|].
  revert Hrun. unfold pan_quality_issues, bind, check_database_exists.
  destruct (get_db PanDb w) as [dp|] eqn:Hp.
  - rewrite (connect_existing _ _ _ Hp).
    destruct (count_where invalid_pan_format dp) as [n|e].
    + intros [= <- _] q Hq. unfold issue_if_any in Hq.
      destruct (0 <? n)%nat; [|inversion Hq].
      apply list_elem_of_singleton in Hq as ->. reflexivity.
    + intros [= <- _] q Hq. inversion Hq.
  - intros [= <- _] q Hq. inversion Hq.
Qed.

Lemma quality_scan_agrees_with_normalizer_witness :
  exists pan_issues w',
    scan_data_quality_issues
      (set_db AadhaarDb (Some spaced_store) migrator_world)
    = (Ok (issue_if_any "invalid_aadhaar_format" "aadhaar" 0
             "Aadhaar numbers with invalid format (not 12 digits)"
           ++ issue_if_any "missing_names" "aadhaar" 0
                "Records with missing or empty names"
           ++ pan_issues), w')
    /\ (forall i, get_db i w'
                  = get_db i (set_db AadhaarDb (Some spaced_store)
                                migrator_world))
    /\ (forall q, q ∈ pan_issues ->
          DuplicateDataIdentifier.qi_database q = "pan").
Proof.
  apply (quality_scan_agrees_with_normalizer
           (set_db AadhaarDb (Some spaced_store) migrator_world)
           spaced_store
           (default (Table [] true 0) (extracted_fields spaced_store))).
  - reflexivity.
  - reflexivity.
  - intros f x Hf Hx. cbn in Hf.
    repeat (apply elem_of_cons in Hf as [->|Hf]);
      [injection Hx as <-; reflexivity..|inversion Hf].
Defined.

Lemma text_le_not_lt (a b : string) :
  Sql.text_le a b = negb (Py.str_lt b a).
Proof.
  unfold Sql.text_le, Py.str_lt, String.leb, String.ltb.
  rewrite (String.compare_antisym a b).
  destruct (String.compare b a); reflexivity.
Qed.

Lemma text_le_trans (a b c : string) :
  Sql.text_le a b = true -> Sql.text_le b c = true -> Sql.text_le a c = true.
Proof.
  rewrite !text_le_not_lt, !negb_true_iff. intros H1 H2.
  exact (str_lt_cotrans c b a H2 H1).
Qed.

Lemma text_le_total (a b : string) :
  Sql.text_le a b = true \/ Sql.text_le b a = true.
Proof. apply String.leb_total. Qed.

#[local] Instance created_order_transitive :
  Transitive DuplicateDataIdentifier.created_order.
Proof. intros x y z. apply text_le_trans. Qed.

#[local] Instance created_order_total :
  Total DuplicateDataIdentifier.created_order.
Proof. intros x y. apply text_le_total. Qed.

#[local] Instance group_order_transitive :
  Transitive DuplicateDataIdentifier.group_order.
Proof.
  intros x y z [H1|[E1 L1]] [H2|[E2 L2]];
    unfold DuplicateDataIdentifier.group_order.
  - left. lia.
  - left. lia.
  - left. lia.
  - right. split; [lia|]. eapply text_le_trans; eassumption.
Qed.

#[local] Instance group_order_total :
  Total DuplicateDataIdentifier.group_order.
Proof.
  intros x y. unfold DuplicateDataIdentifier.group_order.
  destruct (lt_eq_lt_dec x.2 y.2) as [[H|H]|H].
  - right. left. exact H.
  - destruct (text_le_total x.1 y.1) as [L|L].
    + left. right. auto.
    + right. right. auto.
  - left. left. exact H.
Qed.

Lemma StronglySorted_Forall2 {A B} (R : A -> B -> Prop)
    (P : relation A) (Q : relation B) (l : list A) (k : list B) :
  (forall x y x' y', R x x' -> R y y' -> P x y -> Q x' y') ->
  Forall2 R l k -> StronglySorted P l -> StronglySorted Q k.
Proof.
  intros Hmap HF. induction HF as [|a b l k Hab HF IH]; intros Hs;
    [constructor|].
  apply StronglySorted_inv in Hs as [Hs Hall]. constructor; [auto|].
  clear -Hmap Hab HF Hall. induction HF as [|a' b' l k Hab' _ IH];
    [constructor|].
  apply Forall_cons in Hall as [Ha Hall]. constructor; eauto.
Qed.

(** X25: the order of a scan's result.  The groups come by falling
    number of rows and, among groups of the same size, by rising
    identifier in the order of the BINARY collation; the members of each
    group come by rising [created_at]. *)
Theorem scan_orders_groups_and_members (k : doc_kind) (db : option database) :
  StronglySorted
    (fun g1 g2 =>
       (dg_duplicate_count g2 < dg_duplicate_count g1)%nat
       \/ (dg_duplicate_count g1 = dg_duplicate_count g2
           /\ Sql.text_le (dg_number g1) (dg_number g2) = true))
    (DuplicateDataIdentifier.scan k db).1
  /\ forall g, g ∈ (DuplicateDataIdentifier.scan k db).1 ->
       StronglySorted
         (fun r1 r2 =>
            Sql.text_le (ri_created_at r1) (ri_created_at r2) = true)
         (dg_records g).
Proof.
  destruct db as [d|]; [|split; [constructor|intros g H; inversion H]].
  unfold DuplicateDataIdentifier.scan.
  destruct (extracted_fields d) as [ft|];
    [|split; [constructor|intros g H; inversion H]].
  destruct (documents d) as [dt|].
  - destruct (scan_groups_spec k dt (rows ft)
                (DuplicateDataIdentifier.duplicate_groups (rows ft)) [])
      as (pre & post & built & Hsplit & Hfst & HF & _).
    destruct (DuplicateDataIdentifier.scan_groups k (Some dt) (rows ft)
                (DuplicateDataIdentifier.duplicate_groups (rows ft)) [])
      as [gs caught].
    cbn [fst] in *. rewrite app_nil_l in Hfst. subst gs. split.
    + assert (StronglySorted DuplicateDataIdentifier.group_order pre) as Hs.
      { apply (StronglySorted_app_1_l _ pre post). rewrite <- Hsplit.
        apply StronglySorted_merge_sort; apply _. }
      eapply StronglySorted_Forall2; [|exact HF|exact Hs].
      intros x y g1 g2 (N1 & _ & C1 & _) (N2 & _ & C2 & _) Hxy.
      rewrite N1, N2, C1, C2. exact Hxy.
    + intros g Hg.
      destruct (Forall2_elem_of_r _ _ _ _ HF Hg)
        as (p & _ & _ & _ & _ & -> & _).
      apply (StronglySorted_merge_sort DuplicateDataIdentifier.created_order);
        apply _.
  - destruct (scan_groups_no_documents k (rows ft)
                (DuplicateDataIdentifier.duplicate_groups (rows ft)) [])
      as [Hfst _].
    destruct (DuplicateDataIdentifier.scan_groups k None (rows ft)
                (DuplicateDataIdentifier.duplicate_groups (rows ft)) [])
      as [gs caught].
    cbn [fst] in *. subst gs. split; [constructor|intros g H; inversion H].
Qed.

Lemma documents_of_user_elem uid ds fs ad ef :
  (ad, ef) ∈ documents_of_user uid ds fs
  <-> ad ∈ ds /\ ef ∈ fs /\ d_user_id ad = Some uid
      /\ f_document_id ef = Some (d_id ad).
Proof.
  unfold documents_of_user. rewrite list_elem_of_In, in_flat_map. split.
  - intros (x & Hx & Hin). destruct (decide (d_user_id x = Some uid));
      [|inversion Hin].
    apply in_flat_map in Hin as (y & Hy & Hin).
    destruct (decide (f_document_id y = Some (d_id x))); [|inversion Hin].
    destruct Hin as [E|[]]. injection E as -> ->.
    rewrite !list_elem_of_In. auto.
  - intros (Had & Hef & Hu & Hj). exists ad.
    split; [apply list_elem_of_In; exact Had|].
    destruct (decide (d_user_id ad = Some uid)); [|contradiction].
    apply in_flat_map. exists ef.
    split; [apply list_elem_of_In; exact Hef|].
    destruct (decide (f_document_id ef = Some (d_id ad))); [|contradiction].
    left. reflexivity.
Qed.

(** X26: a stored document is listed for its user.  After
    [store_in_database] has returned [success] with a document id and a
    user id, [get_user_documents] for that user id returns [success]
    without changing anything; its listing contains the new document with
    the path, timestamp, confidence and fields of the extraction result,
    [document_count] is the length of the listing, and every listed
    document belongs to a document row of that user. *)
Theorem stored_document_is_listed_for_its_user
    (x : extraction_result) (w : world) (d : database)
    (doc : Z) (uid : string) :
  get_db AadhaarDb w = Some d ->
  (AadhaarExtractionTool.store_in_database x w).1 = StorageSuccess doc uid ->
  let w' := (AadhaarExtractionTool.store_in_database x w).2 in
  let data := default AadhaarExtractionTool.empty_extracted_data
                (xr_extracted_data x) in
  exists listing d' dt',
    get_user_documents uid w'
    = (Ok (ListingSuccess uid (List.length listing) listing), w')
    /\ ListedDocument doc (xr_file_path x) (xr_extraction_timestamp x)
         (xr_extraction_confidence x) (xd_name data) (xd_dob data)
         (xd_gender data) (xd_address data) (xd_aadhaar_number data)
       ∈ listing
    /\ get_db AadhaarDb w' = Some d' /\ documents d' = Some dt'
    /\ (forall e, e ∈ listing ->
          exists row, row ∈ rows dt' /\ d_id row = ld_document_id e
                      /\ d_user_id row = Some uid).
Proof.
  intros Hd Hs w' data.
  destruct (store_success_shape x w d doc uid Hd Hs)
    as (dt & ft & d' & ts & Hdt & Hft & Hdoc & _ & _ & _ & _ & Hd' & Hdt'
        & Hft' & _).
  fold w' in Hd'. fold data in Hft'.
  set (ad := DocRow doc (xr_file_path x) (xr_document_type x)
               (xr_extraction_timestamp x) (xr_extraction_confidence x)
               (xr_raw_text x) (Some uid) ts) in *.
  set (ef := FieldRow (next_rowid (f_id <$> rows ft) (last_rowid ft)) (Some doc)
               (xd_name data) None (xd_dob data) (xd_gender data)
               (xd_address data) (xd_aadhaar_number data) (Some uid)) in *.
  eexists _, d', _.
  split.
  { unfold get_user_documents, try_except, with_connection.
    rewrite (connect_existing _ _ _ Hd'), Hdt', Hft'. cbn [has_user_id negb].
    unfold commit. rewrite (set_db_same _ _ _ Hd'). reflexivity. }
  split.
  { change (ListedDocument doc _ _ _ _ _ _ _ _) with (listed (ad, ef)).
    apply list_elem_of_fmap. exists (ad, ef). split; [reflexivity|].
    rewrite merge_sort_Permutation. apply documents_of_user_elem. cbn [rows].
    split; [apply elem_of_app; right; left|].
    split; [apply elem_of_app; right; left|]. split; reflexivity. }
  split; [exact Hd'|]. split; [exact Hdt'|].
  intros e He. apply list_elem_of_fmap in He as ([a f] & -> & Hin).
  rewrite merge_sort_Permutation in Hin.
  apply documents_of_user_elem in Hin as (Ha & _ & Hu & _).
  exists a. auto.
Qed.

Lemma stored_document_is_listed_for_its_user_witness :
  let x := ingest "123456789012" "John Doe" in
  let w' := (AadhaarExtractionTool.store_in_database x tool_world).2 in
  let data := default AadhaarExtractionTool.empty_extracted_data
                (xr_extracted_data x) in
  exists listing d' dt',
    get_user_documents "6f1c0a52-0000-4000-8000-000000000000" w'
    = (Ok (ListingSuccess "6f1c0a52-0000-4000-8000-000000000000"
             (List.length listing) listing), w')
    /\ ListedDocument 1 (xr_file_path x) (xr_extraction_timestamp x)
         (xr_extraction_confidence x) (xd_name data) (xd_dob data)
         (xd_gender data) (xd_address data) (xd_aadhaar_number data)
       ∈ listing
    /\ get_db AadhaarDb w' = Some d' /\ documents d' = Some dt'
    /\ (forall e, e ∈ listing ->
          exists row, row ∈ rows dt' /\ d_id row = ld_document_id e
                      /\ d_user_id row = Some
                           "6f1c0a52-0000-4000-8000-000000000000").
Proof.
  intros x.
  apply (stored_document_is_listed_for_its_user x tool_world
           (store_of AadhaarDb tool_world) 1
           "6f1c0a52-0000-4000-8000-000000000000").
  - vm_compute. reflexivity.
  - vm_compute. reflexivity.
Defined.
